(** * MQLite: a shallow embedding of the MQTT 5.0 client engine

    The development follows [src/mqtt_client.c] and [src/utf8.c]:
    machine integers are [Z] with the wrap-around written out, byte
    buffers are [list Z], C structs are records, and every function that
    takes [struct mqtt_client *stat] is a state transformer on the record
    [mqtt_client].  Loops are written with the bound the C loop itself
    has (a counter, or the bytes left in the receive buffer). *)

From Stdlib Require Import ZArith List Bool Lia.
Import ListNotations.
Open Scope Z_scope.

(** ** Machine integers *)

Definition u8 (x : Z) : Z := x mod 256.
Definition u16 (x : Z) : Z := x mod 65536.
Definition u32 (x : Z) : Z := x mod 4294967296.

(** [common.h]: [BIT(n)], [TST(n, mask)], [SET(n, mask)], [CLR(n, mask)]. *)
Definition BIT (n : Z) : Z := Z.shiftl 1 n.
Definition TST (n mask : Z) : bool := Z.land n mask =? mask.
Definition SET (n mask : Z) : Z := Z.lor n mask.
Definition CLR (n mask : Z) : Z := Z.land n (Z.lnot mask).

(** ** Status codes *)

(** Modelled from the spec: [status.h] is not among the sources.  The
    codes are the error taxonomy of the specification (section 7) and the
    names the sources use; [STATUS_SUCCESS] is the value the sources also
    write [OK].  Only the split into failures and non-failures matters,
    which is what the macros [FAILED] and [SUCCESSFUL] test. *)
Inductive status : Type :=
| STATUS_SUCCESS | STATUS_PASSED | STATUS_BUSY | STATUS_PENDING
| ERROR_NULL_REFERENCE | ERROR_NOT_CONNECTED | ERROR_OUT_OF_MEMORY
| ERROR_OUT_OF_RESOURCE | ERROR_INVALID_ENCODING | ERROR_MALFORMED_PACKET
| ERROR_INVALID_PACKET_SIZE | ERROR_UNKNOWN_IDENTIFIER
| ERROR_UNEXPECTED_PACKET_TYPE | ERROR_INVALID_PACKET_ID | ERROR_INVALID_QOS
| ERROR_QOS_NOT_SUPPORTED | ERROR_RETAIN_NOT_SUPPORTED | ERROR_INVALID_TOPIC
| ERROR_UNSUPPORTED | ERROR_SERVER_DECLINED | ERROR_HOST_UNAVAILABLE
| ERROR_HW_FAILURE | ERROR_SW_FAILURE | ERROR_INVALID_DATA
| ERROR_INDEX_OUT_OF_RANGE.

Definition OK : status := STATUS_SUCCESS.

Definition SUCCESSFUL (s : status) : bool :=
  match s with
  | STATUS_SUCCESS | STATUS_PASSED | STATUS_BUSY | STATUS_PENDING => true
  | _ => false
  end.

Definition FAILED (s : status) : bool := negb (SUCCESSFUL s).

Definition status_eqb (a b : status) : bool :=
  match a, b with
  | STATUS_SUCCESS, STATUS_SUCCESS | STATUS_PASSED, STATUS_PASSED
  | STATUS_BUSY, STATUS_BUSY | STATUS_PENDING, STATUS_PENDING
  | ERROR_NULL_REFERENCE, ERROR_NULL_REFERENCE
  | ERROR_NOT_CONNECTED, ERROR_NOT_CONNECTED
  | ERROR_OUT_OF_MEMORY, ERROR_OUT_OF_MEMORY
  | ERROR_OUT_OF_RESOURCE, ERROR_OUT_OF_RESOURCE
  | ERROR_INVALID_ENCODING, ERROR_INVALID_ENCODING
  | ERROR_MALFORMED_PACKET, ERROR_MALFORMED_PACKET
  | ERROR_INVALID_PACKET_SIZE, ERROR_INVALID_PACKET_SIZE
  | ERROR_UNKNOWN_IDENTIFIER, ERROR_UNKNOWN_IDENTIFIER
  | ERROR_UNEXPECTED_PACKET_TYPE, ERROR_UNEXPECTED_PACKET_TYPE
  | ERROR_INVALID_PACKET_ID, ERROR_INVALID_PACKET_ID
  | ERROR_INVALID_QOS, ERROR_INVALID_QOS
  | ERROR_QOS_NOT_SUPPORTED, ERROR_QOS_NOT_SUPPORTED
  | ERROR_RETAIN_NOT_SUPPORTED, ERROR_RETAIN_NOT_SUPPORTED
  | ERROR_INVALID_TOPIC, ERROR_INVALID_TOPIC
  | ERROR_UNSUPPORTED, ERROR_UNSUPPORTED
  | ERROR_SERVER_DECLINED, ERROR_SERVER_DECLINED
  | ERROR_HOST_UNAVAILABLE, ERROR_HOST_UNAVAILABLE
  | ERROR_HW_FAILURE, ERROR_HW_FAILURE
  | ERROR_SW_FAILURE, ERROR_SW_FAILURE
  | ERROR_INVALID_DATA, ERROR_INVALID_DATA
  | ERROR_INDEX_OUT_OF_RANGE, ERROR_INDEX_OUT_OF_RANGE => true
  | _, _ => false
  end.

(** ** Packet types and protocol constants *)

(** Modelled from the spec: [mqtt_const.h] is not among the sources.  The
    enumeration has the MQTT 5.0 control-packet-type values as
    discriminants (CONNECT=1 ... AUTH=15) and [UNKNOWN]=0 (section 3). *)
Inductive mqtt_packet_type : Type :=
| UNKNOWN | CONNECT | CONNACK | PUBLISH | PUBACK | PUBREC | PUBREL | PUBCOMP
| SUBSCRIBE | SUBACK | UNSUBSCRIBE | UNSUBACK | PINGREQ | PINGRESP
| DISCONNECT | AUTH.

Definition ptype_code (t : mqtt_packet_type) : Z :=
  match t with
  | UNKNOWN => 0 | CONNECT => 1 | CONNACK => 2 | PUBLISH => 3 | PUBACK => 4
  | PUBREC => 5 | PUBREL => 6 | PUBCOMP => 7 | SUBSCRIBE => 8 | SUBACK => 9
  | UNSUBSCRIBE => 10 | UNSUBACK => 11 | PINGREQ => 12 | PINGRESP => 13
  | DISCONNECT => 14 | AUTH => 15
  end.

(** The cast [(mqtt_packet_type) n] of a nibble. *)
Definition ptype_of_code (n : Z) : mqtt_packet_type :=
  match n with
  | 1 => CONNECT | 2 => CONNACK | 3 => PUBLISH | 4 => PUBACK | 5 => PUBREC
  | 6 => PUBREL | 7 => PUBCOMP | 8 => SUBSCRIBE | 9 => SUBACK
  | 10 => UNSUBSCRIBE | 11 => UNSUBACK | 12 => PINGREQ | 13 => PINGRESP
  | 14 => DISCONNECT | 15 => AUTH | _ => UNKNOWN
  end.

Definition ptype_eqb (a b : mqtt_packet_type) : bool :=
  ptype_code a =? ptype_code b.

(** Modelled from the spec: the configuration constants of [mqtt_const.h],
    with the values the README gives (section 6.3). *)
Definition MQTT_RECEIVE_MAXIMUM : nat := 32.
Definition MQTT_CORELATION_DATA_MAXIMUM : Z := 256.
Definition MQTT_PROTOCOL_VERSION : Z := 5.
Definition MQTT_REASON_SUCCESS : Z := 0.
Definition MQTT_REASON_GRANTED_QOS_2 : Z := 2.

(** Modelled from the spec: the property identifiers of [mqtt_const.h],
    with the values of the MQTT 5.0 registry (table of section 6.1). *)
Definition MQTT_PUB_PAYLOAD_FORMAT_INDICATOR_ID : Z := 0x01.
Definition MQTT_PUB_MESSAGE_EXPIRY_INTERVAL_ID : Z := 0x02.
Definition MQTT_PUB_CONTENT_TYPE_ID : Z := 0x03.
Definition MQTT_PUB_RESPONSE_TOPIC_ID : Z := 0x08.
Definition MQTT_PUB_CORRELATION_DATA_ID : Z := 0x09.
Definition MQTT_PUB_SUBSCRIPTION_IDENTIFIER_ID : Z := 0x0B.
Definition MQTT_SUB_SUBSCRIPTION_IDENTIFIER_ID : Z := 0x0B.
Definition MQTT_PUB_TOPIC_ALIAS_ID : Z := 0x23.
Definition MQTT_USER_PROPERTY_ID : Z := 0x26.
Definition MQTT_PUB_USER_PROPERTY_ID : Z := 0x26.
Definition MQTT_REASON_STRING_ID : Z := 0x1F.
Definition MQTT_CON_SESSION_EXPIRY_INTERVAL_ID : Z := 0x11.
Definition MQTT_DISC_SESSION_EXPIRY_INTERVAL_ID : Z := 0x11.
Definition MQTT_ACK_ASSIGNED_CLIENT_ID : Z := 0x12.
Definition MQTT_ACK_SEVER_KEEP_ALIVE_ID : Z := 0x13.
Definition MQTT_CON_AUTH_METHOD_ID : Z := 0x15.
Definition MQTT_CON_AUTH_DATA_ID : Z := 0x16.
Definition MQTT_CON_REQUEST_PROBLEM_INF_ID : Z := 0x17.
Definition MQTT_WILL_DELAY_INTERVAL_ID : Z := 0x18.
Definition MQTT_CON_REQUEST_RESPONSE_INFO_ID : Z := 0x19.
Definition MQTT_CON_RESPONSE_INFO_ID : Z := 0x1A.
Definition MQTT_ACK_SERVER_REFERENCE_ID : Z := 0x1C.
Definition MQTT_DISC_SERVER_REFERENCE_ID : Z := 0x1C.
Definition MQTT_CON_RECEIVE_MAXIMUM_ID : Z := 0x21.
Definition MQTT_CON_TOPIC_ALIAS_MAXIMUM_ID : Z := 0x22.
Definition MQTT_CON_MAXIMUM_QOS_ID : Z := 0x24.
Definition MQTT_CON_RETAIN_AVAILABLE_ID : Z := 0x25.
Definition MQTT_CON_MAXIMUM_PACKET_SIZE_ID : Z := 0x27.
Definition MQTT_ACK_WILDCARD_SUB_AVAIL_ID : Z := 0x28.
Definition MQTT_ACK_SUB_ID_AVAIL_ID : Z := 0x29.
Definition MQTT_ACK_SHARED_SUB_AVAIL_ID : Z := 0x2A.
Definition MQTT_WILL_FORMAT_INDICATOR_ID : Z := 0x01.
Definition MQTT_WILL_MSG_EXPIRY_INTERVAL_ID : Z := 0x02.
Definition MQTT_WILL_CONTENT_TYPE_ID : Z := 0x03.
Definition MQTT_WILL_RESPONSE_TOPIC_ID : Z := 0x08.
Definition MQTT_WILL_CORELATION_DATA_ID : Z := 0x09.

(** ** C strings *)

(** A [const char *] is [None] when NULL, else the bytes it points to.
    [strlen] counts the bytes before the first NUL. *)
Definition cstring : Type := option (list Z).

Fixpoint c_str (s : list Z) : list Z :=
  match s with
  | [] => []
  | c :: s' => if c =? 0 then [] else c :: c_str s'
  end.

Definition strlen (s : list Z) : Z := Z.of_nat (length (c_str s)).

(** [STRLEN(s)] and [BLEN(b)] of [mqtt_client.c]. *)
Definition STRLEN (s : cstring) : Z :=
  match s with
  | Some d => strlen d + 2
  | None => 2
  end.

(** [strstr(s, c) != NULL] for the one-character needles the sources use. *)
Definition strstr1 (s : list Z) (c : Z) : bool :=
  existsb (Z.eqb c) (c_str s).

(** [strncmp(s, p, n) == 0] for a NUL-free literal [p] of length [n]. *)
Definition has_prefix (s p : list Z) : bool :=
  (length p <=? length (c_str s))%nat &&
  forallb (fun xy => fst xy =? snd xy) (combine (c_str s) p).

(** ** Data model ([mqtt_types.h]) *)

(** The weak notification functions of [mqtt_client.c] have empty default
    bodies; the model records each call in the ghost field [events]. *)
Inductive event : Type :=
| ev_user_property (origin : mqtt_packet_type) (key value : cstring)
| ev_received_publish
| ev_subscription_declined (packet_id num reason_code : Z)
| ev_subscription_granted (packet_id num : Z)
| ev_received_disconnect (reason_code : Z)
| ev_ping_received
| ev_publish_acknowledged (packet_id reason_code : Z)
| ev_publish_completed (packet_id reason_code : Z)
| ev_connected.

(** [struct mqtt_pbuf]: for the send buffer [pbuf_payload] holds the bytes
    written so far and [pbuf_len] the allocated length; for the receive
    buffer [pbuf_payload] are the [pbuf_len] bytes received. *)
Record mqtt_pbuf : Type := Build_pbuf {
  pbuf_payload : list Z;
  pbuf_len : Z
}.

(** [struct mqtt_blob]: the pointer [data] ([None] when NULL) and the lengths. *)
Record mqtt_blob : Type := Build_blob {
  blob_data : option (list Z);
  blob_len : Z;
  blob_maxlen : Z
}.

Definition BLEN (b : mqtt_blob) : Z := blob_len b + 2.

Record mqtt_user_property_t : Type := Build_user_property {
  up_key : cstring;
  up_value : cstring
}.

Record mqtt_pub_packet_t : Type := Build_pub_packet {
  msg_topic : cstring;
  msg_payload : mqtt_blob;
  msg_qos : Z;
  msg_retain : bool;
  msg_dup : bool;
  msg_packet_id : Z
}.

Definition set_msg_packet_id (v : Z) (r : mqtt_pub_packet_t) : mqtt_pub_packet_t :=
  Build_pub_packet (msg_topic r) (msg_payload r) (msg_qos r) (msg_retain r) (msg_dup r) v.

Record mqtt_sub_entry : Type := Build_sub_entry {
  sub_qos : Z;
  sub_no_local : Z;
  sub_retain_as_published : Z;
  sub_retain_handling : Z;
  sub_topic : cstring
}.

(** [struct mqtt_net_api]: the transport.  Its functions are outside the
    engine; the model takes their results as given by the request alone
    ([alloc_send_buf] by the length asked for, [send] by the buffer). *)
Record mqtt_net_api : Type := Build_net_api {
  net_connected : bool;
  open_conn : status;
  close_conn : status;
  alloc_send_buf : Z -> status;
  free_send_buf : status;
  send : mqtt_pbuf -> status
}.

Record mqtt_will : Type := Build_will {
  will_delay_interval : Z;
  will_payload_format_indicator : Z;
  will_message_expiry_delay : Z;
  will_topic : cstring;
  will_content_type : cstring;
  will_response_topic : cstring;
  will_correlation_data : mqtt_blob;
  will_payload : mqtt_blob
}.

Record mqtt_connect_info : Type := Build_connect_info {
  connect_un_flag : bool;
  connect_pw_flag : bool;
  connect_req_prob_inf : bool;
  connect_req_res_inf : bool;
  connect_will_retain : bool;
  connect_will_flag : bool;
  connect_clean_start : bool;
  connect_will_topic : cstring;
  connect_will_data : cstring;
  connect_will_qos : Z;
  connect_recv_max : Z;
  connect_topic_alias_max : Z;
  connect_max_packet_size : Z;
  connect_keep_alive : Z;
  connect_session_expiry_interval : Z;
  connect_will : mqtt_will;
  connect_user : cstring;
  connect_passwd : cstring;
  connect_client_id : cstring;
  connect_user_properties : list mqtt_user_property_t;
  connect_auth_method : cstring;
  connect_auth_data : mqtt_blob;
  connect_deferred : bool
}.

Definition set_connect_un_flag (v : bool) (r : mqtt_connect_info) : mqtt_connect_info :=
  Build_connect_info v (connect_pw_flag r) (connect_req_prob_inf r) (connect_req_res_inf r)
  (connect_will_retain r) (connect_will_flag r) (connect_clean_start r) (connect_will_topic r)
  (connect_will_data r) (connect_will_qos r) (connect_recv_max r) (connect_topic_alias_max r)
  (connect_max_packet_size r) (connect_keep_alive r) (connect_session_expiry_interval r)
  (connect_will r) (connect_user r) (connect_passwd r) (connect_client_id r)
  (connect_user_properties r) (connect_auth_method r) (connect_auth_data r) (connect_deferred
  r).
Definition set_connect_pw_flag (v : bool) (r : mqtt_connect_info) : mqtt_connect_info :=
  Build_connect_info (connect_un_flag r) v (connect_req_prob_inf r) (connect_req_res_inf r)
  (connect_will_retain r) (connect_will_flag r) (connect_clean_start r) (connect_will_topic r)
  (connect_will_data r) (connect_will_qos r) (connect_recv_max r) (connect_topic_alias_max r)
  (connect_max_packet_size r) (connect_keep_alive r) (connect_session_expiry_interval r)
  (connect_will r) (connect_user r) (connect_passwd r) (connect_client_id r)
  (connect_user_properties r) (connect_auth_method r) (connect_auth_data r) (connect_deferred
  r).
Definition set_connect_user (v : cstring) (r : mqtt_connect_info) : mqtt_connect_info :=
  Build_connect_info (connect_un_flag r) (connect_pw_flag r) (connect_req_prob_inf r)
  (connect_req_res_inf r) (connect_will_retain r) (connect_will_flag r) (connect_clean_start r)
  (connect_will_topic r) (connect_will_data r) (connect_will_qos r) (connect_recv_max r)
  (connect_topic_alias_max r) (connect_max_packet_size r) (connect_keep_alive r)
  (connect_session_expiry_interval r) (connect_will r) v (connect_passwd r) (connect_client_id
  r) (connect_user_properties r) (connect_auth_method r) (connect_auth_data r) (connect_deferred
  r).
Definition set_connect_passwd (v : cstring) (r : mqtt_connect_info) : mqtt_connect_info :=
  Build_connect_info (connect_un_flag r) (connect_pw_flag r) (connect_req_prob_inf r)
  (connect_req_res_inf r) (connect_will_retain r) (connect_will_flag r) (connect_clean_start r)
  (connect_will_topic r) (connect_will_data r) (connect_will_qos r) (connect_recv_max r)
  (connect_topic_alias_max r) (connect_max_packet_size r) (connect_keep_alive r)
  (connect_session_expiry_interval r) (connect_will r) (connect_user r) v (connect_client_id r)
  (connect_user_properties r) (connect_auth_method r) (connect_auth_data r) (connect_deferred
  r).
Definition set_connect_max_packet_size (v : Z) (r : mqtt_connect_info) : mqtt_connect_info :=
  Build_connect_info (connect_un_flag r) (connect_pw_flag r) (connect_req_prob_inf r)
  (connect_req_res_inf r) (connect_will_retain r) (connect_will_flag r) (connect_clean_start r)
  (connect_will_topic r) (connect_will_data r) (connect_will_qos r) (connect_recv_max r)
  (connect_topic_alias_max r) v (connect_keep_alive r) (connect_session_expiry_interval r)
  (connect_will r) (connect_user r) (connect_passwd r) (connect_client_id r)
  (connect_user_properties r) (connect_auth_method r) (connect_auth_data r) (connect_deferred
  r).
Definition set_connect_keep_alive (v : Z) (r : mqtt_connect_info) : mqtt_connect_info :=
  Build_connect_info (connect_un_flag r) (connect_pw_flag r) (connect_req_prob_inf r)
  (connect_req_res_inf r) (connect_will_retain r) (connect_will_flag r) (connect_clean_start r)
  (connect_will_topic r) (connect_will_data r) (connect_will_qos r) (connect_recv_max r)
  (connect_topic_alias_max r) (connect_max_packet_size r) v (connect_session_expiry_interval r)
  (connect_will r) (connect_user r) (connect_passwd r) (connect_client_id r)
  (connect_user_properties r) (connect_auth_method r) (connect_auth_data r) (connect_deferred
  r).
Definition set_connect_session_expiry_interval (v : Z) (r : mqtt_connect_info) : mqtt_connect_info :=
  Build_connect_info (connect_un_flag r) (connect_pw_flag r) (connect_req_prob_inf r)
  (connect_req_res_inf r) (connect_will_retain r) (connect_will_flag r) (connect_clean_start r)
  (connect_will_topic r) (connect_will_data r) (connect_will_qos r) (connect_recv_max r)
  (connect_topic_alias_max r) (connect_max_packet_size r) (connect_keep_alive r) v (connect_will
  r) (connect_user r) (connect_passwd r) (connect_client_id r) (connect_user_properties r)
  (connect_auth_method r) (connect_auth_data r) (connect_deferred r).
Definition set_connect_clean_start (v : bool) (r : mqtt_connect_info) : mqtt_connect_info :=
  Build_connect_info (connect_un_flag r) (connect_pw_flag r) (connect_req_prob_inf r)
  (connect_req_res_inf r) (connect_will_retain r) (connect_will_flag r) v (connect_will_topic r)
  (connect_will_data r) (connect_will_qos r) (connect_recv_max r) (connect_topic_alias_max r)
  (connect_max_packet_size r) (connect_keep_alive r) (connect_session_expiry_interval r)
  (connect_will r) (connect_user r) (connect_passwd r) (connect_client_id r)
  (connect_user_properties r) (connect_auth_method r) (connect_auth_data r) (connect_deferred
  r).
Definition set_connect_client_id (v : cstring) (r : mqtt_connect_info) : mqtt_connect_info :=
  Build_connect_info (connect_un_flag r) (connect_pw_flag r) (connect_req_prob_inf r)
  (connect_req_res_inf r) (connect_will_retain r) (connect_will_flag r) (connect_clean_start r)
  (connect_will_topic r) (connect_will_data r) (connect_will_qos r) (connect_recv_max r)
  (connect_topic_alias_max r) (connect_max_packet_size r) (connect_keep_alive r)
  (connect_session_expiry_interval r) (connect_will r) (connect_user r) (connect_passwd r) v
  (connect_user_properties r) (connect_auth_method r) (connect_auth_data r) (connect_deferred
  r).
Definition set_connect_recv_max (v : Z) (r : mqtt_connect_info) : mqtt_connect_info :=
  Build_connect_info (connect_un_flag r) (connect_pw_flag r) (connect_req_prob_inf r)
  (connect_req_res_inf r) (connect_will_retain r) (connect_will_flag r) (connect_clean_start r)
  (connect_will_topic r) (connect_will_data r) (connect_will_qos r) v (connect_topic_alias_max
  r) (connect_max_packet_size r) (connect_keep_alive r) (connect_session_expiry_interval r)
  (connect_will r) (connect_user r) (connect_passwd r) (connect_client_id r)
  (connect_user_properties r) (connect_auth_method r) (connect_auth_data r) (connect_deferred
  r).
Definition set_connect_deferred (v : bool) (r : mqtt_connect_info) : mqtt_connect_info :=
  Build_connect_info (connect_un_flag r) (connect_pw_flag r) (connect_req_prob_inf r)
  (connect_req_res_inf r) (connect_will_retain r) (connect_will_flag r) (connect_clean_start r)
  (connect_will_topic r) (connect_will_data r) (connect_will_qos r) (connect_recv_max r)
  (connect_topic_alias_max r) (connect_max_packet_size r) (connect_keep_alive r)
  (connect_session_expiry_interval r) (connect_will r) (connect_user r) (connect_passwd r)
  (connect_client_id r) (connect_user_properties r) (connect_auth_method r) (connect_auth_data
  r) v.

(** The four acknowledgement structs ([puback], [pubrec], [pubrel],
    [pubcomp]) have the same fields.  An array with its element count
    ([user_properties], [user_properties_count]) is a list. *)
Record mqtt_ack_info : Type := Build_ack_info {
  ack_packet_id : Z;
  ack_reason_code : Z;
  ack_reason_string : cstring;
  ack_user_properties : list mqtt_user_property_t
}.

Definition set_ack_packet_id (v : Z) (r : mqtt_ack_info) : mqtt_ack_info :=
  Build_ack_info v (ack_reason_code r) (ack_reason_string r) (ack_user_properties r).
Definition set_ack_reason_code (v : Z) (r : mqtt_ack_info) : mqtt_ack_info :=
  Build_ack_info (ack_packet_id r) v (ack_reason_string r) (ack_user_properties r).
Definition set_ack_reason_string (v : cstring) (r : mqtt_ack_info) : mqtt_ack_info :=
  Build_ack_info (ack_packet_id r) (ack_reason_code r) v (ack_user_properties r).

Record mqtt_connack_info : Type := Build_connack_info {
  connack_ack_flag : bool;
  connack_reason : Z;
  connack_recv_max : Z;
  connack_topic_alias_max : Z;
  connack_max_qos : Z;
  connack_max_packet_size : Z;
  connack_retain_avail : bool;
  connack_assigned_client_id : cstring;
  connack_reason_string : cstring;
  connack_wildcard_sub_avail : bool;
  connack_sub_id_avail : bool;
  connack_shared_sub_avail : bool;
  connack_server_keep_alive : Z;
  connack_server_reference : cstring;
  connack_response_info : cstring
}.

Definition set_connack_ack_flag (v : bool) (r : mqtt_connack_info) : mqtt_connack_info :=
  Build_connack_info v (connack_reason r) (connack_recv_max r) (connack_topic_alias_max r)
  (connack_max_qos r) (connack_max_packet_size r) (connack_retain_avail r)
  (connack_assigned_client_id r) (connack_reason_string r) (connack_wildcard_sub_avail r)
  (connack_sub_id_avail r) (connack_shared_sub_avail r) (connack_server_keep_alive r)
  (connack_server_reference r) (connack_response_info r).
Definition set_connack_reason (v : Z) (r : mqtt_connack_info) : mqtt_connack_info :=
  Build_connack_info (connack_ack_flag r) v (connack_recv_max r) (connack_topic_alias_max r)
  (connack_max_qos r) (connack_max_packet_size r) (connack_retain_avail r)
  (connack_assigned_client_id r) (connack_reason_string r) (connack_wildcard_sub_avail r)
  (connack_sub_id_avail r) (connack_shared_sub_avail r) (connack_server_keep_alive r)
  (connack_server_reference r) (connack_response_info r).
Definition set_connack_recv_max (v : Z) (r : mqtt_connack_info) : mqtt_connack_info :=
  Build_connack_info (connack_ack_flag r) (connack_reason r) v (connack_topic_alias_max r)
  (connack_max_qos r) (connack_max_packet_size r) (connack_retain_avail r)
  (connack_assigned_client_id r) (connack_reason_string r) (connack_wildcard_sub_avail r)
  (connack_sub_id_avail r) (connack_shared_sub_avail r) (connack_server_keep_alive r)
  (connack_server_reference r) (connack_response_info r).
Definition set_connack_topic_alias_max (v : Z) (r : mqtt_connack_info) : mqtt_connack_info :=
  Build_connack_info (connack_ack_flag r) (connack_reason r) (connack_recv_max r) v
  (connack_max_qos r) (connack_max_packet_size r) (connack_retain_avail r)
  (connack_assigned_client_id r) (connack_reason_string r) (connack_wildcard_sub_avail r)
  (connack_sub_id_avail r) (connack_shared_sub_avail r) (connack_server_keep_alive r)
  (connack_server_reference r) (connack_response_info r).
Definition set_connack_max_qos (v : Z) (r : mqtt_connack_info) : mqtt_connack_info :=
  Build_connack_info (connack_ack_flag r) (connack_reason r) (connack_recv_max r)
  (connack_topic_alias_max r) v (connack_max_packet_size r) (connack_retain_avail r)
  (connack_assigned_client_id r) (connack_reason_string r) (connack_wildcard_sub_avail r)
  (connack_sub_id_avail r) (connack_shared_sub_avail r) (connack_server_keep_alive r)
  (connack_server_reference r) (connack_response_info r).
Definition set_connack_max_packet_size (v : Z) (r : mqtt_connack_info) : mqtt_connack_info :=
  Build_connack_info (connack_ack_flag r) (connack_reason r) (connack_recv_max r)
  (connack_topic_alias_max r) (connack_max_qos r) v (connack_retain_avail r)
  (connack_assigned_client_id r) (connack_reason_string r) (connack_wildcard_sub_avail r)
  (connack_sub_id_avail r) (connack_shared_sub_avail r) (connack_server_keep_alive r)
  (connack_server_reference r) (connack_response_info r).
Definition set_connack_retain_avail (v : bool) (r : mqtt_connack_info) : mqtt_connack_info :=
  Build_connack_info (connack_ack_flag r) (connack_reason r) (connack_recv_max r)
  (connack_topic_alias_max r) (connack_max_qos r) (connack_max_packet_size r) v
  (connack_assigned_client_id r) (connack_reason_string r) (connack_wildcard_sub_avail r)
  (connack_sub_id_avail r) (connack_shared_sub_avail r) (connack_server_keep_alive r)
  (connack_server_reference r) (connack_response_info r).
Definition set_connack_assigned_client_id (v : cstring) (r : mqtt_connack_info) : mqtt_connack_info :=
  Build_connack_info (connack_ack_flag r) (connack_reason r) (connack_recv_max r)
  (connack_topic_alias_max r) (connack_max_qos r) (connack_max_packet_size r)
  (connack_retain_avail r) v (connack_reason_string r) (connack_wildcard_sub_avail r)
  (connack_sub_id_avail r) (connack_shared_sub_avail r) (connack_server_keep_alive r)
  (connack_server_reference r) (connack_response_info r).
Definition set_connack_reason_string (v : cstring) (r : mqtt_connack_info) : mqtt_connack_info :=
  Build_connack_info (connack_ack_flag r) (connack_reason r) (connack_recv_max r)
  (connack_topic_alias_max r) (connack_max_qos r) (connack_max_packet_size r)
  (connack_retain_avail r) (connack_assigned_client_id r) v (connack_wildcard_sub_avail r)
  (connack_sub_id_avail r) (connack_shared_sub_avail r) (connack_server_keep_alive r)
  (connack_server_reference r) (connack_response_info r).
Definition set_connack_wildcard_sub_avail (v : bool) (r : mqtt_connack_info) : mqtt_connack_info :=
  Build_connack_info (connack_ack_flag r) (connack_reason r) (connack_recv_max r)
  (connack_topic_alias_max r) (connack_max_qos r) (connack_max_packet_size r)
  (connack_retain_avail r) (connack_assigned_client_id r) (connack_reason_string r) v
  (connack_sub_id_avail r) (connack_shared_sub_avail r) (connack_server_keep_alive r)
  (connack_server_reference r) (connack_response_info r).
Definition set_connack_sub_id_avail (v : bool) (r : mqtt_connack_info) : mqtt_connack_info :=
  Build_connack_info (connack_ack_flag r) (connack_reason r) (connack_recv_max r)
  (connack_topic_alias_max r) (connack_max_qos r) (connack_max_packet_size r)
  (connack_retain_avail r) (connack_assigned_client_id r) (connack_reason_string r)
  (connack_wildcard_sub_avail r) v (connack_shared_sub_avail r) (connack_server_keep_alive r)
  (connack_server_reference r) (connack_response_info r).
Definition set_connack_shared_sub_avail (v : bool) (r : mqtt_connack_info) : mqtt_connack_info :=
  Build_connack_info (connack_ack_flag r) (connack_reason r) (connack_recv_max r)
  (connack_topic_alias_max r) (connack_max_qos r) (connack_max_packet_size r)
  (connack_retain_avail r) (connack_assigned_client_id r) (connack_reason_string r)
  (connack_wildcard_sub_avail r) (connack_sub_id_avail r) v (connack_server_keep_alive r)
  (connack_server_reference r) (connack_response_info r).
Definition set_connack_server_keep_alive (v : Z) (r : mqtt_connack_info) : mqtt_connack_info :=
  Build_connack_info (connack_ack_flag r) (connack_reason r) (connack_recv_max r)
  (connack_topic_alias_max r) (connack_max_qos r) (connack_max_packet_size r)
  (connack_retain_avail r) (connack_assigned_client_id r) (connack_reason_string r)
  (connack_wildcard_sub_avail r) (connack_sub_id_avail r) (connack_shared_sub_avail r) v
  (connack_server_reference r) (connack_response_info r).
Definition set_connack_server_reference (v : cstring) (r : mqtt_connack_info) : mqtt_connack_info :=
  Build_connack_info (connack_ack_flag r) (connack_reason r) (connack_recv_max r)
  (connack_topic_alias_max r) (connack_max_qos r) (connack_max_packet_size r)
  (connack_retain_avail r) (connack_assigned_client_id r) (connack_reason_string r)
  (connack_wildcard_sub_avail r) (connack_sub_id_avail r) (connack_shared_sub_avail r)
  (connack_server_keep_alive r) v (connack_response_info r).
Definition set_connack_response_info (v : cstring) (r : mqtt_connack_info) : mqtt_connack_info :=
  Build_connack_info (connack_ack_flag r) (connack_reason r) (connack_recv_max r)
  (connack_topic_alias_max r) (connack_max_qos r) (connack_max_packet_size r)
  (connack_retain_avail r) (connack_assigned_client_id r) (connack_reason_string r)
  (connack_wildcard_sub_avail r) (connack_sub_id_avail r) (connack_shared_sub_avail r)
  (connack_server_keep_alive r) (connack_server_reference r) v.

Record mqtt_disconn_info : Type := Build_disconn_info {
  disconn_reason_string : cstring;
  disconn_server_reference : cstring;
  disconn_reason_code : Z;
  disconn_session_expiry_interval : Z;
  disconn_user_properties : list mqtt_user_property_t
}.

Definition set_disconn_reason_string (v : cstring) (r : mqtt_disconn_info) : mqtt_disconn_info :=
  Build_disconn_info v (disconn_server_reference r) (disconn_reason_code r)
  (disconn_session_expiry_interval r) (disconn_user_properties r).
Definition set_disconn_server_reference (v : cstring) (r : mqtt_disconn_info) : mqtt_disconn_info :=
  Build_disconn_info (disconn_reason_string r) v (disconn_reason_code r)
  (disconn_session_expiry_interval r) (disconn_user_properties r).
Definition set_disconn_reason_code (v : Z) (r : mqtt_disconn_info) : mqtt_disconn_info :=
  Build_disconn_info (disconn_reason_string r) (disconn_server_reference r) v
  (disconn_session_expiry_interval r) (disconn_user_properties r).
Definition set_disconn_session_expiry_interval (v : Z) (r : mqtt_disconn_info) : mqtt_disconn_info :=
  Build_disconn_info (disconn_reason_string r) (disconn_server_reference r) (disconn_reason_code
  r) v (disconn_user_properties r).

Record mqtt_publish_info : Type := Build_publish_info {
  publish_payload_format_indicator : Z;
  publish_message_expiry_interval : Z;
  publish_content_type : cstring;
  publish_response_topic : cstring;
  publish_correlation_data : mqtt_blob;
  publish_topic_alias : Z;
  publish_subscription_identifier : Z;
  publish_user_properties : list mqtt_user_property_t
}.

Record mqtt_subscribe_info : Type := Build_subscribe_info {
  subscribe_entries : list mqtt_sub_entry;
  subscribe_packet_id : Z;
  subscribe_subscription_identifier : Z;
  subscribe_user_properties : list mqtt_user_property_t
}.

Definition set_subscribe_entries (v : list mqtt_sub_entry) (r : mqtt_subscribe_info) : mqtt_subscribe_info :=
  Build_subscribe_info v (subscribe_packet_id r) (subscribe_subscription_identifier r)
  (subscribe_user_properties r).
Definition set_subscribe_packet_id (v : Z) (r : mqtt_subscribe_info) : mqtt_subscribe_info :=
  Build_subscribe_info (subscribe_entries r) v (subscribe_subscription_identifier r)
  (subscribe_user_properties r).

Record mqtt_unsubscribe_info : Type := Build_unsubscribe_info {
  unsubscribe_entries : list mqtt_sub_entry;
  unsubscribe_packet_id : Z;
  unsubscribe_user_properties : list mqtt_user_property_t
}.

Definition set_unsubscribe_entries (v : list mqtt_sub_entry) (r : mqtt_unsubscribe_info) : mqtt_unsubscribe_info :=
  Build_unsubscribe_info v (unsubscribe_packet_id r) (unsubscribe_user_properties r).
Definition set_unsubscribe_packet_id (v : Z) (r : mqtt_unsubscribe_info) : mqtt_unsubscribe_info :=
  Build_unsubscribe_info (unsubscribe_entries r) v (unsubscribe_user_properties r).

Record mqtt_unsuback_info : Type := Build_unsuback_info {
  unsuback_packet_id : Z;
  unsuback_reason_codes : list Z;
  unsuback_reason_string : cstring;
  unsuback_user_properties : list mqtt_user_property_t
}.

Definition set_unsuback_packet_id (v : Z) (r : mqtt_unsuback_info) : mqtt_unsuback_info :=
  Build_unsuback_info v (unsuback_reason_codes r) (unsuback_reason_string r)
  (unsuback_user_properties r).
Definition set_unsuback_reason_codes (v : list Z) (r : mqtt_unsuback_info) : mqtt_unsuback_info :=
  Build_unsuback_info (unsuback_packet_id r) v (unsuback_reason_string r)
  (unsuback_user_properties r).
Definition set_unsuback_reason_string (v : cstring) (r : mqtt_unsuback_info) : mqtt_unsuback_info :=
  Build_unsuback_info (unsuback_packet_id r) (unsuback_reason_codes r) v
  (unsuback_user_properties r).

(** One slot of the pending table; [packet_id = 0] marks it free. *)
Record mqtt_pending : Type := Build_pending {
  packet_id : Z;
  await_packet_type : mqtt_packet_type
}.

Definition set_packet_id (v : Z) (r : mqtt_pending) : mqtt_pending :=
  Build_pending v (await_packet_type r).
Definition set_await_packet_type (v : mqtt_packet_type) (r : mqtt_pending) : mqtt_pending :=
  Build_pending (packet_id r) v.

Record received_publish_info : Type := Build_received_publish {
  rp_topic : cstring;
  rp_response_topic : cstring;
  rp_content_type : cstring;
  rp_payload : mqtt_blob;
  rp_correlation_data : mqtt_blob;
  rp_packet_id : Z;
  rp_message_expiry_interval : Z;
  rp_subscription_identifier : Z;
  rp_topic_alias : Z;
  rp_qos : Z;
  rp_payload_format_indicator : Z;
  rp_dup : bool;
  rp_retain : bool
}.

Definition set_rp_topic (v : cstring) (r : received_publish_info) : received_publish_info :=
  Build_received_publish v (rp_response_topic r) (rp_content_type r) (rp_payload r)
  (rp_correlation_data r) (rp_packet_id r) (rp_message_expiry_interval r)
  (rp_subscription_identifier r) (rp_topic_alias r) (rp_qos r) (rp_payload_format_indicator r)
  (rp_dup r) (rp_retain r).
Definition set_rp_response_topic (v : cstring) (r : received_publish_info) : received_publish_info :=
  Build_received_publish (rp_topic r) v (rp_content_type r) (rp_payload r) (rp_correlation_data
  r) (rp_packet_id r) (rp_message_expiry_interval r) (rp_subscription_identifier r)
  (rp_topic_alias r) (rp_qos r) (rp_payload_format_indicator r) (rp_dup r) (rp_retain r).
Definition set_rp_content_type (v : cstring) (r : received_publish_info) : received_publish_info :=
  Build_received_publish (rp_topic r) (rp_response_topic r) v (rp_payload r)
  (rp_correlation_data r) (rp_packet_id r) (rp_message_expiry_interval r)
  (rp_subscription_identifier r) (rp_topic_alias r) (rp_qos r) (rp_payload_format_indicator r)
  (rp_dup r) (rp_retain r).
Definition set_rp_payload (v : mqtt_blob) (r : received_publish_info) : received_publish_info :=
  Build_received_publish (rp_topic r) (rp_response_topic r) (rp_content_type r) v
  (rp_correlation_data r) (rp_packet_id r) (rp_message_expiry_interval r)
  (rp_subscription_identifier r) (rp_topic_alias r) (rp_qos r) (rp_payload_format_indicator r)
  (rp_dup r) (rp_retain r).
Definition set_rp_correlation_data (v : mqtt_blob) (r : received_publish_info) : received_publish_info :=
  Build_received_publish (rp_topic r) (rp_response_topic r) (rp_content_type r) (rp_payload r) v
  (rp_packet_id r) (rp_message_expiry_interval r) (rp_subscription_identifier r) (rp_topic_alias
  r) (rp_qos r) (rp_payload_format_indicator r) (rp_dup r) (rp_retain r).
Definition set_rp_packet_id (v : Z) (r : received_publish_info) : received_publish_info :=
  Build_received_publish (rp_topic r) (rp_response_topic r) (rp_content_type r) (rp_payload r)
  (rp_correlation_data r) v (rp_message_expiry_interval r) (rp_subscription_identifier r)
  (rp_topic_alias r) (rp_qos r) (rp_payload_format_indicator r) (rp_dup r) (rp_retain r).
Definition set_rp_message_expiry_interval (v : Z) (r : received_publish_info) : received_publish_info :=
  Build_received_publish (rp_topic r) (rp_response_topic r) (rp_content_type r) (rp_payload r)
  (rp_correlation_data r) (rp_packet_id r) v (rp_subscription_identifier r) (rp_topic_alias r)
  (rp_qos r) (rp_payload_format_indicator r) (rp_dup r) (rp_retain r).
Definition set_rp_subscription_identifier (v : Z) (r : received_publish_info) : received_publish_info :=
  Build_received_publish (rp_topic r) (rp_response_topic r) (rp_content_type r) (rp_payload r)
  (rp_correlation_data r) (rp_packet_id r) (rp_message_expiry_interval r) v (rp_topic_alias r)
  (rp_qos r) (rp_payload_format_indicator r) (rp_dup r) (rp_retain r).
Definition set_rp_topic_alias (v : Z) (r : received_publish_info) : received_publish_info :=
  Build_received_publish (rp_topic r) (rp_response_topic r) (rp_content_type r) (rp_payload r)
  (rp_correlation_data r) (rp_packet_id r) (rp_message_expiry_interval r)
  (rp_subscription_identifier r) v (rp_qos r) (rp_payload_format_indicator r) (rp_dup r)
  (rp_retain r).
Definition set_rp_qos (v : Z) (r : received_publish_info) : received_publish_info :=
  Build_received_publish (rp_topic r) (rp_response_topic r) (rp_content_type r) (rp_payload r)
  (rp_correlation_data r) (rp_packet_id r) (rp_message_expiry_interval r)
  (rp_subscription_identifier r) (rp_topic_alias r) v (rp_payload_format_indicator r) (rp_dup r)
  (rp_retain r).
Definition set_rp_payload_format_indicator (v : Z) (r : received_publish_info) : received_publish_info :=
  Build_received_publish (rp_topic r) (rp_response_topic r) (rp_content_type r) (rp_payload r)
  (rp_correlation_data r) (rp_packet_id r) (rp_message_expiry_interval r)
  (rp_subscription_identifier r) (rp_topic_alias r) (rp_qos r) v (rp_dup r) (rp_retain r).
Definition set_rp_dup (v : bool) (r : received_publish_info) : received_publish_info :=
  Build_received_publish (rp_topic r) (rp_response_topic r) (rp_content_type r) (rp_payload r)
  (rp_correlation_data r) (rp_packet_id r) (rp_message_expiry_interval r)
  (rp_subscription_identifier r) (rp_topic_alias r) (rp_qos r) (rp_payload_format_indicator r) v
  (rp_retain r).
Definition set_rp_retain (v : bool) (r : received_publish_info) : received_publish_info :=
  Build_received_publish (rp_topic r) (rp_response_topic r) (rp_content_type r) (rp_payload r)
  (rp_correlation_data r) (rp_packet_id r) (rp_message_expiry_interval r)
  (rp_subscription_identifier r) (rp_topic_alias r) (rp_qos r) (rp_payload_format_indicator r)
  (rp_dup r) v.

(** [struct mqtt_client].  [pout] is the write cursor: [None] when NULL
    (first pass), else the bytes written since the cursor was put at the
    start of the send buffer.  [pin] is the read cursor, an offset into
    [inp].  [wire] (ghost) lists the buffers handed to [net.send]. *)
Record mqtt_client : Type := Build_client {
  net : mqtt_net_api;
  outp : mqtt_pbuf;
  inp : mqtt_pbuf;
  connect : mqtt_connect_info;
  pubrec : mqtt_ack_info;
  pubrel : mqtt_ack_info;
  pubcomp : mqtt_ack_info;
  connack : mqtt_connack_info;
  disconn : mqtt_disconn_info;
  publish : mqtt_publish_info;
  subscribe : mqtt_subscribe_info;
  unsubscribe : mqtt_unsubscribe_info;
  unsuback : mqtt_unsuback_info;
  puback : mqtt_ack_info;
  pending : list mqtt_pending;
  received_publish : received_publish_info;
  connected : bool;
  pout : option (list Z);
  pin : nat;
  packet_size : Z;
  expected_ptypes : Z;
  packet_id_count : Z;
  message_available : bool;
  wire : list mqtt_pbuf;
  events : list event
}.

Definition set_outp (v : mqtt_pbuf) (r : mqtt_client) : mqtt_client :=
  Build_client (net r) v (inp r) (connect r) (pubrec r) (pubrel r) (pubcomp r) (connack r)
  (disconn r) (publish r) (subscribe r) (unsubscribe r) (unsuback r) (puback r) (pending r)
  (received_publish r) (connected r) (pout r) (pin r) (packet_size r) (expected_ptypes r)
  (packet_id_count r) (message_available r) (wire r) (events r).
Definition set_inp (v : mqtt_pbuf) (r : mqtt_client) : mqtt_client :=
  Build_client (net r) (outp r) v (connect r) (pubrec r) (pubrel r) (pubcomp r) (connack r)
  (disconn r) (publish r) (subscribe r) (unsubscribe r) (unsuback r) (puback r) (pending r)
  (received_publish r) (connected r) (pout r) (pin r) (packet_size r) (expected_ptypes r)
  (packet_id_count r) (message_available r) (wire r) (events r).
Definition set_connect (v : mqtt_connect_info) (r : mqtt_client) : mqtt_client :=
  Build_client (net r) (outp r) (inp r) v (pubrec r) (pubrel r) (pubcomp r) (connack r) (disconn
  r) (publish r) (subscribe r) (unsubscribe r) (unsuback r) (puback r) (pending r)
  (received_publish r) (connected r) (pout r) (pin r) (packet_size r) (expected_ptypes r)
  (packet_id_count r) (message_available r) (wire r) (events r).
Definition set_pubrec (v : mqtt_ack_info) (r : mqtt_client) : mqtt_client :=
  Build_client (net r) (outp r) (inp r) (connect r) v (pubrel r) (pubcomp r) (connack r)
  (disconn r) (publish r) (subscribe r) (unsubscribe r) (unsuback r) (puback r) (pending r)
  (received_publish r) (connected r) (pout r) (pin r) (packet_size r) (expected_ptypes r)
  (packet_id_count r) (message_available r) (wire r) (events r).
Definition set_pubrel (v : mqtt_ack_info) (r : mqtt_client) : mqtt_client :=
  Build_client (net r) (outp r) (inp r) (connect r) (pubrec r) v (pubcomp r) (connack r)
  (disconn r) (publish r) (subscribe r) (unsubscribe r) (unsuback r) (puback r) (pending r)
  (received_publish r) (connected r) (pout r) (pin r) (packet_size r) (expected_ptypes r)
  (packet_id_count r) (message_available r) (wire r) (events r).
Definition set_pubcomp (v : mqtt_ack_info) (r : mqtt_client) : mqtt_client :=
  Build_client (net r) (outp r) (inp r) (connect r) (pubrec r) (pubrel r) v (connack r) (disconn
  r) (publish r) (subscribe r) (unsubscribe r) (unsuback r) (puback r) (pending r)
  (received_publish r) (connected r) (pout r) (pin r) (packet_size r) (expected_ptypes r)
  (packet_id_count r) (message_available r) (wire r) (events r).
Definition set_connack (v : mqtt_connack_info) (r : mqtt_client) : mqtt_client :=
  Build_client (net r) (outp r) (inp r) (connect r) (pubrec r) (pubrel r) (pubcomp r) v (disconn
  r) (publish r) (subscribe r) (unsubscribe r) (unsuback r) (puback r) (pending r)
  (received_publish r) (connected r) (pout r) (pin r) (packet_size r) (expected_ptypes r)
  (packet_id_count r) (message_available r) (wire r) (events r).
Definition set_disconn (v : mqtt_disconn_info) (r : mqtt_client) : mqtt_client :=
  Build_client (net r) (outp r) (inp r) (connect r) (pubrec r) (pubrel r) (pubcomp r) (connack
  r) v (publish r) (subscribe r) (unsubscribe r) (unsuback r) (puback r) (pending r)
  (received_publish r) (connected r) (pout r) (pin r) (packet_size r) (expected_ptypes r)
  (packet_id_count r) (message_available r) (wire r) (events r).
Definition set_publish (v : mqtt_publish_info) (r : mqtt_client) : mqtt_client :=
  Build_client (net r) (outp r) (inp r) (connect r) (pubrec r) (pubrel r) (pubcomp r) (connack
  r) (disconn r) v (subscribe r) (unsubscribe r) (unsuback r) (puback r) (pending r)
  (received_publish r) (connected r) (pout r) (pin r) (packet_size r) (expected_ptypes r)
  (packet_id_count r) (message_available r) (wire r) (events r).
Definition set_subscribe (v : mqtt_subscribe_info) (r : mqtt_client) : mqtt_client :=
  Build_client (net r) (outp r) (inp r) (connect r) (pubrec r) (pubrel r) (pubcomp r) (connack
  r) (disconn r) (publish r) v (unsubscribe r) (unsuback r) (puback r) (pending r)
  (received_publish r) (connected r) (pout r) (pin r) (packet_size r) (expected_ptypes r)
  (packet_id_count r) (message_available r) (wire r) (events r).
Definition set_unsubscribe (v : mqtt_unsubscribe_info) (r : mqtt_client) : mqtt_client :=
  Build_client (net r) (outp r) (inp r) (connect r) (pubrec r) (pubrel r) (pubcomp r) (connack
  r) (disconn r) (publish r) (subscribe r) v (unsuback r) (puback r) (pending r)
  (received_publish r) (connected r) (pout r) (pin r) (packet_size r) (expected_ptypes r)
  (packet_id_count r) (message_available r) (wire r) (events r).
Definition set_unsuback (v : mqtt_unsuback_info) (r : mqtt_client) : mqtt_client :=
  Build_client (net r) (outp r) (inp r) (connect r) (pubrec r) (pubrel r) (pubcomp r) (connack
  r) (disconn r) (publish r) (subscribe r) (unsubscribe r) v (puback r) (pending r)
  (received_publish r) (connected r) (pout r) (pin r) (packet_size r) (expected_ptypes r)
  (packet_id_count r) (message_available r) (wire r) (events r).
Definition set_puback (v : mqtt_ack_info) (r : mqtt_client) : mqtt_client :=
  Build_client (net r) (outp r) (inp r) (connect r) (pubrec r) (pubrel r) (pubcomp r) (connack
  r) (disconn r) (publish r) (subscribe r) (unsubscribe r) (unsuback r) v (pending r)
  (received_publish r) (connected r) (pout r) (pin r) (packet_size r) (expected_ptypes r)
  (packet_id_count r) (message_available r) (wire r) (events r).
Definition set_pending (v : list mqtt_pending) (r : mqtt_client) : mqtt_client :=
  Build_client (net r) (outp r) (inp r) (connect r) (pubrec r) (pubrel r) (pubcomp r) (connack
  r) (disconn r) (publish r) (subscribe r) (unsubscribe r) (unsuback r) (puback r) v
  (received_publish r) (connected r) (pout r) (pin r) (packet_size r) (expected_ptypes r)
  (packet_id_count r) (message_available r) (wire r) (events r).
Definition set_received_publish (v : received_publish_info) (r : mqtt_client) : mqtt_client :=
  Build_client (net r) (outp r) (inp r) (connect r) (pubrec r) (pubrel r) (pubcomp r) (connack
  r) (disconn r) (publish r) (subscribe r) (unsubscribe r) (unsuback r) (puback r) (pending r) v
  (connected r) (pout r) (pin r) (packet_size r) (expected_ptypes r) (packet_id_count r)
  (message_available r) (wire r) (events r).
Definition set_connected (v : bool) (r : mqtt_client) : mqtt_client :=
  Build_client (net r) (outp r) (inp r) (connect r) (pubrec r) (pubrel r) (pubcomp r) (connack
  r) (disconn r) (publish r) (subscribe r) (unsubscribe r) (unsuback r) (puback r) (pending r)
  (received_publish r) v (pout r) (pin r) (packet_size r) (expected_ptypes r) (packet_id_count
  r) (message_available r) (wire r) (events r).
Definition set_pout (v : option (list Z)) (r : mqtt_client) : mqtt_client :=
  Build_client (net r) (outp r) (inp r) (connect r) (pubrec r) (pubrel r) (pubcomp r) (connack
  r) (disconn r) (publish r) (subscribe r) (unsubscribe r) (unsuback r) (puback r) (pending r)
  (received_publish r) (connected r) v (pin r) (packet_size r) (expected_ptypes r)
  (packet_id_count r) (message_available r) (wire r) (events r).
Definition set_pin (v : nat) (r : mqtt_client) : mqtt_client :=
  Build_client (net r) (outp r) (inp r) (connect r) (pubrec r) (pubrel r) (pubcomp r) (connack
  r) (disconn r) (publish r) (subscribe r) (unsubscribe r) (unsuback r) (puback r) (pending r)
  (received_publish r) (connected r) (pout r) v (packet_size r) (expected_ptypes r)
  (packet_id_count r) (message_available r) (wire r) (events r).
Definition set_packet_size (v : Z) (r : mqtt_client) : mqtt_client :=
  Build_client (net r) (outp r) (inp r) (connect r) (pubrec r) (pubrel r) (pubcomp r) (connack
  r) (disconn r) (publish r) (subscribe r) (unsubscribe r) (unsuback r) (puback r) (pending r)
  (received_publish r) (connected r) (pout r) (pin r) v (expected_ptypes r) (packet_id_count r)
  (message_available r) (wire r) (events r).
Definition set_expected_ptypes (v : Z) (r : mqtt_client) : mqtt_client :=
  Build_client (net r) (outp r) (inp r) (connect r) (pubrec r) (pubrel r) (pubcomp r) (connack
  r) (disconn r) (publish r) (subscribe r) (unsubscribe r) (unsuback r) (puback r) (pending r)
  (received_publish r) (connected r) (pout r) (pin r) (packet_size r) v (packet_id_count r)
  (message_available r) (wire r) (events r).
Definition set_packet_id_count (v : Z) (r : mqtt_client) : mqtt_client :=
  Build_client (net r) (outp r) (inp r) (connect r) (pubrec r) (pubrel r) (pubcomp r) (connack
  r) (disconn r) (publish r) (subscribe r) (unsubscribe r) (unsuback r) (puback r) (pending r)
  (received_publish r) (connected r) (pout r) (pin r) (packet_size r) (expected_ptypes r) v
  (message_available r) (wire r) (events r).
Definition set_message_available (v : bool) (r : mqtt_client) : mqtt_client :=
  Build_client (net r) (outp r) (inp r) (connect r) (pubrec r) (pubrel r) (pubcomp r) (connack
  r) (disconn r) (publish r) (subscribe r) (unsubscribe r) (unsuback r) (puback r) (pending r)
  (received_publish r) (connected r) (pout r) (pin r) (packet_size r) (expected_ptypes r)
  (packet_id_count r) v (wire r) (events r).
Definition set_wire (v : list mqtt_pbuf) (r : mqtt_client) : mqtt_client :=
  Build_client (net r) (outp r) (inp r) (connect r) (pubrec r) (pubrel r) (pubcomp r) (connack
  r) (disconn r) (publish r) (subscribe r) (unsubscribe r) (unsuback r) (puback r) (pending r)
  (received_publish r) (connected r) (pout r) (pin r) (packet_size r) (expected_ptypes r)
  (packet_id_count r) (message_available r) v (events r).
Definition set_events (v : list event) (r : mqtt_client) : mqtt_client :=
  Build_client (net r) (outp r) (inp r) (connect r) (pubrec r) (pubrel r) (pubcomp r) (connack
  r) (disconn r) (publish r) (subscribe r) (unsubscribe r) (unsuback r) (puback r) (pending r)
  (received_publish r) (connected r) (pout r) (pin r) (packet_size r) (expected_ptypes r)
  (packet_id_count r) (message_available r) (wire r) v.


(** [calloc(1, sizeof(struct mqtt_client))]: every field zero. *)
Definition blob_zero : mqtt_blob := Build_blob None 0 0.
Definition ack_zero : mqtt_ack_info := Build_ack_info 0 0 None [].
Definition pending_zero : mqtt_pending := Build_pending 0 UNKNOWN.
Definition connack_zero : mqtt_connack_info :=
  Build_connack_info false 0 0 0 0 0 false None None false false false 0 None None.
Definition disconn_zero : mqtt_disconn_info := Build_disconn_info None None 0 0 [].
Definition publish_zero : mqtt_publish_info :=
  Build_publish_info 0 0 None None blob_zero 0 0 [].
Definition received_publish_zero : received_publish_info :=
  Build_received_publish None None None blob_zero blob_zero 0 0 0 0 0 0 false false.
Definition unsuback_zero : mqtt_unsuback_info := Build_unsuback_info 0 [] None [].
Definition will_zero : mqtt_will :=
  Build_will 0 0 0 None None None blob_zero blob_zero.
Definition connect_zero : mqtt_connect_info :=
  Build_connect_info false false false false false false false None None 0 0 0 0 0 0
    will_zero None None None [] None blob_zero false.

Definition client_zero (n : mqtt_net_api) : mqtt_client :=
  Build_client n (Build_pbuf [] 0) (Build_pbuf [] 0) connect_zero ack_zero ack_zero
    ack_zero connack_zero disconn_zero publish_zero (Build_subscribe_info [] 0 0 [])
    (Build_unsubscribe_info [] 0 []) unsuback_zero ack_zero
    (repeat pending_zero MQTT_RECEIVE_MAXIMUM) received_publish_zero false None 0%nat 0
    0 0 false [] [].

(** ** The state monad of the engine *)

(** A call either returns a value and the new client state, or has no
    defined behaviour in C ([Undefined]): a read past the end of the
    receive buffer or of a blob, a write through a NULL cursor, [strlen]
    of NULL. *)
Inductive outcome (A : Type) : Type :=
| Done (a : A) (st : mqtt_client)
| Undefined.
Arguments Done {A} a st.
Arguments Undefined {A}.

Definition M (A : Type) : Type := mqtt_client -> outcome A.

Definition ret {A : Type} (a : A) : M A := fun st => Done a st.

Definition bind {A B : Type} (m : M A) (k : A -> M B) : M B :=
  fun st => match m st with
            | Done a st' => k a st'
            | Undefined => Undefined
            end.

Definition get : M mqtt_client := fun st => Done st st.
Definition modify (f : mqtt_client -> mqtt_client) : M unit := fun st => Done tt (f st).
Definition undefined {A : Type} : M A := fun _ => Undefined.

Arguments ret {A} a st /.
Arguments bind {A B} m k st /.
Arguments get st /.
Arguments modify f st /.
Arguments undefined {A} st /.

Declare Scope engine_scope.
Delimit Scope engine_scope with engine.
Notation "x <- m ;; k" := (bind m (fun x => k))
  (at level 61, m at next level, right associativity) : engine_scope.
Notation "m ;; k" := (bind m (fun _ => k))
  (at level 61, right associativity) : engine_scope.
Open Scope engine_scope.

Fixpoint for_each {A : Type} (l : list A) (body : A -> M unit) : M unit :=
  match l with
  | [] => ret tt
  | x :: l' => body x ;; for_each l' body
  end.

(** The result state of a call, when it has one. *)
Definition state_of {A : Type} (o : outcome A) : option mqtt_client :=
  match o with
  | Done _ st => Some st
  | Undefined => None
  end.

Definition value_of {A : Type} (o : outcome A) : option A :=
  match o with
  | Done a _ => Some a
  | Undefined => None
  end.

(** ** Data pack/unpacking *)

Definition pack_byte (data : Z) : M unit :=
  fun st => match pout st with
            | Some w => Done tt (set_pout (Some (w ++ [u8 data])) st)
            | None => Undefined
            end.

Definition pack_word (data : Z) : M unit :=
  pack_byte (Z.shiftr data 8) ;;
  pack_byte data.

Definition pack_dword (data : Z) : M unit :=
  pack_byte (Z.shiftr data 24) ;;
  pack_byte (Z.shiftr data 16) ;;
  pack_byte (Z.shiftr data 8) ;;
  pack_byte data.

Definition pack_binary (blob : mqtt_blob) : M unit :=
  let len := u16 (blob_len blob) in
  pack_word len ;;
  match blob_data blob with
  | Some d =>
      if (Z.to_nat len <=? length d)%nat
      then for_each (firstn (Z.to_nat len) d) pack_byte
      else undefined
  | None => ret tt
  end.

Definition unpack_byte : M Z :=
  fun st => match nth_error (pbuf_payload (inp st)) (pin st) with
            | Some b => Done b (set_pin (S (pin st)) st)
            | None => Undefined
            end.

Definition unpack_word : M Z :=
  hi <- unpack_byte ;;
  let data := u16 (Z.shiftl hi 8) in
  lo <- unpack_byte ;;
  ret (Z.lor data lo).

Definition unpack_dword : M Z :=
  b3 <- unpack_byte ;;
  let data := u32 (Z.shiftl b3 24) in
  b2 <- unpack_byte ;;
  let data := Z.lor data (Z.shiftl b2 16) in
  b1 <- unpack_byte ;;
  let data := Z.lor data (Z.shiftl b1 8) in
  b0 <- unpack_byte ;;
  ret (Z.lor data b0).

Definition pack_string (data : cstring) : M unit :=
  match data with
  | None => undefined
  | Some d =>
      let len := u16 (strlen d) in
      pack_word len ;;
      for_each (firstn (Z.to_nat len) (c_str d)) pack_byte
  end.

Fixpoint unpack_bytes (n : nat) : M (list Z) :=
  match n with
  | O => ret []
  | S n' => b <- unpack_byte ;; bs <- unpack_bytes n' ;; ret (b :: bs)
  end.

(** [unpack_string] returns NULL for a zero length, else a fresh
    NUL-terminated copy of the bytes. *)
Definition unpack_string : M cstring :=
  len <- unpack_word ;;
  if 0 <? len
  then bs <- unpack_bytes (Z.to_nat len) ;; ret (Some bs)
  else ret None.

(** [pack_variable_size]: a do-while over a [uint32_t]; five rounds of
    seven bits exhaust it, so the bound 5 is never what stops the loop. *)
Fixpoint pack_variable_size_loop (rounds : nat) (size : Z) : M unit :=
  match rounds with
  | O => ret tt
  | S rounds' =>
      let encoded := Z.land size 0x7f in
      let size := Z.shiftr size 7 in
      let encoded := if 0 <? size then Z.lor encoded 0x80 else encoded in
      pack_byte encoded ;;
      if 0 <? size then pack_variable_size_loop rounds' size else ret tt
  end.

Definition pack_variable_size (size : Z) : M unit :=
  pack_variable_size_loop 5 size.

(** [unpack_variable_size].  The body of the do-while declares its own
    [encoded_byte]; the loop condition is outside that block and reads the
    function-level [encoded_byte], which is initialised to 0 and never
    assigned.  The arguments of the loop are the function-level
    variables; [inner] is the block-level one. *)
Fixpoint unpack_variable_size_loop (rounds : nat)
    (multiplier value encoded_byte shift : Z) : M Z :=
  match rounds with
  | O => ret value
  | S rounds' =>
      inner <- unpack_byte ;;
      let value := u32 (value + Z.land inner 0x7F * multiplier) in
      let multiplier := u32 (Z.shiftl multiplier 7) in
      let shift := shift + 1 in
      if negb (Z.land encoded_byte 0x80 =? 0) && (shift <? 4)
      then unpack_variable_size_loop rounds' multiplier value encoded_byte shift
      else ret value
  end.

Definition unpack_variable_size : M Z :=
  unpack_variable_size_loop 4 1 0 0 0.

Definition get_variable_size_byte_count (len : Z) : Z :=
  if len <=? 127 then 1
  else if len <=? 16383 then 2
  else if len <=? 2097151 then 3
  else 4.

Definition write_fixed_header (type : mqtt_packet_type) (flags len : Z) : M unit :=
  pack_byte (Z.lor (Z.shiftl (Z.land (ptype_code type) 0x0f) 4) (Z.land flags 0x0f)) ;;
  pack_variable_size len.

(** ** Weak functions: the default notifications *)

Definition notify (e : event) : M unit :=
  modify (fun st => set_events (events st ++ [e]) st).
Arguments notify e st /.

Definition mqtt_user_property (origin : mqtt_packet_type) (key value : cstring) : M unit :=
  notify (ev_user_property origin key value).
Definition mqtt_received_publish : M unit := notify ev_received_publish.
Definition mqtt_subscription_declined (packet_id num reason_code : Z) : M unit :=
  notify (ev_subscription_declined packet_id num reason_code).
Definition mqtt_subscription_granted (packet_id num : Z) : M unit :=
  notify (ev_subscription_granted packet_id num).
Definition mqtt_received_disconnect (reason_code : Z) : M unit :=
  notify (ev_received_disconnect reason_code).
Definition mqtt_ping_received : M unit := notify ev_ping_received.
Definition mqtt_publish_acknowledged (packet_id reason_code : Z) : M unit :=
  notify (ev_publish_acknowledged packet_id reason_code).
Definition mqtt_publish_completed (packet_id reason_code : Z) : M unit :=
  notify (ev_publish_completed packet_id reason_code).
Definition mqtt_connected : M unit := notify ev_connected.

(** ** UTF-8 validation ([utf8.c]) *)

Section PlainChar.

(** [is_valid_utf8] reads its input through [const char *].  Whether
    plain [char] is signed is implementation-defined: it is signed with
    GCC and Clang on x86 (the socket build) and unsigned on ARM (the
    Pico build).  [char_is_signed] fixes the target; [char_to_int] is
    the value of a stored byte read as [char] and promoted to [int]. *)
Variable char_is_signed : bool.

Definition char_to_int (b : Z) : Z :=
  if char_is_signed && (128 <=? b) then b - 256 else b.

Definition str_at (str : list Z) (i : Z) : Z :=
  char_to_int (nth (Z.to_nat i) str 0).

(** The while loop of [is_valid_utf8]; every round advances [i], so
    [length] rounds are enough. *)
Fixpoint is_valid_utf8_loop (rounds : nat) (str : list Z) (length i : Z) : bool :=
  match rounds with
  | O => true
  | S rounds' =>
      if i <? length then
        if str_at str i <=? 0x7F then
          is_valid_utf8_loop rounds' str length (i + 1)
        else
          let first_byte := u8 (str_at str i) in
          let byte_count :=
            if Z.land first_byte 0xE0 =? 0xC0 then 2
            else if Z.land first_byte 0xF0 =? 0xE0 then 3
            else if Z.land first_byte 0xF8 =? 0xF0 then 4
            else 0 in
          if byte_count =? 0 then false
          else if length <? i + byte_count then false
          else if negb (forallb
                          (fun j => Z.land (str_at str (i + j)) 0xC0 =? 0x80)
                          (map Z.of_nat (seq 1 (Z.to_nat byte_count - 1))))
          then false
          else if (byte_count =? 2) && (Z.land first_byte 0x1E =? 0) then false
          else if (byte_count =? 3) && (first_byte =? 0xE0)
                  && (Z.land (str_at str (i + 1)) 0x20 =? 0) then false
          else if (byte_count =? 4) && (first_byte =? 0xF0)
                  && (Z.land (str_at str (i + 1)) 0x30 =? 0) then false
          else
            let codepoint3 :=
              Z.lor (Z.lor (Z.shiftl (Z.land first_byte 0x0F) 12)
                           (Z.shiftl (Z.land (str_at str (i + 1)) 0x3F) 6))
                    (Z.land (str_at str (i + 2)) 0x3F) in
            if (byte_count =? 3) && (0xD800 <=? codepoint3) && (codepoint3 <=? 0xDFFF)
            then false
            else
              let codepoint4 :=
                Z.lor (Z.lor (Z.lor (Z.shiftl (Z.land first_byte 0x07) 18)
                                    (Z.shiftl (Z.land (str_at str (i + 1)) 0x3F) 12))
                             (Z.shiftl (Z.land (str_at str (i + 2)) 0x3F) 6))
                      (Z.land (str_at str (i + 3)) 0x3F) in
              if (byte_count =? 4) && (0x10FFFF <? codepoint4) then false
              else is_valid_utf8_loop rounds' str length (i + byte_count)
      else true
  end.

Definition is_valid_utf8 (str : list Z) (length : Z) : bool :=
  is_valid_utf8_loop (Z.to_nat length) str length 0.

(** The call pattern [s && !is_valid_utf8(s, strlen(s))] of the
    validity checks. *)
Definition bad_utf8 (s : cstring) : bool :=
  match s with
  | Some d => negb (is_valid_utf8 d (strlen d))
  | None => false
  end.

End PlainChar.

(** ** Packet size estimations *)

Definition nonzero (x : Z) : bool := negb (x =? 0).
Definition is_set {A : Type} (p : option A) : bool :=
  match p with Some _ => true | None => false end.

(** [size += x] on a [uint32_t]. *)
Definition add32 (size x : Z) : Z := u32 (size + x).

Definition estimate_fixed_header_size (len : Z) : Z :=
  u32 (get_variable_size_byte_count len + 1).

Definition estimate_conn_prop_size (st : mqtt_client) : Z :=
  let c := connect st in
  let size := 0 in
  let size := if nonzero (connect_session_expiry_interval c) then add32 size 5 else size in
  let size := if nonzero (connect_recv_max c) then add32 size 3 else size in
  let size := if nonzero (connect_max_packet_size c) then add32 size 5 else size in
  let size := if nonzero (connect_topic_alias_max c) then add32 size 3 else size in
  let size := if connect_req_res_inf c then add32 size 2 else size in
  let size := if connect_req_prob_inf c then add32 size 2 else size in
  let size := if is_set (connect_auth_method c)
              then add32 size (1 + STRLEN (connect_auth_method c)) else size in
  let size := if is_set (blob_data (connect_auth_data c))
                 && nonzero (blob_len (connect_auth_data c))
              then add32 size (1 + blob_len (connect_auth_data c)) else size in
  fold_left (fun size p => add32 (add32 size (STRLEN (up_key p))) (STRLEN (up_value p) + 1))
            (connect_user_properties c) size.

Definition estimate_will_prop_size (st : mqtt_client) : Z :=
  let w := connect_will (connect st) in
  let size := 0 in
  let size := if nonzero (will_delay_interval w) then add32 size 5 else size in
  let size := if nonzero (will_payload_format_indicator w) then add32 size 2 else size in
  let size := if nonzero (will_message_expiry_delay w) then add32 size 5 else size in
  let size := if is_set (will_content_type w)
              then add32 size (STRLEN (will_content_type w) + 1) else size in
  let size := if is_set (will_response_topic w)
              then add32 size (STRLEN (will_response_topic w) + 1) else size in
  let size := if nonzero (blob_len (will_correlation_data w))
              then add32 size (BLEN (will_correlation_data w) + 1) else size in
  size.

Definition estimate_disconn_prop_size (st : mqtt_client) : Z :=
  let d := disconn st in
  let size := 0 in
  let size := if nonzero (disconn_session_expiry_interval d) then add32 size 5 else size in
  let size := if is_set (disconn_reason_string d)
              then add32 size (STRLEN (disconn_reason_string d) + 1) else size in
  let size := if is_set (disconn_server_reference d)
              then add32 size (STRLEN (disconn_server_reference d) + 1) else size in
  fold_left (fun size p => add32 (add32 size (STRLEN (up_key p))) (STRLEN (up_value p) + 1))
            (disconn_user_properties d) size.

(** The loop over user properties shared by the remaining estimators:
    [size += 1 + STRLEN(key); size += STRLEN(value);]. *)
Definition user_props_size (props : list mqtt_user_property_t) (size : Z) : Z :=
  fold_left (fun size p => add32 (add32 size (1 + STRLEN (up_key p))) (STRLEN (up_value p)))
            props size.

Definition estimate_publish_prop_size (st : mqtt_client) : Z :=
  let p := publish st in
  let size := 0 in
  let size := if nonzero (publish_payload_format_indicator p) then add32 size 2 else size in
  let size := if nonzero (publish_message_expiry_interval p) then add32 size 5 else size in
  let size := if is_set (publish_content_type p)
              then add32 size (1 + STRLEN (publish_content_type p)) else size in
  let size := if is_set (publish_response_topic p)
              then add32 size (1 + STRLEN (publish_response_topic p)) else size in
  let size := if nonzero (blob_len (publish_correlation_data p))
              then add32 size (1 + BLEN (publish_correlation_data p)) else size in
  let size := if nonzero (publish_topic_alias p) then add32 size 3 else size in
  let size := if nonzero (publish_subscription_identifier p)
              then add32 size
                     (1 + get_variable_size_byte_count (publish_subscription_identifier p))
              else size in
  user_props_size (publish_user_properties p) size.

Definition estimate_subscribe_prop_size (st : mqtt_client) : Z :=
  let s := subscribe st in
  let size := 0 in
  let size := if nonzero (subscribe_subscription_identifier s)
              then add32 size
                     (1 + get_variable_size_byte_count (subscribe_subscription_identifier s))
              else size in
  user_props_size (subscribe_user_properties s) size.

(** [estimate_puback_prop_size], [estimate_pubrec_prop_size],
    [estimate_pubrel_prop_size] and [estimate_pubcomp_prop_size] have one
    body, each on its own struct. *)
Definition estimate_ack_prop_size (a : mqtt_ack_info) : Z :=
  let size := 0 in
  let size := if is_set (ack_reason_string a)
              then add32 size (1 + STRLEN (ack_reason_string a)) else size in
  user_props_size (ack_user_properties a) size.

Definition estimate_puback_prop_size (st : mqtt_client) : Z :=
  estimate_ack_prop_size (puback st).
Definition estimate_pubrec_prop_size (st : mqtt_client) : Z :=
  estimate_ack_prop_size (pubrec st).
Definition estimate_pubrel_prop_size (st : mqtt_client) : Z :=
  estimate_ack_prop_size (pubrel st).
Definition estimate_pubcomp_prop_size (st : mqtt_client) : Z :=
  estimate_ack_prop_size (pubcomp st).

Definition estimate_unsubscribe_prop_size (st : mqtt_client) : Z :=
  user_props_size (unsubscribe_user_properties (unsubscribe st)) 0.

(** ** Packet property generation *)

Definition when (b : bool) (m : M unit) : M unit := if b then m else ret tt.
Arguments when b m st /.

Definition pack_user_props (id : Z) (props : list mqtt_user_property_t) : M unit :=
  for_each props (fun p =>
    pack_byte id ;;
    pack_string (up_key p) ;;
    pack_string (up_value p)).

Definition pack_subscribe_props : M unit :=
  st <- get ;;
  let s := subscribe st in
  pack_variable_size (estimate_subscribe_prop_size st) ;;
  when (nonzero (subscribe_subscription_identifier s))
       (pack_byte MQTT_SUB_SUBSCRIPTION_IDENTIFIER_ID ;;
        pack_variable_size (subscribe_subscription_identifier s)) ;;
  pack_user_props MQTT_USER_PROPERTY_ID (subscribe_user_properties s).

(** [pack_conn_props] has no loop over [connect.user_properties]. *)
Definition pack_conn_props : M unit :=
  st <- get ;;
  let c := connect st in
  pack_variable_size (estimate_conn_prop_size st) ;;
  when (nonzero (connect_session_expiry_interval c))
       (pack_byte MQTT_CON_SESSION_EXPIRY_INTERVAL_ID ;;
        pack_dword (connect_session_expiry_interval c)) ;;
  when (nonzero (connect_recv_max c))
       (pack_byte MQTT_CON_RECEIVE_MAXIMUM_ID ;;
        pack_word (connect_recv_max c)) ;;
  when (nonzero (connect_max_packet_size c))
       (pack_byte MQTT_CON_MAXIMUM_PACKET_SIZE_ID ;;
        pack_dword (connect_max_packet_size c)) ;;
  when (nonzero (connect_topic_alias_max c))
       (pack_byte MQTT_CON_TOPIC_ALIAS_MAXIMUM_ID ;;
        pack_word (connect_topic_alias_max c)) ;;
  when (connect_req_res_inf c)
       (pack_byte MQTT_CON_REQUEST_RESPONSE_INFO_ID ;;
        pack_byte (Z.land (Z.b2z (connect_req_res_inf c)) 0x01)) ;;
  when (connect_req_prob_inf c)
       (pack_byte MQTT_CON_REQUEST_PROBLEM_INF_ID ;;
        pack_byte (Z.land (Z.b2z (connect_req_prob_inf c)) 0x01)) ;;
  when (is_set (connect_auth_method c))
       (pack_byte MQTT_CON_AUTH_METHOD_ID ;;
        pack_string (connect_auth_method c)) ;;
  when (is_set (blob_data (connect_auth_data c)) && nonzero (blob_len (connect_auth_data c)))
       (pack_byte MQTT_CON_AUTH_DATA_ID ;;
        pack_binary (connect_auth_data c)).

Definition pack_will_props : M unit :=
  st <- get ;;
  let w := connect_will (connect st) in
  pack_variable_size (estimate_will_prop_size st) ;;
  when (nonzero (will_delay_interval w))
       (pack_byte MQTT_WILL_DELAY_INTERVAL_ID ;;
        pack_dword (will_delay_interval w)) ;;
  when (nonzero (will_payload_format_indicator w))
       (pack_byte MQTT_WILL_FORMAT_INDICATOR_ID ;;
        pack_byte (will_payload_format_indicator w)) ;;
  when (nonzero (will_message_expiry_delay w))
       (pack_byte MQTT_WILL_MSG_EXPIRY_INTERVAL_ID ;;
        pack_dword (will_message_expiry_delay w)) ;;
  when (is_set (will_content_type w))
       (pack_byte MQTT_WILL_CONTENT_TYPE_ID ;;
        pack_string (will_content_type w)) ;;
  when (is_set (will_response_topic w))
       (pack_byte MQTT_WILL_RESPONSE_TOPIC_ID ;;
        pack_string (will_response_topic w)) ;;
  when (nonzero (blob_len (will_correlation_data w)))
       (pack_byte MQTT_WILL_CORELATION_DATA_ID ;;
        pack_binary (will_correlation_data w)).

(** [pack_disconn_props] writes [estimate_will_prop_size] as the length. *)
Definition pack_disconn_props : M unit :=
  st <- get ;;
  let d := disconn st in
  pack_variable_size (estimate_will_prop_size st) ;;
  when (nonzero (disconn_session_expiry_interval d))
       (pack_byte MQTT_DISC_SESSION_EXPIRY_INTERVAL_ID ;;
        pack_dword (disconn_session_expiry_interval d)) ;;
  when (is_set (disconn_reason_string d))
       (pack_byte MQTT_REASON_STRING_ID ;;
        pack_string (disconn_reason_string d)) ;;
  when (is_set (disconn_server_reference d))
       (pack_byte MQTT_DISC_SERVER_REFERENCE_ID ;;
        pack_string (disconn_server_reference d)) ;;
  pack_user_props MQTT_USER_PROPERTY_ID (disconn_user_properties d).

Definition pack_publish_props : M unit :=
  st <- get ;;
  let p := publish st in
  pack_variable_size (estimate_publish_prop_size st) ;;
  when (nonzero (publish_payload_format_indicator p))
       (pack_byte MQTT_PUB_PAYLOAD_FORMAT_INDICATOR_ID ;;
        pack_byte (publish_payload_format_indicator p)) ;;
  when (nonzero (publish_message_expiry_interval p))
       (pack_byte MQTT_PUB_MESSAGE_EXPIRY_INTERVAL_ID ;;
        pack_dword (publish_message_expiry_interval p)) ;;
  when (is_set (publish_content_type p))
       (pack_byte MQTT_PUB_CONTENT_TYPE_ID ;;
        pack_string (publish_content_type p)) ;;
  when (is_set (publish_response_topic p))
       (pack_byte MQTT_PUB_RESPONSE_TOPIC_ID ;;
        pack_string (publish_response_topic p)) ;;
  when (nonzero (blob_len (publish_correlation_data p)))
       (pack_byte MQTT_PUB_CORRELATION_DATA_ID ;;
        pack_binary (publish_correlation_data p)) ;;
  when (nonzero (publish_topic_alias p))
       (pack_byte MQTT_PUB_TOPIC_ALIAS_ID ;;
        pack_word (publish_topic_alias p)) ;;
  when (nonzero (publish_subscription_identifier p))
       (pack_byte MQTT_PUB_SUBSCRIPTION_IDENTIFIER_ID ;;
        pack_variable_size (publish_subscription_identifier p)) ;;
  pack_user_props MQTT_PUB_USER_PROPERTY_ID (publish_user_properties p).

(** [pack_puback_props], [pack_pubrec_props], [pack_pubrel_props] and
    [pack_pubcomp_props] have one body, each on its own struct. *)
Definition pack_ack_props (a : mqtt_ack_info) : M unit :=
  pack_variable_size (estimate_ack_prop_size a) ;;
  when (is_set (ack_reason_string a))
       (pack_byte MQTT_REASON_STRING_ID ;;
        pack_string (ack_reason_string a)) ;;
  pack_user_props MQTT_USER_PROPERTY_ID (ack_user_properties a).

Definition pack_puback_props : M unit := st <- get ;; pack_ack_props (puback st).
Definition pack_pubrec_props : M unit := st <- get ;; pack_ack_props (pubrec st).
Definition pack_pubrel_props : M unit := st <- get ;; pack_ack_props (pubrel st).
Definition pack_pubcomp_props : M unit := st <- get ;; pack_ack_props (pubcomp st).

Definition pack_unsubscribe_props : M unit :=
  st <- get ;;
  pack_variable_size (estimate_unsubscribe_prop_size st) ;;
  pack_user_props MQTT_USER_PROPERTY_ID (unsubscribe_user_properties (unsubscribe st)).

(** ** Validity checks *)

Section Validity.

Variable char_is_signed : bool.

Definition bad_user_props (props : list mqtt_user_property_t) : bool :=
  existsb (fun p => bad_utf8 char_is_signed (up_key p) || bad_utf8 char_is_signed (up_value p)) props.

Definition validate_subscribe_utf8_strings (st : mqtt_client) : status :=
  let s := subscribe st in
  if existsb (fun e => bad_utf8 char_is_signed (sub_topic e)) (subscribe_entries s)
  then ERROR_INVALID_ENCODING
  else if bad_user_props (subscribe_user_properties s) then ERROR_INVALID_ENCODING
  else OK.

Definition validate_connect_utf8_strings (st : mqtt_client) : status :=
  let c := connect st in
  if bad_utf8 char_is_signed (connect_client_id c) then ERROR_INVALID_ENCODING
  else if bad_utf8 char_is_signed (connect_user c) then ERROR_INVALID_ENCODING
  else if bad_utf8 char_is_signed (connect_passwd c) then ERROR_INVALID_ENCODING
  else if bad_utf8 char_is_signed (connect_will_topic c) then ERROR_INVALID_ENCODING
  else if bad_utf8 char_is_signed (connect_will_data c) then ERROR_INVALID_ENCODING
  else if bad_utf8 char_is_signed (will_topic (connect_will c)) then ERROR_INVALID_ENCODING
  else if bad_utf8 char_is_signed (will_content_type (connect_will c)) then ERROR_INVALID_ENCODING
  else if bad_utf8 char_is_signed (will_response_topic (connect_will c)) then ERROR_INVALID_ENCODING
  else OK.

Definition validate_disconnect_utf8_strings (st : mqtt_client) : status :=
  let d := disconn st in
  if bad_utf8 char_is_signed (disconn_reason_string d) then ERROR_INVALID_ENCODING
  else if bad_utf8 char_is_signed (disconn_server_reference d) then ERROR_INVALID_ENCODING
  else if bad_user_props (disconn_user_properties d) then ERROR_INVALID_ENCODING
  else OK.

Definition validate_publish_utf8_strings (st : mqtt_client) (msg : mqtt_pub_packet_t)
  : status :=
  let p := publish st in
  if negb (is_set (msg_topic msg)) || bad_utf8 char_is_signed (msg_topic msg) then ERROR_INVALID_ENCODING
  else if bad_utf8 char_is_signed (publish_content_type p) then ERROR_INVALID_ENCODING
  else if bad_utf8 char_is_signed (publish_response_topic p) then ERROR_INVALID_ENCODING
  else if bad_user_props (publish_user_properties p) then ERROR_INVALID_ENCODING
  else OK.

(** [validate_puback_utf8_strings] and its three siblings. *)
Definition validate_ack_utf8_strings (a : mqtt_ack_info) : status :=
  if bad_utf8 char_is_signed (ack_reason_string a) then ERROR_INVALID_ENCODING
  else if bad_user_props (ack_user_properties a) then ERROR_INVALID_ENCODING
  else OK.

Definition validate_puback_utf8_strings (st : mqtt_client) : status :=
  validate_ack_utf8_strings (puback st).
Definition validate_pubrec_utf8_strings (st : mqtt_client) : status :=
  validate_ack_utf8_strings (pubrec st).
Definition validate_pubrel_utf8_strings (st : mqtt_client) : status :=
  validate_ack_utf8_strings (pubrel st).
Definition validate_pubcomp_utf8_strings (st : mqtt_client) : status :=
  validate_ack_utf8_strings (pubcomp st).

Definition validate_unsubscribe_utf8_strings (st : mqtt_client) : status :=
  let u := unsubscribe st in
  if existsb (fun e => bad_utf8 char_is_signed (sub_topic e)) (unsubscribe_entries u)
  then ERROR_INVALID_ENCODING
  else if bad_user_props (unsubscribe_user_properties u) then ERROR_INVALID_ENCODING
  else OK.

End Validity.

(** ** Packet generation *)

(** Every builder computes [rsize], writes only [if (stat->pout)], and
    stores the total in [packet_size]. *)

(** The block [if (stat->pout) { ... }] of [make_subscribe]. *)
Definition write_subscribe (st : mqtt_client) (rsize : Z) : M unit :=
  let s := subscribe st in
  write_fixed_header SUBSCRIBE 0x02 rsize ;;
  pack_word (subscribe_packet_id s) ;;
  pack_subscribe_props ;;
  for_each (subscribe_entries s) (fun e =>
    pack_string (sub_topic e) ;;
    let options := 0 in
    let options := Z.lor options (Z.land (sub_qos e) 0x03) in
    let options := if nonzero (sub_no_local e) then Z.lor options 0x04 else options in
    let options := if nonzero (sub_retain_as_published e)
                   then Z.lor options 0x08 else options in
    let options := Z.lor options (Z.shiftl (Z.land (sub_retain_handling e) 0x03) 4) in
    pack_byte options).

Definition make_subscribe : M unit :=
  st <- get ;;
  let s := subscribe st in
  let prop_size := estimate_subscribe_prop_size st in
  let rsize := u32 (2 + get_variable_size_byte_count prop_size + prop_size) in
  let rsize := fold_left (fun rsize e => add32 rsize (STRLEN (sub_topic e) + 1))
                         (subscribe_entries s) rsize in
  when (is_set (pout st)) (write_subscribe st rsize) ;;
  modify (set_packet_size (u32 (rsize + estimate_fixed_header_size rsize))).

(** [make_connect].  [plen] is a [uint8_t]; the user name and the password
    are packed inside the [if (stat->connect.will_flag)] block. *)
Definition make_connect : M unit :=
  st <- get ;;
  let c := connect st in
  let flags := u8 (Z.shiftl (Z.land (connect_will_qos c) 0x03) 2) in
  let flags := if connect_clean_start c then SET flags (BIT 1) else flags in
  let flags := if connect_will_flag c then SET flags (BIT 2) else flags in
  let flags := if connect_pw_flag c then SET flags (BIT 6) else flags in
  let flags := if connect_un_flag c then SET flags (BIT 7) else flags in
  let plen := u8 (estimate_conn_prop_size st) in
  let rsize := u32 (10 + plen + STRLEN (connect_client_id c)
                    + get_variable_size_byte_count plen) in
  let rsize :=
    if connect_will_flag c then
      let plen := u8 (estimate_will_prop_size st) in
      add32 rsize (plen + STRLEN (will_topic (connect_will c))
                   + BLEN (will_payload (connect_will c))
                   + get_variable_size_byte_count plen)
    else rsize in
  let rsize := if connect_un_flag c then add32 rsize (STRLEN (connect_user c)) else rsize in
  let rsize := if connect_pw_flag c then add32 rsize (STRLEN (connect_passwd c)) else rsize in
  when (is_set (pout st))
       (write_fixed_header CONNECT 0 rsize ;;
        pack_string (Some [77; 81; 84; 84]) ;;
        pack_byte MQTT_PROTOCOL_VERSION ;;
        pack_byte flags ;;
        pack_word (connect_keep_alive c) ;;
        pack_conn_props ;;
        pack_string (connect_client_id c) ;;
        when (connect_will_flag c)
             (pack_will_props ;;
              pack_string (will_topic (connect_will c)) ;;
              pack_binary (will_payload (connect_will c)) ;;
              when (connect_un_flag c) (pack_string (connect_user c)) ;;
              when (connect_pw_flag c) (pack_string (connect_passwd c)))) ;;
  modify (set_packet_size (u32 (rsize + estimate_fixed_header_size rsize))).

Definition make_disconnect : M unit :=
  st <- get ;;
  let d := disconn st in
  let rsize := 1 in
  let disconnect_with_properties :=
    is_set (disconn_reason_string d) || is_set (disconn_server_reference d)
    || nonzero (disconn_session_expiry_interval d)
    || negb (length (disconn_user_properties d) =? 0)%nat in
  let rsize :=
    if disconnect_with_properties then
      let rsize := add32 rsize (estimate_disconn_prop_size st) in
      add32 rsize (get_variable_size_byte_count rsize)
    else rsize in
  when (is_set (pout st))
       (write_fixed_header DISCONNECT 0 rsize ;;
        pack_byte (disconn_reason_code d) ;;
        when disconnect_with_properties pack_disconn_props) ;;
  modify (set_packet_size (u32 (rsize + estimate_fixed_header_size rsize))).

(** The block [if (stat->pout) { ... }] of [make_publish]. *)
Definition write_publish (msg : mqtt_pub_packet_t) (flags rsize : Z) : M unit :=
  write_fixed_header PUBLISH flags rsize ;;
  pack_string (msg_topic msg) ;;
  when (0 <? msg_qos msg) (pack_word (msg_packet_id msg)) ;;
  pack_publish_props ;;
  match blob_data (msg_payload msg) with
  | Some d =>
      if 0 <? blob_len (msg_payload msg) then
        if (Z.to_nat (blob_len (msg_payload msg)) <=? length d)%nat
        then for_each (firstn (Z.to_nat (blob_len (msg_payload msg))) d) pack_byte
        else undefined
      else ret tt
  | None => ret tt
  end.

Definition make_publish (msg : mqtt_pub_packet_t) : M unit :=
  st <- get ;;
  let flags := 0 in
  let flags := if msg_dup msg then SET flags (BIT 3) else flags in
  let flags := if msg_retain msg then SET flags (BIT 0) else flags in
  let flags := Z.lor flags (Z.shiftl (Z.land (msg_qos msg) 0x03) 1) in
  let prop_size := estimate_publish_prop_size st in
  let rsize := u32 (STRLEN (msg_topic msg) + get_variable_size_byte_count prop_size
                    + prop_size) in
  let rsize := if 0 <? msg_qos msg then add32 rsize 2 else rsize in
  let rsize := add32 rsize (blob_len (msg_payload msg)) in
  when (is_set (pout st)) (write_publish msg flags rsize) ;;
  modify (set_packet_size (u32 (rsize + estimate_fixed_header_size rsize))).

Definition make_pingreq : M unit :=
  st <- get ;;
  let rsize := 0 in
  when (is_set (pout st)) (write_fixed_header PINGREQ 0 rsize) ;;
  modify (set_packet_size (u32 (rsize + estimate_fixed_header_size rsize))).

(** [make_puback], [make_pubrec], [make_pubrel], [make_pubcomp]: one body
    up to the struct, the packet type and the header flags. *)
Definition write_ack (type : mqtt_packet_type) (flags rsize : Z) (a : mqtt_ack_info)
  : M unit :=
  write_fixed_header type flags rsize ;;
  pack_word (ack_packet_id a) ;;
  pack_byte (ack_reason_code a) ;;
  pack_ack_props a.

Definition make_ack (type : mqtt_packet_type) (flags : Z) (a : mqtt_ack_info) : M unit :=
  st <- get ;;
  let prop_size := estimate_ack_prop_size a in
  let rsize := 2 + 1 in
  let rsize := if 0 <? prop_size
               then add32 rsize (get_variable_size_byte_count prop_size + prop_size)
               else add32 rsize 1 in
  when (is_set (pout st)) (write_ack type flags rsize a) ;;
  modify (set_packet_size (u32 (rsize + estimate_fixed_header_size rsize))).

Definition make_puback : M unit := st <- get ;; make_ack PUBACK 0 (puback st).
Definition make_pubrec : M unit := st <- get ;; make_ack PUBREC 0 (pubrec st).
Definition make_pubrel : M unit := st <- get ;; make_ack PUBREL 0x02 (pubrel st).
Definition make_pubcomp : M unit := st <- get ;; make_ack PUBCOMP 0 (pubcomp st).

Definition make_unsubscribe : M unit :=
  st <- get ;;
  let u := unsubscribe st in
  let prop_size := estimate_unsubscribe_prop_size st in
  let rsize := u32 (2 + get_variable_size_byte_count prop_size + prop_size) in
  let rsize := fold_left (fun rsize e => add32 rsize (STRLEN (sub_topic e)))
                         (unsubscribe_entries u) rsize in
  when (is_set (pout st))
       (write_fixed_header UNSUBSCRIBE 0x02 rsize ;;
        pack_word (unsubscribe_packet_id u) ;;
        pack_unsubscribe_props ;;
        for_each (unsubscribe_entries u) (fun e => pack_string (sub_topic e))) ;;
  modify (set_packet_size (u32 (rsize + estimate_fixed_header_size rsize))).

(** ** Packet ID management *)

(** The scan [for (i = 0; i < MQTT_RECEIVE_MAXIMUM; ++i)] for the first
    free slot, which then takes [(id, await)]. *)
Fixpoint reserve_slot (slots : list mqtt_pending) (id : Z) (await : mqtt_packet_type)
  : option (list mqtt_pending) :=
  match slots with
  | [] => None
  | p :: rest =>
      if packet_id p =? 0 then Some (Build_pending id await :: rest)
      else option_map (cons p) (reserve_slot rest id await)
  end.

(** The [int] result of [reserve_packet_slot_for_answer]: the packet
    identifier ([inl]), or an error code ([inr]), which [SUCCESSFUL]
    tells apart. *)
Definition reserve_packet_slot_for_answer (await : mqtt_packet_type) : M (Z + status) :=
  fun st =>
    let count := u16 (packet_id_count st + 1) in
    let id := if count =? 0 then 1 else count in
    match reserve_slot (pending st) id await with
    | Some slots => Done (inl id) (set_pending slots (set_packet_id_count count st))
    | None => Done (inr ERROR_OUT_OF_RESOURCE) st
    end.

Definition reserve_packet_slot_for_request (id : Z) (request : mqtt_packet_type)
  : M status :=
  fun st =>
    if id =? 0 then Done ERROR_INVALID_PACKET_ID st
    else match reserve_slot (pending st) id request with
         | Some slots => Done OK (set_pending slots st)
         | None => Done ERROR_OUT_OF_RESOURCE st
         end.

Fixpoint free_slot (slots : list mqtt_pending) (id : Z) : option (list mqtt_pending) :=
  match slots with
  | [] => None
  | p :: rest =>
      if packet_id p =? id then Some (Build_pending 0 UNKNOWN :: rest)
      else option_map (cons p) (free_slot rest id)
  end.

Definition free_packet_slot (id : Z) : M status :=
  fun st =>
    match free_slot (pending st) id with
    | Some slots => Done OK (set_pending slots st)
    | None => Done ERROR_INVALID_PACKET_ID st
    end.

Fixpoint expected_answer (slots : list mqtt_pending) (id : Z) : mqtt_packet_type :=
  match slots with
  | [] => UNKNOWN
  | p :: rest => if packet_id p =? id then await_packet_type p else expected_answer rest id
  end.

Definition get_expected_packet_answer (st : mqtt_client) (id : Z) : mqtt_packet_type :=
  expected_answer (pending st) id.

Definition await_for_packet (st : mqtt_client) (type : mqtt_packet_type) : bool :=
  existsb (fun p => ptype_eqb (await_packet_type p) type) (pending st).

(** The loop of [process_pubrec] and [mqtt_pubrel] that rewrites the await
    field of the first slot carrying [id]. *)
Fixpoint advance_slot (slots : list mqtt_pending) (id : Z) (await : mqtt_packet_type)
  : list mqtt_pending :=
  match slots with
  | [] => []
  | p :: rest =>
      if packet_id p =? id then Build_pending (packet_id p) await :: rest
      else p :: advance_slot rest id await
  end.

(** ** The engine: sending, packet processing and the API *)

Section Engine.

Variable char_is_signed : bool.

(** *** Transport calls *)

(** [stat->net.alloc_send_buf(stat, &stat->outp, stat->packet_size)]. *)
Definition net_alloc_send_buf : M status :=
  fun st =>
    let result := alloc_send_buf (net st) (packet_size st) in
    Done result (set_outp (Build_pbuf [] (if FAILED result then 0 else packet_size st)) st).

(** [stat->net.send(stat, &stat->outp)]: the buffer holds what the
    second pass wrote through [pout]. *)
Definition net_send : M status :=
  fun st =>
    let written := match pout st with Some w => w | None => [] end in
    let buf := Build_pbuf written (pbuf_len (outp st)) in
    Done (send (net st) buf) (set_wire (wire st ++ [buf]) (set_outp buf st)).

Definition net_free_send_buf : M status :=
  fun st => Done (free_send_buf (net st)) (set_outp (Build_pbuf [] 0) st).

Definition net_close_conn : M status :=
  fun st => Done (close_conn (net st)) st.

Definition net_open_conn : M status :=
  fun st => Done (open_conn (net st)) st.

(** The text every sending function repeats: first pass with a NULL
    cursor, allocation, second pass, send, free. *)
Definition two_pass_send (make : M unit) : M status :=
  modify (set_pout None) ;;
  make ;;
  result <- net_alloc_send_buf ;;
  if FAILED result then ret result
  else
    modify (set_pout (Some [])) ;;
    make ;;
    result <- net_send ;;
    net_free_send_buf ;;
    ret result.

Definition expect (type : mqtt_packet_type) : M unit :=
  modify (fun st => set_expected_ptypes
                      (Z.lor (expected_ptypes st) (BIT (ptype_code type))) st).

Definition unexpect (type : mqtt_packet_type) : M unit :=
  modify (fun st => set_expected_ptypes
                      (CLR (expected_ptypes st) (BIT (ptype_code type))) st).

(** *** Acknowledgements and ping (API functions used by the parser) *)

(** In the four acknowledgement senders the statement
    [if (reason_code == 0) reason_code = MQTT_REASON_SUCCESS] stores 0
    over 0 and has no counterpart here. *)

Definition mqtt_ping : M status :=
  st <- get ;;
  if negb (connected st) then ret ERROR_NOT_CONNECTED
  else
    result <- two_pass_send make_pingreq ;;
    when (SUCCESSFUL result) (expect PINGRESP) ;;
    ret result.

Definition mqtt_puback (id : Z) : M status :=
  st <- get ;;
  if negb (connected st) then ret ERROR_NOT_CONNECTED
  else if id =? 0 then ret ERROR_INVALID_PACKET_ID
  else
    let result := validate_puback_utf8_strings char_is_signed st in
    if FAILED result then ret result
    else
      modify (fun st => set_puback (set_ack_packet_id id (puback st)) st) ;;
      two_pass_send make_puback.

Definition mqtt_pubrec (id : Z) : M status :=
  st <- get ;;
  if negb (connected st) then ret ERROR_NOT_CONNECTED
  else if id =? 0 then ret ERROR_INVALID_PACKET_ID
  else
    let result := validate_pubrec_utf8_strings char_is_signed st in
    if FAILED result then ret result
    else
      modify (fun st => set_pubrec (set_ack_packet_id id (pubrec st)) st) ;;
      result <- reserve_packet_slot_for_request id PUBREL ;;
      if FAILED result then ret result
      else
        result <- two_pass_send make_pubrec ;;
        when (SUCCESSFUL result) (expect PUBREL) ;;
        ret result.

Definition mqtt_pubrel (id : Z) : M status :=
  st <- get ;;
  if negb (connected st) then ret ERROR_NOT_CONNECTED
  else if id =? 0 then ret ERROR_INVALID_PACKET_ID
  else
    let result := validate_pubrel_utf8_strings char_is_signed st in
    if FAILED result then ret result
    else
      modify (fun st => set_pubrel (set_ack_packet_id id (pubrel st)) st) ;;
      modify (fun st => set_pending (advance_slot (pending st) id PUBCOMP) st) ;;
      result <- two_pass_send make_pubrel ;;
      when (SUCCESSFUL result) (expect PUBCOMP) ;;
      ret result.

Definition mqtt_pubcomp (id : Z) : M status :=
  st <- get ;;
  if negb (connected st) then ret ERROR_NOT_CONNECTED
  else if id =? 0 then ret ERROR_INVALID_PACKET_ID
  else
    let result := validate_pubcomp_utf8_strings char_is_signed st in
    if FAILED result then ret result
    else
      modify (fun st => set_pubcomp (set_ack_packet_id id (pubcomp st)) st) ;;
      two_pass_send make_pubcomp.

(** *** Packet processing *)

(** The pointer difference of [stat->pin] and [stat->inp.payload]. *)
Definition bytes_consumed (st : mqtt_client) : Z := Z.of_nat (pin st).

(** The bytes of the receive buffer not yet read. *)
Definition bytes_left (st : mqtt_client) : nat :=
  (length (pbuf_payload (inp st)) - pin st)%nat.

Definition connack_default_properties : M unit :=
  modify (fun st =>
    let k := connack st in
    let k := set_connack_max_qos 2 k in
    let k := set_connack_retain_avail true k in
    let k := set_connack_wildcard_sub_avail true k in
    let k := set_connack_sub_id_avail true k in
    let k := set_connack_shared_sub_avail true k in
    let k := set_connack_server_keep_alive (connect_keep_alive (connect st)) k in
    let k := set_connack_max_packet_size (connect_max_packet_size (connect st)) k in
    set_connack k st).

Definition upd_connack (f : mqtt_connack_info -> mqtt_connack_info) : M unit :=
  modify (fun st => set_connack (f (connack st)) st).

(** One property of [process_connack_poperties]: the new [len], or
    [None] for the [default:] label. *)
Definition connack_property (prop_id len : Z) : M (option Z) :=
  if prop_id =? MQTT_ACK_SERVER_REFERENCE_ID then
    s <- unpack_string ;; upd_connack (set_connack_server_reference s) ;;
    ret (Some (len - STRLEN s))
  else if prop_id =? MQTT_CON_RESPONSE_INFO_ID then
    s <- unpack_string ;; upd_connack (set_connack_response_info s) ;;
    ret (Some (len - STRLEN s))
  else if (prop_id =? MQTT_CON_REQUEST_RESPONSE_INFO_ID)
          || (prop_id =? MQTT_CON_REQUEST_PROBLEM_INF_ID) then
    unpack_byte ;; ret (Some (len - 1))
  else if prop_id =? MQTT_CON_TOPIC_ALIAS_MAXIMUM_ID then
    v <- unpack_word ;; upd_connack (set_connack_topic_alias_max v) ;;
    ret (Some (len - 2))
  else if prop_id =? MQTT_CON_RECEIVE_MAXIMUM_ID then
    v <- unpack_word ;; upd_connack (set_connack_recv_max v) ;;
    ret (Some (len - 2))
  else if prop_id =? MQTT_CON_MAXIMUM_QOS_ID then
    v <- unpack_byte ;; upd_connack (set_connack_max_qos v) ;;
    ret (Some (len - 1))
  else if prop_id =? MQTT_CON_RETAIN_AVAILABLE_ID then
    v <- unpack_byte ;; upd_connack (set_connack_retain_avail (Z.odd v)) ;;
    ret (Some (len - 1))
  else if prop_id =? MQTT_CON_MAXIMUM_PACKET_SIZE_ID then
    v <- unpack_dword ;; upd_connack (set_connack_max_packet_size v) ;;
    ret (Some (len - 4))
  else if prop_id =? MQTT_ACK_ASSIGNED_CLIENT_ID then
    s <- unpack_string ;; upd_connack (set_connack_assigned_client_id s) ;;
    ret (Some (len - STRLEN s))
  else if prop_id =? MQTT_REASON_STRING_ID then
    s <- unpack_string ;; upd_connack (set_connack_reason_string s) ;;
    ret (Some (len - STRLEN s))
  else if prop_id =? MQTT_USER_PROPERTY_ID then
    key <- unpack_string ;;
    value <- unpack_string ;;
    mqtt_user_property CONNACK key value ;;
    ret (Some (len - (STRLEN key + STRLEN value)))
  else if prop_id =? MQTT_ACK_WILDCARD_SUB_AVAIL_ID then
    v <- unpack_byte ;; upd_connack (set_connack_wildcard_sub_avail (Z.odd v)) ;;
    ret (Some (len - 1))
  else if prop_id =? MQTT_ACK_SUB_ID_AVAIL_ID then
    v <- unpack_byte ;; upd_connack (set_connack_sub_id_avail (Z.odd v)) ;;
    ret (Some (len - 1))
  else if prop_id =? MQTT_ACK_SHARED_SUB_AVAIL_ID then
    v <- unpack_byte ;; upd_connack (set_connack_shared_sub_avail (Z.odd v)) ;;
    ret (Some (len - 1))
  else if prop_id =? MQTT_ACK_SEVER_KEEP_ALIVE_ID then
    v <- unpack_word ;; upd_connack (set_connack_server_keep_alive v) ;;
    ret (Some (len - 2))
  else ret None.

(** [while (len > 0)] with a signed [len] and the [--len] that ends every
    round.  Each round reads at least the identifier byte, so [rounds],
    the bytes left in the buffer, bounds the loop: with none left the
    next read is past the end of the buffer. *)
Fixpoint process_connack_poperties_loop (rounds : nat) (len : Z) : M status :=
  match rounds with
  | O =>
      if 0 <? len then undefined
      else if len <? 0 then ret ERROR_MALFORMED_PACKET else ret OK
  | S rounds' =>
      if 0 <? len then
        prop_id <- unpack_byte ;;
        r <- connack_property prop_id len ;;
        match r with
        | None => ret ERROR_UNKNOWN_IDENTIFIER
        | Some len => process_connack_poperties_loop rounds' (len - 1)
        end
      else if len <? 0 then ret ERROR_MALFORMED_PACKET else ret OK
  end.

Definition process_connack_poperties (len : Z) : M status :=
  st <- get ;;
  process_connack_poperties_loop (bytes_left st) len.

Definition process_connack : M status :=
  b <- unpack_byte ;;
  upd_connack (set_connack_ack_flag (Z.odd b)) ;;
  reason <- unpack_byte ;;
  upd_connack (set_connack_reason reason) ;;
  if nonzero (Z.land reason 0x80) then ret ERROR_SERVER_DECLINED
  else
    prop_len <- unpack_variable_size ;;
    connack_default_properties ;;
    result <- (if 0 <? prop_len then process_connack_poperties prop_len else ret OK) ;;
    when (SUCCESSFUL result)
         (modify (set_connected true) ;;
          expect DISCONNECT ;;
          expect PUBLISH ;;
          mqtt_connected) ;;
    ret result.

(** The property loops of the other parsers: [while (prop_len > 0)] on
    a [uint32_t], the identifier byte and [prop_len--], then a switch
    whose [default:] returns [ERROR_UNKNOWN_IDENTIFIER]; after the loop
    the test [prop_len < 0].  [property] is the switch: the new
    [prop_len], or [None] at [default:]. *)
Fixpoint property_loop (property : Z -> Z -> M (option Z)) (rounds : nat) (prop_len : Z)
  : M status :=
  match rounds with
  | O =>
      if 0 <? prop_len then undefined
      else if prop_len <? 0 then ret ERROR_MALFORMED_PACKET else ret OK
  | S rounds' =>
      if 0 <? prop_len then
        prop_id <- unpack_byte ;;
        let prop_len := u32 (prop_len - 1) in
        r <- property prop_id prop_len ;;
        match r with
        | None => ret ERROR_UNKNOWN_IDENTIFIER
        | Some prop_len => property_loop property rounds' prop_len
        end
      else if prop_len <? 0 then ret ERROR_MALFORMED_PACKET else ret OK
  end.

Definition process_properties (property : Z -> Z -> M (option Z)) (prop_len : Z)
  : M status :=
  st <- get ;;
  property_loop property (bytes_left st) prop_len.

(** [case MQTT_..._USER_PROPERTY_ID] as every parser has it. *)
Definition user_property_case (origin : mqtt_packet_type) (prop_len : Z) : M (option Z) :=
  key <- unpack_string ;;
  value <- unpack_string ;;
  match key, value with
  | Some k, Some v =>
      mqtt_user_property origin key value ;;
      ret (Some (u32 (prop_len - (strlen k + strlen v + 4))))
  | _, _ => ret (Some (u32 (prop_len - 4)))
  end.

(** A string property stored by [store]. *)
Definition string_case (store : cstring -> M unit) (prop_len : Z) : M (option Z) :=
  s <- unpack_string ;;
  match s with
  | Some d => store s ;; ret (Some (u32 (prop_len - (strlen d + 2))))
  | None => ret (Some (u32 (prop_len - 2)))
  end.

Definition upd_received_publish (f : received_publish_info -> received_publish_info)
  : M unit :=
  modify (fun st => set_received_publish (f (received_publish st)) st).

Definition publish_property (prop_id prop_len : Z) : M (option Z) :=
  if prop_id =? MQTT_PUB_PAYLOAD_FORMAT_INDICATOR_ID then
    v <- unpack_byte ;;
    upd_received_publish (set_rp_payload_format_indicator v) ;;
    ret (Some (u32 (prop_len - 1)))
  else if prop_id =? MQTT_PUB_MESSAGE_EXPIRY_INTERVAL_ID then
    v <- unpack_dword ;;
    upd_received_publish (set_rp_message_expiry_interval v) ;;
    ret (Some (u32 (prop_len - 4)))
  else if prop_id =? MQTT_PUB_TOPIC_ALIAS_ID then
    v <- unpack_word ;;
    upd_received_publish (set_rp_topic_alias v) ;;
    ret (Some (u32 (prop_len - 2)))
  else if prop_id =? MQTT_PUB_RESPONSE_TOPIC_ID then
    s <- unpack_string ;;
    upd_received_publish (set_rp_response_topic s) ;;
    ret (Some (u32 (prop_len - STRLEN s)))
  else if prop_id =? MQTT_PUB_CORRELATION_DATA_ID then
    data_len <- unpack_word ;;
    bs <- unpack_bytes (Z.to_nat data_len) ;;
    when ((0 <? data_len) && (data_len <=? MQTT_CORELATION_DATA_MAXIMUM))
         (upd_received_publish
            (set_rp_correlation_data
               (Build_blob (Some (bs ++ repeat 0 (Z.to_nat MQTT_CORELATION_DATA_MAXIMUM
                                                  - length bs)))
                           data_len MQTT_CORELATION_DATA_MAXIMUM))) ;;
    ret (Some (u32 (prop_len - (data_len + 2))))
  else if prop_id =? MQTT_PUB_CONTENT_TYPE_ID then
    s <- unpack_string ;;
    upd_received_publish (set_rp_content_type s) ;;
    ret (Some (u32 (prop_len - STRLEN s)))
  else if prop_id =? MQTT_PUB_SUBSCRIPTION_IDENTIFIER_ID then
    v <- unpack_variable_size ;;
    upd_received_publish (set_rp_subscription_identifier v) ;;
    ret (Some (u32 (prop_len - get_variable_size_byte_count v)))
  else if prop_id =? MQTT_PUB_USER_PROPERTY_ID then
    user_property_case PUBLISH prop_len
  else ret None.

Definition process_publish_properties (prop_len : Z) : M status :=
  process_properties publish_property prop_len.

(** The [cleanup:] label of [process_publish]. *)
Definition publish_cleanup (result : status) : M status :=
  when (FAILED result)
       (upd_received_publish
          (fun r => set_rp_content_type None
                      (set_rp_response_topic None (set_rp_topic None r)))) ;;
  ret result.

Definition process_publish (fixed_header_flags : Z) : M status :=
  modify (set_received_publish received_publish_zero) ;;
  topic <- unpack_string ;;
  match topic with
  | None => ret ERROR_MALFORMED_PACKET
  | Some t =>
      if negb (is_valid_utf8 char_is_signed t (strlen t)) then ret ERROR_INVALID_ENCODING
      else
        upd_received_publish (set_rp_topic topic) ;;
        let qos := Z.land (Z.shiftr fixed_header_flags 1) 0x03 in
        upd_received_publish (set_rp_qos qos) ;;
        upd_received_publish (set_rp_dup (nonzero (Z.land fixed_header_flags 0x08))) ;;
        upd_received_publish (set_rp_retain (nonzero (Z.land fixed_header_flags 0x01))) ;;
        when (0 <? qos)
             (id <- unpack_word ;; upd_received_publish (set_rp_packet_id id)) ;;
        prop_len <- unpack_variable_size ;;
        result <- (if 0 <? prop_len then process_publish_properties prop_len else ret OK) ;;
        if FAILED result then publish_cleanup result
        else
          st <- get ;;
          when (bytes_consumed st <? pbuf_len (inp st))
               (upd_received_publish
                  (set_rp_payload
                     (Build_blob (Some (skipn (pin st) (pbuf_payload (inp st))))
                                 (u16 (pbuf_len (inp st) - bytes_consumed st)) 0))) ;;
          st <- get ;;
          let r := received_publish st in
          if (rp_payload_format_indicator r =? 1)
             && is_set (blob_data (rp_payload r)) && (0 <? blob_len (rp_payload r))
             && negb (is_valid_utf8 char_is_signed
                        (match blob_data (rp_payload r) with Some d => d | None => [] end)
                        (blob_len (rp_payload r)))
          then publish_cleanup ERROR_INVALID_ENCODING
          else
            (if qos =? 1 then mqtt_puback (rp_packet_id r) ;; ret tt
             else if qos =? 2 then mqtt_pubrec (rp_packet_id r) ;; ret tt
             else ret tt) ;;
            modify (set_message_available true) ;;
            mqtt_received_publish ;;
            publish_cleanup result
  end.

Definition suback_property (prop_id prop_len : Z) : M (option Z) :=
  if prop_id =? MQTT_REASON_STRING_ID then
    string_case (fun s =>
      mqtt_user_property SUBACK
        (Some [114; 101; 97; 115; 111; 110; 95; 115; 116; 114; 105; 110; 103]) s) prop_len
  else if prop_id =? MQTT_USER_PROPERTY_ID then user_property_case SUBACK prop_len
  else ret None.

Definition process_suback_properties (prop_len : Z) : M status :=
  process_properties suback_property prop_len.

(** The loop of [process_suback] over the reason codes. *)
Fixpoint suback_reason_codes (n : nat) (id sub_num : Z) : M unit :=
  match n with
  | O => ret tt
  | S n' =>
      reason_code <- unpack_byte ;;
      if reason_code <=? MQTT_REASON_GRANTED_QOS_2 then
        mqtt_subscription_granted id sub_num ;;
        suback_reason_codes n' id (sub_num + 1)
      else if 0x80 <=? reason_code then
        mqtt_subscription_declined id sub_num reason_code ;;
        suback_reason_codes n' id (sub_num + 1)
      else suback_reason_codes n' id sub_num
  end.

Definition process_suback : M status :=
  id <- unpack_word ;;
  st <- get ;;
  if negb (ptype_eqb (get_expected_packet_answer st id) SUBACK)
  then ret ERROR_UNEXPECTED_PACKET_TYPE
  else
    prop_len <- unpack_variable_size ;;
    result <- (if 0 <? prop_len then process_suback_properties prop_len else ret OK) ;;
    if FAILED result then ret result
    else
      st <- get ;;
      let remaining_bytes := u32 (pbuf_len (inp st) - bytes_consumed st) in
      suback_reason_codes (Z.to_nat remaining_bytes) id 0 ;;
      free_packet_slot id ;;
      st <- get ;;
      when (negb (await_for_packet st SUBACK)) (unexpect SUBACK) ;;
      ret result.

Definition upd_disconn (f : mqtt_disconn_info -> mqtt_disconn_info) : M unit :=
  modify (fun st => set_disconn (f (disconn st)) st).

Definition disconnect_property (prop_id prop_len : Z) : M (option Z) :=
  if prop_id =? MQTT_DISC_SESSION_EXPIRY_INTERVAL_ID then
    v <- unpack_dword ;;
    upd_disconn (set_disconn_session_expiry_interval v) ;;
    ret (Some (u32 (prop_len - 4)))
  else if prop_id =? MQTT_REASON_STRING_ID then
    string_case (fun s => upd_disconn (set_disconn_reason_string s)) prop_len
  else if prop_id =? MQTT_DISC_SERVER_REFERENCE_ID then
    string_case (fun s => upd_disconn (set_disconn_server_reference s)) prop_len
  else if prop_id =? MQTT_USER_PROPERTY_ID then user_property_case DISCONNECT prop_len
  else ret None.

Definition process_disconnect_properties (prop_len : Z) : M status :=
  process_properties disconnect_property prop_len.

Definition process_disconnect : M status :=
  modify (set_disconn disconn_zero) ;;
  reason <- unpack_byte ;;
  upd_disconn (set_disconn_reason_code reason) ;;
  st <- get ;;
  result <-
    (if bytes_consumed st <? pbuf_len (inp st) then
       prop_len <- unpack_variable_size ;;
       if 0 <? prop_len then process_disconnect_properties prop_len else ret OK
     else ret OK) ;;
  if FAILED result then
    upd_disconn (fun d => set_disconn_server_reference None
                            (set_disconn_reason_string None d)) ;;
    ret result
  else
    modify (set_connected false) ;;
    modify (set_expected_ptypes (BIT (ptype_code PINGREQ))) ;;
    st <- get ;;
    mqtt_received_disconnect (disconn_reason_code (disconn st)) ;;
    net_close_conn ;;
    ret result.

(** The four acknowledgement parsers work on their own struct; [geta]
    and [seta] select it. *)
Section Ack.

Variable type : mqtt_packet_type.
Variable geta : mqtt_client -> mqtt_ack_info.
Variable seta : mqtt_ack_info -> mqtt_client -> mqtt_client.

Definition upd_ack (f : mqtt_ack_info -> mqtt_ack_info) : M unit :=
  modify (fun st => seta (f (geta st)) st).

(** [process_puback_properties] and its three siblings. *)
Definition ack_property (prop_id prop_len : Z) : M (option Z) :=
  if prop_id =? MQTT_REASON_STRING_ID then
    string_case (fun s => upd_ack (set_ack_reason_string s)) prop_len
  else if prop_id =? MQTT_USER_PROPERTY_ID then user_property_case type prop_len
  else ret None.

Definition process_ack_properties (prop_len : Z) : M status :=
  process_properties ack_property prop_len.

(** The part the four parsers share: clear the struct, read the
    packet identifier, check the pending table, read the optional
    reason code and properties.  [inr r] is an immediate [return r]
    (after the [cleanup:] label where the source jumps to it);
    [inl id] continues with the rest of the function. *)
Definition process_ack_head : M (Z + status) :=
  modify (seta ack_zero) ;;
  id <- unpack_word ;;
  upd_ack (set_ack_packet_id id) ;;
  st <- get ;;
  if negb (ptype_eqb (get_expected_packet_answer st id) type)
  then ret (inr ERROR_UNEXPECTED_PACKET_TYPE)
  else
    result <-
      (if bytes_consumed st <? pbuf_len (inp st) then
         reason_code <- unpack_byte ;;
         upd_ack (set_ack_reason_code reason_code) ;;
         st <- get ;;
         if bytes_consumed st <? pbuf_len (inp st) then
           prop_len <- unpack_variable_size ;;
           if 0 <? prop_len then process_ack_properties prop_len else ret OK
         else ret OK
       else
         upd_ack (set_ack_reason_code 0) ;;
         ret OK) ;;
    if FAILED result then
      upd_ack (set_ack_reason_string None) ;;
      ret (inr result)
    else ret (inl id).

End Ack.

Definition process_puback : M status :=
  h <- process_ack_head PUBACK puback set_puback ;;
  match h with
  | inr result => ret result
  | inl id =>
      free_packet_slot id ;;
      st <- get ;;
      when (negb (await_for_packet st PUBACK)) (unexpect PUBACK) ;;
      mqtt_publish_acknowledged id (ack_reason_code (puback st)) ;;
      ret OK
  end.

Definition process_pubrec : M status :=
  h <- process_ack_head PUBREC pubrec set_pubrec ;;
  match h with
  | inr result => ret result
  | inl id =>
      modify (fun st => set_pending (advance_slot (pending st) id PUBCOMP) st) ;;
      st <- get ;;
      when (negb (await_for_packet st PUBREC)) (unexpect PUBREC) ;;
      expect PUBCOMP ;;
      result <- mqtt_pubrel id ;;
      when (FAILED result)
           (modify (fun st => set_pubrec (set_ack_reason_string None (pubrec st)) st)) ;;
      ret result
  end.

Definition process_pubrel : M status :=
  h <- process_ack_head PUBREL pubrel set_pubrel ;;
  match h with
  | inr result => ret result
  | inl id =>
      free_packet_slot id ;;
      st <- get ;;
      when (negb (await_for_packet st PUBREL)) (unexpect PUBREL) ;;
      result <- mqtt_pubcomp id ;;
      when (FAILED result)
           (modify (fun st => set_pubrel (set_ack_reason_string None (pubrel st)) st)) ;;
      ret result
  end.

Definition process_pubcomp : M status :=
  h <- process_ack_head PUBCOMP pubcomp set_pubcomp ;;
  match h with
  | inr result => ret result
  | inl id =>
      free_packet_slot id ;;
      st <- get ;;
      when (negb (await_for_packet st PUBCOMP)) (unexpect PUBCOMP) ;;
      mqtt_publish_completed id (ack_reason_code (pubcomp st)) ;;
      ret OK
  end.

Definition upd_unsuback (f : mqtt_unsuback_info -> mqtt_unsuback_info) : M unit :=
  modify (fun st => set_unsuback (f (unsuback st)) st).

Definition unsuback_property (prop_id prop_len : Z) : M (option Z) :=
  if prop_id =? MQTT_REASON_STRING_ID then
    string_case (fun s => upd_unsuback (set_unsuback_reason_string s)) prop_len
  else if prop_id =? MQTT_USER_PROPERTY_ID then user_property_case UNSUBACK prop_len
  else ret None.

Definition process_unsuback_properties (prop_len : Z) : M status :=
  process_properties unsuback_property prop_len.

Definition process_unsuback : M status :=
  modify (set_unsuback unsuback_zero) ;;
  id <- unpack_word ;;
  upd_unsuback (set_unsuback_packet_id id) ;;
  st <- get ;;
  if negb (ptype_eqb (get_expected_packet_answer st id) UNSUBACK)
  then ret ERROR_UNEXPECTED_PACKET_TYPE
  else
    prop_len <- unpack_variable_size ;;
    result <- (if 0 <? prop_len then process_unsuback_properties prop_len else ret OK) ;;
    if FAILED result then ret result
    else
      st <- get ;;
      let remaining_bytes := u32 (pbuf_len (inp st) - bytes_consumed st) in
      when (0 <? remaining_bytes)
           (codes <- unpack_bytes (Z.to_nat remaining_bytes) ;;
            upd_unsuback (set_unsuback_reason_codes codes)) ;;
      free_packet_slot id ;;
      st <- get ;;
      when (negb (await_for_packet st UNSUBACK)) (unexpect UNSUBACK) ;;
      ret result.

Definition process_packet (type : mqtt_packet_type) (flags : Z) : M status :=
  match type with
  | CONNACK => process_connack
  | PUBLISH => process_publish flags
  | PUBACK => process_puback
  | PUBREC => process_pubrec
  | PUBREL => process_pubrel
  | PUBCOMP => process_pubcomp
  | SUBACK => process_suback
  | UNSUBACK => process_unsuback
  | DISCONNECT => process_disconnect
  | PINGREQ => mqtt_ping
  | PINGRESP => mqtt_ping_received ;; ret OK
  | _ => ret OK
  end.

(** *** Final API functions *)

(** [data] with [len = length data]; an empty [data] stands for the
    call [mqtt_process_packet(stat, NULL, 0)], which keeps [stat->inp]. *)
Definition mqtt_process_packet (data : list Z) : M status :=
  when (negb (length data =? 0)%nat)
       (modify (set_inp (Build_pbuf data (Z.of_nat (length data))))) ;;
  modify (set_pin 0%nat) ;;
  fixed_header <- unpack_byte ;;
  let type := Z.shiftr fixed_header 4 in
  remaining_len <- unpack_variable_size ;;
  st <- get ;;
  if remaining_len =? pbuf_len (inp st) - get_variable_size_byte_count remaining_len - 1
  then
    if TST (expected_ptypes st) (BIT type)
    then process_packet (ptype_of_code type) (Z.land fixed_header 0x0f)
    else ret ERROR_UNEXPECTED_PACKET_TYPE
  else ret ERROR_INVALID_PACKET_SIZE.

(** [mqtt_create_client]: the zeroed struct with the transport assigned
    and [expected_ptypes = BIT(PINGREQ)]. *)
Definition mqtt_create_client (n : mqtt_net_api) : mqtt_client :=
  set_expected_ptypes (BIT (ptype_code PINGREQ)) (client_zero n).

(** [mqtt_set_basic_auth] of [mqtt.h]. *)
Definition mqtt_set_basic_auth (user passwd : cstring) (st : mqtt_client) : mqtt_client :=
  set_connect
    (set_connect_passwd passwd
       (set_connect_user user
          (set_connect_un_flag true (set_connect_pw_flag true (connect st))))) st.

(** [mqtt_connect]; [client_id] is what [get_unique_client_id()]
    returns. *)
Definition mqtt_connect (client_id : cstring) (keep_alive session_expiry : Z)
    (clean_start : bool) : M status :=
  st <- get ;;
  let result := validate_connect_utf8_strings char_is_signed st in
  if SUCCESSFUL result then
    modify (fun st =>
      set_connect
        (set_connect_recv_max (Z.of_nat MQTT_RECEIVE_MAXIMUM)
           (set_connect_client_id client_id
              (set_connect_clean_start clean_start
                 (set_connect_session_expiry_interval session_expiry
                    (set_connect_keep_alive keep_alive (connect st)))))) st) ;;
    if negb (is_set client_id) then ret ERROR_NULL_REFERENCE
    else
      modify (set_pout None) ;;
      make_connect ;;
      result <- net_alloc_send_buf ;;
      if FAILED result then ret result
      else
        modify (set_pout (Some [])) ;;
        make_connect ;;
        result <- net_open_conn ;;
        if FAILED result then net_free_send_buf ;; ret result
        else
          st <- get ;;
          when (negb (net_connected (net st)))
               (modify (fun st => set_connect (set_connect_deferred true (connect st)) st)) ;;
          result <- net_send ;;
          if FAILED result then net_free_send_buf ;; net_close_conn ;; ret result
          else
            result <- (if status_eqb result STATUS_PENDING then ret result
                       else net_free_send_buf) ;;
            if FAILED result then net_close_conn ;; ret result
            else expect CONNACK ;; ret result
  else ret result.

Definition mqtt_disconnect (reason_code : Z) : M status :=
  st <- get ;;
  let result := validate_disconnect_utf8_strings char_is_signed st in
  if SUCCESSFUL result then
    modify (fun st => set_disconn (set_disconn_reason_code reason_code (disconn st)) st) ;;
    modify (set_pout None) ;;
    make_disconnect ;;
    result <- net_alloc_send_buf ;;
    if FAILED result then ret result
    else
      modify (set_pout (Some [])) ;;
      make_disconnect ;;
      result <- net_send ;;
      if FAILED result then net_free_send_buf ;; ret result
      else
        result <- net_free_send_buf ;;
        if FAILED result then net_close_conn ;; ret result
        else
          modify (set_connected false) ;;
          modify (set_expected_ptypes (BIT (ptype_code PINGREQ))) ;;
          net_close_conn
  else ret result.

(** [mqtt_publish]; the message struct is the caller's, so the call
    returns it too ([packet_id] is stamped on it for QoS > 0). *)
Definition mqtt_publish (msg : mqtt_pub_packet_t) : M (status * mqtt_pub_packet_t) :=
  st <- get ;;
  if negb (connected st) then ret (ERROR_NOT_CONNECTED, msg)
  else
    let result := validate_publish_utf8_strings char_is_signed st msg in
    if FAILED result then ret (result, msg)
    else if 2 <? msg_qos msg then ret (ERROR_INVALID_QOS, msg)
    else if connack_max_qos (connack st) <? msg_qos msg
    then ret (ERROR_QOS_NOT_SUPPORTED, msg)
    else if msg_retain msg && negb (connack_retain_avail (connack st))
    then ret (ERROR_RETAIN_NOT_SUPPORTED, msg)
    else
      match msg_topic msg with
      | None => undefined
      | Some topic =>
          if strstr1 topic 43 || strstr1 topic 35 then ret (ERROR_INVALID_TOPIC, msg)
          else
            r <- (if 0 <? msg_qos msg
                  then reserve_packet_slot_for_answer
                         (if msg_qos msg =? 2 then PUBREC else PUBACK)
                  else ret (inl (msg_packet_id msg))) ;;
            match r with
            | inr error => ret (error, msg)
            | inl id =>
                let msg := if 0 <? msg_qos msg then set_msg_packet_id (u16 id) msg
                           else msg in
                result <- two_pass_send (make_publish msg) ;;
                when (SUCCESSFUL result)
                     (if msg_qos msg =? 1 then expect PUBACK
                      else if msg_qos msg =? 2 then expect PUBREC
                      else ret tt) ;;
                ret (result, msg)
            end
      end.

(** The per-entry checks of [mqtt_subscribe]: the first failing entry
    decides. *)
Fixpoint validate_sub_entries (st : mqtt_client) (entries : list mqtt_sub_entry)
  : status :=
  match entries with
  | [] => OK
  | e :: rest =>
      match sub_topic e with
      | None => ERROR_NULL_REFERENCE
      | Some topic =>
          if 2 <? sub_qos e then ERROR_INVALID_QOS
          else if connack_max_qos (connack st) <? sub_qos e then ERROR_QOS_NOT_SUPPORTED
          else if (strstr1 topic 43 || strstr1 topic 35)
                  && negb (connack_wildcard_sub_avail (connack st))
          then ERROR_UNSUPPORTED
          else if has_prefix topic [36; 115; 104; 97; 114; 101; 47]
                  && negb (connack_shared_sub_avail (connack st))
          then ERROR_UNSUPPORTED
          else if 2 <? sub_retain_handling e then ERROR_UNSUPPORTED
          else validate_sub_entries st rest
      end
  end.

Definition mqtt_subscribe (entries : list mqtt_sub_entry) : M status :=
  st <- get ;;
  if (length entries =? 0)%nat then ret ERROR_NULL_REFERENCE
  else if negb (connected st) then ret ERROR_NOT_CONNECTED
  else
    modify (fun st => set_subscribe (set_subscribe_entries entries (subscribe st)) st) ;;
    r <- reserve_packet_slot_for_answer SUBACK ;;
    match r with
    | inr error => ret error
    | inl id =>
        modify (fun st => set_subscribe (set_subscribe_packet_id (u16 id) (subscribe st)) st) ;;
        st <- get ;;
        let result := validate_subscribe_utf8_strings char_is_signed st in
        if FAILED result then ret result
        else
          let result := validate_sub_entries st entries in
          if FAILED result then ret result
          else
            result <- two_pass_send make_subscribe ;;
            when (SUCCESSFUL result) (expect SUBACK) ;;
            ret result
    end.

(** The per-entry checks of [mqtt_unsubscribe]. *)
Fixpoint validate_unsub_entries (entries : list mqtt_sub_entry) : status :=
  match entries with
  | [] => OK
  | e :: rest =>
      match sub_topic e with
      | None => ERROR_NULL_REFERENCE
      | Some topic =>
          if negb (is_valid_utf8 char_is_signed topic (strlen topic))
          then ERROR_INVALID_ENCODING
          else validate_unsub_entries rest
      end
  end.

Definition mqtt_unsubscribe (entries : list mqtt_sub_entry) : M status :=
  st <- get ;;
  if (length entries =? 0)%nat then ret ERROR_NULL_REFERENCE
  else if negb (connected st) then ret ERROR_NOT_CONNECTED
  else
    modify (fun st =>
      set_unsubscribe (set_unsubscribe_entries entries (unsubscribe st)) st) ;;
    r <- reserve_packet_slot_for_answer UNSUBACK ;;
    match r with
    | inr error => ret error
    | inl id =>
        modify (fun st =>
          set_unsubscribe (set_unsubscribe_packet_id (u16 id) (unsubscribe st)) st) ;;
        st <- get ;;
        let result := validate_unsubscribe_utf8_strings char_is_signed st in
        if FAILED result then ret result
        else
          let result := validate_unsub_entries entries in
          if FAILED result then ret result
          else
            result <- two_pass_send make_unsubscribe ;;
            when (SUCCESSFUL result) (expect UNSUBACK) ;;
            ret result
    end.

End Engine.

(** * Definitions used by the statements *)

(** ** Evaluation support *)

(** A transport on which every call succeeds. *)
Definition net_ok : mqtt_net_api :=
  Build_net_api true OK OK (fun _ => OK) OK (fun _ => OK).

(** The state a call leaves; the state itself when the call is undefined. *)
Definition exec {A : Type} (m : M A) (st : mqtt_client) : mqtt_client :=
  match m st with
  | Done _ st' => st'
  | Undefined => st
  end.

(** The cursor put at the start of a receive buffer holding [data]. *)
Definition receive (data : list Z) (st : mqtt_client) : mqtt_client :=
  set_pin 0%nat (set_inp (Build_pbuf data (Z.of_nat (length data))) st).

(** The pure counterpart of [pack_variable_size_loop]: the bytes it
    appends. *)
Fixpoint varint_bytes_loop (rounds : nat) (size : Z) : list Z :=
  match rounds with
  | O => []
  | S rounds' =>
      let encoded := Z.land size 0x7f in
      let size := Z.shiftr size 7 in
      let encoded := if 0 <? size then Z.lor encoded 0x80 else encoded in
      u8 encoded :: (if 0 <? size then varint_bytes_loop rounds' size else [])
  end.

Definition varint_bytes (size : Z) : list Z := varint_bytes_loop 5 size.


(** The session of the scenarios: a client created on [net_ok], connected
    with client identifier "MQ" (keep-alive 60, clean start), that has
    processed the CONNACK [20 03 00 00 00]. *)
Definition connected_session (char_is_signed : bool) : mqtt_client :=
  exec (mqtt_process_packet char_is_signed [0x20; 0x03; 0x00; 0x00; 0x00])
       (exec (mqtt_connect char_is_signed (Some [77; 81]) 60 0 true)
             (mqtt_create_client net_ok)).

(** ** The pending table as the specification presents it *)

(** The four operations of section 4.6.  [advance] is the loop of
    [process_pubrec], which runs only after
    [get_expected_packet_answer] returned [PUBREC] for the identifier. *)
Inductive pending_op : Type :=
| reserve_for_outbound (await : mqtt_packet_type)
| reserve_for_inbound (id : Z) (await : mqtt_packet_type)
| advance (id : Z)
| release (id : Z).

Definition apply_pending_op (st : mqtt_client) (op : pending_op) : mqtt_client :=
  match op with
  | reserve_for_outbound await => exec (reserve_packet_slot_for_answer await) st
  | reserve_for_inbound id await => exec (reserve_packet_slot_for_request id await) st
  | advance id =>
      if ptype_eqb (get_expected_packet_answer st id) PUBREC
      then set_pending (advance_slot (pending st) id PUBCOMP) st
      else st
  | release id => exec (free_packet_slot id) st
  end.

Definition run_pending_ops (ops : list pending_op) (st : mqtt_client) : mqtt_client :=
  fold_left apply_pending_op ops st.

(** The packet identifiers of the live entries, in table order. *)
Definition live_ids (slots : list mqtt_pending) : list Z :=
  filter nonzero (map packet_id slots).

(** The number of free slots. *)
Definition free_slots (slots : list mqtt_pending) : nat :=
  length (filter (fun p => packet_id p =? 0) slots).

Definition pending_inv (st : mqtt_client) : Prop :=
  length (pending st) = MQTT_RECEIVE_MAXIMUM
  /\ 0 <= packet_id_count st <= 65535
  /\ Forall (fun p => packet_id p = 0 -> await_packet_type p = UNKNOWN) (pending st).

(** The strings "u", "p", "k", "v" and "MQ". *)
Definition str_u : cstring := Some [117].
Definition str_p : cstring := Some [112].
Definition str_k : cstring := Some [107].
Definition str_v : cstring := Some [118].
Definition str_MQ : cstring := Some [77; 81].

(** A [char] holds a byte. *)
Definition is_byte (b : Z) : Prop := 0 <= b <= 255.

(** The message of scenario S1: topic "a/b", payload "hi". *)
Definition msg_hi (qos : Z) : mqtt_pub_packet_t :=
  Build_pub_packet (Some [0x61; 0x2F; 0x62]) (Build_blob (Some [0x68; 0x69]) 2 0)
    qos false false 0.

(** The same message on the topic "a/+". *)
Definition msg_plus (qos : Z) : mqtt_pub_packet_t :=
  Build_pub_packet (Some [0x61; 0x2F; 0x2B]) (Build_blob (Some [0x68; 0x69]) 2 0)
    qos false false 0.

(** A well-formed PUBLISH of 131 bytes: fixed header 30, remaining length
    128 encoded as 80 01, topic "a", no properties, 124 payload bytes. *)
Definition publish_131 : list Z :=
  [0x30; 0x80; 0x01; 0x00; 0x01; 0x61; 0x00] ++ repeat 0x41 124.

(** ** The bytes of the builders, as pure functions *)

(** [emits_on st m bs]: run with a write cursor on a state that is [st]
    up to the cursor, [m] appends [bs] and changes nothing else. *)
Definition emits_on (st : mqtt_client) (m : M unit) (bs : list Z) : Prop :=
  forall w : list Z,
    m (set_pout (Some w) st) = Done tt (set_pout (Some (w ++ bs)) st).

Definition word_bytes (data : Z) : list Z := [u8 (Z.shiftr data 8); u8 data].

Definition dword_bytes (data : Z) : list Z :=
  [u8 (Z.shiftr data 24); u8 (Z.shiftr data 16); u8 (Z.shiftr data 8); u8 data].

(** What [pack_string] writes for a non-NULL string. *)
Definition string_bytes (d : list Z) : list Z :=
  word_bytes (u16 (strlen d)) ++ map u8 (firstn (Z.to_nat (u16 (strlen d))) (c_str d)).

Definition cstring_bytes (s : cstring) : list Z :=
  match s with
  | Some d => string_bytes d
  | None => []
  end.

(** What [pack_binary] writes. *)
Definition blob_bytes (b : mqtt_blob) : list Z :=
  word_bytes (u16 (blob_len b))
  ++ match blob_data b with
     | Some d => map u8 (firstn (Z.to_nat (u16 (blob_len b))) d)
     | None => []
     end.

(** A blob whose pointer, when set, has the bytes its length announces. *)
Definition blob_ok (b : mqtt_blob) : Prop :=
  match blob_data b with
  | Some d => (Z.to_nat (u16 (blob_len b)) <= length d)%nat
  | None => True
  end.

Definition user_props_ok (props : list mqtt_user_property_t) : Prop :=
  Forall (fun p => is_set (up_key p) = true /\ is_set (up_value p) = true) props.

Definition user_props_bytes (id : Z) (props : list mqtt_user_property_t) : list Z :=
  flat_map (fun p => [u8 id] ++ cstring_bytes (up_key p) ++ cstring_bytes (up_value p))
           props.

Definition fixed_header_bytes (type : mqtt_packet_type) (flags len : Z) : list Z :=
  u8 (Z.lor (Z.shiftl (Z.land (ptype_code type) 0x0f) 4) (Z.land flags 0x0f))
  :: varint_bytes len.

Definition ack_props_bytes (a : mqtt_ack_info) : list Z :=
  varint_bytes (estimate_ack_prop_size a)
  ++ (if is_set (ack_reason_string a)
      then [u8 MQTT_REASON_STRING_ID] ++ cstring_bytes (ack_reason_string a) else [])
  ++ user_props_bytes MQTT_USER_PROPERTY_ID (ack_user_properties a).

(** [rsize] as [make_puback] and its siblings compute it. *)
Definition ack_rsize (a : mqtt_ack_info) : Z :=
  if 0 <? estimate_ack_prop_size a
  then add32 (2 + 1)
             (get_variable_size_byte_count (estimate_ack_prop_size a)
              + estimate_ack_prop_size a)
  else add32 (2 + 1) 1.

Definition packet_size_of (rsize : Z) : Z := u32 (rsize + estimate_fixed_header_size rsize).

Definition ack_bytes (type : mqtt_packet_type) (flags : Z) (a : mqtt_ack_info) : list Z :=
  fixed_header_bytes type flags (ack_rsize a)
  ++ word_bytes (ack_packet_id a) ++ [u8 (ack_reason_code a)] ++ ack_props_bytes a.

Definition pingreq_bytes : list Z := fixed_header_bytes PINGREQ 0 0.

Definition publish_props_bytes (st : mqtt_client) : list Z :=
  let p := publish st in
  varint_bytes (estimate_publish_prop_size st)
  ++ (if nonzero (publish_payload_format_indicator p)
      then [u8 MQTT_PUB_PAYLOAD_FORMAT_INDICATOR_ID; u8 (publish_payload_format_indicator p)]
      else [])
  ++ (if nonzero (publish_message_expiry_interval p)
      then [u8 MQTT_PUB_MESSAGE_EXPIRY_INTERVAL_ID]
           ++ dword_bytes (publish_message_expiry_interval p)
      else [])
  ++ (if is_set (publish_content_type p)
      then [u8 MQTT_PUB_CONTENT_TYPE_ID] ++ cstring_bytes (publish_content_type p)
      else [])
  ++ (if is_set (publish_response_topic p)
      then [u8 MQTT_PUB_RESPONSE_TOPIC_ID] ++ cstring_bytes (publish_response_topic p)
      else [])
  ++ (if nonzero (blob_len (publish_correlation_data p))
      then [u8 MQTT_PUB_CORRELATION_DATA_ID] ++ blob_bytes (publish_correlation_data p)
      else [])
  ++ (if nonzero (publish_topic_alias p)
      then [u8 MQTT_PUB_TOPIC_ALIAS_ID] ++ word_bytes (publish_topic_alias p)
      else [])
  ++ (if nonzero (publish_subscription_identifier p)
      then [u8 MQTT_PUB_SUBSCRIPTION_IDENTIFIER_ID]
           ++ varint_bytes (publish_subscription_identifier p)
      else [])
  ++ user_props_bytes MQTT_PUB_USER_PROPERTY_ID (publish_user_properties p).

(** [rsize] and the header flags as [make_publish] computes them. *)
Definition publish_rsize (st : mqtt_client) (msg : mqtt_pub_packet_t) : Z :=
  let prop_size := estimate_publish_prop_size st in
  let rsize := u32 (STRLEN (msg_topic msg) + get_variable_size_byte_count prop_size
                    + prop_size) in
  let rsize := if 0 <? msg_qos msg then add32 rsize 2 else rsize in
  add32 rsize (blob_len (msg_payload msg)).

Definition publish_flags (msg : mqtt_pub_packet_t) : Z :=
  let flags := 0 in
  let flags := if msg_dup msg then SET flags (BIT 3) else flags in
  let flags := if msg_retain msg then SET flags (BIT 0) else flags in
  Z.lor flags (Z.shiftl (Z.land (msg_qos msg) 0x03) 1).

Definition payload_bytes (b : mqtt_blob) : list Z :=
  match blob_data b with
  | Some d => if 0 <? blob_len b then map u8 (firstn (Z.to_nat (blob_len b)) d) else []
  | None => []
  end.

Definition publish_bytes (st : mqtt_client) (msg : mqtt_pub_packet_t) : list Z :=
  fixed_header_bytes PUBLISH (publish_flags msg) (publish_rsize st msg)
  ++ cstring_bytes (msg_topic msg)
  ++ (if 0 <? msg_qos msg then word_bytes (msg_packet_id msg) else [])
  ++ publish_props_bytes st
  ++ payload_bytes (msg_payload msg).

(** The inputs on which [make_publish] runs its second pass without
    leaving defined behaviour: a topic, user properties with key and
    value, blobs as long as they announce. *)
Definition publish_ok (st : mqtt_client) (msg : mqtt_pub_packet_t) : Prop :=
  is_set (msg_topic msg) = true
  /\ user_props_ok (publish_user_properties (publish st))
  /\ blob_ok (publish_correlation_data (publish st))
  /\ match blob_data (msg_payload msg) with
     | Some d => (Z.to_nat (blob_len (msg_payload msg)) <= length d)%nat
     | None => True
     end.

Definition subscribe_props_bytes (st : mqtt_client) : list Z :=
  let s := subscribe st in
  varint_bytes (estimate_subscribe_prop_size st)
  ++ (if nonzero (subscribe_subscription_identifier s)
      then [u8 MQTT_SUB_SUBSCRIPTION_IDENTIFIER_ID]
           ++ varint_bytes (subscribe_subscription_identifier s)
      else [])
  ++ user_props_bytes MQTT_USER_PROPERTY_ID (subscribe_user_properties s).

Definition subscribe_rsize (st : mqtt_client) : Z :=
  let prop_size := estimate_subscribe_prop_size st in
  fold_left (fun rsize e => add32 rsize (STRLEN (sub_topic e) + 1))
            (subscribe_entries (subscribe st))
            (u32 (2 + get_variable_size_byte_count prop_size + prop_size)).

Definition sub_options (e : mqtt_sub_entry) : Z :=
  let options := 0 in
  let options := Z.lor options (Z.land (sub_qos e) 0x03) in
  let options := if nonzero (sub_no_local e) then Z.lor options 0x04 else options in
  let options := if nonzero (sub_retain_as_published e)
                 then Z.lor options 0x08 else options in
  Z.lor options (Z.shiftl (Z.land (sub_retain_handling e) 0x03) 4).

Definition subscribe_bytes (st : mqtt_client) : list Z :=
  fixed_header_bytes SUBSCRIBE 0x02 (subscribe_rsize st)
  ++ word_bytes (subscribe_packet_id (subscribe st))
  ++ subscribe_props_bytes st
  ++ flat_map (fun e => cstring_bytes (sub_topic e) ++ [u8 (sub_options e)])
              (subscribe_entries (subscribe st)).

Definition subscribe_ok (st : mqtt_client) : Prop :=
  user_props_ok (subscribe_user_properties (subscribe st))
  /\ Forall (fun e => is_set (sub_topic e) = true) (subscribe_entries (subscribe st)).

(** The state a sending function leaves when the allocation failed, and
    when the buffer [buf] was handed to the transport. *)
Definition after_alloc_failure (size : Z) (st : mqtt_client) : mqtt_client :=
  set_outp (Build_pbuf [] 0) (set_packet_size size (set_pout None st)).

Definition after_send (buf : mqtt_pbuf) (st : mqtt_client) : mqtt_client :=
  set_outp (Build_pbuf [] 0)
    (set_wire (wire st ++ [buf])
       (set_packet_size (pbuf_len buf) (set_pout (Some (pbuf_payload buf)) st))).

(** The shape every builder has: the size from the state alone, the
    bytes only with a cursor. *)
Definition builder (make : M unit) (ok : mqtt_client -> Prop)
    (size : mqtt_client -> Z) (bytes : mqtt_client -> list Z) : Prop :=
  (forall st, make (set_pout None st) = Done tt (set_packet_size (size st) (set_pout None st)))
  /\ (forall st w, ok st ->
        make (set_pout (Some w) st)
        = Done tt (set_packet_size (size st) (set_pout (Some (w ++ bytes st)) st))).

(** A function of the state that does not look at the cursor, the send
    buffer or the stored packet size. *)
Definition session_only {A : Type} (f : mqtt_client -> A) : Prop :=
  forall st o p q, f (set_outp o (set_packet_size p (set_pout q st))) = f st.


(** An acknowledgement packet with reason code and no property list:
    fixed-header byte [h], remaining length 3, packet identifier, reason
    code (scenario S3 writes PUBREC as [50 03 00 01 00]). *)
Definition ack_packet (h id rc : Z) : list Z := h :: 3 :: word_bytes id ++ [rc].

(** ** The QoS 2 outbound flow *)





(** ** Publish and subscribe *)

(** What [mqtt_publish] does with a message that passed the checks and
    carries its packet identifier: the two passes, the send, and the
    mask extended by the acknowledgement the QoS calls for. *)
Definition publish_sent (msg : mqtt_pub_packet_t) (st : mqtt_client)
  : outcome (status * mqtt_pub_packet_t) :=
  let size := packet_size_of (publish_rsize st msg) in
  let result := alloc_send_buf (net st) size in
  if FAILED result then Done (result, msg) (after_alloc_failure size st)
  else
    let buf := Build_pbuf (publish_bytes st msg) size in
    let result := send (net st) buf in
    Done (result, msg)
         (if SUCCESSFUL result then
            if msg_qos msg =? 1
            then set_expected_ptypes
                   (Z.lor (expected_ptypes st) (BIT (ptype_code PUBACK))) (after_send buf st)
            else if msg_qos msg =? 2
            then set_expected_ptypes
                   (Z.lor (expected_ptypes st) (BIT (ptype_code PUBREC))) (after_send buf st)
            else after_send buf st
          else after_send buf st).

(** The encoding check of [mqtt_publish] as the specification words it:
    the topic, or a string property the PUBLISH refers to, is not valid
    UTF-8 by the verdict of [is_valid_utf8] (a missing topic counts). *)
Definition publish_encoding_bad (char_is_signed : bool) (st : mqtt_client)
    (msg : mqtt_pub_packet_t) : bool :=
  negb (is_set (msg_topic msg))
  || bad_utf8 char_is_signed (msg_topic msg)
  || bad_utf8 char_is_signed (publish_content_type (publish st))
  || bad_utf8 char_is_signed (publish_response_topic (publish st))
  || existsb (fun p => bad_utf8 char_is_signed (up_key p)
                       || bad_utf8 char_is_signed (up_value p))
             (publish_user_properties (publish st)).

(** The topic contains '+' or '#'. *)
Definition topic_has_wildcard (topic : cstring) : bool :=
  match topic with
  | Some d => existsb (fun c => (c =? 43) || (c =? 35)) (c_str d)
  | None => false
  end.

(** The six errors of the pre-flight checks. *)
Definition preflight_error (s : status) : bool :=
  match s with
  | ERROR_NOT_CONNECTED | ERROR_INVALID_QOS | ERROR_QOS_NOT_SUPPORTED
  | ERROR_RETAIN_NOT_SUPPORTED | ERROR_INVALID_TOPIC | ERROR_INVALID_ENCODING => true
  | _ => false
  end.

(** A transport whose allocation and send report none of them (the
    socket and lwIP transports of the repository are such). *)
Definition transport_clean (n : mqtt_net_api) : Prop :=
  (forall size, preflight_error (alloc_send_buf n size) = false)
  /\ (forall buf, preflight_error (send n buf) = false).

(** The identifier [reserve_packet_slot_for_answer] mints next. *)
Definition next_packet_id (st : mqtt_client) : Z :=
  let count := u16 (packet_id_count st + 1) in
  if count =? 0 then 1 else count.

(** The acknowledgement an outbound PUBLISH of the given QoS awaits. *)
Definition publish_await (qos : Z) : mqtt_packet_type :=
  if qos =? 2 then PUBREC else PUBACK.

(** Transports that refuse every send buffer, and that fail every send. *)
Definition net_no_buf : mqtt_net_api :=
  Build_net_api true OK OK (fun _ => ERROR_OUT_OF_MEMORY) OK (fun _ => OK).
Definition net_no_send : mqtt_net_api :=
  Build_net_api true OK OK (fun _ => OK) OK (fun _ => ERROR_HW_FAILURE).


(** The subscription "a/b" at QoS 0, the same with a missing topic, and
    one whose topic is the encoded surrogate ED A0 80. *)
Definition sub_ab : mqtt_sub_entry := Build_sub_entry 0 0 0 0 (Some [0x61; 0x2F; 0x62]).

(** The session with its transport answering as [n] from now on. *)
Definition with_transport (n : mqtt_net_api) (r : mqtt_client) : mqtt_client :=
  Build_client n (outp r) (inp r) (connect r) (pubrec r) (pubrel r) (pubcomp r) (connack r)
  (disconn r) (publish r) (subscribe r) (unsubscribe r) (unsuback r) (puback r) (pending r)
  (received_publish r) (connected r) (pout r) (pin r) (packet_size r) (expected_ptypes r)
  (packet_id_count r) (message_available r) (wire r) (events r).

(** The connected session over each of the failing transports. *)
Definition session_no_buf : mqtt_client := with_transport net_no_buf (connected_session false).
Definition session_no_send : mqtt_client := with_transport net_no_send (connected_session false).

(** [n] calls of [mqtt_publish] with the same message, one after the
    other. *)
Fixpoint publish_times (n : nat) (char_is_signed : bool) (msg : mqtt_pub_packet_t)
    (st : mqtt_client) : mqtt_client :=
  match n with
  | O => st
  | S n' => publish_times n' char_is_signed msg (exec (mqtt_publish char_is_signed msg) st)
  end.

(** ** UTF-8 as RFC 3629 defines it *)

Definition in_range (lo hi b : Z) : bool := (lo <=? b) && (b <=? hi).

(** [UTF8-tail = %x80-BF]. *)
Definition utf8_tail (b : Z) : bool := in_range 0x80 0xBF b.

(** The second octet of [UTF8-3] and of [UTF8-4], which depends on the
    first: E0 wants A0-BF (no overlong form), ED wants 80-9F (no
    surrogate), F0 wants 90-BF (no overlong form), F4 wants 80-8F
    (nothing above U+10FFFF). *)
Definition utf8_second3 (b0 b1 : Z) : bool :=
  if b0 =? 0xE0 then in_range 0xA0 0xBF b1
  else if b0 =? 0xED then in_range 0x80 0x9F b1
  else utf8_tail b1.

Definition utf8_second4 (b0 b1 : Z) : bool :=
  if b0 =? 0xF0 then in_range 0x90 0xBF b1
  else if b0 =? 0xF4 then in_range 0x80 0x8F b1
  else utf8_tail b1.

(** [UTF8-octets = *( UTF8-char )] with
    [UTF8-1 = %x00-7F], [UTF8-2 = %xC2-DF UTF8-tail],
    [UTF8-3 = %xE0-EF] second octet, tail, and
    [UTF8-4 = %xF0-F4] second octet, tail, tail. *)
Fixpoint rfc3629 (l : list Z) : bool :=
  match l with
  | [] => true
  | b0 :: l1 =>
      if in_range 0x00 0x7F b0 then rfc3629 l1
      else if in_range 0xC2 0xDF b0 then
        match l1 with
        | b1 :: l2 => utf8_tail b1 && rfc3629 l2
        | _ => false
        end
      else if in_range 0xE0 0xEF b0 then
        match l1 with
        | b1 :: b2 :: l3 => utf8_second3 b0 b1 && utf8_tail b2 && rfc3629 l3
        | _ => false
        end
      else if in_range 0xF0 0xF4 b0 then
        match l1 with
        | b1 :: b2 :: b3 :: l4 =>
            utf8_second4 b0 b1 && utf8_tail b2 && utf8_tail b3 && rfc3629 l4
        | _ => false
        end
      else false
  end.

(** The 256 byte values. *)
Definition all_bytes : list Z := map Z.of_nat (seq 0 256).

(** A string that is absent, or whose bytes up to the NUL are RFC 3629
    UTF-8. *)
Definition valid_or_null (s : cstring) : bool :=
  match s with
  | Some d => rfc3629 (c_str d)
  | None => true
  end.

Definition cstring_is_bytes (s : cstring) : Prop :=
  match s with
  | Some d => Forall is_byte d
  | None => True
  end.

(** The strings a PUBLISH refers to: the topic (which must be present),
    the content type, the response topic, and the user properties. *)
Definition publish_strings_valid (st : mqtt_client) (msg : mqtt_pub_packet_t) : bool :=
  is_set (msg_topic msg)
  && valid_or_null (msg_topic msg)
  && valid_or_null (publish_content_type (publish st))
  && valid_or_null (publish_response_topic (publish st))
  && forallb (fun p => valid_or_null (up_key p) && valid_or_null (up_value p))
             (publish_user_properties (publish st)).

Definition publish_strings_are_bytes (st : mqtt_client) (msg : mqtt_pub_packet_t) : Prop :=
  cstring_is_bytes (msg_topic msg)
  /\ cstring_is_bytes (publish_content_type (publish st))
  /\ cstring_is_bytes (publish_response_topic (publish st))
  /\ Forall (fun p => cstring_is_bytes (up_key p) /\ cstring_is_bytes (up_value p))
            (publish_user_properties (publish st)).

(** The message of scenario S1 on the topic ED A0 80. *)
Definition msg_surrogate (qos : Z) : mqtt_pub_packet_t :=
  Build_pub_packet (Some [0xED; 0xA0; 0x80]) (Build_blob (Some [0x68; 0x69]) 2 0)
    qos false false 0.

(** ** Sessions with a packet identifier carried by two flows *)



(** * Further definitions *)

(** ** Reading back what was written *)

(** The receive cursor standing behind [pre] in a buffer that holds
    [pre ++ bs ++ post]. *)
Definition reading (pre bs post : list Z) (st : mqtt_client) : mqtt_client :=
  set_pin (length pre)
    (set_inp (Build_pbuf (pre ++ bs ++ post) (Z.of_nat (length (pre ++ bs ++ post)))) st).

(** [reads_back pack unpack v]: the packer appends some bytes to the send
    buffer, and wherever these bytes stand in a receive buffer the
    unpacker returns [v] and leaves the cursor behind them. *)
Definition reads_back {A : Type} (pack : M unit) (unpack : M A) (v : A) : Prop :=
  forall (st : mqtt_client) (w : list Z),
  exists bs,
    pack (set_pout (Some w) st) = Done tt (set_pout (Some (w ++ bs)) st)
    /\ forall (st' : mqtt_client) (pre post : list Z),
         unpack (reading pre bs post st')
         = Done v (set_pin (length pre + length bs) (reading pre bs post st')).

(** The value MQTT gives a variable byte integer: seven bits a byte,
    the least significant group first. *)
Fixpoint varint_value (bs : list Z) : Z :=
  match bs with
  | [] => 0
  | b :: rest => Z.land b 0x7F + 128 * varint_value rest
  end.

(** The continuation bit is set on every byte but the last. *)
Fixpoint varint_shape (bs : list Z) : bool :=
  match bs with
  | [] => false
  | b :: rest =>
      match rest with
      | [] => b <? 0x80
      | _ => (0x80 <=? b) && varint_shape rest
      end
  end.

(** ** Packets and the two passes of a builder *)

(** A control packet: a first byte, the remaining length as a variable
    byte integer, and exactly that many bytes. *)
Definition framed (first : Z) (bs : list Z) : Prop :=
  exists v body,
    bs = first :: v ++ body
    /\ varint_shape v = true
    /\ varint_value v = Z.of_nat (length body).

(** [passes_agree make st first]: on the session [st] the pass without a
    write cursor and the pass with one store the same [packet_size], the
    second appends exactly that many bytes, and these bytes are a packet
    that starts with [first]. *)
Definition passes_agree (make : M unit) (st : mqtt_client) (first : Z) : Prop :=
  exists size bs,
    make (set_pout None st) = Done tt (set_packet_size size (set_pout None st))
    /\ (forall w, make (set_pout (Some w) st)
                  = Done tt (set_packet_size size (set_pout (Some (w ++ bs)) st)))
    /\ Z.of_nat (length bs) = size
    /\ framed first bs.

(** A string that [pack_string] writes whole: at most 65535 characters. *)
Definition cstring_fits (s : cstring) : Prop :=
  match s with
  | Some d => strlen d <= 65535
  | None => True
  end.

(** User properties a builder can write: key and value present and
    each at most 65535 characters long, at most 1000 properties. *)
Definition user_props_fit (props : list mqtt_user_property_t) : Prop :=
  (length props <= 1000)%nat
  /\ Forall (fun p => is_set (up_key p) = true /\ is_set (up_value p) = true
                      /\ cstring_fits (up_key p) /\ cstring_fits (up_value p)) props.

(** The bytes the user properties take on the wire. *)
Definition user_props_total (props : list mqtt_user_property_t) : Z :=
  fold_right (fun p total => 1 + STRLEN (up_key p) + STRLEN (up_value p) + total) 0 props.

(** An acknowledgement a builder can write. *)
Definition ack_fits (a : mqtt_ack_info) : Prop :=
  cstring_fits (ack_reason_string a) /\ user_props_fit (ack_user_properties a).

(** A blob a builder can write: a length its [uint16_t] field holds and,
    when the length is not zero, data of at least that length. *)
Definition blob_fits (b : mqtt_blob) : Prop :=
  0 <= blob_len b <= 65535
  /\ (blob_len b <> 0 ->
      exists d, blob_data b = Some d /\ (Z.to_nat (blob_len b) <= length d)%nat).

(** A message and publish properties [make_publish] can write. *)
Definition publish_fits (st : mqtt_client) (msg : mqtt_pub_packet_t) : Prop :=
  let p := publish st in
  is_set (msg_topic msg) = true /\ cstring_fits (msg_topic msg)
  /\ blob_fits (msg_payload msg)
  /\ cstring_fits (publish_content_type p)
  /\ cstring_fits (publish_response_topic p)
  /\ blob_fits (publish_correlation_data p)
  /\ 0 <= publish_subscription_identifier p <= 268435455
  /\ user_props_fit (publish_user_properties p).

(** Topic filters a builder can write. *)
Definition entries_fit (entries : list mqtt_sub_entry) : Prop :=
  (length entries <= 1000)%nat
  /\ Forall (fun e => is_set (sub_topic e) = true /\ cstring_fits (sub_topic e)) entries.

Definition subscribe_fits (st : mqtt_client) : Prop :=
  0 <= subscribe_subscription_identifier (subscribe st) <= 268435455
  /\ user_props_fit (subscribe_user_properties (subscribe st))
  /\ entries_fit (subscribe_entries (subscribe st)).

Definition unsubscribe_fits (st : mqtt_client) : Prop :=
  user_props_fit (unsubscribe_user_properties (unsubscribe st))
  /\ entries_fit (unsubscribe_entries (unsubscribe st)).

(** [rsize] as [make_unsubscribe] computes it, and what its second pass
    writes. *)
Definition unsubscribe_rsize (st : mqtt_client) : Z :=
  let prop_size := estimate_unsubscribe_prop_size st in
  fold_left (fun rsize e => add32 rsize (STRLEN (sub_topic e)))
            (unsubscribe_entries (unsubscribe st))
            (u32 (2 + get_variable_size_byte_count prop_size + prop_size)).

Definition unsubscribe_bytes (st : mqtt_client) : list Z :=
  fixed_header_bytes UNSUBSCRIBE 0x02 (unsubscribe_rsize st)
  ++ word_bytes (unsubscribe_packet_id (unsubscribe st))
  ++ (varint_bytes (estimate_unsubscribe_prop_size st)
      ++ user_props_bytes MQTT_USER_PROPERTY_ID
           (unsubscribe_user_properties (unsubscribe st)))
  ++ flat_map (fun e => cstring_bytes (sub_topic e))
              (unsubscribe_entries (unsubscribe st)).

(** A fresh client asked to subscribe to "a/b" and to unsubscribe from it
    twice, each with one user property. *)
Definition session_with_filters : mqtt_client :=
  set_subscribe
    (Build_subscribe_info [sub_ab] 1 321 [Build_user_property str_k str_v])
    (set_unsubscribe
       (Build_unsubscribe_info [sub_ab; sub_ab] 2 [Build_user_property str_k str_v])
       (mqtt_create_client net_ok)).

(** The connect flags and [rsize] as [make_connect] computes them. *)
Definition connect_flags (st : mqtt_client) : Z :=
  let c := connect st in
  let flags := u8 (Z.shiftl (Z.land (connect_will_qos c) 0x03) 2) in
  let flags := if connect_clean_start c then SET flags (BIT 1) else flags in
  let flags := if connect_will_flag c then SET flags (BIT 2) else flags in
  let flags := if connect_pw_flag c then SET flags (BIT 6) else flags in
  if connect_un_flag c then SET flags (BIT 7) else flags.

Definition connect_rsize (st : mqtt_client) : Z :=
  let c := connect st in
  let plen := u8 (estimate_conn_prop_size st) in
  let rsize := u32 (10 + plen + STRLEN (connect_client_id c)
                    + get_variable_size_byte_count plen) in
  let rsize :=
    if connect_will_flag c then
      let plen := u8 (estimate_will_prop_size st) in
      add32 rsize (plen + STRLEN (will_topic (connect_will c))
                   + BLEN (will_payload (connect_will c))
                   + get_variable_size_byte_count plen)
    else rsize in
  let rsize := if connect_un_flag c then add32 rsize (STRLEN (connect_user c)) else rsize in
  if connect_pw_flag c then add32 rsize (STRLEN (connect_passwd c)) else rsize.

(** What [pack_conn_props] writes when there is no authentication data. *)
Definition connect_props_bytes (st : mqtt_client) : list Z :=
  let c := connect st in
  varint_bytes (estimate_conn_prop_size st)
  ++ (if nonzero (connect_session_expiry_interval c)
      then [u8 MQTT_CON_SESSION_EXPIRY_INTERVAL_ID]
           ++ dword_bytes (connect_session_expiry_interval c)
      else [])
  ++ (if nonzero (connect_recv_max c)
      then [u8 MQTT_CON_RECEIVE_MAXIMUM_ID] ++ word_bytes (connect_recv_max c)
      else [])
  ++ (if nonzero (connect_max_packet_size c)
      then [u8 MQTT_CON_MAXIMUM_PACKET_SIZE_ID] ++ dword_bytes (connect_max_packet_size c)
      else [])
  ++ (if nonzero (connect_topic_alias_max c)
      then [u8 MQTT_CON_TOPIC_ALIAS_MAXIMUM_ID] ++ word_bytes (connect_topic_alias_max c)
      else [])
  ++ (if connect_req_res_inf c
      then [u8 MQTT_CON_REQUEST_RESPONSE_INFO_ID;
            u8 (Z.land (Z.b2z (connect_req_res_inf c)) 0x01)]
      else [])
  ++ (if connect_req_prob_inf c
      then [u8 MQTT_CON_REQUEST_PROBLEM_INF_ID;
            u8 (Z.land (Z.b2z (connect_req_prob_inf c)) 0x01)]
      else [])
  ++ (if is_set (connect_auth_method c)
      then [u8 MQTT_CON_AUTH_METHOD_ID] ++ cstring_bytes (connect_auth_method c)
      else []).

(** What the second pass of [make_connect] writes when there is no will. *)
Definition connect_bytes (st : mqtt_client) : list Z :=
  let c := connect st in
  fixed_header_bytes CONNECT 0 (connect_rsize st)
  ++ string_bytes [77; 81; 84; 84]
  ++ [u8 MQTT_PROTOCOL_VERSION]
  ++ [u8 (connect_flags st)]
  ++ word_bytes (connect_keep_alive c)
  ++ connect_props_bytes st
  ++ cstring_bytes (connect_client_id c).

(** A CONNECT without will, user name, password, user properties and
    authentication data, whose properties fit the [uint8_t plen] of
    [make_connect]. *)
Definition connect_plain (st : mqtt_client) : Prop :=
  let c := connect st in
  connect_will_flag c = false /\ connect_un_flag c = false /\ connect_pw_flag c = false
  /\ connect_user_properties c = []
  /\ is_set (blob_data (connect_auth_data c)) && nonzero (blob_len (connect_auth_data c))
     = false
  /\ is_set (connect_client_id c) = true /\ cstring_fits (connect_client_id c)
  /\ cstring_fits (connect_auth_method c)
  /\ estimate_conn_prop_size st <= 255.

(** A client whose pending table is full: slot [i] awaits the PUBACK of
    packet [i + 1]. *)
Definition session_table_full : mqtt_client :=
  set_pending (map (fun i => Build_pending (Z.of_nat i) PUBACK) (seq 1 MQTT_RECEIVE_MAXIMUM))
    (connected_session false).

(** The mask after a parser released a slot that awaited [type]: the bit
    stays only while another slot awaits that type. *)
Definition mask_after_release (type : mqtt_packet_type) (slots : list mqtt_pending)
    (mask : Z) : Z :=
  if existsb (fun p => ptype_eqb (await_packet_type p) type) slots
  then mask else CLR mask (BIT (ptype_code type)).

(** An acknowledgement packet that ends after the packet identifier:
    remaining length 2. *)
Definition ack_packet_short (h id : Z) : list Z := h :: 2 :: word_bytes id.

(** A connected session with one QoS 1 publish under way. *)
Definition qos1_session (char_is_signed : bool) : mqtt_client :=
  exec (mqtt_publish char_is_signed (msg_hi 1)) (connected_session char_is_signed).

(** A PUBLISH packet as a server sends it: the fixed header with its
    flags, the remaining length in one byte, the topic, the packet
    identifier for QoS 1 and 2, an empty property list and the payload. *)
Definition publish_body (qos : Z) (topic : list Z) (id : Z) (payload : list Z) : list Z :=
  word_bytes (Z.of_nat (length topic)) ++ topic
  ++ (if 0 <? qos then word_bytes id else []) ++ [0] ++ payload.

Definition publish_packet (qos : Z) (retain dup : bool) (topic : list Z) (id : Z)
    (payload : list Z) : list Z :=
  (0x30 + (if dup then 8 else 0) + 2 * qos + (if retain then 1 else 0))
  :: Z.of_nat (length (publish_body qos topic id payload))
  :: publish_body qos topic id payload.

(** [received_publish] after such a packet. *)
Definition publish_received (qos : Z) (retain dup : bool) (topic : list Z) (id : Z)
    (payload : list Z) : received_publish_info :=
  Build_received_publish (Some topic) None None
    (match payload with
     | [] => blob_zero
     | _ => Build_blob (Some payload) (Z.of_nat (length payload)) 0
     end)
    blob_zero (if 0 <? qos then id else 0) 0 0 0 qos 0 dup retain.

(** The send buffer an acknowledgement builder fills. *)
Definition ack_buf (type : mqtt_packet_type) (flags : Z) (a : mqtt_ack_info) : mqtt_pbuf :=
  Build_pbuf (ack_bytes type flags a) (packet_size_of (ack_rsize a)).

(** The conditions under which the parser accepts [publish_packet]: a
    packet identifier of 16 bits, a topic that is not empty and that
    [is_valid_utf8] accepts, a remaining length of one byte, and PUBLISH
    among the expected packet types. *)
Definition publish_arrives (char_is_signed : bool) (st : mqtt_client) (qos : Z)
    (topic : list Z) (id : Z) (payload : list Z) : Prop :=
  0 <= id <= 65535
  /\ 0 < Z.of_nat (length topic)
  /\ Z.of_nat (length (publish_body qos topic id payload)) <= 127
  /\ is_valid_utf8 char_is_signed topic (strlen topic) = true
  /\ TST (expected_ptypes st) (BIT (ptype_code PUBLISH)) = true.

(** A connected session that received the message "hi" on "a/b" at
    QoS 2 with packet identifier 7. *)
Definition inbound_qos2_session (char_is_signed : bool) : mqtt_client :=
  exec (mqtt_process_packet char_is_signed
          (publish_packet 2 false false [0x61; 0x2F; 0x62] 7 [0x68; 0x69]))
       (connected_session char_is_signed).

(** A CONNACK without properties: acknowledge flags, reason code and an
    empty property list. *)
Definition connack_packet (flags reason : Z) : list Z := [0x20; 3; flags; reason; 0].

(** A client that set no DISCONNECT property. *)
Definition disconnect_plain (st : mqtt_client) : Prop :=
  disconn_reason_string (disconn st) = None
  /\ disconn_server_reference (disconn st) = None
  /\ disconn_session_expiry_interval (disconn st) = 0
  /\ disconn_user_properties (disconn st) = [].

(** The DISCONNECT without properties: fixed header, remaining length 1,
    reason code. *)
Definition disconnect_buf (reason_code : Z) : mqtt_pbuf :=
  Build_pbuf [0xE0; 0x01; u8 reason_code] 3.

(** A SUBACK with an empty property list and one reason code per
    topic filter. *)
Definition suback_packet (id : Z) (codes : list Z) : list Z :=
  0x90 :: Z.of_nat (length (word_bytes id ++ [0] ++ codes))
       :: word_bytes id ++ [0] ++ codes.

(** The notifications the reason codes of a SUBACK give rise to, in
    order, [sub_num] being the index of the next subscription. *)
Fixpoint suback_events (id : Z) (codes : list Z) (sub_num : Z) : list event :=
  match codes with
  | [] => []
  | c :: rest =>
      if c <=? MQTT_REASON_GRANTED_QOS_2
      then ev_subscription_granted id sub_num :: suback_events id rest (sub_num + 1)
      else if 0x80 <=? c
      then ev_subscription_declined id sub_num c :: suback_events id rest (sub_num + 1)
      else suback_events id rest sub_num
  end.

(** The session as [mqtt_unsubscribe] has it when it validates: the
    caller's entries stored, the slot taken, the identifier stamped. *)
Definition unsubscribe_reserved (entries : list mqtt_sub_entry)
    (slots : list mqtt_pending) (st : mqtt_client) : mqtt_client :=
  let id := next_packet_id st in
  let st1 := set_unsubscribe (set_unsubscribe_entries entries (unsubscribe st)) st in
  let st2 := set_pending slots
               (set_packet_id_count (u16 (packet_id_count st + 1)) st1) in
  set_unsubscribe (set_unsubscribe_packet_id (u16 id) (unsubscribe st2)) st2.

(** The UNSUBSCRIBE [mqtt_unsubscribe] hands to the transport. *)
Definition unsubscribe_buf (st : mqtt_client) : mqtt_pbuf :=
  Build_pbuf (unsubscribe_bytes st) (packet_size_of (unsubscribe_rsize st)).

(** An UNSUBACK with an empty property list and one reason code per
    topic filter. *)
Definition unsuback_packet (id : Z) (codes : list Z) : list Z :=
  0xB0 :: Z.of_nat (length (word_bytes id ++ [0] ++ codes))
       :: word_bytes id ++ [0] ++ codes.

(** ** The sending calls of the API *)

Inductive send_call : Type :=
| call_ping
| call_publish (msg : mqtt_pub_packet_t)
| call_subscribe (entries : list mqtt_sub_entry)
| call_unsubscribe (entries : list mqtt_sub_entry)
| call_puback (id : Z)
| call_pubrec (id : Z)
| call_pubrel (id : Z)
| call_pubcomp (id : Z).

Definition do_call (char_is_signed : bool) (c : send_call) : M status :=
  match c with
  | call_ping => mqtt_ping
  | call_publish msg => r <- mqtt_publish char_is_signed msg ;; ret (fst r)
  | call_subscribe entries => mqtt_subscribe char_is_signed entries
  | call_unsubscribe entries => mqtt_unsubscribe char_is_signed entries
  | call_puback id => mqtt_puback char_is_signed id
  | call_pubrec id => mqtt_pubrec char_is_signed id
  | call_pubrel id => mqtt_pubrel char_is_signed id
  | call_pubcomp id => mqtt_pubcomp char_is_signed id
  end.

(** The calls one after the other, with their results. *)
Fixpoint do_calls (char_is_signed : bool) (calls : list send_call) : M (list status) :=
  match calls with
  | [] => ret []
  | c :: rest =>
      r <- do_call char_is_signed c ;;
      rs <- do_calls char_is_signed rest ;;
      ret (r :: rs)
  end.

(** What a sending call returns on a client that is not connected. *)
Definition refusal (c : send_call) : status :=
  match c with
  | call_subscribe [] | call_unsubscribe [] => ERROR_NULL_REFERENCE
  | _ => ERROR_NOT_CONNECTED
  end.

(** The client as [mqtt_connect] has it when it builds the packet: the
    arguments and the client identifier stored. *)
Definition connect_requested (client_id : cstring) (keep_alive session_expiry : Z)
    (clean_start : bool) (st : mqtt_client) : mqtt_client :=
  set_connect
    (set_connect_recv_max (Z.of_nat MQTT_RECEIVE_MAXIMUM)
       (set_connect_client_id client_id
          (set_connect_clean_start clean_start
             (set_connect_session_expiry_interval session_expiry
                (set_connect_keep_alive keep_alive (connect st)))))) st.

(** The CONNECT [mqtt_connect] hands to the transport. *)
Definition connect_buf (st : mqtt_client) : mqtt_pbuf :=
  Build_pbuf (connect_bytes st) (packet_size_of (connect_rsize st)).

(** A CONNACK whose property list carries Maximum QoS, Retain
    Available, Receive Maximum and Server Keep Alive. *)
Definition connack_limits_packet (flags reason max_qos retain recv_max keep_alive : Z)
  : list Z :=
  [0x20; 13; flags; reason; 10; MQTT_CON_MAXIMUM_QOS_ID; max_qos;
   MQTT_CON_RETAIN_AVAILABLE_ID; retain]
  ++ [MQTT_CON_RECEIVE_MAXIMUM_ID] ++ word_bytes recv_max
  ++ [MQTT_ACK_SEVER_KEEP_ALIVE_ID] ++ word_bytes keep_alive.

(** The property identifiers [process_connack_poperties] knows. *)
Definition connack_property_ids : list Z :=
  [MQTT_ACK_SERVER_REFERENCE_ID; MQTT_CON_RESPONSE_INFO_ID;
   MQTT_CON_REQUEST_RESPONSE_INFO_ID; MQTT_CON_REQUEST_PROBLEM_INF_ID;
   MQTT_CON_TOPIC_ALIAS_MAXIMUM_ID; MQTT_CON_RECEIVE_MAXIMUM_ID;
   MQTT_CON_MAXIMUM_QOS_ID; MQTT_CON_RETAIN_AVAILABLE_ID;
   MQTT_CON_MAXIMUM_PACKET_SIZE_ID; MQTT_ACK_ASSIGNED_CLIENT_ID;
   MQTT_REASON_STRING_ID; MQTT_USER_PROPERTY_ID; MQTT_ACK_WILDCARD_SUB_AVAIL_ID;
   MQTT_ACK_SUB_ID_AVAIL_ID; MQTT_ACK_SHARED_SUB_AVAIL_ID; MQTT_ACK_SEVER_KEEP_ALIVE_ID].

(** A PUBACK with a reason string and one user property. *)
Definition puback_props (reason key value : list Z) : list Z :=
  [MQTT_REASON_STRING_ID] ++ word_bytes (Z.of_nat (length reason)) ++ reason
  ++ [MQTT_USER_PROPERTY_ID] ++ word_bytes (Z.of_nat (length key)) ++ key
  ++ word_bytes (Z.of_nat (length value)) ++ value.

Definition puback_packet (id rc : Z) (reason key value : list Z) : list Z :=
  [0x40; 4 + Z.of_nat (length (puback_props reason key value));
   u8 (Z.shiftr id 8); u8 id; rc; Z.of_nat (length (puback_props reason key value))]
  ++ puback_props reason key value.

(** A string as it arrives: not empty and without a NUL byte. *)
Definition text (s : list Z) : Prop := s <> [] /\ ~ In 0 s.

(** A PUBLISH at QoS 0 whose property list holds the Payload Format
    Indicator alone: the fixed header 0x30, the remaining length in one
    byte, the topic, the property length 2, the identifier and the
    indicator, and the payload. *)
Definition publish_format_body (topic : list Z) (indicator : Z) (payload : list Z)
  : list Z :=
  word_bytes (Z.of_nat (length topic)) ++ topic
  ++ [2; MQTT_PUB_PAYLOAD_FORMAT_INDICATOR_ID; indicator] ++ payload.

Definition publish_format_packet (topic : list Z) (indicator : Z) (payload : list Z)
  : list Z :=
  0x30 :: Z.of_nat (length (publish_format_body topic indicator payload))
       :: publish_format_body topic indicator payload.

(** The payload test of [process_publish]: the indicator is 1, there is
    a payload, and [is_valid_utf8] refuses it. *)
Definition payload_refused (char_is_signed : bool) (indicator : Z) (payload : list Z)
  : bool :=
  (indicator =? 1) && (0 <? Z.of_nat (length payload))
  && negb (is_valid_utf8 char_is_signed payload (Z.of_nat (length payload))).

(** * Properties *)

(** ** The variable-length integer codec *)

Lemma set_pout_set_pout (st : mqtt_client) (a b : option (list Z)) :
  set_pout a (set_pout b st) = set_pout a st.
Proof. reflexivity. Qed.

Lemma pack_byte_emits (b : Z) (st : mqtt_client) (w : list Z) :
  pack_byte b (set_pout (Some w) st) = Done tt (set_pout (Some (w ++ [u8 b])) st).
Proof. reflexivity. Qed.

Lemma pack_variable_size_loop_emits (rounds : nat) :
  forall (size : Z) (st : mqtt_client) (w : list Z),
    pack_variable_size_loop rounds size (set_pout (Some w) st)
    = Done tt (set_pout (Some (w ++ varint_bytes_loop rounds size)) st).
Proof.
  induction rounds as [|rounds IH]; intros size st w.
  - cbn. now rewrite app_nil_r.
  - cbn [pack_variable_size_loop varint_bytes_loop].
    unfold bind. rewrite pack_byte_emits.
    destruct (0 <? Z.shiftr size 7).
    + rewrite IH. now rewrite <- app_assoc.
    + reflexivity.
Qed.

Lemma pack_variable_size_emits (size : Z) (st : mqtt_client) (w : list Z) :
  pack_variable_size size (set_pout (Some w) st)
  = Done tt (set_pout (Some (w ++ varint_bytes size)) st).
Proof. apply pack_variable_size_loop_emits. Qed.

Lemma shiftr7_div (x : Z) : Z.shiftr x 7 = x / 128.
Proof. now rewrite Z.shiftr_div_pow2 by lia. Qed.

(** The do-while of [pack_variable_size] stops by its own condition: a
    value below [2^(7*rounds)] never needs more than [rounds] rounds, so
    for a [uint32_t] the bound 5 is never what stops the loop. *)
Lemma varint_bytes_loop_enough (rounds extra : nat) :
  forall size : Z,
    0 <= size < 2 ^ (7 * Z.of_nat (S rounds)) ->
    varint_bytes_loop (S rounds + extra) size = varint_bytes_loop (S rounds) size.
Proof.
  induction rounds as [|rounds IH]; intros size Hsize.
  - cbn [Nat.add varint_bytes_loop]. rewrite shiftr7_div.
    change (2 ^ (7 * Z.of_nat 1)) with 128 in Hsize.
    rewrite Z.div_small by lia. reflexivity.
  - change (S (S rounds) + extra)%nat with (S (S rounds + extra)).
    cbn [varint_bytes_loop]. rewrite shiftr7_div.
    destruct (0 <? size / 128) eqn:Hc; [|reflexivity].
    f_equal. apply IH. split.
    + apply Z.div_pos; lia.
    + apply Z.div_lt_upper_bound; [lia|].
      replace (7 * Z.of_nat (S (S rounds))) with (7 + 7 * Z.of_nat (S rounds)) in Hsize by lia.
      rewrite Z.pow_add_r in Hsize by lia. exact (proj2 Hsize).
Qed.

Lemma varint_bytes_enough (extra : nat) (size : Z) :
  0 <= size < 2 ^ 32 ->
  varint_bytes_loop (5 + extra) size = varint_bytes size.
Proof.
  intros Hsize. apply (varint_bytes_loop_enough 4 extra).
  change (2 ^ (7 * Z.of_nat 5)) with (2 ^ 32 * 8). lia.
Qed.

(** The encoded length is the documented table, up to [2^28 - 1]. *)
Lemma varint_bytes_length (size : Z) :
  0 <= size <= 268435455 ->
  Z.of_nat (length (varint_bytes size)) = get_variable_size_byte_count size.
Proof.
  intros Hsize. unfold varint_bytes, get_variable_size_byte_count.
  cbn [varint_bytes_loop]. rewrite !shiftr7_div.
  assert (Hd : forall d, 0 < d -> (size / d <= 0 <-> size <= d - 1)).
  { intros d Hd. split; intros H.
    - destruct (Z.le_gt_cases size (d - 1)) as [|Hgt]; [assumption|].
      assert (1 <= size / d) by (apply Z.div_le_lower_bound; lia). lia.
    - rewrite Z.div_small by lia. lia. }
  assert (E2 : size / 128 / 128 = size / 16384).
  { rewrite Z.div_div by lia. reflexivity. }
  assert (E3 : size / 128 / 128 / 128 = size / 2097152).
  { rewrite E2, Z.div_div by lia. reflexivity. }
  assert (H1 := Hd 128 eq_refl).
  assert (H2 := Hd 16384 eq_refl).
  assert (H3 := Hd 2097152 eq_refl).
  assert (H4 : size / 128 / 128 / 128 / 128 = 0).
  { rewrite E3, Z.div_div by lia. apply Z.div_small. lia. }
  rewrite H4. rewrite E3, E2.
  destruct (Z.ltb_spec 0 (size / 128)); destruct (Z.leb_spec size 127); try lia;
    [|reflexivity].
  destruct (Z.ltb_spec 0 (size / 16384)); destruct (Z.leb_spec size 16383); try lia;
    [|reflexivity].
  destruct (Z.ltb_spec 0 (size / 2097152)); destruct (Z.leb_spec size 2097151);
    try lia; reflexivity.
Qed.

(** [unpack_variable_size] reads exactly one byte: the loop condition
    tests the function-level [encoded_byte], which is 0. *)
Lemma unpack_variable_size_one_byte (st : mqtt_client) (b : Z) :
  nth_error (pbuf_payload (inp st)) (pin st) = Some b ->
  unpack_variable_size st = Done (u32 (Z.land b 0x7F)) (set_pin (S (pin st)) st).
Proof.
  intros Hb. unfold unpack_variable_size. cbn [unpack_variable_size_loop].
  unfold bind, unpack_byte. rewrite Hb. cbn.
  now rewrite Z.mul_1_r.
Qed.

Lemma land_127_small (b : Z) : 0 <= b <= 127 -> Z.land b 0x7F = b.
Proof.
  intros Hb. change 0x7F with (Z.ones 7). rewrite Z.land_ones by lia.
  apply Z.mod_small. change (2 ^ 7) with 128. lia.
Qed.

Lemma varint_first_byte (size : Z) :
  0 <= size ->
  Z.land (hd 0 (varint_bytes size)) 0x7F = size mod 128.
Proof.
  intros Hsize. unfold varint_bytes. cbn [varint_bytes_loop hd].
  assert (Hlow : 0 <= Z.land size 0x7f < 128).
  { change 0x7f with (Z.ones 7). rewrite Z.land_ones by lia.
    apply Z.mod_pos_bound. reflexivity. }
  assert (Hmod : Z.land size 0x7f = size mod 128).
  { change 0x7f with (Z.ones 7). now rewrite Z.land_ones by lia. }
  destruct (0 <? Z.shiftr size 7).
  - assert (Hlor : Z.lor (Z.land size 0x7f) 0x80 = Z.land size 0x7f + 128).
    { rewrite <- Z.lxor_lor.
      - rewrite <- Z.add_nocarry_lxor; [reflexivity|].
        change 0x80 with (2 ^ 7). change 0x7f with (Z.ones 7).
        rewrite <- Z.land_assoc. apply Z.land_0_r.
      - change 0x80 with (2 ^ 7). change 0x7f with (Z.ones 7).
        rewrite <- Z.land_assoc. apply Z.land_0_r. }
    rewrite Hlor. unfold u8. rewrite Z.mod_small by lia.
    rewrite Hmod.
    change (Z.land (size mod 128 + 128) 0x7F)
      with (Z.land (size mod 128 + 1 * 128) (Z.ones 7)).
    rewrite Z.land_ones by lia. change (2 ^ 7) with 128.
    rewrite Z.mod_add by lia. apply Z.mod_mod. lia.
  - unfold u8. rewrite Z.mod_small by lia.
    rewrite land_127_small by lia. exact Hmod.
Qed.

(** Decoding what [pack_variable_size] wrote gives the low seven bits of
    the value: the round trip holds up to 127 only. *)
Lemma varint_decode_encode (st : mqtt_client) (size : Z) :
  0 <= size ->
  unpack_variable_size (receive (varint_bytes size) st)
  = Done (size mod 128) (set_pin 1%nat (receive (varint_bytes size) st)).
Proof.
  intros Hsize.
  rewrite (unpack_variable_size_one_byte _ (hd 0 (varint_bytes size))).
  - rewrite varint_first_byte by assumption.
    unfold u32. rewrite Z.mod_small; [reflexivity|].
    assert (0 <= size mod 128 < 128) by (apply Z.mod_pos_bound; lia). lia.
  - unfold varint_bytes. reflexivity.
Qed.

Lemma varint_roundtrip_small (st : mqtt_client) (size : Z) :
  0 <= size <= 127 ->
  value_of (unpack_variable_size (receive (varint_bytes size) st)) = Some size.
Proof.
  intros Hsize. rewrite varint_decode_encode by lia.
  cbn [value_of]. now rewrite Z.mod_small by lia.
Qed.

(** C1 (code defect).  The encoder writes 128 as the two bytes 80 01, as
    the length table says, but decoding these bytes yields 0, not 128:
    [unpack_variable_size] stops after the first byte, because its loop
    condition reads the function-level [encoded_byte] and not the one the
    loop body declares. *)
Theorem varint_roundtrip_128 :
  (forall (st : mqtt_client) (w : list Z),
      pack_variable_size 128 (set_pout (Some w) st)
      = Done tt (set_pout (Some (w ++ [0x80; 0x01])) st))
  /\ get_variable_size_byte_count 128 = 2
  /\ (forall st : mqtt_client,
         value_of (unpack_variable_size (receive [0x80; 0x01] st)) = Some 0).
Proof.
  split; [|split].
  - intros st w. apply pack_variable_size_emits.
  - reflexivity.
  - intros st. change [0x80; 0x01] with (varint_bytes 128).
    now rewrite varint_decode_encode by lia.
Qed.

(** ** The UTF-8 validator *)

Lemma char_to_int_signed_le (b : Z) : b <= 255 -> char_to_int true b <= 0x7F.
Proof.
  intros Hb. unfold char_to_int. cbn [andb].
  destruct (Z.leb_spec 128 b); lia.
Qed.

Lemma char_to_int_unsigned (b : Z) : char_to_int false b = b.
Proof. reflexivity. Qed.

(** Where plain [char] is signed the first test of the loop,
    [str[i] <= 0x7F], holds for every byte, so every round takes the
    single-byte branch. *)
Lemma is_valid_utf8_loop_signed (str : list Z) (length : Z) :
  Forall is_byte str ->
  forall (rounds : nat) (i : Z), is_valid_utf8_loop true rounds str length i = true.
Proof.
  intros Hstr. induction rounds as [|rounds IH]; intros i; [reflexivity|].
  cbn [is_valid_utf8_loop].
  destruct (i <? length); [|reflexivity].
  assert (Hle : str_at true str i <= 0x7F).
  { unfold str_at. apply char_to_int_signed_le.
    destruct (nth_in_or_default (Z.to_nat i) str 0) as [Hin|Hdef].
    - rewrite Forall_forall in Hstr. apply Hstr in Hin. unfold is_byte in Hin. lia.
    - rewrite Hdef. lia. }
  apply Z.leb_le in Hle. rewrite Hle. apply IH.
Qed.

Lemma is_valid_utf8_signed_accepts_all (str : list Z) (length : Z) :
  Forall is_byte str -> is_valid_utf8 true str length = true.
Proof. intros Hstr. now apply is_valid_utf8_loop_signed. Qed.

(** ** The validator on targets with an unsigned plain [char] *)

Lemma in_all_bytes (b : Z) : is_byte b -> In b all_bytes.
Proof.
  intros Hb. unfold all_bytes. apply in_map_iff. exists (Z.to_nat b).
  unfold is_byte in Hb. split; [lia|]. apply in_seq. lia.
Qed.

Lemma for_all_bytes (P : Z -> bool) :
  forallb P all_bytes = true -> forall b, is_byte b -> P b = true.
Proof.
  intros H b Hb. rewrite forallb_forall in H. now apply H, in_all_bytes.
Qed.

Lemma for_all_bytes2 (P : Z -> Z -> bool) :
  forallb (fun a => forallb (P a) all_bytes) all_bytes = true ->
  forall a b, is_byte a -> is_byte b -> P a b = true.
Proof.
  intros H a b Ha Hb.
  apply (for_all_bytes (P a)); [|exact Hb].
  now apply (for_all_bytes (fun a => forallb (P a) all_bytes)).
Qed.

(** The masks of [is_valid_utf8] as ranges; each is checked on the 256
    byte values. *)
Lemma mask_lead2 (b : Z) :
  is_byte b -> (Z.land b 0xE0 =? 0xC0) = in_range 0xC0 0xDF b.
Proof.
  intros Hb. apply Bool.eqb_prop.
  apply (for_all_bytes (fun b => Bool.eqb (Z.land b 0xE0 =? 0xC0) (in_range 0xC0 0xDF b)));
    [vm_compute; reflexivity|exact Hb].
Qed.

Lemma mask_lead3 (b : Z) :
  is_byte b -> (Z.land b 0xF0 =? 0xE0) = in_range 0xE0 0xEF b.
Proof.
  intros Hb. apply Bool.eqb_prop.
  apply (for_all_bytes (fun b => Bool.eqb (Z.land b 0xF0 =? 0xE0) (in_range 0xE0 0xEF b)));
    [vm_compute; reflexivity|exact Hb].
Qed.

Lemma mask_lead4 (b : Z) :
  is_byte b -> (Z.land b 0xF8 =? 0xF0) = in_range 0xF0 0xF7 b.
Proof.
  intros Hb. apply Bool.eqb_prop.
  apply (for_all_bytes (fun b => Bool.eqb (Z.land b 0xF8 =? 0xF0) (in_range 0xF0 0xF7 b)));
    [vm_compute; reflexivity|exact Hb].
Qed.

Lemma mask_tail (b : Z) :
  is_byte b -> (Z.land b 0xC0 =? 0x80) = utf8_tail b.
Proof.
  intros Hb. apply Bool.eqb_prop.
  apply (for_all_bytes (fun b => Bool.eqb (Z.land b 0xC0 =? 0x80) (utf8_tail b)));
    [vm_compute; reflexivity|exact Hb].
Qed.

Lemma mask_overlong2 (b : Z) :
  is_byte b -> in_range 0xC0 0xDF b = true -> (Z.land b 0x1E =? 0) = (b <=? 0xC1).
Proof.
  intros Hb Hr. apply Bool.eqb_prop.
  assert (H := for_all_bytes
                 (fun b => implb (in_range 0xC0 0xDF b)
                                 (Bool.eqb (Z.land b 0x1E =? 0) (b <=? 0xC1)))
                 eq_refl b Hb).
  cbv beta in H. now rewrite Hr in H.
Qed.

Lemma mask_overlong3 (b : Z) :
  is_byte b -> utf8_tail b = true -> (Z.land b 0x20 =? 0) = (b <=? 0x9F).
Proof.
  intros Hb Hr. apply Bool.eqb_prop.
  assert (H := for_all_bytes
                 (fun b => implb (utf8_tail b) (Bool.eqb (Z.land b 0x20 =? 0) (b <=? 0x9F)))
                 eq_refl b Hb).
  cbv beta in H. now rewrite Hr in H.
Qed.

Lemma mask_overlong4 (b : Z) :
  is_byte b -> utf8_tail b = true -> (Z.land b 0x30 =? 0) = (b <=? 0x8F).
Proof.
  intros Hb Hr. apply Bool.eqb_prop.
  assert (H := for_all_bytes
                 (fun b => implb (utf8_tail b) (Bool.eqb (Z.land b 0x30 =? 0) (b <=? 0x8F)))
                 eq_refl b Hb).
  cbv beta in H. now rewrite Hr in H.
Qed.

(** A code point is compared through its high bits once the low bits
    are known to be the payload of tail octets. *)
Lemma shiftr_low_bits (b : Z) : is_byte b -> Z.shiftr (Z.land b 0x3F) 6 = 0.
Proof.
  intros Hb. apply Z.eqb_eq.
  apply (for_all_bytes (fun b => Z.shiftr (Z.land b 0x3F) 6 =? 0));
    [vm_compute; reflexivity|exact Hb].
Qed.

Lemma shiftr_low_bits12 (b : Z) :
  is_byte b ->
  Z.shiftr (Z.shiftl (Z.land b 0x3F) 6) 12 = 0 /\ Z.shiftr (Z.land b 0x3F) 12 = 0.
Proof.
  intros Hb.
  assert (H := for_all_bytes
                 (fun b => (Z.shiftr (Z.shiftl (Z.land b 0x3F) 6) 12 =? 0)
                           && (Z.shiftr (Z.land b 0x3F) 12 =? 0))
                 eq_refl b Hb).
  cbv beta in H. apply andb_true_iff in H. now rewrite !Z.eqb_eq in H.
Qed.

Lemma surrogate_by_high_bits (c : Z) :
  (0xD800 <=? c) && (c <=? 0xDFFF)
  = (0x360 <=? Z.shiftr c 6) && (Z.shiftr c 6 <=? 0x37F).
Proof.
  rewrite Z.shiftr_div_pow2 by lia. change (2 ^ 6) with 64.
  assert (H := Z.div_mod c 64). assert (H' := Z.mod_pos_bound c 64).
  destruct (Z.leb_spec 0xD800 c), (Z.leb_spec c 0xDFFF),
    (Z.leb_spec 0x360 (c / 64)), (Z.leb_spec (c / 64) 0x37F); cbn [andb];
    try reflexivity; lia.
Qed.

Lemma above_max_by_high_bits (c : Z) : (0x10FFFF <? c) = (0x10F <? Z.shiftr c 12).
Proof.
  rewrite Z.shiftr_div_pow2 by lia. change (2 ^ 12) with 4096.
  assert (H := Z.div_mod c 4096). assert (H' := Z.mod_pos_bound c 4096).
  destruct (Z.ltb_spec 0x10FFFF c), (Z.ltb_spec 0x10F (c / 4096)); try reflexivity; lia.
Qed.

Lemma surrogate_check (b0 b1 b2 : Z) :
  is_byte b0 -> is_byte b1 -> is_byte b2 ->
  in_range 0xE0 0xEF b0 = true -> utf8_tail b1 = true ->
  let codepoint :=
    Z.lor (Z.lor (Z.shiftl (Z.land b0 0x0F) 12) (Z.shiftl (Z.land b1 0x3F) 6))
          (Z.land b2 0x3F) in
  (0xD800 <=? codepoint) && (codepoint <=? 0xDFFF) = (b0 =? 0xED) && (0xA0 <=? b1).
Proof.
  intros H0 H1 H2 Hr0 Hr1 codepoint. unfold codepoint.
  rewrite surrogate_by_high_bits, Z.shiftr_lor, shiftr_low_bits, Z.lor_0_r by assumption.
  apply Bool.eqb_prop.
  assert (H := for_all_bytes2
                 (fun b0 b1 =>
                    implb (in_range 0xE0 0xEF b0 && utf8_tail b1)
                      (Bool.eqb
                         (let h := Z.shiftr (Z.lor (Z.shiftl (Z.land b0 0x0F) 12)
                                                   (Z.shiftl (Z.land b1 0x3F) 6)) 6 in
                          (0x360 <=? h) && (h <=? 0x37F))
                         ((b0 =? 0xED) && (0xA0 <=? b1))))
                 eq_refl b0 b1 H0 H1).
  cbv beta zeta in H. now rewrite Hr0, Hr1 in H.
Qed.

Lemma max_check (b0 b1 b2 b3 : Z) :
  is_byte b0 -> is_byte b1 -> is_byte b2 -> is_byte b3 ->
  in_range 0xF0 0xF7 b0 = true -> utf8_tail b1 = true ->
  let codepoint :=
    Z.lor (Z.lor (Z.lor (Z.shiftl (Z.land b0 0x07) 18) (Z.shiftl (Z.land b1 0x3F) 12))
                 (Z.shiftl (Z.land b2 0x3F) 6))
          (Z.land b3 0x3F) in
  (0x10FFFF <? codepoint) = negb ((b0 <=? 0xF3) || (b0 =? 0xF4) && (b1 <=? 0x8F)).
Proof.
  intros H0 H1 H2 H3 Hr0 Hr1 codepoint. unfold codepoint.
  destruct (shiftr_low_bits12 b2 H2) as [E2 _].
  destruct (shiftr_low_bits12 b3 H3) as [_ E3].
  rewrite above_max_by_high_bits, !Z.shiftr_lor, E2, E3, !Z.lor_0_r.
  apply Bool.eqb_prop.
  assert (H := for_all_bytes2
                 (fun b0 b1 =>
                    implb (in_range 0xF0 0xF7 b0 && utf8_tail b1)
                      (Bool.eqb
                         (0x10F <? Z.lor (Z.shiftr (Z.shiftl (Z.land b0 0x07) 18) 12)
                                         (Z.shiftr (Z.shiftl (Z.land b1 0x3F) 12) 12))
                         (negb ((b0 <=? 0xF3) || (b0 =? 0xF4) && (b1 <=? 0x8F)))))
                 eq_refl b0 b1 H0 H1).
  cbv beta in H. now rewrite Hr0, Hr1 in H.
Qed.

Lemma str_at_byte (str : list Z) (i : Z) :
  Forall is_byte str -> is_byte (str_at false str i).
Proof.
  intros Hstr. unfold str_at. rewrite char_to_int_unsigned.
  destruct (nth_in_or_default (Z.to_nat i) str 0) as [Hin|Hdef].
  - rewrite Forall_forall in Hstr. now apply Hstr.
  - rewrite Hdef. unfold is_byte. lia.
Qed.

Lemma str_at_nth (str : list Z) (k j : nat) :
  str_at false str (Z.of_nat k + Z.of_nat j) = nth (k + j) str 0.
Proof.
  unfold str_at. rewrite char_to_int_unsigned. f_equal. lia.
Qed.

(** The bytes still to be validated: those from index [k] up to the
    length [n] the caller passed. *)
Lemma remaining_cons (str : list Z) (n k : nat) :
  (k < n)%nat -> (n <= length str)%nat ->
  skipn k (firstn n str) = nth k str 0 :: skipn (S k) (firstn n str).
Proof.
  revert n k. induction str as [|b str IH]; intros n k Hk Hn; cbn [length] in Hn; [lia|].
  destruct n as [|n]; [lia|]. cbn [firstn].
  destruct k as [|k]; [reflexivity|].
  cbn [skipn nth]. apply IH; lia.
Qed.

Lemma remaining_length (str : list Z) (n k : nat) :
  (n <= length str)%nat -> length (skipn k (firstn n str)) = (n - k)%nat.
Proof.
  intros Hn. rewrite length_skipn, length_firstn. lia.
Qed.

Lemma remaining_nil (str : list Z) (n k : nat) :
  (n <= length str)%nat -> (n <= k)%nat -> skipn k (firstn n str) = [].
Proof.
  intros Hn Hk. apply length_zero_iff_nil. rewrite remaining_length by assumption. lia.
Qed.

Ltac decide_leb :=
  repeat match goal with
         | |- context [?a <=? ?b] =>
             first [ replace (a <=? b) with true by (symmetry; apply Z.leb_le; lia)
                   | replace (a <=? b) with false by (symmetry; apply Z.leb_gt; lia) ]
         | |- context [?a <? ?b] =>
             first [ replace (a <? b) with true by (symmetry; apply Z.ltb_lt; lia)
                   | replace (a <? b) with false by (symmetry; apply Z.ltb_ge; lia) ]
         | |- context [?a =? ?b] =>
             first [ replace (a =? b) with true by (symmetry; apply Z.eqb_eq; lia)
                   | replace (a =? b) with false by (symmetry; apply Z.eqb_neq; lia) ]
         end.

Ltac split_comparisons :=
  repeat match goal with
         | |- context [?a <=? ?b] => destruct (Z.leb_spec a b)
         | |- context [?a =? ?b] => destruct (Z.eqb_spec a b)
         end.

Lemma utf8_second3_spec (b0 b1 : Z) :
  utf8_second3 b0 b1
  = utf8_tail b1 && negb ((b0 =? 0xE0) && (b1 <=? 0x9F))
    && negb ((b0 =? 0xED) && (0xA0 <=? b1)).
Proof.
  unfold utf8_second3, utf8_tail, in_range.
  split_comparisons; cbn [andb orb negb]; try reflexivity; lia.
Qed.

Lemma utf8_second4_spec (b0 b1 : Z) :
  0xF0 <= b0 ->
  in_range 0xF0 0xF4 b0 && utf8_second4 b0 b1
  = utf8_tail b1 && negb ((b0 =? 0xF0) && (b1 <=? 0x8F))
    && ((b0 <=? 0xF3) || (b0 =? 0xF4) && (b1 <=? 0x8F)).
Proof.
  intros Hb0. unfold utf8_second4, utf8_tail, in_range.
  split_comparisons; cbn [andb orb negb]; try reflexivity; lia.
Qed.

(** Fewer octets left than the character needs. *)
Lemma remaining_short (str : list Z) (n k m : nat) :
  (n <= length str)%nat -> (n - k < m)%nat ->
  (length (skipn k (firstn n str)) < m)%nat.
Proof. intros Hn Hm. now rewrite remaining_length. Qed.

Lemma is_valid_utf8_loop_rfc3629 (str : list Z) (n : nat) :
  Forall is_byte str -> (n <= length str)%nat ->
  forall (rounds k : nat),
    (k <= n)%nat -> (n - k <= rounds)%nat ->
    is_valid_utf8_loop false rounds str (Z.of_nat n) (Z.of_nat k)
    = rfc3629 (skipn k (firstn n str)).
Proof.
  intros Hstr Hn. induction rounds as [|rounds IH]; intros k Hk Hr.
  { rewrite remaining_nil by lia. reflexivity. }
  cbn [is_valid_utf8_loop].
  destruct (Z.ltb_spec (Z.of_nat k) (Z.of_nat n)) as [Hlt|Hge];
    [|rewrite remaining_nil by lia; reflexivity].
  rewrite remaining_cons by lia.
  assert (E0 : str_at false str (Z.of_nat k) = nth k str 0).
  { rewrite <- (Nat.add_0_r k) at 2. rewrite <- str_at_nth. f_equal. lia. }
  assert (B0 := str_at_byte str (Z.of_nat k) Hstr). rewrite E0 in *.
  set (b0 := nth k str 0) in *. unfold is_byte in B0.
  destruct (Z.leb_spec b0 0x7F) as [Hascii|Hhigh].
  { (* one octet *)
    cbn [rfc3629]. unfold in_range. decide_leb. cbn [andb].
    replace (Z.of_nat k + 1) with (Z.of_nat (S k)) by lia. apply IH; lia. }
  assert (Eu8 : u8 b0 = b0) by (unfold u8; apply Z.mod_small; lia).
  rewrite Eu8, mask_lead2, mask_lead3, mask_lead4 by exact B0.
  assert (E1 : str_at false str (Z.of_nat k + 1) = nth (S k) str 0).
  { rewrite <- (Nat.add_1_r k). apply (str_at_nth str k 1). }
  assert (E2 : str_at false str (Z.of_nat k + 2) = nth (S (S k)) str 0).
  { replace (S (S k)) with (k + 2)%nat by lia. apply (str_at_nth str k 2). }
  assert (E3 : str_at false str (Z.of_nat k + 3) = nth (S (S (S k))) str 0).
  { replace (S (S (S k))) with (k + 3)%nat by lia. apply (str_at_nth str k 3). }
  assert (B1 := str_at_byte str (Z.of_nat k + 1) Hstr).
  assert (B2 := str_at_byte str (Z.of_nat k + 2) Hstr).
  assert (B3 := str_at_byte str (Z.of_nat k + 3) Hstr).
  rewrite E1, E2, E3 in *.
  set (b1 := nth (S k) str 0) in *. set (b2 := nth (S (S k)) str 0) in *.
  set (b3 := nth (S (S (S k))) str 0) in *.
  assert (Hranges : forall lo hi, in_range lo hi b0 = (lo <=? b0) && (b0 <=? hi))
    by reflexivity.
  destruct (Z.leb_spec b0 0xBF) as [Hbad|Hlead].
  { (* a tail octet where a character starts *)
    cbn [rfc3629]. rewrite !Hranges. decide_leb. reflexivity. }
  destruct (Z.leb_spec b0 0xDF) as [Hlead2|Hlead3].
  { (* two octets *)
    rewrite (Hranges 0xC0 0xDF). decide_leb. cbv beta iota. cbn [andb].
    change (map Z.of_nat (seq 1 (Z.to_nat 2 - 1))) with [1]. cbn [forallb].
    rewrite E1. rewrite mask_tail by exact B1.
    rewrite mask_overlong2 by (try exact B0; unfold in_range; decide_leb; reflexivity).
    rewrite andb_true_r.
    cbn [rfc3629]. rewrite !Hranges. decide_leb. cbn [andb].
    destruct (Z.ltb_spec (Z.of_nat n) (Z.of_nat k + 2)) as [Hshort|Hlong].
    - rewrite remaining_nil by lia. destruct (0xC2 <=? b0); reflexivity.
    - rewrite (remaining_cons str n (S k)) by lia. fold b1.
      destruct (utf8_tail b1); cbn [negb andb];
        [|destruct (0xC2 <=? b0); reflexivity].
      destruct (Z.leb_spec b0 0xC1) as [Hover|Hok]; decide_leb; [reflexivity|].
      replace (Z.of_nat k + 2) with (Z.of_nat (S (S k))) by lia. apply IH; lia. }
  destruct (Z.leb_spec b0 0xEF) as [Hlead3'|Hlead4].
  { (* three octets *)
    rewrite (Hranges 0xC0 0xDF), (Hranges 0xE0 0xEF). decide_leb. cbv beta iota. cbn [andb].
    change (map Z.of_nat (seq 1 (Z.to_nat 3 - 1))) with [1; 2]. cbn [forallb].
    rewrite E1, E2. rewrite !mask_tail by assumption. rewrite andb_true_r.
    cbn [rfc3629]. rewrite !Hranges. decide_leb. cbn [andb].
    destruct (Z.ltb_spec (Z.of_nat n) (Z.of_nat k + 3)) as [Hshort|Hlong].
    - assert (Hlen := remaining_short str n (S k) 2 Hn ltac:(lia)).
      destruct (skipn (S k) (firstn n str)) as [|x [|y rest]]; try reflexivity.
      cbn [length] in Hlen. lia.
    - rewrite (remaining_cons str n (S k)), (remaining_cons str n (S (S k))) by lia.
      fold b1 b2. rewrite utf8_second3_spec.
      destruct (utf8_tail b1) eqn:T1; cbn [negb andb]; [|reflexivity].
      destruct (utf8_tail b2) eqn:T2; cbn [negb andb];
        [|rewrite andb_false_r; reflexivity].
      rewrite mask_overlong3 by assumption.
      rewrite surrogate_check
        by (try assumption; try exact B0; rewrite Hranges; decide_leb; reflexivity).
      destruct ((b0 =? 0xE0) && (b1 <=? 0x9F)); cbn [negb andb]; [reflexivity|].
      destruct ((b0 =? 0xED) && (0xA0 <=? b1)); cbn [negb andb]; [reflexivity|].
      replace (Z.of_nat k + 3) with (Z.of_nat (S (S (S k)))) by lia. apply IH; lia. }
  destruct (Z.leb_spec b0 0xF7) as [Hlead4'|Hbad].
  { (* four octets *)
    rewrite (Hranges 0xC0 0xDF), (Hranges 0xE0 0xEF), (Hranges 0xF0 0xF7).
    decide_leb. cbv beta iota. cbn [andb].
    change (map Z.of_nat (seq 1 (Z.to_nat 4 - 1))) with [1; 2; 3]. cbn [forallb].
    rewrite E1, E2, E3. rewrite !mask_tail by assumption. rewrite andb_true_r.
    cbn [rfc3629]. rewrite (Hranges 0x00 0x7F), (Hranges 0xC2 0xDF), (Hranges 0xE0 0xEF).
    decide_leb. cbn [andb].
    destruct (Z.ltb_spec (Z.of_nat n) (Z.of_nat k + 4)) as [Hshort|Hlong].
    - assert (Hlen := remaining_short str n (S k) 3 Hn ltac:(lia)).
      destruct (in_range 0xF0 0xF4 b0); [|reflexivity].
      destruct (skipn (S k) (firstn n str)) as [|x [|y [|z rest]]]; try reflexivity.
      cbn [length] in Hlen. lia.
    - rewrite (remaining_cons str n (S k)), (remaining_cons str n (S (S k))),
        (remaining_cons str n (S (S (S k)))) by lia.
      fold b1 b2 b3.
      assert (Hrfc : (if in_range 0xF0 0xF4 b0
                      then utf8_second4 b0 b1 && utf8_tail b2 && utf8_tail b3
                           && rfc3629 (skipn (S (S (S (S k)))) (firstn n str))
                      else false)
                     = in_range 0xF0 0xF4 b0 && utf8_second4 b0 b1 && utf8_tail b2
                       && utf8_tail b3
                       && rfc3629 (skipn (S (S (S (S k)))) (firstn n str))).
      { destruct (in_range 0xF0 0xF4 b0); reflexivity. }
      rewrite Hrfc, utf8_second4_spec by lia.
      destruct (utf8_tail b1) eqn:T1; cbn [negb andb]; [|reflexivity].
      destruct (utf8_tail b2) eqn:T2; cbn [negb andb];
        [|rewrite andb_false_r; reflexivity].
      destruct (utf8_tail b3) eqn:T3; cbn [negb andb];
        [|rewrite andb_false_r; reflexivity].
      rewrite mask_overlong4 by assumption.
      rewrite max_check
        by (try assumption; try exact B0; rewrite Hranges; decide_leb; reflexivity).
      destruct ((b0 =? 0xF0) && (b1 <=? 0x8F)); cbn [negb andb]; [reflexivity|].
      destruct ((b0 <=? 0xF3) || (b0 =? 0xF4) && (b1 <=? 0x8F)); cbn [negb andb];
        [|reflexivity].
      replace (Z.of_nat k + 4) with (Z.of_nat (S (S (S (S k))))) by lia. apply IH; lia. }
  (* F8 and above *)
  cbn [rfc3629]. rewrite !Hranges. decide_leb. reflexivity.
Qed.

(** On a target whose plain [char] is unsigned, [is_valid_utf8] decides
    exactly the grammar of RFC 3629 on the first [n] bytes: no overlong
    form, no surrogate, nothing above U+10FFFF. *)
Lemma is_valid_utf8_unsigned_rfc3629 (str : list Z) (n : nat) :
  Forall is_byte str -> (n <= length str)%nat ->
  is_valid_utf8 false str (Z.of_nat n) = rfc3629 (firstn n str).
Proof.
  intros Hstr Hn. unfold is_valid_utf8. rewrite Nat2Z.id.
  change 0 with (Z.of_nat 0).
  rewrite (is_valid_utf8_loop_rfc3629 str n Hstr Hn n 0) by lia. reflexivity.
Qed.

Lemma firstn_c_str (d : list Z) : firstn (length (c_str d)) d = c_str d.
Proof.
  induction d as [|c d IH]; [reflexivity|].
  cbn [c_str]. destruct (c =? 0); [reflexivity|].
  cbn [length firstn]. now rewrite IH.
Qed.

Lemma c_str_length (d : list Z) : (length (c_str d) <= length d)%nat.
Proof.
  induction d as [|c d IH]; [apply le_n|].
  cbn [c_str]. destruct (c =? 0); cbn [length]; lia.
Qed.

(** The call [is_valid_utf8(s, strlen(s))] of the validity checks. *)
Lemma bad_utf8_unsigned (d : list Z) :
  Forall is_byte d -> bad_utf8 false (Some d) = negb (rfc3629 (c_str d)).
Proof.
  intros Hd. unfold bad_utf8, strlen.
  rewrite is_valid_utf8_unsigned_rfc3629 by (try assumption; apply c_str_length).
  now rewrite firstn_c_str.
Qed.

Lemma bad_utf8_unsigned_verdict (s : cstring) :
  cstring_is_bytes s -> bad_utf8 false s = negb (valid_or_null s).
Proof.
  destruct s as [d|]; [apply bad_utf8_unsigned|reflexivity].
Qed.

Lemma publish_encoding_bad_unsigned (st : mqtt_client) (msg : mqtt_pub_packet_t) :
  publish_strings_are_bytes st msg ->
  publish_encoding_bad false st msg = negb (publish_strings_valid st msg).
Proof.
  intros (Ht & Hc & Hr & Hp). unfold publish_encoding_bad, publish_strings_valid.
  rewrite !bad_utf8_unsigned_verdict by assumption.
  assert (Hprops : existsb (fun p => bad_utf8 false (up_key p) || bad_utf8 false (up_value p))
                           (publish_user_properties (publish st))
                   = negb (forallb (fun p => valid_or_null (up_key p)
                                             && valid_or_null (up_value p))
                                   (publish_user_properties (publish st)))).
  { induction Hp as [|p props [Hk Hv] _ IH]; [reflexivity|].
    cbn [existsb forallb]. rewrite IH, !bad_utf8_unsigned_verdict by assumption.
    destruct (valid_or_null (up_key p)), (valid_or_null (up_value p)),
      (forallb _ props); reflexivity. }
  rewrite Hprops.
  destruct (is_set (msg_topic msg)), (valid_or_null (msg_topic msg)),
    (valid_or_null (publish_content_type (publish st))),
    (valid_or_null (publish_response_topic (publish st))), (forallb _ _); reflexivity.
Qed.

(** ** Scenarios evaluated on the model *)

(** C2 (code defect on targets with a signed plain [char]).  The encoded
    surrogate ED A0 80, which the grammar of RFC 3629 excludes, is
    accepted by [is_valid_utf8] when plain [char] is signed, and a
    PUBLISH carrying it as topic
    ([30 06 00 03 ED A0 80 00]) is then processed successfully and latched
    as received message; with an unsigned plain [char] the validator
    rejects the bytes and the same packet yields
    [ERROR_INVALID_ENCODING], nothing is sent and the session stays
    connected. *)
Theorem surrogate_topic_by_char_signedness :
  rfc3629 [0xED; 0xA0; 0x80] = false
  /\ is_valid_utf8 true [0xED; 0xA0; 0x80] 3 = true
  /\ is_valid_utf8 false [0xED; 0xA0; 0x80] 3 = false
  /\ (let st := connected_session true in
      let packet := [0x30; 0x06; 0x00; 0x03; 0xED; 0xA0; 0x80; 0x00] in
      value_of (mqtt_process_packet true packet st) = Some OK
      /\ message_available (exec (mqtt_process_packet true packet) st) = true
      /\ rp_topic (received_publish (exec (mqtt_process_packet true packet) st))
         = Some [0xED; 0xA0; 0x80])
  /\ (let st := connected_session false in
      let packet := [0x30; 0x06; 0x00; 0x03; 0xED; 0xA0; 0x80; 0x00] in
      value_of (mqtt_process_packet false packet st) = Some ERROR_INVALID_ENCODING
      /\ wire (exec (mqtt_process_packet false packet) st) = wire st
      /\ connected (exec (mqtt_process_packet false packet) st) = true
      /\ message_available (exec (mqtt_process_packet false packet) st) = false).
Proof. vm_compute. repeat split. Qed.

(** C3 (code defect).  With a user name and a password set by
    [mqtt_set_basic_auth] and no will (the README's own example), both
    passes of [make_connect] compute a packet of 23 bytes, yet the second
    pass writes 17: the user name and the password are packed inside the
    will block.  Through [mqtt_connect] (keep-alive 60, the Receive
    Maximum property) the buffer asked for has 26 bytes and the fixed
    header declares a remaining length of 24, but 20 bytes are written, 18
    beyond the fixed header.  With one CONNECT user property,
    [estimate_conn_prop_size] counts 7 bytes while [pack_conn_props]
    writes the length byte 7 and no property byte at all. *)
Theorem make_connect_passes_disagree :
  (let auth := mqtt_set_basic_auth str_u str_p (mqtt_create_client net_ok) in
   let st := set_connect (set_connect_client_id str_MQ (connect auth)) auth in
   packet_size (exec make_connect (set_pout None st)) = 23
   /\ pout (exec make_connect (set_pout None st)) = None
   /\ packet_size (exec make_connect (set_pout (Some []) st)) = 23
   /\ pout (exec make_connect (set_pout (Some []) st))
      = Some [0x10; 21; 0; 4; 77; 81; 84; 84; 5; 0xC0; 0; 0; 0; 0; 2; 77; 81])
  /\ (let auth := mqtt_set_basic_auth str_u str_p (mqtt_create_client net_ok) in
      wire (exec (mqtt_connect false str_MQ 60 0 true) auth)
      = [Build_pbuf [0x10; 24; 0; 4; 77; 81; 84; 84; 5; 0xC2; 0; 60; 3; 0x21; 0; 32;
                     0; 2; 77; 81] 26])
  /\ (let st := set_connect
                  (Build_connect_info false false false false false false false None None
                     0 0 0 0 0 0 will_zero None None None
                     [Build_user_property str_k str_v] None blob_zero false)
                  (client_zero net_ok) in
      estimate_conn_prop_size st = 7
      /\ pout (exec pack_conn_props (set_pout (Some []) st)) = Some [7]).
Proof. vm_compute. repeat split. Qed.

(** C4 (counterexample).  One reservation for an outbound flow mints the
    identifier 1; a reservation for an inbound flow with the peer's
    identifier 1 is then stored as well: two live entries carry the same
    packet identifier. *)
Lemma pending_table_duplicate_id :
  ~ NoDup (live_ids (pending (run_pending_ops
                                [reserve_for_outbound PUBACK; reserve_for_inbound 1 PUBREL]
                                (mqtt_create_client net_ok)))).
Proof.
  vm_compute. intros H. inversion H as [|x l Hnotin Hrest]. subst.
  apply Hnotin. left. reflexivity.
Qed.

(** The same table through the API: a QoS 1 publish (identifier 1, await
    PUBACK) followed by an inbound QoS 2 PUBLISH with packet identifier 1
    (await PUBREL). *)
Lemma pending_table_duplicate_id_session :
  let st := exec (mqtt_process_packet false
                    [0x34; 0x08; 0x00; 0x01; 0x61; 0x00; 0x01; 0x00; 0x68; 0x69])
                 (exec (mqtt_publish false (msg_hi 1)) (connected_session false)) in
  firstn 2 (pending st) = [Build_pending 1 PUBACK; Build_pending 1 PUBREL].
Proof. vm_compute. reflexivity. Qed.

(** After the counter passed 65535 the identifier 1 is minted twice in a
    row: the counter is left at 0 when 1 is handed out. *)
Lemma packet_id_minted_twice_after_wrap :
  let st := set_packet_id_count 65535 (mqtt_create_client net_ok) in
  let st1 := exec (reserve_packet_slot_for_answer PUBACK) st in
  value_of (reserve_packet_slot_for_answer PUBACK st) = Some (inl 1)
  /\ packet_id_count st1 = 0
  /\ value_of (reserve_packet_slot_for_answer PUBACK st1) = Some (inl 1).
Proof. vm_compute. repeat split. Qed.

(** C5 (code defect).  [publish_131] has 1 + 2 + 128 bytes and PUBLISH is
    expected, yet [mqtt_process_packet] answers
    [ERROR_INVALID_PACKET_SIZE]: the remaining length is decoded from the
    first length byte alone (0), and the size test uses that value.
    Conversely the 7-byte buffer [30 85 01 00 01 61 00], whose header
    declares 133, is not answered with [ERROR_INVALID_PACKET_SIZE]: it
    passes the size test and is handed to the PUBLISH parser, which reads
    past the end of the buffer. *)
Theorem process_packet_multibyte_length :
  Z.of_nat (length publish_131) = 1 + 2 + 128
  /\ pout (exec (pack_variable_size 128) (set_pout (Some []) (connected_session false)))
     = Some [0x80; 0x01]
  /\ TST (expected_ptypes (connected_session false)) (BIT (ptype_code PUBLISH)) = true
  /\ value_of (mqtt_process_packet false publish_131 (connected_session false))
     = Some ERROR_INVALID_PACKET_SIZE
  /\ mqtt_process_packet false [0x30; 0x85; 0x01; 0x00; 0x01; 0x61; 0x00]
       (connected_session false) = Undefined.
Proof. vm_compute. repeat split. Qed.

(** C7 (counterexample).  On the connected session the PUBLISH built for
    topic "a/b", payload "hi", QoS 0 is not the byte string of the claim:
    the remaining-length byte is 08, not 0A. *)
Lemma publish_qos0_bytes_not_as_claimed :
  map pbuf_payload
      (skipn 1 (wire (exec (mqtt_publish false (msg_hi 0)) (connected_session false))))
  <> [[0x30; 0x0A; 0x00; 0x03; 0x61; 0x2F; 0x62; 0x00; 0x68; 0x69]].
Proof. vm_compute. intros H. discriminate H. Qed.

(** ** What the packers write *)

Lemma emits_on_bind (st : mqtt_client) (m1 m2 : M unit) (b1 b2 : list Z) :
  emits_on st m1 b1 -> emits_on st m2 b2 -> emits_on st (m1 ;; m2) (b1 ++ b2).
Proof.
  intros H1 H2 w. cbn [bind]. rewrite H1, H2. now rewrite app_assoc.
Qed.

Lemma emits_on_ret (st : mqtt_client) : emits_on st (ret tt) [].
Proof. intros w. cbn. now rewrite app_nil_r. Qed.

Lemma emits_on_when (st : mqtt_client) (c : bool) (m : M unit) (bs : list Z) :
  (c = true -> emits_on st m bs) -> emits_on st (when c m) (if c then bs else []).
Proof.
  intros H. destruct c; [now apply H|apply emits_on_ret].
Qed.

Lemma emits_on_get (st : mqtt_client) (k : mqtt_client -> M unit) (bs : list Z) :
  (forall w, k (set_pout (Some w) st) (set_pout (Some w) st)
             = Done tt (set_pout (Some (w ++ bs)) st)) ->
  emits_on st (s <- get ;; k s) bs.
Proof. intros H w. cbn [bind get]. apply H. Qed.

Lemma emits_on_for_each {A : Type} (st : mqtt_client) (body : A -> M unit)
    (f : A -> list Z) (l : list A) :
  Forall (fun x => emits_on st (body x) (f x)) l ->
  emits_on st (for_each l body) (flat_map f l).
Proof.
  induction 1 as [|x l Hx _ IH]; cbn [for_each flat_map].
  - apply emits_on_ret.
  - now apply emits_on_bind.
Qed.

Lemma emits_pack_byte (st : mqtt_client) (b : Z) : emits_on st (pack_byte b) [u8 b].
Proof. intros w. reflexivity. Qed.

Lemma emits_pack_word (st : mqtt_client) (data : Z) :
  emits_on st (pack_word data) (word_bytes data).
Proof. intros w. cbn. now rewrite <- app_assoc. Qed.

Lemma emits_pack_dword (st : mqtt_client) (data : Z) :
  emits_on st (pack_dword data) (dword_bytes data).
Proof. intros w. cbn. now rewrite <- !app_assoc. Qed.

Lemma emits_pack_bytes (st : mqtt_client) (l : list Z) :
  emits_on st (for_each l pack_byte) (map u8 l).
Proof.
  induction l as [|b l IH]; cbn [for_each map].
  - apply emits_on_ret.
  - apply (emits_on_bind st _ _ [u8 b]); [apply emits_pack_byte|exact IH].
Qed.

Lemma emits_pack_variable_size (st : mqtt_client) (size : Z) :
  emits_on st (pack_variable_size size) (varint_bytes size).
Proof. intros w. apply pack_variable_size_emits. Qed.

Lemma emits_write_fixed_header (st : mqtt_client) (type : mqtt_packet_type)
    (flags len : Z) :
  emits_on st (write_fixed_header type flags len) (fixed_header_bytes type flags len).
Proof.
  unfold write_fixed_header, fixed_header_bytes.
  apply (emits_on_bind st _ _ [_]); [apply emits_pack_byte|apply emits_pack_variable_size].
Qed.

Lemma emits_pack_string (st : mqtt_client) (d : list Z) :
  emits_on st (pack_string (Some d)) (string_bytes d).
Proof.
  unfold pack_string, string_bytes.
  apply emits_on_bind; [apply emits_pack_word|apply emits_pack_bytes].
Qed.

Lemma emits_pack_cstring (st : mqtt_client) (s : cstring) :
  is_set s = true -> emits_on st (pack_string s) (cstring_bytes s).
Proof.
  destruct s as [d|]; [intros _; apply emits_pack_string|discriminate].
Qed.

Lemma emits_pack_binary (st : mqtt_client) (b : mqtt_blob) :
  blob_ok b -> emits_on st (pack_binary b) (blob_bytes b).
Proof.
  unfold blob_ok, pack_binary, blob_bytes. intros Hok.
  apply emits_on_bind; [apply emits_pack_word|].
  destruct (blob_data b) as [d|]; [|apply emits_on_ret].
  apply Nat.leb_le in Hok. rewrite Hok. apply emits_pack_bytes.
Qed.

Lemma emits_pack_user_props (st : mqtt_client) (id : Z)
    (props : list mqtt_user_property_t) :
  user_props_ok props ->
  emits_on st (pack_user_props id props) (user_props_bytes id props).
Proof.
  intros Hok. unfold pack_user_props, user_props_bytes.
  apply emits_on_for_each. unfold user_props_ok in Hok.
  apply Forall_impl with (2 := Hok). intros p [Hk Hv].
  apply emits_on_bind; [apply emits_pack_byte|].
  apply emits_on_bind; now apply emits_pack_cstring.
Qed.

(** ** The two passes of the builders *)

Lemma two_pass_send_spec (make : M unit) (ok : mqtt_client -> Prop)
    (size : mqtt_client -> Z) (bytes : mqtt_client -> list Z) (st : mqtt_client) :
  builder make ok size bytes ->
  session_only ok -> session_only size -> session_only bytes ->
  ok st ->
  two_pass_send make st
  = let result := alloc_send_buf (net st) (size st) in
    if FAILED result then Done result (after_alloc_failure (size st) st)
    else let buf := Build_pbuf (bytes st) (size st) in
         Done (send (net st) buf) (after_send buf st).
Proof.
  intros [Hfirst Hsecond] Hok Hsize Hbytes Hst.
  unfold two_pass_send. cbn [bind modify]. rewrite Hfirst.
  unfold net_alloc_send_buf at 1. cbn [packet_size set_packet_size net set_pout].
  destruct (FAILED (alloc_send_buf (net st) (size st))) eqn:Hfail.
  - cbn [ret]. reflexivity.
  - cbn [bind modify]. rewrite Hsecond by (rewrite Hok; exact Hst).
    rewrite Hsize, Hbytes. cbn. destruct st; reflexivity.
Qed.

Lemma emits_on_get_const (st : mqtt_client) (k : mqtt_client -> M unit) (bs : list Z) :
  (forall w, k (set_pout (Some w) st) = k st) ->
  emits_on st (k st) bs ->
  emits_on st (s <- get ;; k s) bs.
Proof. intros Hk H w. cbn [bind get]. rewrite Hk. apply H. Qed.

Lemma builder_second_pass (st : mqtt_client) (w : list Z) (body : M unit) (size : Z)
    (bs : list Z) :
  emits_on st body bs ->
  (when true body ;; modify (set_packet_size size)) (set_pout (Some w) st)
  = Done tt (set_packet_size size (set_pout (Some (w ++ bs)) st)).
Proof. intros H. cbn [bind when]. rewrite H. reflexivity. Qed.

Lemma make_pingreq_builder :
  builder make_pingreq (fun _ => True) (fun _ => 2) (fun _ => pingreq_bytes).
Proof.
  split.
  - intros st. reflexivity.
  - intros st w _.
    apply (builder_second_pass st w (write_fixed_header PINGREQ 0 0)).
    apply emits_write_fixed_header.
Qed.

Lemma emits_pack_ack_props (st : mqtt_client) (a : mqtt_ack_info) :
  user_props_ok (ack_user_properties a) ->
  emits_on st (pack_ack_props a) (ack_props_bytes a).
Proof.
  intros Hok. unfold pack_ack_props, ack_props_bytes.
  apply emits_on_bind; [apply emits_pack_variable_size|].
  apply emits_on_bind; [|now apply emits_pack_user_props].
  apply emits_on_when. intros Hset.
  apply (emits_on_bind st _ _ [_]); [apply emits_pack_byte|].
  now apply emits_pack_cstring.
Qed.

Lemma emits_write_ack (st : mqtt_client) (type : mqtt_packet_type) (flags : Z)
    (a : mqtt_ack_info) :
  user_props_ok (ack_user_properties a) ->
  emits_on st (write_ack type flags (ack_rsize a) a) (ack_bytes type flags a).
Proof.
  intros Hok. unfold write_ack, ack_bytes.
  apply emits_on_bind; [apply emits_write_fixed_header|].
  apply emits_on_bind; [apply emits_pack_word|].
  apply (emits_on_bind st _ _ [_]); [apply emits_pack_byte|].
  now apply emits_pack_ack_props.
Qed.

(** [make_puback], [make_pubrec], [make_pubrel] and [make_pubcomp] are
    builders in this sense; [sel] selects the struct. *)
Lemma make_ack_builder (type : mqtt_packet_type) (flags : Z)
    (sel : mqtt_client -> mqtt_ack_info) :
  session_only sel ->
  (forall q st, sel (set_pout q st) = sel st) ->
  builder (st <- get ;; make_ack type flags (sel st))
          (fun st => user_props_ok (ack_user_properties (sel st)))
          (fun st => packet_size_of (ack_rsize (sel st)))
          (fun st => ack_bytes type flags (sel st)).
Proof.
  intros _ Hsel. split.
  - intros st. cbn [bind get]. rewrite Hsel. reflexivity.
  - intros st w Hok. cbn [bind get]. rewrite Hsel.
    apply (builder_second_pass st w (write_ack type flags (ack_rsize (sel st)) (sel st))).
    now apply emits_write_ack.
Qed.

Lemma emits_pack_publish_props (st : mqtt_client) :
  user_props_ok (publish_user_properties (publish st)) ->
  blob_ok (publish_correlation_data (publish st)) ->
  emits_on st pack_publish_props (publish_props_bytes st).
Proof.
  intros Hprops Hblob. unfold pack_publish_props, publish_props_bytes.
  apply emits_on_get_const; [reflexivity|].
  apply emits_on_bind; [apply emits_pack_variable_size|].
  apply emits_on_bind.
  { apply emits_on_when. intros _.
    apply (emits_on_bind st _ _ [_] [_]); apply emits_pack_byte. }
  apply emits_on_bind.
  { apply emits_on_when. intros _.
    apply (emits_on_bind st _ _ [_]); [apply emits_pack_byte|apply emits_pack_dword]. }
  apply emits_on_bind.
  { apply emits_on_when. intros Hset.
    apply (emits_on_bind st _ _ [_]); [apply emits_pack_byte|now apply emits_pack_cstring]. }
  apply emits_on_bind.
  { apply emits_on_when. intros Hset.
    apply (emits_on_bind st _ _ [_]); [apply emits_pack_byte|now apply emits_pack_cstring]. }
  apply emits_on_bind.
  { apply emits_on_when. intros _.
    apply (emits_on_bind st _ _ [_]); [apply emits_pack_byte|now apply emits_pack_binary]. }
  apply emits_on_bind.
  { apply emits_on_when. intros _.
    apply (emits_on_bind st _ _ [_]); [apply emits_pack_byte|apply emits_pack_word]. }
  apply emits_on_bind.
  { apply emits_on_when. intros _.
    apply (emits_on_bind st _ _ [_]);
      [apply emits_pack_byte|apply emits_pack_variable_size]. }
  now apply emits_pack_user_props.
Qed.

Lemma emits_write_publish (st : mqtt_client) (msg : mqtt_pub_packet_t) :
  publish_ok st msg ->
  emits_on st (write_publish msg (publish_flags msg) (publish_rsize st msg))
           (publish_bytes st msg).
Proof.
  intros (Htopic & Hprops & Hblob & Hpayload). unfold write_publish, publish_bytes.
  apply emits_on_bind; [apply emits_write_fixed_header|].
  apply emits_on_bind; [now apply emits_pack_cstring|].
  apply emits_on_bind.
  { apply emits_on_when. intros _. apply emits_pack_word. }
  apply emits_on_bind; [now apply emits_pack_publish_props|].
  unfold payload_bytes.
  destruct (blob_data (msg_payload msg)) as [d|]; [|apply emits_on_ret].
  destruct (0 <? blob_len (msg_payload msg)); [|apply emits_on_ret].
  apply Nat.leb_le in Hpayload. rewrite Hpayload. apply emits_pack_bytes.
Qed.

Lemma make_publish_builder (msg : mqtt_pub_packet_t) :
  builder (make_publish msg) (fun st => publish_ok st msg)
          (fun st => packet_size_of (publish_rsize st msg))
          (fun st => publish_bytes st msg).
Proof.
  split.
  - intros st. reflexivity.
  - intros st w Hok.
    apply (builder_second_pass st w
             (write_publish msg (publish_flags msg) (publish_rsize st msg))).
    now apply emits_write_publish.
Qed.

(** ** The fixed header and the dispatch *)

(** For a remaining length of one byte [mqtt_process_packet] does what
    the specification says: size test, then mask test, then dispatch. *)
Lemma mqtt_process_packet_short (cs : bool) (st : mqtt_client) (h r : Z) (rest : list Z) :
  0 <= r <= 127 ->
  mqtt_process_packet cs (h :: r :: rest) st
  = let st' := set_pin 2%nat (receive (h :: r :: rest) st) in
    if r =? Z.of_nat (length rest) then
      if TST (expected_ptypes st) (BIT (Z.shiftr h 4))
      then process_packet cs (ptype_of_code (Z.shiftr h 4)) (Z.land h 0x0f) st'
      else Done ERROR_UNEXPECTED_PACKET_TYPE st'
    else Done ERROR_INVALID_PACKET_SIZE st'.
Proof.
  intros Hr. unfold mqtt_process_packet.
  cbn [bind when modify length Nat.eqb negb].
  unfold unpack_byte at 1. cbn [inp pin set_pin set_inp pbuf_payload nth_error].
  rewrite (unpack_variable_size_one_byte _ r) by reflexivity.
  cbn [get pin set_pin inp set_inp pbuf_len expected_ptypes].
  assert (Hu : u32 (Z.land r 0x7F) = r).
  { rewrite land_127_small by assumption. unfold u32. apply Z.mod_small. lia. }
  rewrite Hu.
  assert (Hc : get_variable_size_byte_count r = 1).
  { unfold get_variable_size_byte_count.
    destruct (Z.leb_spec r 127); [reflexivity|lia]. }
  rewrite Hc.
  replace (Z.of_nat (S (S (length rest))) - 1 - 1) with (Z.of_nat (length rest)) by lia.
  destruct (r =? Z.of_nat (length rest)); [|reflexivity].
  destruct (TST (expected_ptypes st) (BIT (Z.shiftr h 4))); reflexivity.
Qed.

(** Scenario S5: a header declaring remaining length 20 over a buffer of
    18 bytes. *)
Lemma malformed_packet_size (cs : bool) (st : mqtt_client) (h : Z) (rest : list Z) :
  length rest = 16%nat ->
  value_of (mqtt_process_packet cs (h :: 20 :: rest) st) = Some ERROR_INVALID_PACKET_SIZE.
Proof.
  intros Hlen. rewrite mqtt_process_packet_short by lia. rewrite Hlen. reflexivity.
Qed.

(** ** The expected-packet-type mask *)





(** ** Ping *)

Lemma mqtt_ping_connected (st : mqtt_client) :
  connected st = true ->
  mqtt_ping st
  = let result := alloc_send_buf (net st) 2 in
    if FAILED result then Done result (after_alloc_failure 2 st)
    else let buf := Build_pbuf pingreq_bytes 2 in
         let result := send (net st) buf in
         Done result
              (if SUCCESSFUL result
               then set_expected_ptypes
                      (Z.lor (expected_ptypes st) (BIT (ptype_code PINGRESP)))
                      (after_send buf st)
               else after_send buf st).
Proof.
  intros Hc. unfold mqtt_ping. cbn [bind get]. rewrite Hc. cbn [negb bind].
  rewrite (two_pass_send_spec make_pingreq (fun _ => True) (fun _ => 2)
             (fun _ => pingreq_bytes) st make_pingreq_builder)
    by (try exact I; intros ? ? ? ?; reflexivity).
  cbv zeta. unfold FAILED.
  destruct (SUCCESSFUL (alloc_send_buf (net st) 2)) eqn:Ha; cbn [negb].
  - destruct (SUCCESSFUL (send (net st) (Build_pbuf pingreq_bytes 2))) eqn:Hs;
      cbn [bind]; rewrite ?Hs; reflexivity.
  - cbn [bind]. rewrite ?Ha. reflexivity.
Qed.

(** C10.  An inbound PINGREQ ([C0 00]) is expected from creation on and is
    dispatched to [mqtt_ping]: the engine sends a PINGREQ of its own (the
    bytes [C0 00], not a PINGRESP [D0 00]) and, when the send succeeds,
    adds PINGRESP to the expected mask. *)
Theorem pingreq_answered_by_pingreq (cs : bool) (st : mqtt_client) :
  TST (expected_ptypes st) (BIT (ptype_code PINGREQ)) = true ->
  connected st = true ->
  FAILED (alloc_send_buf (net st) 2) = false ->
  exists st',
    mqtt_process_packet cs [0xC0; 0x00] st
    = Done (send (net st) (Build_pbuf [0xC0; 0x00] 2)) st'
    /\ wire st' = wire st ++ [Build_pbuf [0xC0; 0x00] 2]
    /\ expected_ptypes st'
       = (if SUCCESSFUL (send (net st) (Build_pbuf [0xC0; 0x00] 2))
          then Z.lor (expected_ptypes st) (BIT (ptype_code PINGRESP))
          else expected_ptypes st)
    /\ (forall flags, process_packet cs PINGREQ flags = mqtt_ping)
    /\ (forall n, TST (expected_ptypes (mqtt_create_client n)) (BIT (ptype_code PINGREQ))
                  = true).
Proof.
  intros Hmask Hc Halloc.
  rewrite mqtt_process_packet_short by lia.
  change (Z.shiftr 0xC0 4) with (ptype_code PINGREQ). cbv zeta. rewrite Hmask.
  change (0 =? Z.of_nat (length [])) with true. cbv iota.
  change (ptype_of_code (ptype_code PINGREQ)) with PINGREQ.
  change (process_packet cs PINGREQ (Z.land 0xC0 0x0f)) with mqtt_ping.
  rewrite mqtt_ping_connected by exact Hc.
  cbv zeta. cbn [net set_pin receive set_inp]. rewrite Halloc.
  change pingreq_bytes with [0xC0; 0x00].
  eexists. split; [reflexivity|].
  destruct (SUCCESSFUL (send (net st) (Build_pbuf [0xC0; 0x00] 2))); repeat split.
Qed.

Lemma pingreq_answered_by_pingreq_witness :
  exists st',
    mqtt_process_packet false [0xC0; 0x00] (connected_session false)
    = Done (send (net (connected_session false)) (Build_pbuf [0xC0; 0x00] 2)) st'.
Proof.
  destruct (pingreq_answered_by_pingreq false (connected_session false))
    as (st' & H & _); [reflexivity|reflexivity|reflexivity|].
  exists st'. exact H.
Defined.

(** ** The pending table *)

Lemma reserve_slot_length (slots slots' : list mqtt_pending) (id : Z)
    (await : mqtt_packet_type) :
  reserve_slot slots id await = Some slots' -> length slots' = length slots.
Proof.
  revert slots'. induction slots as [|p rest IH]; intros slots' H; [discriminate|].
  cbn [reserve_slot] in H. destruct (packet_id p =? 0).
  - injection H as <-. reflexivity.
  - destruct (reserve_slot rest id await) as [rest'|]; [|discriminate].
    injection H as <-. cbn [length]. now rewrite (IH rest').
Qed.

Lemma reserve_slot_In (slots slots' : list mqtt_pending) (id : Z)
    (await : mqtt_packet_type) :
  reserve_slot slots id await = Some slots' -> In (Build_pending id await) slots'.
Proof.
  revert slots'. induction slots as [|p rest IH]; intros slots' H; [discriminate|].
  cbn [reserve_slot] in H. destruct (packet_id p =? 0).
  - injection H as <-. now left.
  - destruct (reserve_slot rest id await) as [rest'|]; [|discriminate].
    injection H as <-. right. now apply IH.
Qed.

Lemma reserve_slot_Forall (P : mqtt_pending -> Prop) (slots slots' : list mqtt_pending)
    (id : Z) (await : mqtt_packet_type) :
  P (Build_pending id await) -> Forall P slots ->
  reserve_slot slots id await = Some slots' -> Forall P slots'.
Proof.
  intros Hnew Hall. revert slots'.
  induction Hall as [|p rest Hp Hrest IH]; intros slots' H; [discriminate|].
  cbn [reserve_slot] in H. destruct (packet_id p =? 0).
  - injection H as <-. now constructor.
  - destruct (reserve_slot rest id await) as [rest'|]; [|discriminate].
    injection H as <-. constructor; [assumption|now apply IH].
Qed.

(** A reservation fails only on a table without free slot, and takes
    exactly one free slot otherwise. *)
Lemma reserve_slot_None (slots : list mqtt_pending) (id : Z) (await : mqtt_packet_type) :
  reserve_slot slots id await = None <-> free_slots slots = 0%nat.
Proof.
  unfold free_slots. induction slots as [|p rest IH]; cbn [reserve_slot filter].
  - split; reflexivity.
  - destruct (packet_id p =? 0).
    + split; discriminate.
    + destruct (reserve_slot rest id await).
      * split; [discriminate|]. intros H. apply IH in H. discriminate.
      * split; [intros _; now apply IH|reflexivity].
Qed.

Lemma reserve_slot_free_slots (slots slots' : list mqtt_pending) (id : Z)
    (await : mqtt_packet_type) :
  id <> 0 -> reserve_slot slots id await = Some slots' ->
  S (free_slots slots') = free_slots slots.
Proof.
  intros Hid. unfold free_slots. revert slots'.
  induction slots as [|p rest IH]; intros slots' H; [discriminate|].
  cbn [reserve_slot] in H. cbn [filter]. destruct (packet_id p =? 0) eqn:E.
  - injection H as <-. cbn [filter packet_id].
    destruct (Z.eqb_spec id 0); [contradiction|reflexivity].
  - destruct (reserve_slot rest id await) as [rest'|]; [|discriminate].
    injection H as <-. cbn [filter]. rewrite E. now apply IH.
Qed.

Lemma free_slot_length (slots slots' : list mqtt_pending) (id : Z) :
  free_slot slots id = Some slots' -> length slots' = length slots.
Proof.
  revert slots'. induction slots as [|p rest IH]; intros slots' H; [discriminate|].
  cbn [free_slot] in H. destruct (packet_id p =? id).
  - injection H as <-. reflexivity.
  - destruct (free_slot rest id) as [rest'|]; [|discriminate].
    injection H as <-. cbn [length]. now rewrite (IH rest').
Qed.

Lemma free_slot_Forall (P : mqtt_pending -> Prop) (slots slots' : list mqtt_pending)
    (id : Z) :
  P (Build_pending 0 UNKNOWN) -> Forall P slots ->
  free_slot slots id = Some slots' -> Forall P slots'.
Proof.
  intros Hnew Hall. revert slots'.
  induction Hall as [|p rest Hp Hrest IH]; intros slots' H; [discriminate|].
  cbn [free_slot] in H. destruct (packet_id p =? id).
  - injection H as <-. now constructor.
  - destruct (free_slot rest id) as [rest'|]; [|discriminate].
    injection H as <-. constructor; [assumption|now apply IH].
Qed.

Lemma advance_slot_length (slots : list mqtt_pending) (id : Z) (await : mqtt_packet_type) :
  length (advance_slot slots id await) = length slots.
Proof.
  induction slots as [|p rest IH]; [reflexivity|].
  cbn [advance_slot]. destruct (packet_id p =? id); cbn [length]; [reflexivity|].
  now rewrite IH.
Qed.

Lemma advance_slot_Forall (P : mqtt_pending -> Prop) (slots : list mqtt_pending) (id : Z)
    (await : mqtt_packet_type) :
  P (Build_pending id await) -> Forall P slots -> Forall P (advance_slot slots id await).
Proof.
  intros Hnew Hall. induction Hall as [|p rest Hp Hrest IH]; [constructor|].
  cbn [advance_slot]. destruct (Z.eqb_spec (packet_id p) id) as [->|Hne].
  - now constructor.
  - now constructor.
Qed.

(** On a table whose free slots carry [UNKNOWN], the identifier 0 is
    answered with [UNKNOWN]. *)
Lemma expected_answer_zero (slots : list mqtt_pending) :
  Forall (fun p => packet_id p = 0 -> await_packet_type p = UNKNOWN) slots ->
  expected_answer slots 0 = UNKNOWN.
Proof.
  induction 1 as [|p rest Hp _ IH]; [reflexivity|].
  cbn [expected_answer]. destruct (Z.eqb_spec (packet_id p) 0); auto.
Qed.

Lemma u16_range (x : Z) : 0 <= u16 x <= 65535.
Proof.
  unfold u16. assert (0 <= x mod 65536 < 65536) by (apply Z.mod_pos_bound; lia). lia.
Qed.

Lemma pending_inv_create (n : mqtt_net_api) : pending_inv (mqtt_create_client n).
Proof.
  unfold pending_inv, mqtt_create_client, client_zero.
  cbn [pending set_expected_ptypes packet_id_count].
  split; [apply repeat_length|split; [lia|]].
  apply Forall_forall. intros p Hp. apply repeat_spec in Hp. now subst.
Qed.

Lemma pending_inv_step (st : mqtt_client) (op : pending_op) :
  pending_inv st -> pending_inv (apply_pending_op st op).
Proof.
  intros (Hlen & Hcount & Hall). destruct op as [await|id await|id|id];
    cbn [apply_pending_op].
  - unfold exec, reserve_packet_slot_for_answer.
    set (count := u16 (packet_id_count st + 1)).
    set (id := if count =? 0 then 1 else count).
    assert (Hid : id <> 0).
    { unfold id. destruct (Z.eqb_spec count 0); lia. }
    destruct (reserve_slot (pending st) id await) as [slots|] eqn:Hr.
    + unfold pending_inv. cbn [pending set_pending packet_id_count set_packet_id_count].
      split; [|split].
      * now rewrite (reserve_slot_length _ _ _ _ Hr).
      * apply u16_range.
      * refine (reserve_slot_Forall _ _ _ id await _ Hall Hr).
        cbn [packet_id]. intros H. contradiction.
    + now repeat split.
  - unfold exec, reserve_packet_slot_for_request.
    destruct (Z.eqb_spec id 0) as [->|Hid]; [now repeat split|].
    destruct (reserve_slot (pending st) id await) as [slots|] eqn:Hr.
    + unfold pending_inv. cbn [pending set_pending packet_id_count].
      split; [|split].
      * now rewrite (reserve_slot_length _ _ _ _ Hr).
      * assumption.
      * refine (reserve_slot_Forall _ _ _ id await _ Hall Hr).
        cbn [packet_id]. intros H. contradiction.
    + now repeat split.
  - destruct (ptype_eqb (get_expected_packet_answer st id) PUBREC) eqn:He;
      [|now repeat split].
    assert (Hid : id <> 0).
    { intros ->. unfold get_expected_packet_answer in He.
      rewrite expected_answer_zero in He by assumption. discriminate. }
    unfold pending_inv. cbn [pending set_pending packet_id_count].
    split; [|split].
    + now rewrite advance_slot_length.
    + assumption.
    + apply advance_slot_Forall; [|assumption].
      cbn [packet_id]. intros H. contradiction.
  - unfold exec, free_packet_slot.
    destruct (free_slot (pending st) id) as [slots|] eqn:Hf.
    + unfold pending_inv. cbn [pending set_pending packet_id_count].
      split; [|split].
      * now rewrite (free_slot_length _ _ _ Hf).
      * assumption.
      * refine (free_slot_Forall _ _ _ id _ Hall Hf). reflexivity.
    + now repeat split.
Qed.

Lemma pending_inv_run (ops : list pending_op) :
  forall st, pending_inv st -> pending_inv (run_pending_ops ops st).
Proof.
  induction ops as [|op ops IH]; intros st Hst; [exact Hst|].
  cbn [run_pending_ops fold_left]. apply IH. now apply pending_inv_step.
Qed.

(** C4 (amended).  After any sequence of the four operations on a fresh
    client the table has its [MQTT_RECEIVE_MAXIMUM] slots, a slot with
    packet identifier 0 awaits nothing (identifier 0 is never assigned to
    a flow), the counter is a 16-bit value, a reservation for an outbound
    flow either finds no free slot or mints [counter + 1], and 1 after
    65535, never 0, and a reservation for an inbound flow with identifier
    0 is refused with [ERROR_INVALID_PACKET_ID]. *)
Theorem pending_table_invariant (n : mqtt_net_api) (ops : list pending_op)
    (await : mqtt_packet_type) :
  let st := run_pending_ops ops (mqtt_create_client n) in
  pending_inv st
  /\ (exists r st',
         reserve_packet_slot_for_answer await st = Done r st'
         /\ match r with
            | inl id =>
                id = (if packet_id_count st =? 65535 then 1 else packet_id_count st + 1)
                /\ 1 <= id <= 65535
                /\ In (Build_pending id await) (pending st')
                /\ S (free_slots (pending st')) = free_slots (pending st)
            | inr e =>
                e = ERROR_OUT_OF_RESOURCE /\ st' = st /\ free_slots (pending st) = 0%nat
            end)
  /\ reserve_packet_slot_for_request 0 await st = Done ERROR_INVALID_PACKET_ID st.
Proof.
  intros st.
  assert (Hinv : pending_inv st) by (apply pending_inv_run, pending_inv_create).
  split; [exact Hinv|split; [|reflexivity]].
  destruct Hinv as (_ & Hcount & _).
  unfold reserve_packet_slot_for_answer.
  set (count := u16 (packet_id_count st + 1)).
  set (id := if count =? 0 then 1 else count).
  assert (Hid : id = (if packet_id_count st =? 65535 then 1 else packet_id_count st + 1)
                /\ 1 <= id <= 65535).
  { unfold id, count, u16.
    destruct (Z.eqb_spec (packet_id_count st) 65535) as [->|Hne].
    - cbn. lia.
    - rewrite Z.mod_small by lia.
      destruct (Z.eqb_spec (packet_id_count st + 1) 0); lia. }
  destruct (reserve_slot (pending st) id await) as [slots|] eqn:Hr.
  - exists (inl id). eexists. split; [reflexivity|].
    cbn [pending set_pending]. destruct Hid as [Hid1 Hid2].
    repeat split; try assumption; try lia.
    + now apply (reserve_slot_In _ _ _ _ Hr).
    + apply (reserve_slot_free_slots _ _ id await); [lia|assumption].
  - exists (inr ERROR_OUT_OF_RESOURCE), st. split; [reflexivity|].
    repeat split. now apply (reserve_slot_None _ id await).
Qed.

(** ** Slots found by packet identifier *)

Lemma expected_answer_present (slots : list mqtt_pending) (id : Z) :
  expected_answer slots id <> UNKNOWN -> In id (map packet_id slots).
Proof.
  induction slots as [|p rest IH]; cbn [expected_answer map]; [congruence|].
  destruct (Z.eqb_spec (packet_id p) id); intros H; [now left|right; auto].
Qed.

Lemma expected_answer_absent (slots : list mqtt_pending) (id : Z) :
  ~ In id (map packet_id slots) -> expected_answer slots id = UNKNOWN.
Proof.
  induction slots as [|p rest IH]; cbn [expected_answer map In]; [reflexivity|].
  intros H. destruct (Z.eqb_spec (packet_id p) id); [tauto|apply IH; tauto].
Qed.


Lemma advance_slot_ids (slots : list mqtt_pending) (id : Z) (await : mqtt_packet_type) :
  map packet_id (advance_slot slots id await) = map packet_id slots.
Proof.
  induction slots as [|p rest IH]; [reflexivity|].
  cbn [advance_slot]. destruct (packet_id p =? id); cbn [map packet_id]; [reflexivity|].
  now rewrite IH.
Qed.


Lemma free_slot_present (slots : list mqtt_pending) (id : Z) :
  In id (map packet_id slots) -> exists slots', free_slot slots id = Some slots'.
Proof.
  induction slots as [|p rest IH]; cbn [map In]; [contradiction|].
  intros H. cbn [free_slot]. destruct (Z.eqb_spec (packet_id p) id) as [E|Hne].
  - eexists. reflexivity.
  - destruct IH as [rest' Hr]; [tauto|]. rewrite Hr. eexists. reflexivity.
Qed.

Lemma free_slot_free_slots (slots slots' : list mqtt_pending) (id : Z) :
  id <> 0 -> free_slot slots id = Some slots' ->
  free_slots slots' = S (free_slots slots).
Proof.
  intros Hid. unfold free_slots. revert slots'.
  induction slots as [|p rest IH]; intros slots' H; [discriminate|].
  cbn [free_slot] in H. destruct (Z.eqb_spec (packet_id p) id) as [E|Hne].
  - injection H as <-. cbn [filter packet_id]. rewrite E.
    destruct (Z.eqb_spec id 0); [contradiction|reflexivity].
  - destruct (free_slot rest id) as [rest'|]; [|discriminate].
    injection H as <-. cbn [filter]. destruct (packet_id p =? 0); cbn [length];
      now rewrite (IH rest').
Qed.


(** ** Two bytes on the wire are the 16-bit value *)

Lemma word_roundtrip (x : Z) :
  0 <= x <= 65535 ->
  Z.lor (u16 (Z.shiftl (u8 (Z.shiftr x 8)) 8)) (u8 x) = x.
Proof.
  intros Hx.
  assert (Hhi : 0 <= Z.shiftr x 8 < 256).
  { rewrite Z.shiftr_div_pow2 by lia. change (2 ^ 8) with 256. split.
    - apply Z.div_pos; lia.
    - apply Z.div_lt_upper_bound; lia. }
  unfold u8 at 1. rewrite (Z.mod_small (Z.shiftr x 8)) by lia.
  assert (Hsh : Z.shiftl (Z.shiftr x 8) 8 = 256 * (x / 256)).
  { rewrite Z.shiftl_mul_pow2, Z.shiftr_div_pow2 by lia. change (2 ^ 8) with 256. lia. }
  rewrite Hsh. unfold u16, u8.
  assert (0 <= x / 256 < 256).
  { split; [apply Z.div_pos; lia|apply Z.div_lt_upper_bound; lia]. }
  rewrite Z.mod_small by lia.
  rewrite <- Z.lxor_lor.
  - rewrite <- Z.add_nocarry_lxor.
    + symmetry. apply Z.div_mod. lia.
    + rewrite <- Hsh. change 256 with (2 ^ 8). rewrite <- Z.land_ones by lia.
      apply Z.bits_inj'. intros n Hn. rewrite Z.land_spec, Z.bits_0.
      destruct (Z.lt_ge_cases n 8).
      * now rewrite Z.shiftl_spec_low.
      * rewrite Z.land_spec, Z.ones_spec_high by lia.
        now rewrite !andb_false_r.
  - rewrite <- Hsh. change 256 with (2 ^ 8). rewrite <- Z.land_ones by lia.
    apply Z.bits_inj'. intros n Hn. rewrite Z.land_spec, Z.bits_0.
    destruct (Z.lt_ge_cases n 8).
    + now rewrite Z.shiftl_spec_low.
    + rewrite Z.land_spec, Z.ones_spec_high by lia.
      now rewrite !andb_false_r.
Qed.

(** ** The QoS 2 outbound flow *)

Ltac run_parser :=
  cbn -[Z.lor Z.land Z.shiftl Z.shiftr u8 u16 u32 mqtt_pubrel mqtt_pubcomp mqtt_puback
        mqtt_pubrec advance_slot free_slot await_for_packet expected_answer
        unpack_variable_size ptype_eqb BIT CLR TST].








Lemma ptype_eqb_eq (a b : mqtt_packet_type) : ptype_eqb a b = true <-> a = b.
Proof.
  unfold ptype_eqb. rewrite Z.eqb_eq. split; [|now intros ->].
  destruct a, b; cbn [ptype_code]; intros H; try reflexivity; discriminate H.
Qed.

Lemma ptype_eqb_neq (a b : mqtt_packet_type) : a <> b -> ptype_eqb a b = false.
Proof.
  intros H. destruct (ptype_eqb a b) eqn:E; [|reflexivity].
  apply ptype_eqb_eq in E. contradiction.
Qed.




Lemma mqtt_process_packet_ack (cs : bool) (st : mqtt_client) (h id rc : Z) :
  mqtt_process_packet cs (ack_packet h id rc) st
  = let st' := set_pin 2%nat (receive (ack_packet h id rc) st) in
    if TST (expected_ptypes st) (BIT (Z.shiftr h 4))
    then process_packet cs (ptype_of_code (Z.shiftr h 4)) (Z.land h 0x0f) st'
    else Done ERROR_UNEXPECTED_PACKET_TYPE st'.
Proof.
  unfold ack_packet. rewrite mqtt_process_packet_short by lia. reflexivity.
Qed.






(** ** Publish and subscribe *)

Lemma emits_pack_subscribe_props (st : mqtt_client) :
  user_props_ok (subscribe_user_properties (subscribe st)) ->
  emits_on st pack_subscribe_props (subscribe_props_bytes st).
Proof.
  intros Hprops. unfold pack_subscribe_props, subscribe_props_bytes.
  apply emits_on_get_const; [reflexivity|].
  apply emits_on_bind; [apply emits_pack_variable_size|].
  apply emits_on_bind.
  { apply emits_on_when. intros _.
    apply (emits_on_bind st _ _ [_]);
      [apply emits_pack_byte|apply emits_pack_variable_size]. }
  now apply emits_pack_user_props.
Qed.

Lemma emits_write_subscribe (st : mqtt_client) :
  subscribe_ok st ->
  emits_on st (write_subscribe st (subscribe_rsize st)) (subscribe_bytes st).
Proof.
  intros [Hprops Htopics]. unfold write_subscribe, subscribe_bytes.
  apply emits_on_bind; [apply emits_write_fixed_header|].
  apply emits_on_bind; [apply emits_pack_word|].
  apply emits_on_bind; [now apply emits_pack_subscribe_props|].
  apply emits_on_for_each. apply Forall_impl with (2 := Htopics). intros e He.
  apply emits_on_bind; [now apply emits_pack_cstring|apply emits_pack_byte].
Qed.

Lemma make_subscribe_builder :
  builder make_subscribe subscribe_ok
          (fun st => packet_size_of (subscribe_rsize st)) subscribe_bytes.
Proof.
  split.
  - intros st. reflexivity.
  - intros st w Hok. unfold make_subscribe. cbn [bind get].
    apply (builder_second_pass st w (write_subscribe st (subscribe_rsize st))).
    now apply emits_write_subscribe.
Qed.

(** [mqtt_publish] from the two passes on, for a message that already
    carries its packet identifier. *)
Lemma publish_tail (msg : mqtt_pub_packet_t) (st : mqtt_client) :
  publish_ok st msg ->
  (result <- two_pass_send (make_publish msg) ;;
   when (SUCCESSFUL result)
        (if msg_qos msg =? 1 then expect PUBACK
         else if msg_qos msg =? 2 then expect PUBREC
         else ret tt) ;;
   ret (result, msg)) st
  = publish_sent msg st.
Proof.
  intros Hok. cbn [bind].
  rewrite (two_pass_send_spec (make_publish msg) _ _ _ _ (make_publish_builder msg))
    by (try exact Hok; intros ? ? ? ?; reflexivity).
  unfold publish_sent. cbv zeta. unfold FAILED.
  destruct (SUCCESSFUL (alloc_send_buf (net st) _)) eqn:Ha; cbn [negb bind];
    rewrite ?Ha; [|reflexivity].
  destruct (SUCCESSFUL (send (net st) _)) eqn:Hs; cbn [when bind ret]; [|reflexivity].
  destruct (msg_qos msg =? 1); [reflexivity|].
  destruct (msg_qos msg =? 2); reflexivity.
Qed.

Lemma validate_publish_verdict (cs : bool) (st : mqtt_client) (msg : mqtt_pub_packet_t) :
  validate_publish_utf8_strings cs st msg
  = if publish_encoding_bad cs st msg then ERROR_INVALID_ENCODING else OK.
Proof.
  unfold validate_publish_utf8_strings, publish_encoding_bad, bad_user_props.
  destruct (negb (is_set (msg_topic msg)) || bad_utf8 cs (msg_topic msg)); [reflexivity|].
  cbn [orb].
  destruct (bad_utf8 cs (publish_content_type (publish st))); [reflexivity|].
  destruct (bad_utf8 cs (publish_response_topic (publish st))); [reflexivity|].
  cbn [orb]. destruct (existsb _ _); reflexivity.
Qed.

Lemma strstr1_wildcard (d : list Z) :
  strstr1 d 43 || strstr1 d 35 = existsb (fun c => (c =? 43) || (c =? 35)) (c_str d).
Proof.
  unfold strstr1. induction (c_str d) as [|c l IH]; [reflexivity|].
  cbn [existsb]. rewrite <- IH. rewrite (Z.eqb_sym 43 c), (Z.eqb_sym 35 c).
  destruct (c =? 43), (c =? 35), (existsb (Z.eqb 43) l), (existsb (Z.eqb 35) l); reflexivity.
Qed.

(** [mqtt_publish] once the pre-flight checks have passed. *)
Lemma mqtt_publish_checked (cs : bool) (st : mqtt_client) (msg : mqtt_pub_packet_t) :
  connected st = true ->
  publish_encoding_bad cs st msg = false ->
  msg_qos msg <= 2 ->
  msg_qos msg <= connack_max_qos (connack st) ->
  msg_retain msg && negb (connack_retain_avail (connack st)) = false ->
  topic_has_wildcard (msg_topic msg) = false ->
  publish_ok st msg ->
  mqtt_publish cs msg st
  = if 0 <? msg_qos msg then
      match reserve_slot (pending st) (next_packet_id st) (publish_await (msg_qos msg)) with
      | Some slots =>
          publish_sent (set_msg_packet_id (u16 (next_packet_id st)) msg)
                       (set_pending slots
                          (set_packet_id_count (u16 (packet_id_count st + 1)) st))
      | None => Done (ERROR_OUT_OF_RESOURCE, msg) st
      end
    else publish_sent msg st.
Proof.
  intros Hc Henc Hq2 Hqmax Hretain Hwild Hok.
  unfold mqtt_publish. cbn [bind get]. rewrite Hc. cbn [negb].
  rewrite validate_publish_verdict, Henc. cbn [FAILED SUCCESSFUL OK negb].
  destruct (Z.ltb_spec 2 (msg_qos msg)); [lia|].
  destruct (Z.ltb_spec (connack_max_qos (connack st)) (msg_qos msg)); [lia|].
  rewrite Hretain.
  destruct (msg_topic msg) as [topic|] eqn:Htopic.
  2:{ unfold publish_encoding_bad in Henc. rewrite Htopic in Henc. discriminate Henc. }
  cbn [topic_has_wildcard] in Hwild. rewrite strstr1_wildcard, Hwild.
  destruct (0 <? msg_qos msg) eqn:Hq0.
  - cbn [bind]. unfold reserve_packet_slot_for_answer, next_packet_id, publish_await.
    cbv zeta.
    destruct (reserve_slot (pending st) _ _) as [slots|]; [|reflexivity].
    change (msg_qos (set_msg_packet_id ?id msg)) with (msg_qos msg).
    apply (publish_tail (set_msg_packet_id _ msg)).
    destruct Hok as (H1 & H2 & H3 & H4). unfold publish_ok.
    cbn [msg_topic set_msg_packet_id msg_payload]. rewrite Htopic in *.
    repeat split; assumption.
  - cbn [bind ret]. apply publish_tail. exact Hok.
Qed.

(** C7 (amended): on a connected session with no PUBLISH properties set,
    whose server grants QoS 0 and whose transport grants the 10-byte
    buffer, [mqtt_publish] of topic "a/b", payload "hi", QoS 0, no retain
    hands exactly 30 08 00 03 61 2F 62 00 68 69 to the transport: fixed
    header 0x30, remaining length 8, topic length 3, "a/b", property
    length 0, "hi".  No slot of the pending table is taken. *)
Theorem publish_qos0_bytes (cs : bool) (st : mqtt_client) :
  connected st = true ->
  publish st = publish_zero ->
  0 <= connack_max_qos (connack st) ->
  FAILED (alloc_send_buf (net st) 10) = false ->
  let buf := Build_pbuf [0x30; 0x08; 0x00; 0x03; 0x61; 0x2F; 0x62; 0x00; 0x68; 0x69] 10 in
  exists st',
    mqtt_publish cs (msg_hi 0) st = Done (send (net st) buf, msg_hi 0) st'
    /\ wire st' = wire st ++ [buf]
    /\ pending st' = pending st.
Proof.
  intros Hc Hpub Hmax Halloc buf.
  assert (Hsize : packet_size_of (publish_rsize st (msg_hi 0)) = 10).
  { unfold publish_rsize, estimate_publish_prop_size. rewrite Hpub. reflexivity. }
  assert (Hbytes : publish_bytes st (msg_hi 0) = pbuf_payload buf).
  { unfold publish_bytes, publish_rsize, publish_props_bytes, estimate_publish_prop_size.
    rewrite Hpub. reflexivity. }
  rewrite mqtt_publish_checked.
  - cbn [msg_hi msg_qos Z.ltb Z.compare]. unfold publish_sent. cbv zeta.
    rewrite Hsize, Hbytes, Halloc. cbn [msg_qos Z.eqb].
    eexists. split; [reflexivity|].
    destruct (SUCCESSFUL (send (net st) _)); split; reflexivity.
  - exact Hc.
  - unfold publish_encoding_bad. rewrite Hpub. destruct cs; reflexivity.
  - cbn [msg_hi msg_qos]. lia.
  - cbn [msg_hi msg_qos]. lia.
  - reflexivity.
  - reflexivity.
  - unfold publish_ok. rewrite Hpub. cbn.
    split; [reflexivity|]. split; [constructor|]. split; [exact I|lia].
Qed.

Lemma publish_qos0_bytes_witness :
  exists st',
    mqtt_publish false (msg_hi 0) (connected_session false)
    = Done (OK, msg_hi 0) st'
    /\ wire st'
       = wire (connected_session false)
         ++ [Build_pbuf [0x30; 0x08; 0x00; 0x03; 0x61; 0x2F; 0x62; 0x00; 0x68; 0x69] 10].
Proof.
  destruct (publish_qos0_bytes false (connected_session false)) as (st' & Hrun & Hwire & _);
    [vm_compute; reflexivity|vm_compute; reflexivity|vm_compute; discriminate
    |vm_compute; reflexivity|].
  exists st'. split; [exact Hrun|exact Hwire].
Defined.

(** The pre-flight checks of [mqtt_publish], in the order the function
    makes them.  Each failing check returns its error with the
    session and the message as they were (no slot reserved, nothing
    built, nothing sent): not connected, encoding, QoS above 2, QoS above
    the server's maximum, retain not available, wildcard in the topic.
    When all pass (and the builder's inputs are well formed) the call
    returns, and over a transport that reports none of the six errors its
    result is none of them.  The encoding check is the verdict of
    [is_valid_utf8]; where plain [char] is unsigned that verdict is the
    grammar of RFC 3629 on each string. *)
Theorem mqtt_publish_preflight (cs : bool) (st : mqtt_client) (msg : mqtt_pub_packet_t) :
  (connected st = false ->
   mqtt_publish cs msg st = Done (ERROR_NOT_CONNECTED, msg) st)
  /\ (connected st = true ->
      publish_encoding_bad cs st msg = true ->
      mqtt_publish cs msg st = Done (ERROR_INVALID_ENCODING, msg) st)
  /\ (connected st = true ->
      publish_encoding_bad cs st msg = false ->
      2 < msg_qos msg ->
      mqtt_publish cs msg st = Done (ERROR_INVALID_QOS, msg) st)
  /\ (connected st = true ->
      publish_encoding_bad cs st msg = false ->
      msg_qos msg <= 2 ->
      connack_max_qos (connack st) < msg_qos msg ->
      mqtt_publish cs msg st = Done (ERROR_QOS_NOT_SUPPORTED, msg) st)
  /\ (connected st = true ->
      publish_encoding_bad cs st msg = false ->
      msg_qos msg <= 2 ->
      msg_qos msg <= connack_max_qos (connack st) ->
      msg_retain msg = true ->
      connack_retain_avail (connack st) = false ->
      mqtt_publish cs msg st = Done (ERROR_RETAIN_NOT_SUPPORTED, msg) st)
  /\ (connected st = true ->
      publish_encoding_bad cs st msg = false ->
      msg_qos msg <= 2 ->
      msg_qos msg <= connack_max_qos (connack st) ->
      msg_retain msg && negb (connack_retain_avail (connack st)) = false ->
      topic_has_wildcard (msg_topic msg) = true ->
      mqtt_publish cs msg st = Done (ERROR_INVALID_TOPIC, msg) st)
  /\ (connected st = true ->
      publish_encoding_bad cs st msg = false ->
      msg_qos msg <= 2 ->
      msg_qos msg <= connack_max_qos (connack st) ->
      msg_retain msg && negb (connack_retain_avail (connack st)) = false ->
      topic_has_wildcard (msg_topic msg) = false ->
      publish_ok st msg ->
      transport_clean (net st) ->
      exists result msg' st',
        mqtt_publish cs msg st = Done (result, msg') st'
        /\ preflight_error result = false)
  /\ (publish_strings_are_bytes st msg ->
      publish_encoding_bad false st msg = negb (publish_strings_valid st msg)).
Proof.
  repeat split.
  - intros Hc. unfold mqtt_publish. cbn [bind get]. rewrite Hc. reflexivity.
  - intros Hc Henc. unfold mqtt_publish. cbn [bind get]. rewrite Hc. cbn [negb].
    rewrite validate_publish_verdict, Henc. reflexivity.
  - intros Hc Henc Hq. unfold mqtt_publish. cbn [bind get]. rewrite Hc. cbn [negb].
    rewrite validate_publish_verdict, Henc. cbn [FAILED SUCCESSFUL OK negb].
    destruct (Z.ltb_spec 2 (msg_qos msg)); [reflexivity|lia].
  - intros Hc Henc Hq Hmax. unfold mqtt_publish. cbn [bind get]. rewrite Hc. cbn [negb].
    rewrite validate_publish_verdict, Henc. cbn [FAILED SUCCESSFUL OK negb].
    destruct (Z.ltb_spec 2 (msg_qos msg)); [lia|].
    destruct (Z.ltb_spec (connack_max_qos (connack st)) (msg_qos msg)); [reflexivity|lia].
  - intros Hc Henc Hq Hmax Hr Ha. unfold mqtt_publish. cbn [bind get]. rewrite Hc. cbn [negb].
    rewrite validate_publish_verdict, Henc. cbn [FAILED SUCCESSFUL OK negb].
    destruct (Z.ltb_spec 2 (msg_qos msg)); [lia|].
    destruct (Z.ltb_spec (connack_max_qos (connack st)) (msg_qos msg)); [lia|].
    rewrite Hr, Ha. reflexivity.
  - intros Hc Henc Hq Hmax Hr Hw. unfold mqtt_publish. cbn [bind get]. rewrite Hc. cbn [negb].
    rewrite validate_publish_verdict, Henc. cbn [FAILED SUCCESSFUL OK negb].
    destruct (Z.ltb_spec 2 (msg_qos msg)); [lia|].
    destruct (Z.ltb_spec (connack_max_qos (connack st)) (msg_qos msg)); [lia|].
    rewrite Hr. destruct (msg_topic msg) as [topic|]; [|discriminate Hw].
    cbn [topic_has_wildcard] in Hw. rewrite strstr1_wildcard, Hw. reflexivity.
  - intros Hc Henc Hq Hmax Hr Hw Hok [Halloc Hsend].
    rewrite mqtt_publish_checked by assumption.
    assert (Hsent : forall m s, net s = net st ->
              exists result msg' st',
                publish_sent m s = Done (result, msg') st'
                /\ preflight_error result = false).
    { intros m s Hnet. unfold publish_sent. cbv zeta. rewrite Hnet.
      destruct (FAILED (alloc_send_buf (net st) _)).
      - eexists _, _, _. split; [reflexivity|apply Halloc].
      - eexists _, _, _. split; [reflexivity|apply Hsend]. }
    destruct (0 <? msg_qos msg); [|now apply Hsent].
    destruct (reserve_slot _ _ _) as [slots|]; [now apply Hsent|].
    eexists _, _, _. split; reflexivity.
  - apply publish_encoding_bad_unsigned.
Qed.

Lemma mqtt_publish_preflight_witness :
  mqtt_publish false (msg_plus 0) (connected_session false)
  = Done (ERROR_INVALID_TOPIC, msg_plus 0) (connected_session false)
  /\ mqtt_publish false (msg_surrogate 0) (connected_session false)
     = Done (ERROR_INVALID_ENCODING, msg_surrogate 0) (connected_session false)
  /\ mqtt_publish false (msg_hi 3) (connected_session false)
     = Done (ERROR_INVALID_QOS, msg_hi 3) (connected_session false)
  /\ exists result msg' st',
       mqtt_publish false (msg_hi 1) (connected_session false) = Done (result, msg') st'
       /\ preflight_error result = false.
Proof.
  split; [|split; [|split]].
  - apply (mqtt_publish_preflight false (connected_session false) (msg_plus 0));
      [vm_compute; reflexivity|vm_compute; reflexivity|vm_compute; discriminate
      |vm_compute; discriminate|vm_compute; reflexivity|vm_compute; reflexivity].
  - apply (mqtt_publish_preflight false (connected_session false) (msg_surrogate 0));
      [vm_compute; reflexivity|vm_compute; reflexivity].
  - apply (mqtt_publish_preflight false (connected_session false) (msg_hi 3));
      [vm_compute; reflexivity|vm_compute; reflexivity|vm_compute; reflexivity].
  - apply (mqtt_publish_preflight false (connected_session false) (msg_hi 1));
      [vm_compute; reflexivity|vm_compute; reflexivity|vm_compute; discriminate
      |vm_compute; discriminate|vm_compute; reflexivity|vm_compute; reflexivity| |].
    + split; [reflexivity|]. split; [apply Forall_nil|]. split; [exact I|].
      vm_compute. apply le_n.
    + split; intros ?; reflexivity.
Defined.

(** C8 (code defect on targets with a signed plain [char]; the defect
    of C2).  The topic ED A0 80, an encoded surrogate, is not valid
    UTF-8.  Where plain [char] is unsigned [mqtt_publish] refuses the
    message with [ERROR_INVALID_ENCODING] and sends nothing.  Where
    plain [char] is signed the encoding check passes on the same
    connected session: the call returns OK and the PUBLISH with that
    topic goes out. *)
Theorem publish_surrogate_topic_by_char_signedness :
  msg_topic (msg_surrogate 0) = Some [0xED; 0xA0; 0x80]
  /\ rfc3629 [0xED; 0xA0; 0x80] = false
  /\ value_of (mqtt_publish false (msg_surrogate 0) (connected_session false))
     = Some (ERROR_INVALID_ENCODING, msg_surrogate 0)
  /\ wire (exec (mqtt_publish false (msg_surrogate 0)) (connected_session false))
     = wire (connected_session false)
  /\ connected (connected_session true) = true
  /\ publish_encoding_bad true (connected_session true) (msg_surrogate 0) = false
  /\ value_of (mqtt_publish true (msg_surrogate 0) (connected_session true))
     = Some (OK, msg_surrogate 0)
  /\ map pbuf_payload
         (skipn 1 (wire (exec (mqtt_publish true (msg_surrogate 0))
                              (connected_session true))))
     = [[0x30; 0x08; 0x00; 0x03; 0xED; 0xA0; 0x80; 0x00; 0x68; 0x69]].
Proof. vm_compute. repeat split. Qed.

(** ** Slots reserved by calls that fail *)

Lemma reserve_slot_some (slots : list mqtt_pending) (id : Z) (await : mqtt_packet_type) :
  (0 < free_slots slots)%nat -> exists slots', reserve_slot slots id await = Some slots'.
Proof.
  intros Hfree. destruct (reserve_slot slots id await) as [slots'|] eqn:E.
  - now exists slots'.
  - apply reserve_slot_None in E. lia.
Qed.




Lemma u16_next_packet_id (st : mqtt_client) : u16 (next_packet_id st) = next_packet_id st.
Proof.
  unfold next_packet_id. destruct (u16 (packet_id_count st + 1) =? 0); [reflexivity|].
  unfold u16. apply Z.mod_mod. lia.
Qed.



(** On a transport that grants no buffer, 32 QoS 1 publishes, each
    failing with [ERROR_OUT_OF_MEMORY], leave no free slot, and the next
    one is refused with [ERROR_OUT_OF_RESOURCE]; a send that fails does
    the same. *)
Lemma failed_publishes_exhaust_table :
  free_slots (pending session_no_buf) = 32%nat
  /\ value_of (mqtt_publish false (msg_hi 1) session_no_buf)
     = Some (ERROR_OUT_OF_MEMORY, set_msg_packet_id 1 (msg_hi 1))
  /\ free_slots (pending (publish_times 32 false (msg_hi 1) session_no_buf)) = 0%nat
  /\ value_of (mqtt_publish false (msg_hi 1)
                 (publish_times 32 false (msg_hi 1) session_no_buf))
     = Some (ERROR_OUT_OF_RESOURCE, msg_hi 1)
  /\ value_of (mqtt_publish false (msg_hi 1) session_no_send)
     = Some (ERROR_HW_FAILURE, set_msg_packet_id 1 (msg_hi 1))
  /\ free_slots (pending (publish_times 32 false (msg_hi 1) session_no_send)) = 0%nat.
Proof. vm_compute. repeat split. Qed.

(** * Further properties *)

(** ** Round trips of the byte codec *)

Lemma nth_error_reading (pre bs post : list Z) (k : nat) (b : Z) :
  nth_error bs k = Some b -> nth_error (pre ++ bs ++ post) (length pre + k) = Some b.
Proof.
  intros H. rewrite nth_error_app2 by lia.
  replace (length pre + k - length pre)%nat with k by lia.
  rewrite nth_error_app1; [exact H|]. apply nth_error_Some. congruence.
Qed.

(** One byte read in the middle of the written bytes. *)
Lemma unpack_byte_reading (pre bs post : list Z) (st : mqtt_client) (k : nat) (b : Z) :
  nth_error bs k = Some b ->
  unpack_byte (set_pin (length pre + k) (reading pre bs post st))
  = Done b (set_pin (length pre + S k) (reading pre bs post st)).
Proof.
  intros H. unfold unpack_byte, reading.
  cbn [inp pin set_pin set_inp pbuf_payload].
  rewrite (nth_error_reading pre bs post k b H).
  now rewrite Nat.add_succ_r.
Qed.

Lemma reading_start (pre bs post : list Z) (st : mqtt_client) :
  reading pre bs post st = set_pin (length pre + 0) (reading pre bs post st).
Proof. unfold reading. now rewrite Nat.add_0_r. Qed.

Lemma unpack_bytes_reading (pre post : list Z) (st : mqtt_client) :
  forall (bs : list Z) (k n : nat) (chunk : list Z),
    firstn n (skipn k bs) = chunk -> (k + n <= length bs)%nat ->
    unpack_bytes n (set_pin (length pre + k) (reading pre bs post st))
    = Done chunk (set_pin (length pre + (k + n)) (reading pre bs post st)).
Proof.
  intros bs k n. revert k. induction n as [|n IH]; intros k chunk Hchunk Hlen.
  - cbn [firstn] in Hchunk. subst chunk. cbn [unpack_bytes ret]. now rewrite Nat.add_0_r.
  - destruct (skipn k bs) as [|b rest] eqn:Hskip.
    { assert (Hl : length (skipn k bs) = 0%nat) by now rewrite Hskip.
      rewrite length_skipn in Hl. lia. }
    cbn [firstn] in Hchunk. subst chunk.
    assert (Hb : nth_error bs k = Some b).
    { rewrite <- (firstn_skipn k bs) at 1.
      rewrite nth_error_app2 by (rewrite length_firstn; lia).
      rewrite length_firstn, Nat.min_l, Nat.sub_diag, Hskip by lia. reflexivity. }
    assert (Hrest : skipn (S k) bs = rest).
    { replace (S k) with (1 + k)%nat by lia. rewrite <- skipn_skipn, Hskip. reflexivity. }
    cbn [unpack_bytes bind]. rewrite (unpack_byte_reading pre bs post st k b Hb).
    rewrite (IH (S k) (firstn n rest)) by (try lia; now rewrite Hrest).
    cbn [ret]. do 2 f_equal. lia.
Qed.
Lemma u8_land (y : Z) : u8 y = Z.land y (Z.ones 8).
Proof. unfold u8. now rewrite Z.land_ones by lia. Qed.

Lemma u32_land (y : Z) : u32 y = Z.land y (Z.ones 32).
Proof. unfold u32. now rewrite Z.land_ones by lia. Qed.

Lemma testbit_above (x : Z) (k n : Z) :
  0 <= x < 2 ^ k -> k <= n -> Z.testbit x n = false.
Proof.
  intros Hx Hn. destruct (Z.eq_dec x 0) as [->|Hne]; [apply Z.bits_0|].
  apply Z.bits_above_log2; [lia|].
  assert (Z.log2 x < k) by (apply Z.log2_lt_pow2; lia). lia.
Qed.

Lemma dword_roundtrip (x : Z) :
  0 <= x <= 4294967295 ->
  Z.lor (Z.lor (Z.lor (u32 (Z.shiftl (u8 (Z.shiftr x 24)) 24))
                      (Z.shiftl (u8 (Z.shiftr x 16)) 16))
               (Z.shiftl (u8 (Z.shiftr x 8)) 8))
        (u8 x)
  = x.
Proof.
  intros Hx. rewrite u32_land, !u8_land.
  apply Z.bits_inj'. intros n Hn.
  rewrite !Z.lor_spec, !Z.land_spec.
  assert (Hhigh : 32 <= n -> Z.testbit x n = false).
  { intros H. apply (testbit_above x 32); [change (2 ^ 32) with 4294967296; lia|lia]. }
  destruct (Z.lt_ge_cases n 8); [|destruct (Z.lt_ge_cases n 16);
    [|destruct (Z.lt_ge_cases n 24); [|destruct (Z.lt_ge_cases n 32)]]].
  all: repeat match goal with
              | |- context [Z.testbit (Z.shiftl ?a ?k) ?m] =>
                  first [ rewrite (Z.shiftl_spec_low a k m) by lia
                        | rewrite (Z.shiftl_spec a k m) by lia ]
              end.
  all: rewrite ?Z.land_spec, ?Z.shiftr_spec by lia.
  all: replace (n - 8 + 8) with n by lia; replace (n - 16 + 16) with n by lia;
    replace (n - 24 + 24) with n by lia.
  all: repeat match goal with
              | |- context [Z.testbit (Z.ones ?k) ?m] =>
                  first [ rewrite (Z.ones_spec_low k m) by lia
                        | rewrite (Z.ones_spec_high k m) by lia ]
              end.
  all: try rewrite Hhigh by lia.
  all: destruct (Z.testbit x n); reflexivity.
Qed.

Lemma unpack_word_reading (pre bs post : list Z) (st : mqtt_client) (k : nat) (hi lo : Z) :
  nth_error bs k = Some hi -> nth_error bs (S k) = Some lo ->
  unpack_word (set_pin (length pre + k) (reading pre bs post st))
  = Done (Z.lor (u16 (Z.shiftl hi 8)) lo)
         (set_pin (length pre + S (S k)) (reading pre bs post st)).
Proof.
  intros Hhi Hlo. unfold unpack_word. cbn [bind].
  rewrite (unpack_byte_reading pre bs post st k hi Hhi).
  rewrite (unpack_byte_reading pre bs post st (S k) lo Hlo). reflexivity.
Qed.

Lemma unpack_dword_reading (pre bs post : list Z) (st : mqtt_client) (k : nat)
    (b3 b2 b1 b0 : Z) :
  nth_error bs k = Some b3 -> nth_error bs (S k) = Some b2 ->
  nth_error bs (S (S k)) = Some b1 -> nth_error bs (S (S (S k))) = Some b0 ->
  unpack_dword (set_pin (length pre + k) (reading pre bs post st))
  = Done (Z.lor (Z.lor (Z.lor (u32 (Z.shiftl b3 24)) (Z.shiftl b2 16)) (Z.shiftl b1 8)) b0)
         (set_pin (length pre + S (S (S (S k)))) (reading pre bs post st)).
Proof.
  intros H3 H2 H1 H0. unfold unpack_dword. cbn [bind].
  rewrite (unpack_byte_reading pre bs post st k b3 H3).
  rewrite (unpack_byte_reading pre bs post st (S k) b2 H2).
  rewrite (unpack_byte_reading pre bs post st (S (S k)) b1 H1).
  rewrite (unpack_byte_reading pre bs post st (S (S (S k))) b0 H0). reflexivity.
Qed.

(** A 16-bit and a 32-bit value written by [pack_word] and [pack_dword]
    are what [unpack_word] and [unpack_dword] read, big end first, two
    and four bytes. *)
Theorem integers_read_back :
  (forall x, 0 <= x <= 65535 -> reads_back (pack_word x) unpack_word x)
  /\ (forall x, 0 <= x <= 4294967295 -> reads_back (pack_dword x) unpack_dword x).
Proof.
  split; intros x Hx st w.
  - exists (word_bytes x). split; [apply emits_pack_word|].
    intros st' pre post. rewrite (reading_start pre) at 1.
    unfold word_bytes.
    rewrite (unpack_word_reading pre [u8 (Z.shiftr x 8); u8 x] post st' 0 _ _
               eq_refl eq_refl).
    rewrite word_roundtrip by assumption. reflexivity.
  - exists (dword_bytes x). split; [apply emits_pack_dword|].
    intros st' pre post. rewrite (reading_start pre) at 1.
    unfold dword_bytes.
    rewrite (unpack_dword_reading pre
               [u8 (Z.shiftr x 24); u8 (Z.shiftr x 16); u8 (Z.shiftr x 8); u8 x] post st' 0
               _ _ _ _ eq_refl eq_refl eq_refl eq_refl).
    rewrite dword_roundtrip by assumption. reflexivity.
Qed.

Lemma integers_read_back_witness :
  reads_back (pack_word 0x1234) unpack_word 0x1234
  /\ reads_back (pack_dword 0x89ABCDEF) unpack_dword 0x89ABCDEF.
Proof.
  split; apply integers_read_back; lia.
Defined.

Lemma map_u8_bytes (l : list Z) : Forall is_byte l -> map u8 l = l.
Proof.
  induction 1 as [|b l Hb _ IH]; [reflexivity|].
  cbn [map]. rewrite IH. f_equal. unfold u8. apply Z.mod_small.
  unfold is_byte in Hb. lia.
Qed.

Lemma c_str_bytes (d : list Z) : Forall is_byte d -> Forall is_byte (c_str d).
Proof.
  induction 1 as [|b l Hb _ IH]; [constructor|].
  cbn [c_str]. destruct (b =? 0); [constructor|now constructor].
Qed.

(** A string written by [pack_string] is read by [unpack_string] as the
    same characters, up to 65535 of them; the empty string is read as
    NULL. *)
Theorem strings_read_back (d : list Z) :
  Forall is_byte d -> strlen d <= 65535 ->
  reads_back (pack_string (Some d)) unpack_string
             (if 0 <? strlen d then Some (c_str d) else None).
Proof.
  intros Hd Hlen st w. exists (string_bytes d). split; [apply emits_pack_string|].
  intros st' pre post. unfold unpack_string. cbn [bind].
  assert (Hs : 0 <= strlen d) by (unfold strlen; lia).
  assert (Hu : u16 (strlen d) = strlen d) by (unfold u16; apply Z.mod_small; lia).
  assert (Hbytes : string_bytes d = word_bytes (strlen d) ++ c_str d).
  { unfold string_bytes. rewrite Hu. unfold strlen at 2.
    rewrite Nat2Z.id, firstn_all, map_u8_bytes by (now apply c_str_bytes). reflexivity. }
  rewrite Hbytes. rewrite (reading_start pre) at 1. unfold word_bytes. cbn [app].
  rewrite (unpack_word_reading pre
             (u8 (Z.shiftr (strlen d) 8) :: u8 (strlen d) :: c_str d) post st' 0 _ _
             eq_refl eq_refl).
  rewrite word_roundtrip by lia.
  destruct (Z.ltb_spec 0 (strlen d)) as [Hpos|Hzero]; cbn [bind].
  - rewrite (unpack_bytes_reading pre post st' _ 2 (Z.to_nat (strlen d)) (c_str d)).
    + cbn [ret length]. unfold strlen. rewrite Nat2Z.id. reflexivity.
    + cbn [skipn]. unfold strlen. rewrite Nat2Z.id. apply firstn_all.
    + cbn [length]. unfold strlen. rewrite Nat2Z.id. lia.
  - assert (Hnil : length (c_str d) = 0%nat) by (unfold strlen in *; lia).
    cbn [ret length]. rewrite Hnil. reflexivity.
Qed.

Lemma strings_read_back_witness :
  reads_back (pack_string (Some [0x61; 0x2F; 0x62])) unpack_string (Some [0x61; 0x2F; 0x62])
  /\ reads_back (pack_string (Some [])) unpack_string None.
Proof.
  split.
  - apply (strings_read_back [0x61; 0x2F; 0x62]);
      [repeat constructor; unfold is_byte; lia|vm_compute; discriminate].
  - apply (strings_read_back []); [constructor|vm_compute; discriminate].
Defined.

(** ** The variable byte integer as [pack_variable_size] writes it *)

Lemma continuation_byte (m : Z) :
  0 <= m < 128 ->
  Z.lor m 0x80 = m + 128 /\ Z.land (m + 128) 0x7F = m /\ Z.land m 0x7F = m.
Proof.
  intros Hm.
  assert (H := for_all_bytes
                 (fun m => implb (m <? 128)
                             ((Z.lor m 0x80 =? m + 128) && (Z.land (m + 128) 0x7F =? m)
                              && (Z.land m 0x7F =? m)))
                 eq_refl m ltac:(unfold is_byte; lia)).
  cbv beta in H. destruct (Z.ltb_spec m 128); [|lia].
  cbn [implb] in H. apply andb_true_iff in H. destruct H as [H H3].
  apply andb_true_iff in H. destruct H as [H1 H2].
  now rewrite !Z.eqb_eq in *.
Qed.

Lemma varint_bytes_loop_nonempty (rounds : nat) (size : Z) :
  varint_bytes_loop (S rounds) size <> [].
Proof. cbn [varint_bytes_loop]. discriminate. Qed.

Lemma varint_bytes_loop_standard (rounds : nat) :
  forall size : Z,
    0 <= size < 2 ^ (7 * Z.of_nat (S rounds)) ->
    varint_value (varint_bytes_loop (S rounds) size) = size
    /\ varint_shape (varint_bytes_loop (S rounds) size) = true
    /\ Forall is_byte (varint_bytes_loop (S rounds) size).
Proof.
  induction rounds as [|rounds IH]; intros size Hsize.
  - change (2 ^ (7 * Z.of_nat 1)) with 128 in Hsize.
    cbn [varint_bytes_loop]. rewrite shiftr7_div, Z.div_small by lia.
    destruct (continuation_byte size Hsize) as (_ & _ & Hland).
    cbn [Z.ltb Z.compare]. rewrite Hland.
    assert (Hu : u8 size = size) by (unfold u8; apply Z.mod_small; lia). rewrite Hu.
    cbn [varint_value varint_shape]. rewrite Hland.
    split; [lia|]. split; [apply Z.ltb_lt; lia|].
    constructor; [unfold is_byte; lia|constructor].
  - assert (Hpow : 2 ^ (7 * Z.of_nat (S (S rounds))) = 128 * 2 ^ (7 * Z.of_nat (S rounds))).
    { replace (7 * Z.of_nat (S (S rounds))) with (7 + 7 * Z.of_nat (S rounds)) by lia.
      rewrite Z.pow_add_r by lia. reflexivity. }
    remember (S rounds) as r eqn:Hr.
    cbn [varint_bytes_loop]. rewrite shiftr7_div. subst r.
    assert (Hlow : 0 <= Z.land size 0x7f < 128).
    { change 0x7f with (Z.ones 7). rewrite Z.land_ones by lia.
      apply Z.mod_pos_bound. reflexivity. }
    assert (Hmod : Z.land size 0x7f = size mod 128).
    { change 0x7f with (Z.ones 7). now rewrite Z.land_ones by lia. }
    assert (Hdiv : size = 128 * (size / 128) + size mod 128) by (apply Z.div_mod; lia).
    destruct (continuation_byte _ Hlow) as (Hlor & Hland & Hland').
    destruct (Z.ltb_spec 0 (size / 128)) as [Hmore|Hlast].
    + rewrite Hlor. unfold u8. rewrite Z.mod_small by lia.
      assert (Hrest : 0 <= size / 128 < 2 ^ (7 * Z.of_nat (S rounds))).
      { split; [lia|]. apply Z.div_lt_upper_bound; lia. }
      destruct (IH (size / 128) Hrest) as (Hv & Hs & Hb).
      remember (varint_bytes_loop (S rounds) (size / 128)) as rest eqn:Hrest'.
      cbn [varint_value]. rewrite Hland, Hv.
      split; [lia|]. split.
      * destruct rest as [|b rest]; [discriminate Hs|].
        change (varint_shape (Z.land size 127 + 128 :: b :: rest))
          with ((0x80 <=? Z.land size 127 + 128) && varint_shape (b :: rest)).
        rewrite Hs. apply andb_true_iff. split; [apply Z.leb_le; lia|reflexivity].
      * constructor; [unfold is_byte; lia|exact Hb].
    + unfold u8. rewrite Z.mod_small by lia.
      cbn [varint_value varint_shape]. rewrite Hland'.
      assert (size / 128 = 0) by (assert (0 <= size / 128) by (apply Z.div_pos; lia); lia).
      split; [lia|]. split; [apply Z.ltb_lt; lia|].
      constructor; [unfold is_byte; lia|constructor].
Qed.

(** [pack_variable_size] writes a value up to 268 435 455 as the MQTT
    variable byte integer: as many bytes as
    [get_variable_size_byte_count] counts, seven bits a byte from the
    least significant group on, the continuation bit on every byte but
    the last. *)
Theorem pack_variable_size_standard (n : Z) :
  0 <= n <= 268435455 ->
  forall (st : mqtt_client) (w : list Z),
  exists bs,
    pack_variable_size n (set_pout (Some w) st) = Done tt (set_pout (Some (w ++ bs)) st)
    /\ Z.of_nat (length bs) = get_variable_size_byte_count n
    /\ varint_value bs = n
    /\ varint_shape bs = true
    /\ Forall is_byte bs.
Proof.
  intros Hn st w. exists (varint_bytes n).
  split; [apply pack_variable_size_emits|].
  split; [now apply varint_bytes_length|].
  unfold varint_bytes. apply (varint_bytes_loop_standard 4).
  change (2 ^ (7 * Z.of_nat 5)) with 34359738368. lia.
Qed.

Lemma pack_variable_size_standard_witness :
  exists bs,
    pack_variable_size 321 (set_pout (Some []) (mqtt_create_client net_ok))
    = Done tt (set_pout (Some bs) (mqtt_create_client net_ok))
    /\ bs = [0xC1; 0x02] /\ varint_value bs = 321.
Proof.
  destruct (pack_variable_size_standard 321 ltac:(lia) (mqtt_create_client net_ok) [])
    as (bs & Hrun & _ & Hvalue & _).
  exists bs. split; [exact Hrun|]. split; [|exact Hvalue].
  rewrite pack_variable_size_emits in Hrun. injection Hrun as Hbs.
  vm_compute in Hbs. exact (eq_sym Hbs).
Defined.

(** ** The two passes of the builders agree *)

Lemma u32_small (x : Z) : 0 <= x < 4294967296 -> u32 x = x.
Proof. intros H. unfold u32. now apply Z.mod_small. Qed.

Lemma strlen_nonneg (d : list Z) : 0 <= strlen d.
Proof. unfold strlen. lia. Qed.

Lemma STRLEN_bounds (s : cstring) : cstring_fits s -> 2 <= STRLEN s <= 65537.
Proof.
  destruct s as [d|]; cbn [cstring_fits STRLEN]; [|lia].
  assert (H := strlen_nonneg d). lia.
Qed.

Lemma string_bytes_length (d : list Z) :
  strlen d <= 65535 -> Z.of_nat (length (string_bytes d)) = strlen d + 2.
Proof.
  intros Hlen. assert (Hs := strlen_nonneg d). unfold string_bytes.
  assert (Hu : u16 (strlen d) = strlen d) by (unfold u16; apply Z.mod_small; lia).
  rewrite Hu. unfold strlen at 2. rewrite Nat2Z.id, firstn_all.
  rewrite length_app, length_map. cbn [word_bytes length]. unfold strlen. lia.
Qed.

Lemma cstring_bytes_length (s : cstring) :
  is_set s = true -> cstring_fits s -> Z.of_nat (length (cstring_bytes s)) = STRLEN s.
Proof.
  destruct s as [d|]; [|discriminate]. intros _ Hfit. now apply string_bytes_length.
Qed.

Lemma user_props_total_bounds (props : list mqtt_user_property_t) :
  Forall (fun p => is_set (up_key p) = true /\ is_set (up_value p) = true
                   /\ cstring_fits (up_key p) /\ cstring_fits (up_value p)) props ->
  0 <= user_props_total props <= 131075 * Z.of_nat (length props).
Proof.
  induction 1 as [|p props (_ & _ & Hk & Hv) _ IH]; [cbn; lia|].
  cbn [user_props_total fold_right length]. fold (user_props_total props).
  assert (Hk' := STRLEN_bounds _ Hk). assert (Hv' := STRLEN_bounds _ Hv). lia.
Qed.

Lemma user_props_bytes_length (id : Z) (props : list mqtt_user_property_t) :
  Forall (fun p => is_set (up_key p) = true /\ is_set (up_value p) = true
                   /\ cstring_fits (up_key p) /\ cstring_fits (up_value p)) props ->
  Z.of_nat (length (user_props_bytes id props)) = user_props_total props.
Proof.
  induction 1 as [|p props (Hks & Hvs & Hk & Hv) _ IH]; [reflexivity|].
  unfold user_props_bytes in *. cbn [flat_map user_props_total fold_right].
  fold (user_props_total props).
  rewrite !length_app, !Nat2Z.inj_add, IH.
  rewrite !cstring_bytes_length by assumption. cbn [length]. lia.
Qed.

Lemma user_props_size_total (props : list mqtt_user_property_t) :
  forall size : Z,
    Forall (fun p => is_set (up_key p) = true /\ is_set (up_value p) = true
                     /\ cstring_fits (up_key p) /\ cstring_fits (up_value p)) props ->
    0 <= size -> size + user_props_total props < 4294967296 ->
    user_props_size props size = size + user_props_total props.
Proof.
  unfold user_props_size.
  induction props as [|p props IH]; intros size Hall Hsize Htotal; [cbn; lia|].
  inversion Hall as [|? ? (_ & _ & Hk & Hv) Hrest]; subst.
  cbn [fold_left user_props_total fold_right] in *. fold (user_props_total props) in *.
  assert (Hk' := STRLEN_bounds _ Hk). assert (Hv' := STRLEN_bounds _ Hv).
  assert (Hb := user_props_total_bounds props Hrest).
  assert (E : add32 (add32 size (1 + STRLEN (up_key p))) (STRLEN (up_value p))
              = size + (1 + STRLEN (up_key p) + STRLEN (up_value p))).
  { unfold add32. rewrite (u32_small (size + _)) by lia. rewrite u32_small by lia. lia. }
  rewrite E, IH by (try assumption; lia). lia.
Qed.

Lemma user_props_fit_ok (props : list mqtt_user_property_t) :
  user_props_fit props -> user_props_ok props.
Proof.
  intros [_ H]. unfold user_props_ok. apply Forall_impl with (2 := H). tauto.
Qed.

Lemma varint_bytes_standard (n : Z) :
  0 <= n <= 268435455 ->
  Z.of_nat (length (varint_bytes n)) = get_variable_size_byte_count n
  /\ varint_value (varint_bytes n) = n
  /\ varint_shape (varint_bytes n) = true.
Proof.
  intros Hn. split; [now apply varint_bytes_length|].
  destruct (varint_bytes_loop_standard 4 n) as (Hv & Hs & _);
    [change (2 ^ (7 * Z.of_nat 5)) with 34359738368; lia|].
  split; assumption.
Qed.

Lemma byte_count_bounds (n : Z) : 1 <= get_variable_size_byte_count n <= 4.
Proof.
  unfold get_variable_size_byte_count.
  destruct (n <=? 127); [lia|]. destruct (n <=? 16383); [lia|].
  destruct (n <=? 2097151); lia.
Qed.

(** A fixed header for [rsize] in front of [rsize] bytes. *)
Lemma framed_packet (type : mqtt_packet_type) (flags rsize : Z) (body : list Z) :
  0 <= rsize <= 268435455 -> Z.of_nat (length body) = rsize ->
  let first := u8 (Z.lor (Z.shiftl (Z.land (ptype_code type) 0x0f) 4) (Z.land flags 0x0f)) in
  Z.of_nat (length (fixed_header_bytes type flags rsize ++ body)) = packet_size_of rsize
  /\ framed first (fixed_header_bytes type flags rsize ++ body).
Proof.
  intros Hr Hbody first. destruct (varint_bytes_standard rsize Hr) as (Hlen & Hval & Hshape).
  assert (Hc := byte_count_bounds rsize). split.
  - unfold fixed_header_bytes, packet_size_of, estimate_fixed_header_size.
    cbn [length app]. rewrite length_app.
    rewrite (u32_small (_ + 1)) by lia. rewrite u32_small by lia. lia.
  - exists (varint_bytes rsize), body. unfold fixed_header_bytes. cbn [app].
    split; [reflexivity|]. split; [exact Hshape|]. now rewrite Hval.
Qed.

Lemma builder_passes_agree (make : M unit) (ok : mqtt_client -> Prop)
    (size : mqtt_client -> Z) (bytes : mqtt_client -> list Z) (st : mqtt_client)
    (first : Z) :
  builder make ok size bytes -> ok st ->
  Z.of_nat (length (bytes st)) = size st -> framed first (bytes st) ->
  passes_agree make st first.
Proof.
  intros [Hfirst Hsecond] Hok Hlen Hframed. exists (size st), (bytes st).
  split; [apply Hfirst|]. split; [intros w; now apply Hsecond|]. now split.
Qed.

Lemma estimate_ack_prop_size_total (a : mqtt_ack_info) :
  ack_fits a ->
  estimate_ack_prop_size a
  = (if is_set (ack_reason_string a) then 1 + STRLEN (ack_reason_string a) else 0)
    + user_props_total (ack_user_properties a)
  /\ 0 <= estimate_ack_prop_size a <= 131140613.
Proof.
  intros [Hrs [Hcount Hprops]]. unfold estimate_ack_prop_size.
  assert (Hb := user_props_total_bounds _ Hprops).
  assert (Hs := STRLEN_bounds _ Hrs).
  assert (E : (if is_set (ack_reason_string a)
               then add32 0 (1 + STRLEN (ack_reason_string a)) else 0)
              = (if is_set (ack_reason_string a)
                 then 1 + STRLEN (ack_reason_string a) else 0)).
  { destruct (is_set (ack_reason_string a)); [|reflexivity].
    unfold add32. apply u32_small. lia. }
  rewrite E. rewrite user_props_size_total; try assumption;
    destruct (is_set (ack_reason_string a)); lia.
Qed.

Lemma ack_props_bytes_length (a : mqtt_ack_info) :
  ack_fits a ->
  Z.of_nat (length (ack_props_bytes a))
  = get_variable_size_byte_count (estimate_ack_prop_size a) + estimate_ack_prop_size a.
Proof.
  intros Hfit. destruct (estimate_ack_prop_size_total a Hfit) as [Hest Hbound].
  destruct Hfit as [Hrs [Hcount Hprops]].
  unfold ack_props_bytes. rewrite !length_app, !Nat2Z.inj_add.
  rewrite user_props_bytes_length by assumption.
  destruct (varint_bytes_standard (estimate_ack_prop_size a)) as (Hlen & _); [lia|].
  rewrite Hlen, Hest.
  destruct (is_set (ack_reason_string a)) eqn:Hset.
  - rewrite length_app, Nat2Z.inj_add, cstring_bytes_length by assumption.
    cbn [length]. lia.
  - cbn [length]. lia.
Qed.

Lemma make_ack_passes_agree (type : mqtt_packet_type) (flags : Z)
    (sel : mqtt_client -> mqtt_ack_info) (st : mqtt_client) :
  session_only sel ->
  (forall q st, sel (set_pout q st) = sel st) ->
  ack_fits (sel st) ->
  passes_agree (st <- get ;; make_ack type flags (sel st)) st
    (u8 (Z.lor (Z.shiftl (Z.land (ptype_code type) 0x0f) 4) (Z.land flags 0x0f))).
Proof.
  intros Hsession Hsel Hfit.
  destruct (estimate_ack_prop_size_total _ Hfit) as [_ Hbound].
  assert (Hc := byte_count_bounds (estimate_ack_prop_size (sel st))).
  assert (Hprops := ack_props_bytes_length _ Hfit).
  assert (Hrsize : ack_rsize (sel st)
                   = 3 + get_variable_size_byte_count (estimate_ack_prop_size (sel st))
                     + estimate_ack_prop_size (sel st)).
  { unfold ack_rsize, add32.
    destruct (Z.ltb_spec 0 (estimate_ack_prop_size (sel st))) as [Hpos|Hzero].
    - rewrite u32_small by lia. lia.
    - assert (E : estimate_ack_prop_size (sel st) = 0) by lia. rewrite E. reflexivity. }
  destruct (framed_packet type flags (ack_rsize (sel st))
              (word_bytes (ack_packet_id (sel st)) ++ [u8 (ack_reason_code (sel st))]
               ++ ack_props_bytes (sel st))) as [Hlen Hframed].
  { lia. }
  { rewrite !length_app, !Nat2Z.inj_add, Hprops, Hrsize. cbn [word_bytes length]. lia. }
  apply (builder_passes_agree _ _ _ _ st _ (make_ack_builder type flags sel Hsession Hsel)).
  - apply user_props_fit_ok. apply Hfit.
  - exact Hlen.
  - exact Hframed.
Qed.

(** The four acknowledgement builders.  With a reason string and user
    properties that fit, the size pass and the write pass of
    [make_puback], [make_pubrec], [make_pubrel] and [make_pubcomp] store
    the same [packet_size], the write pass appends exactly that many
    bytes, and the remaining length in the fixed header counts the bytes
    behind it. *)
Theorem acknowledgement_passes_agree (st : mqtt_client) :
  (ack_fits (puback st) -> passes_agree make_puback st 0x40)
  /\ (ack_fits (pubrec st) -> passes_agree make_pubrec st 0x50)
  /\ (ack_fits (pubrel st) -> passes_agree make_pubrel st 0x62)
  /\ (ack_fits (pubcomp st) -> passes_agree make_pubcomp st 0x70).
Proof.
  repeat split; intros Hfit.
  - apply (make_ack_passes_agree PUBACK 0 puback st);
      [intros ? ? ? ?; reflexivity|intros ? ?; reflexivity|exact Hfit].
  - apply (make_ack_passes_agree PUBREC 0 pubrec st);
      [intros ? ? ? ?; reflexivity|intros ? ?; reflexivity|exact Hfit].
  - apply (make_ack_passes_agree PUBREL 0x02 pubrel st);
      [intros ? ? ? ?; reflexivity|intros ? ?; reflexivity|exact Hfit].
  - apply (make_ack_passes_agree PUBCOMP 0 pubcomp st);
      [intros ? ? ? ?; reflexivity|intros ? ?; reflexivity|exact Hfit].
Qed.

Lemma acknowledgement_passes_agree_witness :
  passes_agree make_puback
    (set_puback (Build_ack_info 7 0 str_u [Build_user_property str_k str_v])
       (mqtt_create_client net_ok)) 0x40.
Proof.
  apply (proj1 (acknowledgement_passes_agree _)).
  split; [vm_compute; discriminate|].
  split; [vm_compute; lia|].
  constructor; [|constructor].
  repeat split; vm_compute; discriminate.
Defined.

Lemma cond_add32 (b : bool) (s x : Z) :
  0 <= s -> 0 <= x -> s + x < 4294967296 ->
  (if b then add32 s x else s) = s + (if b then x else 0)
  /\ 0 <= (if b then x else 0) <= x.
Proof.
  intros Hs Hx Hsum. destruct b; [|lia]. unfold add32. rewrite u32_small by lia. lia.
Qed.

Lemma cond_length (b : bool) (l : list Z) (x : Z) :
  (b = true -> Z.of_nat (length l) = x) ->
  Z.of_nat (length (if b then l else [])) = (if b then x else 0).
Proof. destruct b; [intros H; now apply H|reflexivity]. Qed.

Ltac step_add32 b s x :=
  let E := fresh "E" in
  let B := fresh "B" in
  destruct (cond_add32 b s x) as [E B]; [lia|lia|lia|]; rewrite E; clear E.

Lemma blob_bytes_length (b : mqtt_blob) :
  blob_fits b -> Z.of_nat (length (blob_bytes b)) = BLEN b.
Proof.
  intros [Hlen Hdata]. unfold blob_bytes, BLEN.
  rewrite length_app, Nat2Z.inj_add. cbn [word_bytes length].
  assert (Hu : u16 (blob_len b) = blob_len b).
  { unfold u16. apply Z.mod_small. lia. }
  rewrite Hu.
  destruct (Z.eq_dec (blob_len b) 0) as [Hz|Hnz].
  - rewrite Hz. destruct (blob_data b); cbn [Z.to_nat firstn map length]; lia.
  - destruct (Hdata Hnz) as (d & Hd & Hlong). rewrite Hd.
    rewrite length_map, length_firstn, Nat.min_l by exact Hlong. lia.
Qed.

Lemma payload_bytes_length (b : mqtt_blob) :
  blob_fits b -> Z.of_nat (length (payload_bytes b)) = blob_len b.
Proof.
  intros [Hlen Hdata]. unfold payload_bytes.
  destruct (Z.eq_dec (blob_len b) 0) as [Hz|Hnz].
  - rewrite Hz. destruct (blob_data b); reflexivity.
  - destruct (Hdata Hnz) as (d & Hd & Hlong). rewrite Hd.
    destruct (Z.ltb_spec 0 (blob_len b)); [|lia].
    rewrite length_map, length_firstn, Nat.min_l by exact Hlong. lia.
Qed.

Lemma publish_props_size (st : mqtt_client) (msg : mqtt_pub_packet_t) :
  publish_fits st msg ->
  Z.of_nat (length (publish_props_bytes st))
  = get_variable_size_byte_count (estimate_publish_prop_size st)
    + estimate_publish_prop_size st
  /\ 0 <= estimate_publish_prop_size st <= 131400000.
Proof.
  intros (_ & _ & _ & Hct & Hrt & Hcd & Hsi & Hcount & Hprops).
  assert (Hb := user_props_total_bounds _ Hprops).
  assert (Hsct := STRLEN_bounds _ Hct). assert (Hsrt := STRLEN_bounds _ Hrt).
  assert (Hc := byte_count_bounds (publish_subscription_identifier (publish st))).
  assert (Hcdl := proj1 Hcd).
  assert (Hest : estimate_publish_prop_size st
    = 0 + (if nonzero (publish_payload_format_indicator (publish st)) then 2 else 0)
      + (if nonzero (publish_message_expiry_interval (publish st)) then 5 else 0)
      + (if is_set (publish_content_type (publish st))
         then 1 + STRLEN (publish_content_type (publish st)) else 0)
      + (if is_set (publish_response_topic (publish st))
         then 1 + STRLEN (publish_response_topic (publish st)) else 0)
      + (if nonzero (blob_len (publish_correlation_data (publish st)))
         then 1 + BLEN (publish_correlation_data (publish st)) else 0)
      + (if nonzero (publish_topic_alias (publish st)) then 3 else 0)
      + (if nonzero (publish_subscription_identifier (publish st))
         then 1 + get_variable_size_byte_count
                    (publish_subscription_identifier (publish st)) else 0)
      + user_props_total (publish_user_properties (publish st))
    /\ 0 <= estimate_publish_prop_size st <= 131400000).
  { unfold estimate_publish_prop_size. cbv zeta. unfold BLEN.
    step_add32 (nonzero (publish_payload_format_indicator (publish st))) 0 2.
    match goal with |- context [if ?b then add32 ?s 5 else _] => step_add32 b s 5 end.
    match goal with |- context [if ?b then add32 ?s ?x else _] => step_add32 b s x end.
    match goal with |- context [if ?b then add32 ?s ?x else _] => step_add32 b s x end.
    match goal with |- context [if ?b then add32 ?s ?x else _] => step_add32 b s x end.
    match goal with |- context [if ?b then add32 ?s ?x else _] => step_add32 b s x end.
    match goal with |- context [if ?b then add32 ?s ?x else _] => step_add32 b s x end.
    rewrite user_props_size_total by (try assumption; lia). lia. }
  destruct Hest as [Hest Hbound]. split; [|exact Hbound].
  destruct (varint_bytes_standard (estimate_publish_prop_size st)) as (Hlen & _); [lia|].
  unfold publish_props_bytes. cbv zeta.
  rewrite !length_app, !Nat2Z.inj_add, Hlen.
  rewrite user_props_bytes_length by assumption.
  rewrite (cond_length _ _ 2) by reflexivity.
  rewrite (cond_length _ _ 5) by reflexivity.
  rewrite (cond_length _ _ (1 + STRLEN (publish_content_type (publish st)))).
  2:{ intros Hset. rewrite length_app, Nat2Z.inj_add, cstring_bytes_length by assumption.
      reflexivity. }
  rewrite (cond_length _ _ (1 + STRLEN (publish_response_topic (publish st)))).
  2:{ intros Hset. rewrite length_app, Nat2Z.inj_add, cstring_bytes_length by assumption.
      reflexivity. }
  rewrite (cond_length _ _ (1 + BLEN (publish_correlation_data (publish st)))).
  2:{ intros _. rewrite length_app, Nat2Z.inj_add, blob_bytes_length by assumption.
      reflexivity. }
  rewrite (cond_length _ _ 3) by reflexivity.
  rewrite (cond_length _ _ (1 + get_variable_size_byte_count
                                 (publish_subscription_identifier (publish st)))).
  2:{ intros _. rewrite length_app, Nat2Z.inj_add.
      destruct (varint_bytes_standard (publish_subscription_identifier (publish st)))
        as (Hl & _); [lia|]. rewrite Hl. reflexivity. }
  generalize (get_variable_size_byte_count (estimate_publish_prop_size st)).
  intros c. rewrite Hest. cbn [length]. lia.
Qed.

Lemma publish_first_byte (msg : mqtt_pub_packet_t) :
  u8 (Z.lor (Z.shiftl (Z.land (ptype_code PUBLISH) 0x0f) 4)
            (Z.land (publish_flags msg) 0x0f))
  = 0x30 + publish_flags msg.
Proof.
  unfold publish_flags. cbv zeta.
  assert (Hq : Z.land (msg_qos msg) 0x03 = msg_qos msg mod 4).
  { apply (Z.land_ones _ 2). lia. }
  rewrite Hq. assert (Hr := Z.mod_pos_bound (msg_qos msg) 4 ltac:(lia)).
  assert (Hcases : msg_qos msg mod 4 = 0 \/ msg_qos msg mod 4 = 1
                   \/ msg_qos msg mod 4 = 2 \/ msg_qos msg mod 4 = 3) by lia.
  destruct Hcases as [E|[E|[E|E]]]; rewrite E;
    destruct (msg_dup msg), (msg_retain msg); reflexivity.
Qed.

(** [make_publish].  For a message with a topic and a payload that fit,
    and publish properties that fit, the size pass and the write pass
    store the same [packet_size], the write pass appends exactly that
    many bytes, the first of them is [0x30] plus the header flags, and
    the remaining length counts the bytes behind it. *)
Theorem make_publish_passes_agree (st : mqtt_client) (msg : mqtt_pub_packet_t) :
  publish_fits st msg ->
  passes_agree (make_publish msg) st (0x30 + publish_flags msg).
Proof.
  intros Hfit. destruct (publish_props_size st msg Hfit) as [Hprops Hbound].
  destruct Hfit as (Htopic & Htfit & Hpayload & Hct & Hrt & Hcd & Hsi & Hup).
  assert (Hc := byte_count_bounds (estimate_publish_prop_size st)).
  assert (Hst := STRLEN_bounds _ Htfit). assert (Hpl := proj1 Hpayload).
  assert (Hrsize : publish_rsize st msg
                   = STRLEN (msg_topic msg)
                     + get_variable_size_byte_count (estimate_publish_prop_size st)
                     + estimate_publish_prop_size st
                     + (if 0 <? msg_qos msg then 2 else 0)
                     + blob_len (msg_payload msg)).
  { unfold publish_rsize. cbv zeta. rewrite u32_small by lia.
    match goal with |- context [if ?b then add32 ?s ?x else _] => step_add32 b s x end.
    unfold add32. rewrite u32_small by lia. reflexivity. }
  assert (Hq : 0 <= (if 0 <? msg_qos msg then 2 else 0) <= 2)
    by (destruct (0 <? msg_qos msg); lia).
  destruct (framed_packet PUBLISH (publish_flags msg) (publish_rsize st msg)
              (cstring_bytes (msg_topic msg)
               ++ (if 0 <? msg_qos msg then word_bytes (msg_packet_id msg) else [])
               ++ publish_props_bytes st ++ payload_bytes (msg_payload msg)))
    as [Hlen Hframed].
  { lia. }
  { rewrite !length_app, !Nat2Z.inj_add, Hprops, Hrsize.
    rewrite cstring_bytes_length, payload_bytes_length by assumption.
    rewrite (cond_length _ _ 2) by reflexivity. lia. }
  rewrite publish_first_byte in Hframed.
  apply (builder_passes_agree _ _ _ _ st _ (make_publish_builder msg)).
  - repeat split.
    + exact Htopic.
    + apply user_props_fit_ok. exact Hup.
    + unfold blob_ok. destruct Hcd as [Hl Hd].
      destruct (blob_data (publish_correlation_data (publish st))) as [d|] eqn:Ed;
        [|exact I].
      assert (Hu : u16 (blob_len (publish_correlation_data (publish st)))
                   = blob_len (publish_correlation_data (publish st))).
      { unfold u16. apply Z.mod_small. lia. }
      rewrite Hu.
      destruct (Z.eq_dec (blob_len (publish_correlation_data (publish st))) 0) as [Hz|Hnz].
      * rewrite Hz. cbn. lia.
      * destruct (Hd Hnz) as (d' & Hd' & Hlong). congruence.
    + destruct Hpayload as [Hl Hd].
      destruct (blob_data (msg_payload msg)) as [d|] eqn:Ed; [|exact I].
      destruct (Z.eq_dec (blob_len (msg_payload msg)) 0) as [Hz|Hnz].
      * rewrite Hz. cbn. lia.
      * destruct (Hd Hnz) as (d' & Hd' & Hlong). congruence.
  - exact Hlen.
  - exact Hframed.
Qed.

Lemma make_publish_passes_agree_witness :
  passes_agree (make_publish (msg_hi 1))
    (set_publish
       (Build_publish_info 1 60 str_u None (Build_blob (Some [1; 2; 3]) 3 0) 5 321
          [Build_user_property str_k str_v])
       (mqtt_create_client net_ok))
    0x32.
Proof.
  apply (make_publish_passes_agree _ (msg_hi 1)).
  split; [reflexivity|].
  split; [vm_compute; discriminate|].
  split.
  { split; [vm_compute; split; discriminate|].
    intros _. exists [0x68; 0x69]. split; [reflexivity|vm_compute; lia]. }
  split; [vm_compute; discriminate|].
  split; [exact I|].
  split.
  { split; [vm_compute; split; discriminate|].
    intros _. exists [1; 2; 3]. split; [reflexivity|vm_compute; lia]. }
  split; [vm_compute; split; discriminate|].
  split; [vm_compute; lia|].
  constructor; [|constructor].
  repeat split; vm_compute; discriminate.
Defined.

Lemma fold_add32 {A : Type} (f : A -> Z) (bound : Z) (l : list A) :
  Forall (fun a => 0 <= f a <= bound) l ->
  forall r : Z,
    0 <= r -> r + bound * Z.of_nat (length l) < 4294967296 ->
    fold_left (fun r a => add32 r (f a)) l r = r + fold_right (fun a t => f a + t) 0 l
    /\ 0 <= fold_right (fun a t => f a + t) 0 l <= bound * Z.of_nat (length l).
Proof.
  induction 1 as [|a l Ha Hl IH]; intros r Hr Hsum.
  - cbn. lia.
  - cbn [fold_left fold_right length] in *. rewrite Nat2Z.inj_succ in Hsum.
    unfold add32 at 2. rewrite u32_small by nia.
    destruct (IH (r + f a)) as [E B]; [lia|nia|]. rewrite E.
    rewrite Nat2Z.inj_succ. split; nia.
Qed.

Lemma flat_map_length_total {A : Type} (g : A -> list Z) (f : A -> Z) (l : list A) :
  Forall (fun a => Z.of_nat (length (g a)) = f a) l ->
  Z.of_nat (length (flat_map g l)) = fold_right (fun a t => f a + t) 0 l.
Proof.
  induction 1 as [|a l Ha Hl IH]; [reflexivity|].
  cbn [flat_map fold_right]. rewrite length_app, Nat2Z.inj_add. lia.
Qed.

Lemma subscribe_props_size (st : mqtt_client) :
  subscribe_fits st ->
  Z.of_nat (length (subscribe_props_bytes st))
  = get_variable_size_byte_count (estimate_subscribe_prop_size st)
    + estimate_subscribe_prop_size st
  /\ 0 <= estimate_subscribe_prop_size st <= 131140613.
Proof.
  intros (Hsi & [Hcount Hprops] & _).
  assert (Hb := user_props_total_bounds _ Hprops).
  assert (Hc := byte_count_bounds (subscribe_subscription_identifier (subscribe st))).
  assert (Hest : estimate_subscribe_prop_size st
    = 0 + (if nonzero (subscribe_subscription_identifier (subscribe st))
           then 1 + get_variable_size_byte_count
                      (subscribe_subscription_identifier (subscribe st)) else 0)
      + user_props_total (subscribe_user_properties (subscribe st))
    /\ 0 <= estimate_subscribe_prop_size st <= 131140613).
  { unfold estimate_subscribe_prop_size. cbv zeta.
    match goal with |- context [if ?b then add32 ?s ?x else _] => step_add32 b s x end.
    rewrite user_props_size_total by (try assumption; lia). lia. }
  destruct Hest as [Hest Hbound]. split; [|exact Hbound].
  destruct (varint_bytes_standard (estimate_subscribe_prop_size st)) as (Hlen & _); [lia|].
  unfold subscribe_props_bytes. cbv zeta.
  rewrite !length_app, !Nat2Z.inj_add, Hlen.
  rewrite user_props_bytes_length by assumption.
  rewrite (cond_length _ _ (1 + get_variable_size_byte_count
                                 (subscribe_subscription_identifier (subscribe st)))).
  2:{ intros _. rewrite length_app, Nat2Z.inj_add.
      destruct (varint_bytes_standard (subscribe_subscription_identifier (subscribe st)))
        as (Hl & _); [lia|]. rewrite Hl. reflexivity. }
  generalize (get_variable_size_byte_count (estimate_subscribe_prop_size st)).
  intros c. rewrite Hest. lia.
Qed.

Lemma make_subscribe_passes_agree (st : mqtt_client) :
  subscribe_fits st -> passes_agree make_subscribe st 0x82.
Proof.
  intros Hfit. destruct (subscribe_props_size st Hfit) as [Hprops Hbound].
  destruct Hfit as (Hsi & Hup & Hcount & Hentries).
  assert (Hc := byte_count_bounds (estimate_subscribe_prop_size st)).
  destruct (fold_add32 (fun e => STRLEN (sub_topic e) + 1) 65538
              (subscribe_entries (subscribe st))) with
    (r := 2 + get_variable_size_byte_count (estimate_subscribe_prop_size st)
          + estimate_subscribe_prop_size st) as [Hfold Htotal].
  { apply Forall_impl with (2 := Hentries). intros e [_ He].
    assert (Hs := STRLEN_bounds _ He). lia. }
  { lia. }
  { lia. }
  assert (Hrsize : subscribe_rsize st
                   = 2 + get_variable_size_byte_count (estimate_subscribe_prop_size st)
                     + estimate_subscribe_prop_size st
                     + fold_right (fun e t => STRLEN (sub_topic e) + 1 + t) 0
                         (subscribe_entries (subscribe st))).
  { unfold subscribe_rsize. cbv zeta. rewrite u32_small by lia. exact Hfold. }
  destruct (framed_packet SUBSCRIBE 0x02 (subscribe_rsize st)
              (word_bytes (subscribe_packet_id (subscribe st))
               ++ subscribe_props_bytes st
               ++ flat_map (fun e => cstring_bytes (sub_topic e) ++ [u8 (sub_options e)])
                    (subscribe_entries (subscribe st))))
    as [Hlen Hframed].
  { lia. }
  { rewrite !length_app, !Nat2Z.inj_add, Hprops, Hrsize.
    rewrite (flat_map_length_total _ (fun e => STRLEN (sub_topic e) + 1)).
    - cbn [word_bytes length]. lia.
    - apply Forall_impl with (2 := Hentries). intros e [Hset He].
      rewrite length_app, Nat2Z.inj_add, cstring_bytes_length by assumption.
      reflexivity. }
  apply (builder_passes_agree _ _ _ _ st _ make_subscribe_builder).
  - split; [apply user_props_fit_ok; exact Hup|].
    apply Forall_impl with (2 := Hentries). now intros e [Hset _].
  - exact Hlen.
  - exact Hframed.
Qed.

Lemma emits_write_unsubscribe (st : mqtt_client) :
  user_props_ok (unsubscribe_user_properties (unsubscribe st)) ->
  Forall (fun e => is_set (sub_topic e) = true) (unsubscribe_entries (unsubscribe st)) ->
  emits_on st
    (write_fixed_header UNSUBSCRIBE 0x02 (unsubscribe_rsize st) ;;
     pack_word (unsubscribe_packet_id (unsubscribe st)) ;;
     pack_unsubscribe_props ;;
     for_each (unsubscribe_entries (unsubscribe st)) (fun e => pack_string (sub_topic e)))
    (unsubscribe_bytes st).
Proof.
  intros Hprops Htopics. unfold unsubscribe_bytes.
  apply emits_on_bind; [apply emits_write_fixed_header|].
  apply emits_on_bind; [apply emits_pack_word|].
  apply emits_on_bind.
  { unfold pack_unsubscribe_props. apply emits_on_get_const; [reflexivity|].
    apply emits_on_bind; [apply emits_pack_variable_size|].
    now apply emits_pack_user_props. }
  apply emits_on_for_each. apply Forall_impl with (2 := Htopics). intros e He.
  now apply emits_pack_cstring.
Qed.

Lemma make_unsubscribe_builder :
  builder make_unsubscribe
    (fun st => user_props_ok (unsubscribe_user_properties (unsubscribe st))
               /\ Forall (fun e => is_set (sub_topic e) = true)
                         (unsubscribe_entries (unsubscribe st)))
    (fun st => packet_size_of (unsubscribe_rsize st)) unsubscribe_bytes.
Proof.
  split.
  - intros st. reflexivity.
  - intros st w [Hprops Htopics]. unfold make_unsubscribe. cbn [bind get].
    apply (builder_second_pass st w
             (write_fixed_header UNSUBSCRIBE 0x02 (unsubscribe_rsize st) ;;
              pack_word (unsubscribe_packet_id (unsubscribe st)) ;;
              pack_unsubscribe_props ;;
              for_each (unsubscribe_entries (unsubscribe st))
                       (fun e => pack_string (sub_topic e)))).
    now apply emits_write_unsubscribe.
Qed.

Lemma make_unsubscribe_passes_agree (st : mqtt_client) :
  unsubscribe_fits st -> passes_agree make_unsubscribe st 0xA2.
Proof.
  intros ([Hcount Hprops] & Hecount & Hentries).
  assert (Hb := user_props_total_bounds _ Hprops).
  assert (Hest : estimate_unsubscribe_prop_size st
                 = user_props_total (unsubscribe_user_properties (unsubscribe st))).
  { unfold estimate_unsubscribe_prop_size.
    rewrite user_props_size_total by (try assumption; lia). lia. }
  assert (Hc := byte_count_bounds (estimate_unsubscribe_prop_size st)).
  destruct (varint_bytes_standard (estimate_unsubscribe_prop_size st)) as (Hvar & _); [lia|].
  destruct (fold_add32 (fun e => STRLEN (sub_topic e)) 65538
              (unsubscribe_entries (unsubscribe st))) with
    (r := 2 + get_variable_size_byte_count (estimate_unsubscribe_prop_size st)
          + estimate_unsubscribe_prop_size st) as [Hfold Htotal].
  { apply Forall_impl with (2 := Hentries). intros e [_ He].
    assert (Hs := STRLEN_bounds _ He). lia. }
  { lia. }
  { lia. }
  assert (Hrsize : unsubscribe_rsize st
                   = 2 + get_variable_size_byte_count (estimate_unsubscribe_prop_size st)
                     + estimate_unsubscribe_prop_size st
                     + fold_right (fun e t => STRLEN (sub_topic e) + t) 0
                         (unsubscribe_entries (unsubscribe st))).
  { unfold unsubscribe_rsize. cbv zeta. rewrite u32_small by lia. exact Hfold. }
  destruct (framed_packet UNSUBSCRIBE 0x02 (unsubscribe_rsize st)
              (word_bytes (unsubscribe_packet_id (unsubscribe st))
               ++ (varint_bytes (estimate_unsubscribe_prop_size st)
                   ++ user_props_bytes MQTT_USER_PROPERTY_ID
                        (unsubscribe_user_properties (unsubscribe st)))
               ++ flat_map (fun e => cstring_bytes (sub_topic e))
                    (unsubscribe_entries (unsubscribe st))))
    as [Hlen Hframed].
  { lia. }
  { rewrite !length_app, !Nat2Z.inj_add, Hvar, Hrsize.
    rewrite user_props_bytes_length by assumption.
    rewrite (flat_map_length_total _ (fun e => STRLEN (sub_topic e))).
    - cbn [word_bytes length]. lia.
    - apply Forall_impl with (2 := Hentries). intros e [Hset He].
      now apply cstring_bytes_length. }
  apply (builder_passes_agree _ _ _ _ st _ make_unsubscribe_builder).
  - split; [apply user_props_fit_ok; now split|].
    apply Forall_impl with (2 := Hentries). now intros e [Hset _].
  - exact Hlen.
  - exact Hframed.
Qed.

(** [make_subscribe] and [make_unsubscribe].  With at most 1000 topic
    filters that are set and fit, and properties that fit, the size pass
    and the write pass store the same [packet_size], the write pass
    appends exactly that many bytes, the first byte is [0x82] for
    SUBSCRIBE and [0xA2] for UNSUBSCRIBE, and the remaining length counts
    the bytes behind it. *)
Theorem subscription_passes_agree (st : mqtt_client) :
  (subscribe_fits st -> passes_agree make_subscribe st 0x82)
  /\ (unsubscribe_fits st -> passes_agree make_unsubscribe st 0xA2).
Proof.
  split; [apply make_subscribe_passes_agree|apply make_unsubscribe_passes_agree].
Qed.

Lemma subscription_passes_agree_witness :
  passes_agree make_subscribe session_with_filters 0x82
  /\ passes_agree make_unsubscribe session_with_filters 0xA2.
Proof.
  assert (Hprops : user_props_fit [Build_user_property str_k str_v]).
  { split; [vm_compute; lia|]. constructor; [|constructor].
    repeat split; vm_compute; discriminate. }
  assert (Htopic : is_set (sub_topic sub_ab) = true /\ cstring_fits (sub_topic sub_ab)).
  { split; [reflexivity|vm_compute; discriminate]. }
  split.
  - apply (proj1 (subscription_passes_agree session_with_filters)).
    split; [vm_compute; split; discriminate|]. split; [exact Hprops|].
    split; [vm_compute; lia|]. repeat constructor; apply Htopic.
  - apply (proj2 (subscription_passes_agree session_with_filters)).
    split; [exact Hprops|].
    split; [vm_compute; lia|]. repeat constructor; apply Htopic.
Defined.

Lemma emits_pack_conn_props (st : mqtt_client) :
  is_set (blob_data (connect_auth_data (connect st)))
  && nonzero (blob_len (connect_auth_data (connect st))) = false ->
  emits_on st pack_conn_props (connect_props_bytes st).
Proof.
  intros Hauth. unfold pack_conn_props, connect_props_bytes. cbv zeta.
  apply emits_on_get_const; [reflexivity|].
  apply emits_on_bind; [apply emits_pack_variable_size|].
  apply emits_on_bind.
  { apply emits_on_when. intros _.
    apply (emits_on_bind st _ _ [_]); [apply emits_pack_byte|apply emits_pack_dword]. }
  apply emits_on_bind.
  { apply emits_on_when. intros _.
    apply (emits_on_bind st _ _ [_]); [apply emits_pack_byte|apply emits_pack_word]. }
  apply emits_on_bind.
  { apply emits_on_when. intros _.
    apply (emits_on_bind st _ _ [_]); [apply emits_pack_byte|apply emits_pack_dword]. }
  apply emits_on_bind.
  { apply emits_on_when. intros _.
    apply (emits_on_bind st _ _ [_]); [apply emits_pack_byte|apply emits_pack_word]. }
  apply emits_on_bind.
  { apply emits_on_when. intros _.
    apply (emits_on_bind st _ _ [_] [_]); apply emits_pack_byte. }
  apply emits_on_bind.
  { apply emits_on_when. intros _.
    apply (emits_on_bind st _ _ [_] [_]); apply emits_pack_byte. }
  rewrite <- (app_nil_r (if is_set _ then _ else _)).
  apply emits_on_bind.
  { apply emits_on_when. intros Hset.
    apply (emits_on_bind st _ _ [_]); [apply emits_pack_byte|now apply emits_pack_cstring]. }
  rewrite Hauth. apply emits_on_ret.
Qed.

Lemma connect_props_size (st : mqtt_client) :
  connect_plain st ->
  Z.of_nat (length (connect_props_bytes st))
  = get_variable_size_byte_count (estimate_conn_prop_size st) + estimate_conn_prop_size st
  /\ 0 <= estimate_conn_prop_size st.
Proof.
  intros (_ & _ & _ & Hup & Hauth & _ & _ & Ham & _).
  assert (Hs := STRLEN_bounds _ Ham).
  assert (Hest : estimate_conn_prop_size st
    = 0 + (if nonzero (connect_session_expiry_interval (connect st)) then 5 else 0)
      + (if nonzero (connect_recv_max (connect st)) then 3 else 0)
      + (if nonzero (connect_max_packet_size (connect st)) then 5 else 0)
      + (if nonzero (connect_topic_alias_max (connect st)) then 3 else 0)
      + (if connect_req_res_inf (connect st) then 2 else 0)
      + (if connect_req_prob_inf (connect st) then 2 else 0)
      + (if is_set (connect_auth_method (connect st))
         then 1 + STRLEN (connect_auth_method (connect st)) else 0)
    /\ 0 <= estimate_conn_prop_size st <= 70000).
  { unfold estimate_conn_prop_size. cbv zeta. rewrite Hup, Hauth. cbn [fold_left].
    step_add32 (nonzero (connect_session_expiry_interval (connect st))) 0 5.
    match goal with |- context [if ?b then add32 ?s 3 else _] => step_add32 b s 3 end.
    match goal with |- context [if ?b then add32 ?s 5 else _] => step_add32 b s 5 end.
    match goal with |- context [if ?b then add32 ?s 3 else _] => step_add32 b s 3 end.
    match goal with |- context [if ?b then add32 ?s 2 else _] => step_add32 b s 2 end.
    match goal with |- context [if ?b then add32 ?s 2 else _] => step_add32 b s 2 end.
    match goal with |- context [if ?b then add32 ?s ?x else _] => step_add32 b s x end.
    lia. }
  destruct Hest as [Hest Hbound]. split; [|lia].
  destruct (varint_bytes_standard (estimate_conn_prop_size st)) as (Hlen & _); [lia|].
  unfold connect_props_bytes. cbv zeta.
  rewrite !length_app, !Nat2Z.inj_add, Hlen.
  rewrite (cond_length (nonzero (connect_session_expiry_interval _)) _ 5) by reflexivity.
  rewrite (cond_length (nonzero (connect_recv_max _)) _ 3) by reflexivity.
  rewrite (cond_length (nonzero (connect_max_packet_size _)) _ 5) by reflexivity.
  rewrite (cond_length (nonzero (connect_topic_alias_max _)) _ 3) by reflexivity.
  rewrite (cond_length (connect_req_res_inf _) _ 2) by reflexivity.
  rewrite (cond_length (connect_req_prob_inf _) _ 2) by reflexivity.
  rewrite (cond_length _ _ (1 + STRLEN (connect_auth_method (connect st)))).
  2:{ intros Hset. rewrite length_app, Nat2Z.inj_add, cstring_bytes_length by assumption.
      reflexivity. }
  generalize (get_variable_size_byte_count (estimate_conn_prop_size st)).
  intros c. rewrite Hest. lia.
Qed.

Lemma connect_bytes_framed (st : mqtt_client) :
  connect_plain st ->
  Z.of_nat (length (connect_bytes st)) = packet_size_of (connect_rsize st)
  /\ framed 0x10 (connect_bytes st).
Proof.
  intros Hplain. destruct (connect_props_size st Hplain) as [Hprops Hpos].
  destruct Hplain as (Hwill & Hun & Hpw & Hup & Hauth & Hset & Hid & Ham & Hfits).
  assert (Hplen : u8 (estimate_conn_prop_size st) = estimate_conn_prop_size st).
  { unfold u8. apply Z.mod_small. lia. }
  assert (Hc := byte_count_bounds (estimate_conn_prop_size st)).
  assert (Hs := STRLEN_bounds _ Hid).
  assert (Hrsize : connect_rsize st
                   = 10 + estimate_conn_prop_size st + STRLEN (connect_client_id (connect st))
                     + get_variable_size_byte_count (estimate_conn_prop_size st)).
  { unfold connect_rsize. cbv zeta. rewrite Hwill, Hun, Hpw, Hplen.
    apply u32_small. lia. }
  apply (framed_packet CONNECT 0 (connect_rsize st)
           (string_bytes [77; 81; 84; 84] ++ [u8 MQTT_PROTOCOL_VERSION]
            ++ [u8 (connect_flags st)] ++ word_bytes (connect_keep_alive (connect st))
            ++ connect_props_bytes st ++ cstring_bytes (connect_client_id (connect st)))).
  - lia.
  - rewrite !length_app, !Nat2Z.inj_add, Hprops, Hrsize.
    rewrite cstring_bytes_length by assumption. cbn [word_bytes length].
    change (Z.of_nat (length (string_bytes [77; 81; 84; 84]))) with 6. lia.
Qed.

Lemma make_connect_builder :
  builder make_connect connect_plain
          (fun st => packet_size_of (connect_rsize st)) connect_bytes.
Proof.
  split.
  - intros st. reflexivity.
  - intros st w (Hwill & Hun & Hpw & Hup & Hauth & Hset & Hid & Ham & Hfits).
    unfold make_connect. cbn [bind get].
    change (connect (set_pout (Some w) st)) with (connect st).
    change (estimate_conn_prop_size (set_pout (Some w) st))
      with (estimate_conn_prop_size st).
    change (estimate_will_prop_size (set_pout (Some w) st))
      with (estimate_will_prop_size st).
    apply (builder_second_pass st w _ _ (connect_bytes st)).
    unfold connect_bytes. cbv zeta.
    apply emits_on_bind; [apply emits_write_fixed_header|].
    apply emits_on_bind; [apply emits_pack_string|].
    apply (emits_on_bind st _ _ [_]); [apply emits_pack_byte|].
    apply (emits_on_bind st _ _ [_]); [apply emits_pack_byte|].
    apply emits_on_bind; [apply emits_pack_word|].
    apply emits_on_bind; [now apply emits_pack_conn_props|].
    rewrite <- (app_nil_r (cstring_bytes _)).
    apply emits_on_bind; [now apply emits_pack_cstring|].
    rewrite Hwill. apply emits_on_ret.
Qed.

(** [make_connect] without will, user name, password, user properties
    and authentication data.  When the connect properties take at most
    255 bytes, the size pass and the write pass store the same
    [packet_size], the write pass appends exactly that many bytes, the
    first of them is [0x10], and the remaining length counts the bytes
    behind it. *)
Theorem make_connect_plain_passes_agree (st : mqtt_client) :
  connect_plain st -> passes_agree make_connect st 0x10.
Proof.
  intros Hplain. destruct (connect_bytes_framed st Hplain) as [Hlen Hframed].
  apply (builder_passes_agree _ _ _ _ st _ make_connect_builder); assumption.
Qed.

Lemma make_connect_plain_passes_agree_witness :
  passes_agree make_connect
    (exec (mqtt_connect false (Some [77; 81]) 60 0 true) (mqtt_create_client net_ok)) 0x10.
Proof.
  apply (make_connect_plain_passes_agree
           (exec (mqtt_connect false (Some [77; 81]) 60 0 true)
                 (mqtt_create_client net_ok))).
  vm_compute. repeat split; try reflexivity; try discriminate.
Defined.

(** ** The pending table: reserve, look up, free *)

Lemma reserve_slot_lookup (slots slots' : list mqtt_pending) (id : Z)
    (await : mqtt_packet_type) :
  id <> 0 -> ~ In id (map packet_id slots) ->
  reserve_slot slots id await = Some slots' ->
  expected_answer slots' id = await.
Proof.
  intros Hid. revert slots'.
  induction slots as [|p rest IH]; intros slots' Habsent Hres; [discriminate|].
  cbn [reserve_slot] in Hres. cbn [map In] in Habsent.
  destruct (packet_id p =? 0) eqn:Hfree.
  - injection Hres as <-. cbn [expected_answer packet_id await_packet_type].
    rewrite Z.eqb_refl. reflexivity.
  - destruct (reserve_slot rest id await) as [rest'|] eqn:Hrest; [|discriminate].
    injection Hres as <-. cbn [expected_answer].
    destruct (Z.eqb_spec (packet_id p) id) as [E|_]; [tauto|].
    apply IH; [tauto|reflexivity].
Qed.

Lemma reserve_slot_others (slots slots' : list mqtt_pending) (id id' : Z)
    (await : mqtt_packet_type) :
  id' <> id -> id' <> 0 ->
  reserve_slot slots id await = Some slots' ->
  expected_answer slots' id' = expected_answer slots id'.
Proof.
  intros Hne Hnz. revert slots'.
  induction slots as [|p rest IH]; intros slots' Hres; [discriminate|].
  cbn [reserve_slot] in Hres.
  destruct (Z.eqb_spec (packet_id p) 0) as [Hfree|Hlive].
  - injection Hres as <-. cbn [expected_answer packet_id await_packet_type].
    destruct (Z.eqb_spec id id') as [E|_]; [congruence|].
    destruct (Z.eqb_spec (packet_id p) id') as [E|_]; [congruence|reflexivity].
  - destruct (reserve_slot rest id await) as [rest'|] eqn:Hrest; [|discriminate].
    injection Hres as <-. cbn [expected_answer].
    destruct (packet_id p =? id'); [reflexivity|]. now apply IH.
Qed.

Lemma reserve_slot_free_slot (slots slots' : list mqtt_pending) (id : Z)
    (await : mqtt_packet_type) :
  Forall (fun p => packet_id p = 0 -> await_packet_type p = UNKNOWN) slots ->
  id <> 0 -> ~ In id (map packet_id slots) ->
  reserve_slot slots id await = Some slots' ->
  free_slot slots' id = Some slots.
Proof.
  intros Hinv Hid. revert slots'.
  induction Hinv as [|p rest Hp Hrest IH]; intros slots' Habsent Hres; [discriminate|].
  cbn [reserve_slot] in Hres. cbn [map In] in Habsent.
  destruct (Z.eqb_spec (packet_id p) 0) as [Hfree|Hlive].
  - injection Hres as <-. cbn [free_slot packet_id]. rewrite Z.eqb_refl.
    destruct p as [pid paw]. cbn [packet_id await_packet_type] in *.
    rewrite Hfree, (Hp Hfree). reflexivity.
  - destruct (reserve_slot rest id await) as [rest'|] eqn:Hr; [|discriminate].
    injection Hres as <-. cbn [free_slot].
    destruct (Z.eqb_spec (packet_id p) id) as [E|_]; [tauto|].
    rewrite (IH rest') by (tauto || reflexivity). reflexivity.
Qed.

Lemma free_slot_absent (slots : list mqtt_pending) (id : Z) :
  ~ In id (map packet_id slots) -> free_slot slots id = None.
Proof.
  induction slots as [|p rest IH]; intros Habsent; [reflexivity|].
  cbn [map In] in Habsent. cbn [free_slot].
  destruct (Z.eqb_spec (packet_id p) id) as [E|_]; [tauto|].
  rewrite IH by tauto. reflexivity.
Qed.

Lemma set_pending_same (st : mqtt_client) : set_pending (pending st) st = st.
Proof. destruct st; reflexivity. Qed.

Lemma set_pending_twice (a b : list mqtt_pending) (st : mqtt_client) :
  set_pending a (set_pending b st) = set_pending a st.
Proof. reflexivity. Qed.

(** Reserving a slot for an inbound message and freeing it again.  In a
    table whose free slots are clean and that has a free slot,
    [reserve_packet_slot_for_request] with a fresh non-zero identifier
    succeeds; [get_expected_packet_answer] then returns the packet type
    stored with it and still answers as before for every other non-zero
    identifier; and [free_packet_slot] gives back the client as it was. *)
Theorem pending_slot_round_trip (st : mqtt_client) (id : Z) (await : mqtt_packet_type) :
  pending_inv st -> id <> 0 -> ~ In id (map packet_id (pending st)) ->
  (0 < free_slots (pending st))%nat ->
  exists st1,
    reserve_packet_slot_for_request id await st = Done OK st1
    /\ get_expected_packet_answer st1 id = await
    /\ (forall id', id' <> id -> id' <> 0 ->
        get_expected_packet_answer st1 id' = get_expected_packet_answer st id')
    /\ free_packet_slot id st1 = Done OK st.
Proof.
  intros (_ & _ & Hinv) Hid Habsent Hfree.
  destruct (reserve_slot_some (pending st) id await Hfree) as [slots Hres].
  exists (set_pending slots st).
  unfold reserve_packet_slot_for_request, get_expected_packet_answer, free_packet_slot.
  destruct (Z.eqb_spec id 0) as [E|_]; [contradiction|]. rewrite Hres.
  cbn [pending set_pending].
  split; [reflexivity|].
  split; [now apply (reserve_slot_lookup (pending st))|].
  split; [intros id' Hne Hnz; now apply (reserve_slot_others (pending st) slots id id' await)|].
  rewrite (reserve_slot_free_slot (pending st) slots id await) by assumption.
  rewrite set_pending_twice, set_pending_same. reflexivity.
Qed.

Lemma pending_slot_round_trip_witness :
  exists st1,
    reserve_packet_slot_for_request 7 PUBREL (connected_session false) = Done OK st1
    /\ get_expected_packet_answer st1 7 = PUBREL
    /\ (forall id', id' <> 7 -> id' <> 0 ->
        get_expected_packet_answer st1 id'
        = get_expected_packet_answer (connected_session false) id')
    /\ free_packet_slot 7 st1 = Done OK (connected_session false).
Proof.
  apply (pending_slot_round_trip (connected_session false) 7 PUBREL).
  - split; [reflexivity|]. split; [vm_compute; split; discriminate|].
    vm_compute. repeat constructor.
  - discriminate.
  - vm_compute. intuition discriminate.
  - vm_compute. lia.
Defined.

(** The error exits of the pending table.  With no free slot both
    reserving functions return ERROR_OUT_OF_RESOURCE (the one for a
    request ERROR_INVALID_PACKET_ID on identifier 0), and for an
    identifier no slot holds [free_packet_slot] returns
    ERROR_INVALID_PACKET_ID and [get_expected_packet_answer] UNKNOWN; the
    client is unchanged in each case. *)
Theorem pending_slot_errors (st : mqtt_client) (id : Z) (await : mqtt_packet_type) :
  (free_slots (pending st) = 0%nat ->
   reserve_packet_slot_for_answer await st = Done (inr ERROR_OUT_OF_RESOURCE) st
   /\ reserve_packet_slot_for_request id await st
      = Done (if id =? 0 then ERROR_INVALID_PACKET_ID else ERROR_OUT_OF_RESOURCE) st)
  /\ (~ In id (map packet_id (pending st)) ->
      free_packet_slot id st = Done ERROR_INVALID_PACKET_ID st
      /\ get_expected_packet_answer st id = UNKNOWN).
Proof.
  split.
  - intros Hfull.
    unfold reserve_packet_slot_for_answer, reserve_packet_slot_for_request.
    rewrite !(proj2 (reserve_slot_None _ _ _) Hfull).
    split; [reflexivity|]. destruct (id =? 0); reflexivity.
  - intros Habsent. unfold free_packet_slot, get_expected_packet_answer.
    rewrite free_slot_absent by assumption.
    split; [reflexivity|now apply expected_answer_absent].
Qed.

Lemma pending_slot_errors_witness :
  (reserve_packet_slot_for_answer SUBACK session_table_full
   = Done (inr ERROR_OUT_OF_RESOURCE) session_table_full
   /\ reserve_packet_slot_for_request 999 SUBACK session_table_full
      = Done ERROR_OUT_OF_RESOURCE session_table_full)
  /\ (free_packet_slot 999 session_table_full
      = Done ERROR_INVALID_PACKET_ID session_table_full
      /\ get_expected_packet_answer session_table_full 999 = UNKNOWN).
Proof.
  split.
  - apply (proj1 (pending_slot_errors session_table_full 999 SUBACK)).
    vm_compute. reflexivity.
  - apply (proj2 (pending_slot_errors session_table_full 999 SUBACK)).
    vm_compute. intuition discriminate.
Defined.

(** Minting a packet identifier.  In a table with a free slot
    [reserve_packet_slot_for_answer] returns the counter plus one, or 1
    when the counter stood at 65535: an identifier between 1 and 65535,
    never 0.  When no slot holds that identifier yet,
    [get_expected_packet_answer] then returns the awaited packet type
    for it. *)
Theorem minted_packet_id (st : mqtt_client) (await : mqtt_packet_type) :
  pending_inv st -> (0 < free_slots (pending st))%nat ->
  exists id st1,
    reserve_packet_slot_for_answer await st = Done (inl id) st1
    /\ id = (if packet_id_count st =? 65535 then 1 else packet_id_count st + 1)
    /\ 1 <= id <= 65535
    /\ (~ In id (map packet_id (pending st)) -> get_expected_packet_answer st1 id = await).
Proof.
  intros (_ & Hcount & _) Hfree.
  assert (Hid : (if u16 (packet_id_count st + 1) =? 0 then 1
                 else u16 (packet_id_count st + 1))
                = (if packet_id_count st =? 65535 then 1 else packet_id_count st + 1)).
  { unfold u16. destruct (Z.eqb_spec (packet_id_count st) 65535) as [E|Hne].
    - rewrite E. reflexivity.
    - rewrite Z.mod_small by lia.
      destruct (Z.eqb_spec (packet_id_count st + 1) 0); [lia|reflexivity]. }
  destruct (reserve_slot_some (pending st)
              (if packet_id_count st =? 65535 then 1 else packet_id_count st + 1)
              await Hfree) as [slots Hres].
  exists (if packet_id_count st =? 65535 then 1 else packet_id_count st + 1).
  exists (set_pending slots (set_packet_id_count (u16 (packet_id_count st + 1)) st)).
  unfold reserve_packet_slot_for_answer. cbv zeta. rewrite Hid, Hres.
  split; [reflexivity|]. split; [reflexivity|].
  split; [destruct (Z.eqb_spec (packet_id_count st) 65535); lia|].
  intros Habsent. unfold get_expected_packet_answer. cbn [pending set_pending].
  apply (reserve_slot_lookup (pending st)); try assumption.
  destruct (Z.eqb_spec (packet_id_count st) 65535); lia.
Qed.

Lemma minted_packet_id_witness :
  exists id st1,
    reserve_packet_slot_for_answer PUBACK (connected_session false) = Done (inl id) st1
    /\ id = 1
    /\ 1 <= id <= 65535
    /\ (~ In id (map packet_id (pending (connected_session false))) ->
        get_expected_packet_answer st1 id = PUBACK).
Proof.
  apply (minted_packet_id (connected_session false) PUBACK).
  - split; [reflexivity|]. split; [vm_compute; split; discriminate|].
    vm_compute. repeat constructor.
  - vm_compute. lia.
Defined.

(** ** Inbound packets *)

(** The two checks in front of the parsers.  For a packet with a
    remaining length of one byte [mqtt_process_packet] first compares
    that length with the bytes received and returns
    ERROR_INVALID_PACKET_SIZE when they differ; then it looks up the
    packet type in the mask of expected types and returns
    ERROR_UNEXPECTED_PACKET_TYPE when its bit is clear.  In both cases
    the packet is stored as the receive buffer with two bytes read and
    nothing else changes: no parser runs, nothing is sent, no
    notification is made. *)
Theorem mqtt_process_packet_gate (cs : bool) (st : mqtt_client) (h r : Z) (rest : list Z) :
  0 <= r <= 127 ->
  r <> Z.of_nat (length rest) \/ TST (expected_ptypes st) (BIT (Z.shiftr h 4)) = false ->
  mqtt_process_packet cs (h :: r :: rest) st
  = Done (if r =? Z.of_nat (length rest)
          then ERROR_UNEXPECTED_PACKET_TYPE else ERROR_INVALID_PACKET_SIZE)
         (set_pin 2%nat (receive (h :: r :: rest) st)).
Proof.
  intros Hr Hbad. rewrite mqtt_process_packet_short by assumption. cbv zeta.
  destruct (Z.eqb_spec r (Z.of_nat (length rest))) as [E|_]; [|reflexivity].
  destruct Hbad as [Hne|Hmask]; [contradiction|]. rewrite Hmask. reflexivity.
Qed.

Lemma mqtt_process_packet_gate_witness :
  mqtt_process_packet false [0x40; 0x03; 0x00; 0x01; 0x00] (connected_session false)
  = Done ERROR_UNEXPECTED_PACKET_TYPE
         (set_pin 2%nat (receive [0x40; 0x03; 0x00; 0x01; 0x00] (connected_session false))).
Proof.
  apply (mqtt_process_packet_gate false (connected_session false) 0x40 3 [0x00; 0x01; 0x00]).
  - lia.
  - right. vm_compute. reflexivity.
Defined.

(** *** PUBACK: the end of an outbound QoS 1 publish *)

Lemma process_ack_head_puback (st : mqtt_client) (h id rc : Z) :
  0 <= id <= 65535 ->
  process_ack_head PUBACK puback set_puback (set_pin 2%nat (receive (ack_packet h id rc) st))
  = if ptype_eqb (expected_answer (pending st) id) PUBACK
    then Done (inl id)
              (set_puback (Build_ack_info id rc None [])
                 (set_pin 5%nat (receive (ack_packet h id rc) st)))
    else Done (inr ERROR_UNEXPECTED_PACKET_TYPE)
              (set_puback (Build_ack_info id 0 None [])
                 (set_pin 4%nat (receive (ack_packet h id rc) st))).
Proof.
  intros Hid. unfold process_ack_head, ack_packet, word_bytes, get_expected_packet_answer.
  run_parser. rewrite word_roundtrip by assumption.
  destruct (ptype_eqb (expected_answer (pending st) id) PUBACK); run_parser;
    reflexivity.
Qed.

Lemma process_ack_head_puback_short (st : mqtt_client) (h id : Z) :
  0 <= id <= 65535 ->
  process_ack_head PUBACK puback set_puback
    (set_pin 2%nat (receive (ack_packet_short h id) st))
  = if ptype_eqb (expected_answer (pending st) id) PUBACK
    then Done (inl id)
              (set_puback (Build_ack_info id 0 None [])
                 (set_pin 4%nat (receive (ack_packet_short h id) st)))
    else Done (inr ERROR_UNEXPECTED_PACKET_TYPE)
              (set_puback (Build_ack_info id 0 None [])
                 (set_pin 4%nat (receive (ack_packet_short h id) st))).
Proof.
  intros Hid.
  unfold process_ack_head, ack_packet_short, word_bytes, get_expected_packet_answer.
  run_parser. rewrite word_roundtrip by assumption.
  destruct (ptype_eqb (expected_answer (pending st) id) PUBACK); run_parser;
    reflexivity.
Qed.

(** What [process_puback] does once [process_ack_head] accepted the
    packet with reason code [rc], on the state [st0] the head left. *)
Lemma process_puback_tail (st st0 : mqtt_client) (id rc : Z) :
  pending st0 = pending st -> expected_ptypes st0 = expected_ptypes st ->
  wire st0 = wire st -> events st0 = events st ->
  ack_reason_code (puback st0) = rc ->
  expected_answer (pending st) id = PUBACK ->
  exists st1,
    (free_packet_slot id ;;
     s <- get ;;
     when (negb (await_for_packet s PUBACK)) (unexpect PUBACK) ;;
     mqtt_publish_acknowledged id (ack_reason_code (puback s)) ;;
     ret OK) st0 = Done OK st1
    /\ free_slot (pending st) id = Some (pending st1)
    /\ expected_ptypes st1 = mask_after_release PUBACK (pending st1) (expected_ptypes st)
    /\ wire st1 = wire st
    /\ events st1 = events st ++ [ev_publish_acknowledged id rc].
Proof.
  intros Hp Hm Hw He Hrc Hexp.
  destruct (free_slot_present (pending st) id) as [slots Hfree].
  { apply expected_answer_present. rewrite Hexp. discriminate. }
  cbn [bind get]. unfold free_packet_slot at 1. rewrite Hp, Hfree.
  unfold await_for_packet, mask_after_release. cbn [pending set_pending].
  destruct (existsb (fun p => ptype_eqb (await_packet_type p) PUBACK) slots) eqn:Haw;
    cbn [negb when ret bind];
    unfold unexpect, mqtt_publish_acknowledged; cbn [modify bind notify ret];
    eexists; (split; [reflexivity|]);
    cbn [pending set_pending set_events set_expected_ptypes expected_ptypes wire events
         puback ack_reason_code];
    rewrite ?Haw, ?Hm, ?Hw, ?He, ?Hrc; repeat split; reflexivity.
Qed.

(** A PUBACK completes an outbound QoS 1 publish.  While PUBACK is
    expected, a PUBACK whose identifier is found in the pending table
    awaiting PUBACK returns OK, frees that slot, notifies
    [mqtt_publish_acknowledged] with the identifier and the reason code,
    sends nothing, and clears PUBACK from the mask unless another slot
    still awaits one.  A PUBACK that ends after the identifier counts as
    reason code 0.  For an identifier that awaits something else, or
    nothing, the result is ERROR_UNEXPECTED_PACKET_TYPE and table, mask,
    transport and notifications stay as they are. *)
Theorem puback_completes_qos1 (cs : bool) (st : mqtt_client) (id rc : Z) :
  0 <= id <= 65535 ->
  TST (expected_ptypes st) (BIT (ptype_code PUBACK)) = true ->
  (get_expected_packet_answer st id = PUBACK ->
   (exists st1,
      mqtt_process_packet cs (ack_packet 0x40 id rc) st = Done OK st1
      /\ free_slot (pending st) id = Some (pending st1)
      /\ expected_ptypes st1 = mask_after_release PUBACK (pending st1) (expected_ptypes st)
      /\ wire st1 = wire st
      /\ events st1 = events st ++ [ev_publish_acknowledged id rc])
   /\ (exists st1,
         mqtt_process_packet cs (ack_packet_short 0x40 id) st = Done OK st1
         /\ free_slot (pending st) id = Some (pending st1)
         /\ expected_ptypes st1
            = mask_after_release PUBACK (pending st1) (expected_ptypes st)
         /\ wire st1 = wire st
         /\ events st1 = events st ++ [ev_publish_acknowledged id 0]))
  /\ (get_expected_packet_answer st id <> PUBACK ->
      exists st1,
        mqtt_process_packet cs (ack_packet 0x40 id rc) st
        = Done ERROR_UNEXPECTED_PACKET_TYPE st1
        /\ pending st1 = pending st
        /\ expected_ptypes st1 = expected_ptypes st
        /\ wire st1 = wire st
        /\ events st1 = events st).
Proof.
  intros Hid Hmask. unfold get_expected_packet_answer. split.
  - intros Hexp. split.
    + rewrite mqtt_process_packet_ack. cbv zeta.
      change (Z.shiftr 0x40 4) with (ptype_code PUBACK). rewrite Hmask.
      change (ptype_of_code (ptype_code PUBACK)) with PUBACK.
      cbn [process_packet]. unfold process_puback. cbn [bind].
      rewrite process_ack_head_puback by assumption. rewrite Hexp.
      cbn [ptype_eqb ptype_code Z.eqb Pos.eqb].
      now apply process_puback_tail.
    + unfold ack_packet_short, word_bytes.
      rewrite mqtt_process_packet_short by lia. cbv zeta.
      cbn [length Z.of_nat Pos.of_succ_nat Pos.succ Z.eqb Pos.eqb].
      change (Z.shiftr 0x40 4) with (ptype_code PUBACK). rewrite Hmask.
      change (ptype_of_code (ptype_code PUBACK)) with PUBACK.
      cbn [process_packet]. unfold process_puback. cbn [bind].
      change [0x40; 2; u8 (Z.shiftr id 8); u8 id] with (ack_packet_short 0x40 id).
      rewrite process_ack_head_puback_short by assumption. rewrite Hexp.
      cbn [ptype_eqb ptype_code Z.eqb Pos.eqb].
      now apply process_puback_tail.
  - intros Hexp. rewrite mqtt_process_packet_ack. cbv zeta.
    change (Z.shiftr 0x40 4) with (ptype_code PUBACK). rewrite Hmask.
    change (ptype_of_code (ptype_code PUBACK)) with PUBACK.
    cbn [process_packet]. unfold process_puback. cbn [bind].
    rewrite process_ack_head_puback by assumption.
    rewrite (ptype_eqb_neq _ _ Hexp). cbn [ret].
    eexists. split; [reflexivity|]. repeat split; reflexivity.
Qed.

Lemma puback_completes_qos1_witness :
  exists st1,
    mqtt_process_packet false (ack_packet 0x40 1 0) (qos1_session false) = Done OK st1
    /\ expected_ptypes st1
       = CLR (expected_ptypes (qos1_session false)) (BIT (ptype_code PUBACK))
    /\ wire st1 = wire (qos1_session false)
    /\ events st1 = events (qos1_session false) ++ [ev_publish_acknowledged 1 0].
Proof.
  destruct (puback_completes_qos1 false (qos1_session false) 1 0) as [H _];
    [lia|vm_compute; reflexivity|].
  destruct H as [(st1 & H1 & Hfree & Hmask & Hwire & Hev) _]; [vm_compute; reflexivity|].
  exists st1. split; [exact H1|]. split; [|split; [exact Hwire|exact Hev]].
  set (v := free_slot (pending (qos1_session false)) 1) in Hfree.
  vm_compute in v. subst v. injection Hfree as Hfree.
  rewrite Hmask, <- Hfree. vm_compute. reflexivity.
Defined.

(** ** Inbound PUBLISH *)

Lemma unpack_byte_at (st : mqtt_client) (pre post : list Z) (b : Z) :
  pbuf_payload (inp st) = pre ++ b :: post -> pin st = length pre ->
  unpack_byte st = Done b (set_pin (S (length pre)) st).
Proof.
  intros Hbuf Hpin. unfold unpack_byte. rewrite Hbuf, Hpin.
  rewrite nth_error_app2 by lia. rewrite Nat.sub_diag. reflexivity.
Qed.

Lemma unpack_bytes_at (bs : list Z) :
  forall (st : mqtt_client) (pre post : list Z),
    pbuf_payload (inp st) = pre ++ bs ++ post -> pin st = length pre ->
    unpack_bytes (length bs) st = Done bs (set_pin (length pre + length bs) st).
Proof.
  induction bs as [|b bs IH]; intros st pre post Hbuf Hpin.
  - cbn [unpack_bytes length ret]. rewrite Nat.add_0_r, <- Hpin.
    destruct st; reflexivity.
  - cbn [unpack_bytes length bind].
    rewrite (unpack_byte_at st pre (bs ++ post) b Hbuf Hpin).
    rewrite (IH (set_pin (S (length pre)) st) (pre ++ [b]) post).
    + cbn [ret]. rewrite length_app. cbn [length].
      replace (length pre + 1 + length bs)%nat with (length pre + S (length bs))%nat by lia.
      reflexivity.
    + cbn [inp set_pin]. rewrite Hbuf, <- app_assoc. reflexivity.
    + cbn [pin set_pin]. rewrite length_app. cbn [length]. lia.
Qed.

Lemma unpack_string_at (st : mqtt_client) (pre t post : list Z) :
  0 < Z.of_nat (length t) <= 65535 ->
  pbuf_payload (inp st) = pre ++ word_bytes (Z.of_nat (length t)) ++ t ++ post ->
  pin st = length pre ->
  unpack_string st = Done (Some t) (set_pin (length pre + 2 + length t) st).
Proof.
  intros Hlen Hbuf Hpin. unfold unpack_string, unpack_word. cbn [bind].
  unfold word_bytes in Hbuf. cbn [app] in Hbuf.
  rewrite (unpack_byte_at st pre _ _ Hbuf Hpin). cbv zeta.
  rewrite (unpack_byte_at (set_pin (S (length pre)) st)
             (pre ++ [u8 (Z.shiftr (Z.of_nat (length t)) 8)]) (t ++ post)
             (u8 (Z.of_nat (length t)))).
  2:{ cbn [inp set_pin]. rewrite Hbuf, <- app_assoc. reflexivity. }
  2:{ cbn [pin set_pin]. rewrite length_app. cbn [length]. lia. }
  cbn [ret]. rewrite word_roundtrip by lia.
  destruct (Z.ltb_spec 0 (Z.of_nat (length t))) as [_|Hz]; [|lia].
  cbn [bind]. rewrite Nat2Z.id.
  rewrite (unpack_bytes_at t _ (pre ++ [u8 (Z.shiftr (Z.of_nat (length t)) 8);
                                        u8 (Z.of_nat (length t))]) post).
  2:{ cbn [inp set_pin]. rewrite Hbuf, <- app_assoc. reflexivity. }
  2:{ cbn [pin set_pin]. rewrite !length_app. cbn [length]. lia. }
  cbn [ret]. rewrite !length_app. cbn [length].
  reflexivity.
Qed.

Lemma bind_done {A B : Type} (m : M A) (k : A -> M B) (st st' : mqtt_client) (a : A) :
  m st = Done a st' -> bind m k st = k a st'.
Proof. intros H. unfold bind. rewrite H. reflexivity. Qed.

Lemma unpack_word_at (st : mqtt_client) (pre post : list Z) (x : Z) :
  0 <= x <= 65535 ->
  pbuf_payload (inp st) = pre ++ word_bytes x ++ post -> pin st = length pre ->
  unpack_word st = Done x (set_pin (length pre + 2) st).
Proof.
  intros Hx Hbuf Hpin. unfold unpack_word. cbn [bind].
  unfold word_bytes in Hbuf. cbn [app] in Hbuf.
  rewrite (unpack_byte_at st pre _ _ Hbuf Hpin). cbv zeta.
  rewrite (unpack_byte_at (set_pin (S (length pre)) st)
             (pre ++ [u8 (Z.shiftr x 8)]) post (u8 x)).
  2:{ cbn [inp set_pin]. rewrite Hbuf, <- app_assoc. reflexivity. }
  2:{ cbn [pin set_pin]. rewrite length_app. cbn [length]. lia. }
  cbn [ret]. rewrite word_roundtrip by lia. rewrite length_app. cbn [length].
  replace (S (length pre + 1)) with (length pre + 2)%nat by lia. reflexivity.
Qed.

Lemma process_publish_parse (cs : bool) (st : mqtt_client) (flags h r id : Z)
    (pkt t idb p : list Z) :
  pkt = [h; r] ++ word_bytes (Z.of_nat (length t)) ++ t ++ idb ++ [0] ++ p ->
  0 < Z.of_nat (length t) <= 65535 ->
  Z.of_nat (length pkt) <= 65535 ->
  is_valid_utf8 cs t (strlen t) = true ->
  0 <= id <= 65535 ->
  idb = (if 0 <? Z.land (Z.shiftr flags 1) 0x03 then word_bytes id else []) ->
  process_publish cs flags (set_pin 2%nat (receive pkt st))
  = ((if Z.land (Z.shiftr flags 1) 0x03 =? 1
      then mqtt_puback cs (if 0 <? Z.land (Z.shiftr flags 1) 0x03 then id else 0) ;; ret tt
      else if Z.land (Z.shiftr flags 1) 0x03 =? 2
      then mqtt_pubrec cs (if 0 <? Z.land (Z.shiftr flags 1) 0x03 then id else 0) ;; ret tt
      else ret tt) ;;
     modify (set_message_available true) ;;
     mqtt_received_publish ;;
     ret OK)
      (set_received_publish
         (Build_received_publish (Some t) None None
            (match p with
             | [] => blob_zero
             | _ => Build_blob (Some p) (Z.of_nat (length p)) 0
             end)
            blob_zero (if 0 <? Z.land (Z.shiftr flags 1) 0x03 then id else 0) 0 0 0
            (Z.land (Z.shiftr flags 1) 0x03) 0
            (nonzero (Z.land flags 0x08)) (nonzero (Z.land flags 0x01)))
         (set_pin (length pkt - length p) (receive pkt st))).
Proof.
  intros Hpkt Hlen Htotal Hvalid Hid Hidb.
  set (qos := Z.land (Z.shiftr flags 1) 0x03) in *.
  set (S := fun (R : received_publish_info) (n : nat) =>
              set_received_publish R (set_pin n (receive pkt st))).
  unfold process_publish. fold qos.
  rewrite (bind_done _ _ _ (S received_publish_zero 2%nat) tt) by reflexivity.
  rewrite (bind_done _ _ _ (S received_publish_zero (4 + length t)%nat) (Some t)).
  2:{ rewrite (unpack_string_at (S received_publish_zero 2%nat) [h; r] t
                 (idb ++ [0] ++ p)); [reflexivity|exact Hlen|exact Hpkt|reflexivity]. }
  rewrite Hvalid. cbn [negb].
  rewrite (bind_done _ _ _ (S (Build_received_publish (Some t) None None blob_zero
                                 blob_zero 0 0 0 0 0 0 false false)
                              (4 + length t)%nat) tt) by reflexivity.
  rewrite (bind_done _ _ _ (S (Build_received_publish (Some t) None None blob_zero
                                 blob_zero 0 0 0 0 qos 0 false false)
                              (4 + length t)%nat) tt) by reflexivity.
  rewrite (bind_done _ _ _ (S (Build_received_publish (Some t) None None blob_zero
                                 blob_zero 0 0 0 0 qos 0
                                 (nonzero (Z.land flags 0x08)) false)
                              (4 + length t)%nat) tt) by reflexivity.
  rewrite (bind_done _ _ _ (S (Build_received_publish (Some t) None None blob_zero
                                 blob_zero 0 0 0 0 qos 0
                                 (nonzero (Z.land flags 0x08))
                                 (nonzero (Z.land flags 0x01)))
                              (4 + length t)%nat) tt) by reflexivity.
  rewrite (bind_done _ _ _ (S (Build_received_publish (Some t) None None blob_zero
                                 blob_zero (if 0 <? qos then id else 0) 0 0 0 qos 0
                                 (nonzero (Z.land flags 0x08))
                                 (nonzero (Z.land flags 0x01)))
                              (4 + length t + length idb)%nat) tt).
  2:{ destruct (0 <? qos); subst idb.
      - unfold when.
        rewrite (bind_done _ _ _ (S (Build_received_publish (Some t) None None blob_zero
                                       blob_zero 0 0 0 0 qos 0
                                       (nonzero (Z.land flags 0x08))
                                       (nonzero (Z.land flags 0x01)))
                                    (4 + length t + 2)%nat) id).
        + reflexivity.
        + rewrite (unpack_word_at _ ([h; r] ++ word_bytes (Z.of_nat (length t)) ++ t)
                     ([0] ++ p) id Hid).
          * subst S. cbv beta. rewrite !length_app. cbn [length word_bytes].
            replace (2 + (2 + length t) + 2)%nat with (4 + length t + 2)%nat by lia.
            reflexivity.
          * subst S. cbv beta. cbn [inp set_received_publish set_pin receive set_inp
                                    pbuf_payload].
            rewrite Hpkt, <- !app_assoc. reflexivity.
          * subst S. cbv beta. cbn [pin set_received_publish set_pin].
            rewrite !length_app. cbn [length word_bytes]. lia.
      - cbn [when ret length]. rewrite Nat.add_0_r. reflexivity. }
  set (R := Build_received_publish (Some t) None None blob_zero blob_zero
              (if 0 <? qos then id else 0) 0 0 0 qos 0
              (nonzero (Z.land flags 0x08)) (nonzero (Z.land flags 0x01))).
  assert (Hsplit : pkt = ([h; r] ++ word_bytes (Z.of_nat (length t)) ++ t ++ idb) ++ 0 :: p).
  { rewrite Hpkt, <- !app_assoc. reflexivity. }
  assert (Hpre : length ([h; r] ++ word_bytes (Z.of_nat (length t)) ++ t ++ idb)
                 = (4 + length t + length idb)%nat).
  { rewrite !length_app. cbn [length word_bytes]. lia. }
  assert (Hn : (length pkt - length p = 5 + length t + length idb)%nat).
  { rewrite Hsplit at 1. rewrite length_app, Hpre. cbn [length]. lia. }
  rewrite (bind_done _ _ _ (S R (5 + length t + length idb)%nat) 0).
  2:{ rewrite (unpack_variable_size_one_byte _ 0).
      - reflexivity.
      - subst S. cbv beta.
        cbn [inp pin set_received_publish set_pin receive set_inp pbuf_payload].
        rewrite Hsplit, <- Hpre, nth_error_app2 by lia. rewrite Nat.sub_diag.
        reflexivity. }
  cbn [Z.ltb Z.compare].
  rewrite (bind_done _ _ _ (S R (5 + length t + length idb)%nat) OK) by reflexivity.
  cbn [FAILED SUCCESSFUL OK negb].
  set (n := (5 + length t + length idb)%nat) in *.
  rewrite (bind_done _ _ _ (S R n) (S R n)) by reflexivity.
  set (R' := Build_received_publish (Some t) None None
               (match p with
                | [] => blob_zero
                | _ => Build_blob (Some p) (Z.of_nat (length p)) 0
                end)
               blob_zero (if 0 <? qos then id else 0) 0 0 0 qos 0
               (nonzero (Z.land flags 0x08)) (nonzero (Z.land flags 0x01))).
  assert (Hskip : skipn n pkt = p).
  { rewrite Hsplit. change (?a ++ 0 :: p) with (a ++ [0] ++ p). rewrite app_assoc.
    replace n with (length (([h; r] ++ word_bytes (Z.of_nat (length t)) ++ t ++ idb)
                            ++ [0])).
    - rewrite skipn_app, Nat.sub_diag, skipn_all. reflexivity.
    - rewrite length_app, Hpre. cbn [length]. lia. }
  assert (Htot : Z.of_nat (length pkt) = Z.of_nat n + Z.of_nat (length p)).
  { assert (Hl : length p = (length pkt - n)%nat) by (rewrite <- Hskip; apply length_skipn).
    rewrite Hl. assert (n <= length pkt)%nat; [|lia].
    rewrite Hsplit, length_app, Hpre. cbn [length]. lia. }
  rewrite (bind_done _ _ _ (S R' n) tt).
  2:{ change (bytes_consumed (S R n)) with (Z.of_nat n).
      change (pbuf_len (inp (S R n))) with (Z.of_nat (length pkt)).
      change (pin (S R n)) with n.
      change (pbuf_payload (inp (S R n))) with pkt.
      rewrite Hskip, Htot. subst R'. destruct p as [|b p'].
      - cbn [length Z.of_nat]. rewrite Z.add_0_r, Z.ltb_irrefl. reflexivity.
      - destruct (Z.ltb_spec (Z.of_nat n) (Z.of_nat n + Z.of_nat (length (b :: p'))))
          as [_|Hge]; [|cbn [length] in Hge; lia].
        replace (u16 (Z.of_nat n + Z.of_nat (length (b :: p')) - Z.of_nat n))
          with (Z.of_nat (length (b :: p'))); [reflexivity|].
        unfold u16. rewrite Z.mod_small; lia. }
  rewrite (bind_done _ _ _ (S R' n) (S R' n)) by reflexivity.
  change (rp_payload_format_indicator (received_publish (S R' n))) with 0.
  change (rp_packet_id (received_publish (S R' n))) with (if 0 <? qos then id else 0).
  cbn [Z.eqb andb]. rewrite Hn. reflexivity.
Qed.

Lemma publish_header (qos : Z) (retain dup : bool) :
  0 <= qos <= 2 ->
  let h := 0x30 + (if dup then 8 else 0) + 2 * qos + (if retain then 1 else 0) in
  Z.shiftr h 4 = ptype_code PUBLISH
  /\ Z.land (Z.shiftr (Z.land h 0x0f) 1) 0x03 = qos
  /\ nonzero (Z.land (Z.land h 0x0f) 0x08) = dup
  /\ nonzero (Z.land (Z.land h 0x0f) 0x01) = retain.
Proof.
  intros Hq.
  assert (Hcases : qos = 0 \/ qos = 1 \/ qos = 2) by lia.
  destruct Hcases as [E|[E|E]]; subst qos; destruct dup, retain; repeat split.
Qed.

(** [mqtt_process_packet] on a PUBLISH that is expected: the parser
    stores the message and reaches the acknowledgement. *)
Lemma mqtt_process_packet_publish (cs : bool) (st : mqtt_client) (qos id : Z)
    (retain dup : bool) (topic payload : list Z) :
  0 <= qos <= 2 -> 0 <= id <= 65535 ->
  0 < Z.of_nat (length topic) ->
  Z.of_nat (length (publish_body qos topic id payload)) <= 127 ->
  is_valid_utf8 cs topic (strlen topic) = true ->
  TST (expected_ptypes st) (BIT (ptype_code PUBLISH)) = true ->
  mqtt_process_packet cs (publish_packet qos retain dup topic id payload) st
  = ((if qos =? 1 then mqtt_puback cs (if 0 <? qos then id else 0) ;; ret tt
      else if qos =? 2 then mqtt_pubrec cs (if 0 <? qos then id else 0) ;; ret tt
      else ret tt) ;;
     modify (set_message_available true) ;;
     mqtt_received_publish ;;
     ret OK)
      (set_received_publish (publish_received qos retain dup topic id payload)
         (set_pin (length (publish_packet qos retain dup topic id payload) - length payload)
            (receive (publish_packet qos retain dup topic id payload) st))).
Proof.
  intros Hq Hid Htopic Hbody Hvalid Hmask.
  destruct (publish_header qos retain dup Hq) as (Htype & Hqos & Hdup & Hretain).
  cbv zeta in Htype, Hqos, Hdup, Hretain.
  assert (Hbl : Z.of_nat (length topic) <= Z.of_nat (length (publish_body qos topic id payload))).
  { unfold publish_body. rewrite !length_app. lia. }
  unfold publish_packet at 1.
  rewrite mqtt_process_packet_short by lia. cbv zeta.
  rewrite Z.eqb_refl, Htype, Hmask.
  change (ptype_of_code (ptype_code PUBLISH)) with PUBLISH. cbn [process_packet].
  fold (publish_packet qos retain dup topic id payload).
  rewrite (process_publish_parse cs st
             (Z.land (0x30 + (if dup then 8 else 0) + 2 * qos + (if retain then 1 else 0))
                     0x0f)
             (0x30 + (if dup then 8 else 0) + 2 * qos + (if retain then 1 else 0))
             (Z.of_nat (length (publish_body qos topic id payload))) id
             (publish_packet qos retain dup topic id payload) topic
             (if 0 <? qos then word_bytes id else []) payload).
  - rewrite Hqos, Hdup, Hretain. reflexivity.
  - unfold publish_packet, publish_body. reflexivity.
  - lia.
  - unfold publish_packet. cbn [length]. lia.
  - exact Hvalid.
  - exact Hid.
  - rewrite Hqos. reflexivity.
Qed.

Lemma make_puback_builder :
  builder make_puback (fun st => user_props_ok (ack_user_properties (puback st)))
          (fun st => packet_size_of (ack_rsize (puback st)))
          (fun st => ack_bytes PUBACK 0 (puback st)).
Proof. apply (make_ack_builder PUBACK 0 puback); [intros ? ? ? ?|intros ? ?]; reflexivity. Qed.

Lemma make_pubrec_builder :
  builder make_pubrec (fun st => user_props_ok (ack_user_properties (pubrec st)))
          (fun st => packet_size_of (ack_rsize (pubrec st)))
          (fun st => ack_bytes PUBREC 0 (pubrec st)).
Proof. apply (make_ack_builder PUBREC 0 pubrec); [intros ? ? ? ?|intros ? ?]; reflexivity. Qed.

Lemma make_pubcomp_builder :
  builder make_pubcomp (fun st => user_props_ok (ack_user_properties (pubcomp st)))
          (fun st => packet_size_of (ack_rsize (pubcomp st)))
          (fun st => ack_bytes PUBCOMP 0 (pubcomp st)).
Proof. apply (make_ack_builder PUBCOMP 0 pubcomp); [intros ? ? ? ?|intros ? ?]; reflexivity. Qed.

(** [mqtt_puback] on a connected session, for a non-zero identifier and
    PUBACK properties that pass the checks. *)
Lemma mqtt_puback_connected (cs : bool) (st : mqtt_client) (id : Z) :
  connected st = true -> id <> 0 ->
  validate_puback_utf8_strings cs st = OK ->
  user_props_ok (ack_user_properties (puback st)) ->
  mqtt_puback cs id st
  = let a := set_ack_packet_id id (puback st) in
    let st1 := set_puback a st in
    let buf := ack_buf PUBACK 0 a in
    let result := alloc_send_buf (net st) (pbuf_len buf) in
    if FAILED result then Done result (after_alloc_failure (pbuf_len buf) st1)
    else Done (send (net st) buf) (after_send buf st1).
Proof.
  intros Hc Hid Hvalid Hprops. unfold mqtt_puback. cbn [bind get]. rewrite Hc.
  destruct (Z.eqb_spec id 0) as [|_]; [contradiction|].
  rewrite Hvalid. cbn [negb FAILED SUCCESSFUL OK bind modify].
  rewrite (two_pass_send_spec make_puback _ _ _ _ make_puback_builder)
    by (try exact Hprops; intros ? ? ? ?; reflexivity).
  reflexivity.
Qed.

Lemma mqtt_pubcomp_connected (cs : bool) (st : mqtt_client) (id : Z) :
  connected st = true -> id <> 0 ->
  validate_pubcomp_utf8_strings cs st = OK ->
  user_props_ok (ack_user_properties (pubcomp st)) ->
  mqtt_pubcomp cs id st
  = let a := set_ack_packet_id id (pubcomp st) in
    let st1 := set_pubcomp a st in
    let buf := ack_buf PUBCOMP 0 a in
    let result := alloc_send_buf (net st) (pbuf_len buf) in
    if FAILED result then Done result (after_alloc_failure (pbuf_len buf) st1)
    else Done (send (net st) buf) (after_send buf st1).
Proof.
  intros Hc Hid Hvalid Hprops. unfold mqtt_pubcomp. cbn [bind get]. rewrite Hc.
  destruct (Z.eqb_spec id 0) as [|_]; [contradiction|].
  rewrite Hvalid. cbn [negb FAILED SUCCESSFUL OK bind modify].
  rewrite (two_pass_send_spec make_pubcomp _ _ _ _ make_pubcomp_builder)
    by (try exact Hprops; intros ? ? ? ?; reflexivity).
  reflexivity.
Qed.

(** [mqtt_pubrec] likewise, when the pending table has room for the
    slot [(id, PUBREL)]. *)
Lemma mqtt_pubrec_connected (cs : bool) (st : mqtt_client) (id : Z)
    (slots : list mqtt_pending) :
  connected st = true -> id <> 0 ->
  validate_pubrec_utf8_strings cs st = OK ->
  user_props_ok (ack_user_properties (pubrec st)) ->
  reserve_slot (pending st) id PUBREL = Some slots ->
  mqtt_pubrec cs id st
  = let a := set_ack_packet_id id (pubrec st) in
    let st1 := set_pending slots (set_pubrec a st) in
    let buf := ack_buf PUBREC 0 a in
    let result := alloc_send_buf (net st) (pbuf_len buf) in
    if FAILED result then Done result (after_alloc_failure (pbuf_len buf) st1)
    else let result := send (net st) buf in
         Done result
              (if SUCCESSFUL result
               then set_expected_ptypes
                      (Z.lor (expected_ptypes st) (BIT (ptype_code PUBREL)))
                      (after_send buf st1)
               else after_send buf st1).
Proof.
  intros Hc Hid Hvalid Hprops Hres. unfold mqtt_pubrec. cbn [bind get]. rewrite Hc.
  destruct (Z.eqb_spec id 0) as [E|Hne]; [contradiction|].
  rewrite Hvalid. cbn [negb FAILED SUCCESSFUL OK bind modify].
  unfold reserve_packet_slot_for_request at 1.
  destruct (Z.eqb_spec id 0) as [E|_]; [contradiction|].
  cbn [pending set_pubrec]. rewrite Hres. cbn [negb FAILED SUCCESSFUL OK bind modify].
  rewrite (two_pass_send_spec make_pubrec _ _ _ _ make_pubrec_builder)
    by (try exact Hprops; intros ? ? ? ?; reflexivity).
  cbv zeta. unfold ack_buf. cbn [net pubrec set_pending set_pubrec pbuf_len].
  unfold FAILED.
  destruct (SUCCESSFUL (alloc_send_buf (net st) _)) eqn:Ha; cbn [negb].
  - cbn [bind]. match goal with |- context [SUCCESSFUL (send ?n ?b)] =>
      destruct (SUCCESSFUL (send n b)) eqn:Hs end; reflexivity.
  - cbn [bind]. rewrite ?Ha. reflexivity.
Qed.

(** An inbound PUBLISH at QoS 0.  The call returns OK with the message
    in [received_publish] (topic, flags, and the payload as the bytes
    behind the property list), [message_available] set and
    [mqtt_received_publish] notified; nothing is sent, and the pending
    table and the mask of expected types are as before. *)
Theorem inbound_publish_qos0 (cs : bool) (st : mqtt_client) (retain dup : bool)
    (topic payload : list Z) :
  publish_arrives cs st 0 topic 0 payload ->
  exists st',
    mqtt_process_packet cs (publish_packet 0 retain dup topic 0 payload) st = Done OK st'
    /\ received_publish st' = publish_received 0 retain dup topic 0 payload
    /\ message_available st' = true
    /\ events st' = events st ++ [ev_received_publish]
    /\ wire st' = wire st
    /\ pending st' = pending st
    /\ expected_ptypes st' = expected_ptypes st.
Proof.
  intros (Hid & Htopic & Hbody & Hvalid & Hmask).
  rewrite mqtt_process_packet_publish by (assumption || lia).
  eexists. split; [reflexivity|]. repeat split; reflexivity.
Qed.

(** An inbound PUBLISH at QoS 1 on a connected session whose PUBACK
    properties pass the checks.  The call returns OK, whatever the
    transport answers, with the message in [received_publish],
    [message_available] set and [mqtt_received_publish] notified; the
    PUBACK for the packet identifier is handed to the transport when a
    send buffer is granted, and the pending table is as before. *)
Theorem inbound_publish_qos1 (cs : bool) (st : mqtt_client) (retain dup : bool)
    (topic payload : list Z) (id : Z) :
  publish_arrives cs st 1 topic id payload ->
  connected st = true -> id <> 0 ->
  validate_puback_utf8_strings cs st = OK ->
  user_props_ok (ack_user_properties (puback st)) ->
  exists st',
    mqtt_process_packet cs (publish_packet 1 retain dup topic id payload) st = Done OK st'
    /\ received_publish st' = publish_received 1 retain dup topic id payload
    /\ message_available st' = true
    /\ events st' = events st ++ [ev_received_publish]
    /\ pending st' = pending st
    /\ wire st'
       = wire st
         ++ (let buf := ack_buf PUBACK 0 (set_ack_packet_id id (puback st)) in
             if FAILED (alloc_send_buf (net st) (pbuf_len buf)) then [] else [buf]).
Proof.
  intros (Hid & Htopic & Hbody & Hvalid & Hmask) Hc Hnz Hack Hprops.
  rewrite mqtt_process_packet_publish by (assumption || lia).
  cbn [Z.eqb Pos.eqb Z.ltb Z.compare bind].
  rewrite mqtt_puback_connected by assumption. cbv zeta.
  cbn [net set_received_publish set_pin receive set_inp puback].
  destruct (FAILED (alloc_send_buf (net st) _)).
  - eexists. split; [reflexivity|]. cbn [app]. rewrite app_nil_r.
    repeat split; reflexivity.
  - eexists. split; [reflexivity|]. repeat split; reflexivity.
Qed.

Lemma inbound_publish_qos0_witness :
  exists st',
    mqtt_process_packet false [0x30; 0x08; 0x00; 0x03; 0x61; 0x2F; 0x62; 0x00; 0x68; 0x69]
      (connected_session false) = Done OK st'
    /\ received_publish st'
       = publish_received 0 false false [0x61; 0x2F; 0x62] 0 [0x68; 0x69]
    /\ message_available st' = true
    /\ events st' = events (connected_session false) ++ [ev_received_publish]
    /\ wire st' = wire (connected_session false)
    /\ pending st' = pending (connected_session false)
    /\ expected_ptypes st' = expected_ptypes (connected_session false).
Proof.
  apply (inbound_publish_qos0 false (connected_session false) false false
           [0x61; 0x2F; 0x62] [0x68; 0x69]).
  split; [lia|]. split; [vm_compute; reflexivity|]. split; [vm_compute; discriminate|].
  split; vm_compute; reflexivity.
Defined.

Lemma inbound_publish_qos1_witness :
  exists st',
    mqtt_process_packet false
      [0x32; 0x0A; 0x00; 0x03; 0x61; 0x2F; 0x62; 0x00; 0x07; 0x00; 0x68; 0x69]
      (connected_session false) = Done OK st'
    /\ received_publish st'
       = publish_received 1 false false [0x61; 0x2F; 0x62] 7 [0x68; 0x69]
    /\ message_available st' = true
    /\ events st' = events (connected_session false) ++ [ev_received_publish]
    /\ pending st' = pending (connected_session false)
    /\ wire st'
       = wire (connected_session false)
         ++ [Build_pbuf [0x40; 0x04; 0x00; 0x07; 0x00; 0x00] 6].
Proof.
  destruct (inbound_publish_qos1 false (connected_session false) false false
              [0x61; 0x2F; 0x62] [0x68; 0x69] 7)
    as (st' & H & Hr & Hm & He & Hp & Hw).
  - split; [lia|]. split; [vm_compute; reflexivity|]. split; [vm_compute; discriminate|].
    split; vm_compute; reflexivity.
  - vm_compute; reflexivity.
  - discriminate.
  - vm_compute; reflexivity.
  - apply Forall_nil.
  - exists st'. split; [exact H|]. split; [exact Hr|]. split; [exact Hm|].
    split; [exact He|]. split; [exact Hp|]. rewrite Hw. vm_compute. reflexivity.
Defined.

(** An inbound PUBLISH at QoS 2 on a connected session whose PUBREC
    properties pass the checks and whose pending table has a free slot.
    The call returns OK with the message in [received_publish],
    [message_available] set and [mqtt_received_publish] notified; the
    first free slot takes the packet identifier awaiting PUBREL, the
    PUBREC is handed to the transport when a send buffer is granted, and
    PUBREL joins the expected packet types when the send succeeded. *)
Theorem inbound_publish_qos2 (cs : bool) (st : mqtt_client) (retain dup : bool)
    (topic payload : list Z) (id : Z) :
  publish_arrives cs st 2 topic id payload ->
  connected st = true -> id <> 0 ->
  validate_pubrec_utf8_strings cs st = OK ->
  user_props_ok (ack_user_properties (pubrec st)) ->
  (0 < free_slots (pending st))%nat ->
  exists st',
    mqtt_process_packet cs (publish_packet 2 retain dup topic id payload) st = Done OK st'
    /\ received_publish st' = publish_received 2 retain dup topic id payload
    /\ message_available st' = true
    /\ events st' = events st ++ [ev_received_publish]
    /\ reserve_slot (pending st) id PUBREL = Some (pending st')
    /\ (~ In id (map packet_id (pending st)) -> get_expected_packet_answer st' id = PUBREL)
    /\ (let buf := ack_buf PUBREC 0 (set_ack_packet_id id (pubrec st)) in
        if FAILED (alloc_send_buf (net st) (pbuf_len buf))
        then wire st' = wire st /\ expected_ptypes st' = expected_ptypes st
        else wire st' = wire st ++ [buf]
             /\ expected_ptypes st'
                = if SUCCESSFUL (send (net st) buf)
                  then Z.lor (expected_ptypes st) (BIT (ptype_code PUBREL))
                  else expected_ptypes st).
Proof.
  intros (Hid & Htopic & Hbody & Hvalid & Hmask) Hc Hnz Hack Hprops Hfree.
  destruct (reserve_slot_some (pending st) id PUBREL Hfree) as [slots Hres].
  rewrite mqtt_process_packet_publish by (assumption || lia).
  cbn [Z.eqb Pos.eqb Z.ltb Z.compare bind].
  rewrite (mqtt_pubrec_connected cs _ id slots) by assumption. cbv zeta.
  cbn [net set_received_publish set_pin receive set_inp pubrec expected_ptypes].
  assert (Hlook : ~ In id (map packet_id (pending st)) -> expected_answer slots id = PUBREL).
  { intros Habsent. now apply (reserve_slot_lookup (pending st)). }
  unfold get_expected_packet_answer.
  destruct (FAILED (alloc_send_buf (net st) _)).
  - eexists. split; [reflexivity|]. rewrite Hres.
    repeat split; try reflexivity. exact Hlook.
  - destruct (SUCCESSFUL (send (net st) _)) eqn:Hs;
      (eexists; split; [reflexivity|]); rewrite Hres;
      repeat split; try reflexivity; exact Hlook.
Qed.

Lemma inbound_publish_qos2_witness :
  exists st',
    mqtt_process_packet false
      [0x34; 0x0A; 0x00; 0x03; 0x61; 0x2F; 0x62; 0x00; 0x07; 0x00; 0x68; 0x69]
      (connected_session false) = Done OK st'
    /\ received_publish st'
       = publish_received 2 false false [0x61; 0x2F; 0x62] 7 [0x68; 0x69]
    /\ get_expected_packet_answer st' 7 = PUBREL
    /\ wire st'
       = wire (connected_session false)
         ++ [Build_pbuf [0x50; 0x04; 0x00; 0x07; 0x00; 0x00] 6]
    /\ TST (expected_ptypes st') (BIT (ptype_code PUBREL)) = true.
Proof.
  assert (Hfresh : ~ In 7 (map packet_id (pending (connected_session false)))).
  { vm_compute. intros Hin.
    repeat (destruct Hin as [Hin|Hin]; [discriminate Hin|]). exact Hin. }
  destruct (inbound_publish_qos2 false (connected_session false) false false
              [0x61; 0x2F; 0x62] [0x68; 0x69] 7)
    as (st' & H & Hr & _ & _ & _ & Hlook & Hsend).
  - split; [lia|]. split; [vm_compute; reflexivity|]. split; [vm_compute; discriminate|].
    split; vm_compute; reflexivity.
  - vm_compute; reflexivity.
  - discriminate.
  - vm_compute; reflexivity.
  - apply Forall_nil.
  - vm_compute. lia.
  - cbv zeta in Hsend.
    assert (Ha : FAILED (alloc_send_buf (net (connected_session false))
                           (pbuf_len (ack_buf PUBREC 0
                                        (set_ack_packet_id 7
                                           (pubrec (connected_session false))))))
                 = false) by (vm_compute; reflexivity).
    assert (Hs : SUCCESSFUL (send (net (connected_session false))
                               (ack_buf PUBREC 0
                                  (set_ack_packet_id 7 (pubrec (connected_session false)))))
                 = true) by (vm_compute; reflexivity).
    rewrite Ha, Hs in Hsend. destruct Hsend as [Hw Hm].
    exists st'. split; [exact H|]. split; [exact Hr|].
    split; [apply Hlook; exact Hfresh|].
    split; [rewrite Hw; vm_compute; reflexivity|].
    rewrite Hm. vm_compute. reflexivity.
Defined.

(** *** PUBREL: the end of an inbound QoS 2 publish *)

Lemma process_ack_head_pubrel (st : mqtt_client) (h id rc : Z) :
  0 <= id <= 65535 ->
  process_ack_head PUBREL pubrel set_pubrel (set_pin 2%nat (receive (ack_packet h id rc) st))
  = if ptype_eqb (expected_answer (pending st) id) PUBREL
    then Done (inl id)
              (set_pubrel (Build_ack_info id rc None [])
                 (set_pin 5%nat (receive (ack_packet h id rc) st)))
    else Done (inr ERROR_UNEXPECTED_PACKET_TYPE)
              (set_pubrel (Build_ack_info id 0 None [])
                 (set_pin 4%nat (receive (ack_packet h id rc) st))).
Proof.
  intros Hid. unfold process_ack_head, ack_packet, word_bytes, get_expected_packet_answer.
  run_parser. rewrite word_roundtrip by assumption.
  destruct (ptype_eqb (expected_answer (pending st) id) PUBREL); run_parser;
    reflexivity.
Qed.

(** A PUBREL is answered by a PUBCOMP.  While PUBREL is expected on a
    connected session whose PUBCOMP properties pass the checks, a PUBREL
    whose identifier is found in the pending table awaiting PUBREL frees
    that slot, clears PUBREL from the mask unless another slot still
    awaits one, and hands the PUBCOMP for the identifier to the transport
    when a send buffer is granted; the result is the transport's.  For
    an identifier that awaits something else, or nothing, the result is
    ERROR_UNEXPECTED_PACKET_TYPE and table, mask and transport stay as
    they are. *)
Theorem pubrel_answered_by_pubcomp (cs : bool) (st : mqtt_client) (id rc : Z) :
  1 <= id <= 65535 ->
  TST (expected_ptypes st) (BIT (ptype_code PUBREL)) = true ->
  (get_expected_packet_answer st id = PUBREL ->
   connected st = true ->
   validate_pubcomp_utf8_strings cs st = OK ->
   user_props_ok (ack_user_properties (pubcomp st)) ->
   exists result st1,
     mqtt_process_packet cs (ack_packet 0x62 id rc) st = Done result st1
     /\ free_slot (pending st) id = Some (pending st1)
     /\ expected_ptypes st1 = mask_after_release PUBREL (pending st1) (expected_ptypes st)
     /\ (let buf := ack_buf PUBCOMP 0 (set_ack_packet_id id (pubcomp st)) in
         if FAILED (alloc_send_buf (net st) (pbuf_len buf))
         then result = alloc_send_buf (net st) (pbuf_len buf) /\ wire st1 = wire st
         else result = send (net st) buf /\ wire st1 = wire st ++ [buf]))
  /\ (get_expected_packet_answer st id <> PUBREL ->
      exists st1,
        mqtt_process_packet cs (ack_packet 0x62 id rc) st
        = Done ERROR_UNEXPECTED_PACKET_TYPE st1
        /\ pending st1 = pending st
        /\ expected_ptypes st1 = expected_ptypes st
        /\ wire st1 = wire st).
Proof.
  intros Hid Hmask. unfold get_expected_packet_answer.
  assert (Hdispatch : mqtt_process_packet cs (ack_packet 0x62 id rc) st
                      = process_pubrel cs (set_pin 2%nat (receive (ack_packet 0x62 id rc) st))).
  { rewrite mqtt_process_packet_ack. cbv zeta.
    change (Z.shiftr 0x62 4) with (ptype_code PUBREL). rewrite Hmask. reflexivity. }
  rewrite Hdispatch. unfold process_pubrel. cbn [bind].
  rewrite process_ack_head_pubrel by lia. split.
  - intros Hexp Hc Hvalid Hprops. rewrite Hexp.
    cbn [ptype_eqb ptype_code Z.eqb Pos.eqb].
    destruct (free_slot_present (pending st) id) as [slots Hfree].
    { apply expected_answer_present. rewrite Hexp. discriminate. }
    cbn [bind get]. unfold free_packet_slot at 1.
    change (pending (set_pubrel _ _)) with (pending st). rewrite Hfree.
    unfold await_for_packet, mask_after_release. cbn [pending set_pending].
    destruct (existsb (fun p => ptype_eqb (await_packet_type p) PUBREL) slots) eqn:Haw;
      cbn [negb when ret bind]; unfold unexpect; cbn [modify bind];
      (rewrite mqtt_pubcomp_connected; [|exact Hc|lia|exact Hvalid|exact Hprops]);
      cbv zeta;
      cbn [net pubcomp set_pending set_pubrel set_pin receive set_inp set_expected_ptypes];
      unfold FAILED;
      destruct (SUCCESSFUL (alloc_send_buf (net st) _)) eqn:Ha; cbn [negb bind when ret];
      rewrite ?Ha; cbn [negb bind when ret modify].
    all: try (destruct (SUCCESSFUL (send (net st) _)) eqn:Hs; cbn [negb bind when ret modify];
              rewrite ?Hs; cbn [negb bind when ret modify]).
    all: eexists _, _; (split; [reflexivity|]).
    all: unfold after_alloc_failure, after_send;
      cbn [pending set_pending set_pubrel set_pin receive set_inp set_expected_ptypes
           net expected_ptypes set_outp set_wire set_packet_size set_pout wire
           pbuf_len pbuf_payload set_pubcomp];
      rewrite ?Haw; repeat split; reflexivity.
  - intros Hexp. rewrite (ptype_eqb_neq _ _ Hexp). cbn [ret].
    eexists. split; [reflexivity|]. repeat split; reflexivity.
Qed.

Lemma pubrel_answered_by_pubcomp_witness :
  exists st1 st2,
    mqtt_process_packet false (ack_packet 0x62 7 0) (inbound_qos2_session false)
    = Done OK st1
    /\ free_slots (pending st1) = S (free_slots (pending (inbound_qos2_session false)))
    /\ wire st1
       = wire (inbound_qos2_session false)
         ++ [Build_pbuf [0x70; 0x04; 0x00; 0x07; 0x00; 0x00] 6]
    /\ mqtt_process_packet false (ack_packet 0x62 9 0) (inbound_qos2_session false)
       = Done ERROR_UNEXPECTED_PACKET_TYPE st2.
Proof.
  destruct (pubrel_answered_by_pubcomp false (inbound_qos2_session false) 7 0) as [H _];
    [lia|vm_compute; reflexivity|].
  destruct H as (result & st1 & H1 & Hfree & Hmask & Hsend);
    [vm_compute; reflexivity|vm_compute; reflexivity|vm_compute; reflexivity
    |apply Forall_nil|].
  cbv zeta in Hsend.
  assert (Ha : FAILED (alloc_send_buf (net (inbound_qos2_session false))
                         (pbuf_len (ack_buf PUBCOMP 0
                                      (set_ack_packet_id 7
                                         (pubcomp (inbound_qos2_session false))))))
               = false) by (vm_compute; reflexivity).
  rewrite Ha in Hsend. destruct Hsend as [Hresult Hwire].
  assert (Hok : result = OK) by (rewrite Hresult; vm_compute; reflexivity).
  rewrite Hok in H1.
  destruct (pubrel_answered_by_pubcomp false (inbound_qos2_session false) 9 0) as [_ H2];
    [lia|vm_compute; reflexivity|].
  destruct H2 as (st2 & H2 & _); [vm_compute; discriminate|].
  exists st1, st2. split; [exact H1|].
  split; [apply (free_slot_free_slots _ _ 7); [discriminate|exact Hfree]|].
  split; [rewrite Hwire; vm_compute; reflexivity|exact H2].
Defined.

(** ** Opening and closing the session *)

(** CONNACK.  While CONNACK is expected, a CONNACK without properties
    and with a reason code below 0x80 returns OK, marks the client
    connected, adds DISCONNECT and PUBLISH to the expected packet types,
    notifies [mqtt_connected], and stores the acknowledge flag and the
    reason code together with the defaults: maximum QoS 2, retain,
    wildcard, subscription-identifier and shared subscriptions
    available, keep-alive and maximum packet size as the client asked
    for them.  With a reason code of 0x80 or above the result is
    ERROR_SERVER_DECLINED and the client stays as connected as it was,
    with the same mask and no notification.  Nothing is sent either
    way. *)
Theorem connack_opens_session (cs : bool) (st : mqtt_client) (flags reason : Z) :
  TST (expected_ptypes st) (BIT (ptype_code CONNACK)) = true ->
  (Z.land reason 0x80 = 0 ->
   exists st',
     mqtt_process_packet cs (connack_packet flags reason) st = Done OK st'
     /\ connected st' = true
     /\ expected_ptypes st'
        = Z.lor (Z.lor (expected_ptypes st) (BIT (ptype_code DISCONNECT)))
                (BIT (ptype_code PUBLISH))
     /\ events st' = events st ++ [ev_connected]
     /\ wire st' = wire st
     /\ connack_ack_flag (connack st') = Z.odd flags
     /\ connack_reason (connack st') = reason
     /\ connack_max_qos (connack st') = 2
     /\ connack_retain_avail (connack st') = true
     /\ connack_wildcard_sub_avail (connack st') = true
     /\ connack_sub_id_avail (connack st') = true
     /\ connack_shared_sub_avail (connack st') = true
     /\ connack_server_keep_alive (connack st') = connect_keep_alive (connect st)
     /\ connack_max_packet_size (connack st') = connect_max_packet_size (connect st))
  /\ (Z.land reason 0x80 <> 0 ->
      exists st',
        mqtt_process_packet cs (connack_packet flags reason) st
        = Done ERROR_SERVER_DECLINED st'
        /\ connected st' = connected st
        /\ expected_ptypes st' = expected_ptypes st
        /\ events st' = events st
        /\ wire st' = wire st).
Proof.
  intros Hmask. unfold connack_packet.
  rewrite mqtt_process_packet_short by lia. cbv zeta.
  cbn [length Z.of_nat Pos.of_succ_nat Pos.succ Z.eqb Pos.eqb].
  change (Z.shiftr 0x20 4) with (ptype_code CONNACK). rewrite Hmask.
  change (ptype_of_code (ptype_code CONNACK)) with CONNACK. cbn [process_packet].
  unfold process_connack. split.
  - intros Hok. run_parser. unfold nonzero. rewrite Hok. run_parser.
    rewrite (unpack_variable_size_one_byte _ 0) by reflexivity.
    run_parser. eexists. split; [reflexivity|]. repeat split; reflexivity.
  - intros Hbad. run_parser. unfold nonzero.
    destruct (Z.eqb_spec (Z.land reason 128) 0) as [E|_]; [contradiction|].
    run_parser. eexists. split; [reflexivity|]. repeat split; reflexivity.
Qed.

Lemma connack_opens_session_witness :
  exists st1 st2,
    mqtt_process_packet false (connack_packet 0 0)
      (exec (mqtt_connect false (Some [77; 81]) 60 0 true) (mqtt_create_client net_ok))
    = Done OK st1
    /\ connected st1 = true
    /\ connack_server_keep_alive (connack st1) = 60
    /\ mqtt_process_packet false (connack_packet 0 0x87)
         (exec (mqtt_connect false (Some [77; 81]) 60 0 true) (mqtt_create_client net_ok))
       = Done ERROR_SERVER_DECLINED st2
    /\ connected st2 = false.
Proof.
  destruct (connack_opens_session false
              (exec (mqtt_connect false (Some [77; 81]) 60 0 true)
                    (mqtt_create_client net_ok)) 0 0) as [H _];
    [vm_compute; reflexivity|].
  destruct H as (st1 & H1 & Hc & _ & _ & _ & _ & _ & _ & _ & _ & _ & _ & Hk & _);
    [reflexivity|].
  destruct (connack_opens_session false
              (exec (mqtt_connect false (Some [77; 81]) 60 0 true)
                    (mqtt_create_client net_ok)) 0 0x87) as [_ H];
    [vm_compute; reflexivity|].
  destruct H as (st2 & H2 & Hc2 & _); [discriminate|].
  exists st1, st2. split; [exact H1|]. split; [exact Hc|].
  split; [rewrite Hk; vm_compute; reflexivity|]. split; [exact H2|].
  rewrite Hc2. vm_compute. reflexivity.
Defined.

(** ** The UTF-8 validator *)

(** [is_valid_utf8] where plain [char] is unsigned.  On the first
    [n] bytes of a buffer the validator accepts exactly the sequences
    RFC 3629 defines: one to four octets per character, no overlong
    form, no surrogate, nothing above U+10FFFF, no truncated
    character. *)
Theorem is_valid_utf8_unsigned_char (str : list Z) (n : nat) :
  Forall is_byte str -> (n <= length str)%nat ->
  is_valid_utf8 false str (Z.of_nat n) = rfc3629 (firstn n str).
Proof. apply is_valid_utf8_unsigned_rfc3629. Qed.

Lemma is_valid_utf8_unsigned_char_witness :
  is_valid_utf8 false [0xE2; 0x82; 0xAC; 0xED; 0xA0; 0x80] 3 = true
  /\ is_valid_utf8 false [0xE2; 0x82; 0xAC; 0xED; 0xA0; 0x80] 6 = false.
Proof.
  split.
  - change 3 with (Z.of_nat 3).
    rewrite (is_valid_utf8_unsigned_char [0xE2; 0x82; 0xAC; 0xED; 0xA0; 0x80] 3).
    + reflexivity.
    + repeat constructor; discriminate.
    + cbn. lia.
  - change 6 with (Z.of_nat 6).
    rewrite (is_valid_utf8_unsigned_char [0xE2; 0x82; 0xAC; 0xED; 0xA0; 0x80] 6).
    + reflexivity.
    + repeat constructor; discriminate.
    + cbn. lia.
Defined.

(** ** Closing the session *)

(** [mqtt_disconnect] without properties.  The packet is the three
    bytes E0 01 and the reason code.  When the transport refuses the
    send buffer, fails the send, or fails to free the buffer, that
    result is returned and the client stays as connected as it was, with
    the same expected packet types; otherwise the client is marked
    disconnected, only PINGREQ stays expected, and the result is that of
    closing the connection. *)
Theorem mqtt_disconnect_closes (cs : bool) (st : mqtt_client) (reason_code : Z) :
  disconnect_plain st ->
  exists result st',
    mqtt_disconnect cs reason_code st = Done result st'
    /\ if FAILED (alloc_send_buf (net st) 3)
       then result = alloc_send_buf (net st) 3
            /\ wire st' = wire st
            /\ connected st' = connected st
            /\ expected_ptypes st' = expected_ptypes st
       else wire st' = wire st ++ [disconnect_buf reason_code]
            /\ if FAILED (send (net st) (disconnect_buf reason_code))
               then result = send (net st) (disconnect_buf reason_code)
                    /\ connected st' = connected st
                    /\ expected_ptypes st' = expected_ptypes st
               else if FAILED (free_send_buf (net st))
               then result = free_send_buf (net st)
                    /\ connected st' = connected st
                    /\ expected_ptypes st' = expected_ptypes st
               else result = close_conn (net st)
                    /\ connected st' = false
                    /\ expected_ptypes st' = BIT (ptype_code PINGREQ).
Proof.
  intros (Hrs & Hsr & Hse & Hup).
  unfold mqtt_disconnect, validate_disconnect_utf8_strings. cbn [bind get].
  rewrite Hrs, Hsr, Hup. cbn [bad_utf8 bad_user_props existsb SUCCESSFUL OK].
  cbn [bind modify]. unfold make_disconnect at 1. cbn [bind get].
  cbn [disconn set_disconn set_pout disconn_reason_string disconn_server_reference
       disconn_session_expiry_interval disconn_user_properties set_disconn_reason_code
       pout is_set when].
  rewrite Hrs, Hsr, Hse, Hup.
  cbn [is_set orb nonzero Z.eqb negb length Nat.eqb when bind ret modify].
  unfold net_alloc_send_buf at 1.
  cbn [net set_packet_size set_pout set_disconn packet_size].
  change (u32 (1 + estimate_fixed_header_size 1)) with 3.
  destruct (FAILED (alloc_send_buf (net st) 3)) eqn:Ha.
  - cbn [ret]. eexists _, _. split; [reflexivity|]. repeat split; reflexivity.
  - cbn [bind modify]. unfold make_disconnect at 1. cbn [bind get].
    cbn [disconn set_disconn set_pout set_outp set_packet_size
         disconn_reason_string disconn_server_reference disconn_reason_code
         disconn_session_expiry_interval disconn_user_properties set_disconn_reason_code
         pout is_set when].
    rewrite Hrs, Hsr, Hse, Hup.
    cbn [is_set orb nonzero Z.eqb negb length Nat.eqb when bind ret modify].
    unfold write_fixed_header, pack_variable_size.
    cbn -[u8 u32 FAILED SUCCESSFUL Z.add estimate_fixed_header_size].
    change (u32 (1 + estimate_fixed_header_size 1)) with 3.
    change (u8 224) with 0xE0. change (u8 1) with 0x01.
    fold (disconnect_buf reason_code).
    destruct (FAILED (send (net st) (disconnect_buf reason_code))) eqn:Hs.
    + cbn -[u8]. eexists _, _. split; [reflexivity|]. repeat split; reflexivity.
    + cbn -[u8 FAILED]. destruct (FAILED (free_send_buf (net st))) eqn:Hf.
      * cbn -[u8]. eexists _, _. split; [reflexivity|]. repeat split; reflexivity.
      * cbn -[u8]. eexists _, _. split; [reflexivity|]. repeat split; reflexivity.
Qed.

Lemma mqtt_disconnect_closes_witness :
  exists st',
    mqtt_disconnect false 0 (connected_session false) = Done OK st'
    /\ wire st' = wire (connected_session false) ++ [Build_pbuf [0xE0; 0x01; 0x00] 3]
    /\ connected st' = false
    /\ expected_ptypes st' = BIT (ptype_code PINGREQ).
Proof.
  destruct (mqtt_disconnect_closes false (connected_session false) 0)
    as (result & st' & H & Hcases).
  - repeat split; reflexivity.
  - assert (Ha : FAILED (alloc_send_buf (net (connected_session false)) 3) = false)
      by (vm_compute; reflexivity).
    assert (Hs : FAILED (send (net (connected_session false)) (disconnect_buf 0)) = false)
      by (vm_compute; reflexivity).
    assert (Hf : FAILED (free_send_buf (net (connected_session false))) = false)
      by (vm_compute; reflexivity).
    rewrite Ha, Hs, Hf in Hcases. destruct Hcases as (Hw & Hr & Hc & Hm).
    assert (Hok : result = OK) by (rewrite Hr; vm_compute; reflexivity).
    rewrite Hok in H. exists st'. split; [exact H|].
    split; [rewrite Hw; reflexivity|]. split; [exact Hc|exact Hm].
Defined.

(** A DISCONNECT from the server.  While DISCONNECT is expected, a
    DISCONNECT that carries only a reason code, or a reason code and an
    empty property list, returns OK, marks the client disconnected,
    leaves only PINGREQ expected, stores the reason code and notifies
    [mqtt_received_disconnect] with it.  Nothing is sent. *)
Theorem server_disconnect_closes (cs : bool) (st : mqtt_client) (reason : Z) :
  TST (expected_ptypes st) (BIT (ptype_code DISCONNECT)) = true ->
  forall packet,
    packet = [0xE0; 0x01; reason] \/ packet = [0xE0; 0x02; reason; 0x00] ->
    exists st',
      mqtt_process_packet cs packet st = Done OK st'
      /\ connected st' = false
      /\ expected_ptypes st' = BIT (ptype_code PINGREQ)
      /\ disconn st' = Build_disconn_info None None reason 0 []
      /\ events st' = events st ++ [ev_received_disconnect reason]
      /\ wire st' = wire st.
Proof.
  intros Hmask packet [E|E]; subst packet;
    rewrite mqtt_process_packet_short by lia; cbv zeta;
    cbn [length Z.of_nat Pos.of_succ_nat Pos.succ Z.eqb Pos.eqb];
    change (Z.shiftr 0xE0 4) with (ptype_code DISCONNECT); rewrite Hmask;
    change (ptype_of_code (ptype_code DISCONNECT)) with DISCONNECT;
    cbn [process_packet]; unfold process_disconnect.
  - set (S := fun (d : mqtt_disconn_info) (n : nat) =>
                set_disconn d (set_pin n (receive [0xE0; 0x01; reason] st))).
    rewrite (bind_done _ _ _ (S disconn_zero 2%nat) tt) by reflexivity.
    rewrite (bind_done _ _ _ (S disconn_zero 3%nat) reason) by reflexivity.
    rewrite (bind_done _ _ _ (S (Build_disconn_info None None reason 0 []) 3%nat) tt)
      by reflexivity.
    rewrite (bind_done _ _ _ (S (Build_disconn_info None None reason 0 []) 3%nat)
               (S (Build_disconn_info None None reason 0 []) 3%nat)) by reflexivity.
    rewrite (bind_done _ _ _ (S (Build_disconn_info None None reason 0 []) 3%nat) OK)
      by reflexivity.
    cbn [FAILED SUCCESSFUL OK negb].
    eexists. split; [reflexivity|]. repeat split; reflexivity.
  - set (S := fun (d : mqtt_disconn_info) (n : nat) =>
                set_disconn d (set_pin n (receive [0xE0; 0x02; reason; 0x00] st))).
    rewrite (bind_done _ _ _ (S disconn_zero 2%nat) tt) by reflexivity.
    rewrite (bind_done _ _ _ (S disconn_zero 3%nat) reason) by reflexivity.
    rewrite (bind_done _ _ _ (S (Build_disconn_info None None reason 0 []) 3%nat) tt)
      by reflexivity.
    rewrite (bind_done _ _ _ (S (Build_disconn_info None None reason 0 []) 3%nat)
               (S (Build_disconn_info None None reason 0 []) 3%nat)) by reflexivity.
    rewrite (bind_done _ _ _ (S (Build_disconn_info None None reason 0 []) 4%nat) OK).
    2:{ change (bytes_consumed (S (Build_disconn_info None None reason 0 []) 3%nat)
                <? pbuf_len (inp (S (Build_disconn_info None None reason 0 []) 3%nat)))
          with true. cbv iota.
        rewrite (bind_done _ _ _ (S (Build_disconn_info None None reason 0 []) 4%nat) 0).
        - reflexivity.
        - rewrite (unpack_variable_size_one_byte _ 0) by reflexivity. reflexivity. }
    cbn [FAILED SUCCESSFUL OK negb].
    eexists. split; [reflexivity|]. repeat split; reflexivity.
Qed.

Lemma server_disconnect_closes_witness :
  exists st',
    mqtt_process_packet false [0xE0; 0x01; 0x8B] (connected_session false) = Done OK st'
    /\ connected st' = false
    /\ events st' = events (connected_session false) ++ [ev_received_disconnect 0x8B].
Proof.
  destruct (server_disconnect_closes false (connected_session false) 0x8B)
    with (packet := [0xE0; 0x01; 0x8B]) as (st' & H & Hc & _ & _ & He & _).
  - vm_compute. reflexivity.
  - left. reflexivity.
  - exists st'. split; [exact H|]. split; [exact Hc|exact He].
Defined.

(** ** SUBACK *)

Lemma suback_reason_codes_run (id : Z) (codes : list Z) :
  forall (st : mqtt_client) (pre : list Z) (sub_num : Z),
    pbuf_payload (inp st) = pre ++ codes -> pin st = length pre ->
    suback_reason_codes (length codes) id sub_num st
    = Done tt (set_events (events st ++ suback_events id codes sub_num)
                 (set_pin (length pre + length codes) st)).
Proof.
  induction codes as [|c rest IH]; intros st pre sub_num Hbuf Hpin.
  - cbn [suback_reason_codes suback_events length ret].
    rewrite app_nil_r, Nat.add_0_r, <- Hpin. destruct st; reflexivity.
  - cbn [suback_reason_codes suback_events length].
    rewrite (bind_done _ _ _ (set_pin (S (length pre)) st) c)
      by (apply (unpack_byte_at st pre rest c Hbuf Hpin)).
    assert (Hbuf' : pbuf_payload (inp (set_pin (S (length pre)) st)) = (pre ++ [c]) ++ rest).
    { cbn [inp set_pin]. rewrite Hbuf, <- app_assoc. reflexivity. }
    assert (Hlen : length (pre ++ [c]) = S (length pre)).
    { rewrite length_app. cbn [length]. lia. }
    assert (Hn : (length (pre ++ [c]) + length rest = length pre + S (length rest))%nat).
    { rewrite Hlen. lia. }
    destruct (c <=? MQTT_REASON_GRANTED_QOS_2); [|destruct (0x80 <=? c)].
    + unfold mqtt_subscription_granted.
      rewrite (bind_done _ _ _
                 (set_events (events st ++ [ev_subscription_granted id sub_num])
                    (set_pin (S (length pre)) st)) tt) by reflexivity.
      rewrite (IH _ (pre ++ [c]) (sub_num + 1)); [|exact Hbuf'|cbn [pin set_events set_pin]; lia].
      cbn [events set_events set_pin]. rewrite <- app_assoc, Hn. reflexivity.
    + unfold mqtt_subscription_declined.
      rewrite (bind_done _ _ _
                 (set_events (events st ++ [ev_subscription_declined id sub_num c])
                    (set_pin (S (length pre)) st)) tt) by reflexivity.
      rewrite (IH _ (pre ++ [c]) (sub_num + 1)); [|exact Hbuf'|cbn [pin set_events set_pin]; lia].
      cbn [events set_events set_pin]. rewrite <- app_assoc, Hn. reflexivity.
    + rewrite (IH _ (pre ++ [c]) sub_num); [|exact Hbuf'|cbn [pin set_pin]; lia].
      cbn [events set_pin]. rewrite Hn. reflexivity.
Qed.

(** A SUBACK completes a subscription.  While SUBACK is expected, a
    SUBACK with an empty property list whose identifier awaits SUBACK in
    the pending table returns OK, reads every reason code, frees the
    slot, sends nothing, and clears SUBACK from the mask unless another
    slot still awaits one.  Reason codes 0 to 2 notify
    [mqtt_subscription_granted] and codes from 0x80 on
    [mqtt_subscription_declined], each with the index of the
    subscription; a code between 3 and 0x7F notifies nothing and does
    not advance the index.  For an identifier that awaits something
    else, or nothing, the result is ERROR_UNEXPECTED_PACKET_TYPE and
    table, mask, transport and notifications stay as they are. *)
Theorem suback_completes_subscribe (cs : bool) (st : mqtt_client) (id : Z)
    (codes : list Z) :
  0 <= id <= 65535 -> Z.of_nat (length codes) <= 124 ->
  TST (expected_ptypes st) (BIT (ptype_code SUBACK)) = true ->
  (get_expected_packet_answer st id = SUBACK ->
   exists st',
     mqtt_process_packet cs (suback_packet id codes) st = Done OK st'
     /\ free_slot (pending st) id = Some (pending st')
     /\ expected_ptypes st' = mask_after_release SUBACK (pending st') (expected_ptypes st)
     /\ events st' = events st ++ suback_events id codes 0
     /\ wire st' = wire st)
  /\ (get_expected_packet_answer st id <> SUBACK ->
      exists st',
        mqtt_process_packet cs (suback_packet id codes) st
        = Done ERROR_UNEXPECTED_PACKET_TYPE st'
        /\ pending st' = pending st
        /\ expected_ptypes st' = expected_ptypes st
        /\ events st' = events st
        /\ wire st' = wire st).
Proof.
  intros Hid Hcodes Hmask.
  set (pkt := suback_packet id codes).
  set (S := fun n : nat => set_pin n (receive pkt st)).
  assert (Hpkt : pkt = [0x90; Z.of_nat (length (word_bytes id ++ [0] ++ codes))]
                       ++ word_bytes id ++ [0] ++ codes) by reflexivity.
  assert (Hlen : Z.of_nat (length pkt) = 5 + Z.of_nat (length codes)).
  { rewrite Hpkt, !length_app. cbn [length word_bytes]. lia. }
  assert (Hdispatch : mqtt_process_packet cs pkt st = process_suback (S 2%nat)).
  { unfold pkt, suback_packet. rewrite mqtt_process_packet_short.
    - cbv zeta. rewrite Z.eqb_refl.
      change (Z.shiftr 0x90 4) with (ptype_code SUBACK). rewrite Hmask. reflexivity.
    - rewrite !length_app. cbn [length word_bytes]. lia. }
  rewrite Hdispatch. unfold process_suback, get_expected_packet_answer.
  rewrite (bind_done _ _ _ (S 4%nat) id).
  2:{ rewrite (unpack_word_at (S 2%nat) [0x90; Z.of_nat (length (word_bytes id ++ [0] ++ codes))]
                 ([0] ++ codes) id Hid); reflexivity. }
  rewrite (bind_done _ _ _ (S 4%nat) (S 4%nat)) by reflexivity.
  change (pending (S 4%nat)) with (pending st). split.
  - intros Hexp. rewrite Hexp. cbn [ptype_eqb ptype_code Z.eqb Pos.eqb negb].
    rewrite (bind_done _ _ _ (S 5%nat) 0).
    2:{ rewrite (unpack_variable_size_one_byte _ 0); reflexivity. }
    cbn [Z.ltb Z.compare].
    rewrite (bind_done _ _ _ (S 5%nat) OK) by reflexivity.
    cbn [FAILED SUCCESSFUL OK negb].
    rewrite (bind_done _ _ _ (S 5%nat) (S 5%nat)) by reflexivity.
    change (pbuf_len (inp (S 5%nat))) with (Z.of_nat (length pkt)).
    change (bytes_consumed (S 5%nat)) with 5. rewrite Hlen.
    replace (u32 (5 + Z.of_nat (length codes) - 5)) with (Z.of_nat (length codes))
      by (unfold u32; rewrite Z.mod_small; lia).
    rewrite Nat2Z.id.
    rewrite (bind_done _ _ _
               (set_events (events st ++ suback_events id codes 0)
                  (S (5 + length codes)%nat)) tt).
    2:{ rewrite (suback_reason_codes_run id codes (S 5%nat)
                   ([0x90; Z.of_nat (length (word_bytes id ++ [0] ++ codes))]
                    ++ word_bytes id ++ [0]) 0); reflexivity. }
    destruct (free_slot_present (pending st) id) as [slots Hfree].
    { apply expected_answer_present. rewrite Hexp. discriminate. }
    rewrite (bind_done _ _ _
               (set_pending slots
                  (set_events (events st ++ suback_events id codes 0)
                     (S (5 + length codes)%nat))) OK).
    2:{ unfold free_packet_slot.
        change (pending (set_events _ _)) with (pending st). rewrite Hfree. reflexivity. }
    cbn [bind get]. unfold await_for_packet, mask_after_release.
    cbn [pending set_pending].
    destruct (existsb (fun p => ptype_eqb (await_packet_type p) SUBACK) slots) eqn:Haw;
      cbn [negb when ret bind]; unfold unexpect; cbn [modify bind ret];
      (eexists; split; [reflexivity|]);
      cbn [pending set_pending set_expected_ptypes expected_ptypes];
      rewrite ?Haw, ?Hfree; repeat split; reflexivity.
  - intros Hexp. rewrite (ptype_eqb_neq _ _ Hexp). cbn [negb ret].
    eexists. split; [reflexivity|]. repeat split; reflexivity.
Qed.

Lemma suback_completes_subscribe_witness :
  exists st1 st2,
    mqtt_process_packet false [0x90; 0x06; 0x00; 0x01; 0x00; 0x01; 0x11; 0x87]
      (exec (mqtt_subscribe false [sub_ab; sub_ab; sub_ab]) (connected_session false))
    = Done OK st1
    /\ events st1
       = events (connected_session false)
         ++ [ev_subscription_granted 1 0; ev_subscription_declined 1 1 0x87]
    /\ mqtt_process_packet false [0x90; 0x06; 0x00; 0x02; 0x00; 0x01; 0x11; 0x87]
         (exec (mqtt_subscribe false [sub_ab; sub_ab; sub_ab]) (connected_session false))
       = Done ERROR_UNEXPECTED_PACKET_TYPE st2.
Proof.
  destruct (suback_completes_subscribe false
              (exec (mqtt_subscribe false [sub_ab; sub_ab; sub_ab]) (connected_session false))
              1 [0x01; 0x11; 0x87]) as [H _];
    [lia|cbn; lia|vm_compute; reflexivity|].
  destruct H as (st1 & H1 & _ & _ & He & _); [vm_compute; reflexivity|].
  destruct (suback_completes_subscribe false
              (exec (mqtt_subscribe false [sub_ab; sub_ab; sub_ab]) (connected_session false))
              2 [0x01; 0x11; 0x87]) as [_ H];
    [lia|cbn; lia|vm_compute; reflexivity|].
  destruct H as (st2 & H2 & _); [vm_compute; discriminate|].
  exists st1, st2. split; [exact H1|]. split; [rewrite He; vm_compute; reflexivity|exact H2].
Defined.

(** ** UNSUBSCRIBE and UNSUBACK *)

Lemma validate_unsub_entries_topics (cs : bool) (entries : list mqtt_sub_entry) :
  FAILED (validate_unsub_entries cs entries) = false ->
  Forall (fun e => is_set (sub_topic e) = true) entries.
Proof.
  induction entries as [|e rest IH]; cbn [validate_unsub_entries]; [constructor|].
  destruct (sub_topic e) as [topic|] eqn:Ht; [|discriminate].
  destruct (negb _); [discriminate|].
  intros H. constructor; [now rewrite Ht|now apply IH].
Qed.

(** [mqtt_unsubscribe].  Without entries the result is
    ERROR_NULL_REFERENCE, and on a client that is not connected
    ERROR_NOT_CONNECTED, the client unchanged.  On a connected session
    with a free slot, user properties with key and value, and entries
    that pass the checks, the call mints the next packet identifier,
    takes the first free slot for it awaiting UNSUBACK, stamps the
    identifier on the request, and hands the UNSUBSCRIBE to the
    transport when a send buffer is granted; the result is the
    transport's, and UNSUBACK joins the expected packet types when the
    send succeeded. *)
Theorem mqtt_unsubscribe_sends (cs : bool) (st : mqtt_client)
    (entries : list mqtt_sub_entry) :
  mqtt_unsubscribe cs [] st = Done ERROR_NULL_REFERENCE st
  /\ (entries <> [] -> connected st = false ->
      mqtt_unsubscribe cs entries st = Done ERROR_NOT_CONNECTED st)
  /\ (entries <> [] -> connected st = true ->
      (0 < free_slots (pending st))%nat ->
      user_props_ok (unsubscribe_user_properties (unsubscribe st)) ->
      FAILED (validate_unsubscribe_utf8_strings cs
                (set_unsubscribe (set_unsubscribe_entries entries (unsubscribe st)) st))
      = false ->
      FAILED (validate_unsub_entries cs entries) = false ->
      exists result st',
        mqtt_unsubscribe cs entries st = Done result st'
        /\ reserve_slot (pending st) (next_packet_id st) UNSUBACK = Some (pending st')
        /\ unsubscribe_packet_id (unsubscribe st') = next_packet_id st
        /\ (let buf := unsubscribe_buf (unsubscribe_reserved entries (pending st') st) in
            if FAILED (alloc_send_buf (net st) (pbuf_len buf))
            then result = alloc_send_buf (net st) (pbuf_len buf)
                 /\ wire st' = wire st
                 /\ expected_ptypes st' = expected_ptypes st
            else result = send (net st) buf
                 /\ wire st' = wire st ++ [buf]
                 /\ expected_ptypes st'
                    = if SUCCESSFUL (send (net st) buf)
                      then Z.lor (expected_ptypes st) (BIT (ptype_code UNSUBACK))
                      else expected_ptypes st)).
Proof.
  split; [reflexivity|]. split.
  - intros Hne Hc. unfold mqtt_unsubscribe. cbn [bind get].
    destruct entries as [|e0 rest]; [contradiction|]. cbn [length Nat.eqb].
    rewrite Hc. reflexivity.
  - intros Hne Hc Hfree Hprops Hv1 Hv2.
    destruct (reserve_slot_some (pending st) (next_packet_id st) UNSUBACK Hfree)
      as [slots Hres].
    set (st1 := unsubscribe_reserved entries slots st).
    unfold mqtt_unsubscribe. cbn [bind get].
    destruct entries as [|e0 rest]; [contradiction|]. cbn [length Nat.eqb].
    rewrite Hc. cbn [negb bind modify].
    unfold reserve_packet_slot_for_answer at 1.
    cbn [pending packet_id_count set_unsubscribe]. cbv zeta.
    fold (next_packet_id st). rewrite Hres. cbn [bind modify get].
    match goal with
    | |- context [validate_unsubscribe_utf8_strings cs ?X] => change X with st1
    end.
    change (validate_unsubscribe_utf8_strings cs st1)
      with (validate_unsubscribe_utf8_strings cs
              (set_unsubscribe (set_unsubscribe_entries (e0 :: rest) (unsubscribe st)) st)).
    rewrite Hv1, Hv2. cbn [bind].
    rewrite (two_pass_send_spec make_unsubscribe _ _ _ _ make_unsubscribe_builder).
    + cbv zeta. change (net st1) with (net st).
      unfold unsubscribe_buf. cbn [pbuf_len].
      unfold FAILED.
      destruct (SUCCESSFUL (alloc_send_buf (net st) _)) eqn:Ha; cbn [negb bind].
      * destruct (SUCCESSFUL (send (net st) _)) eqn:Hs;
          (eexists _, _; split; [reflexivity|]);
          change (pending _) with slots; fold st1;
          (split; [reflexivity|]);
          (split; [apply u16_next_packet_id|]);
          rewrite Ha; cbn [negb]; rewrite ?Hs; repeat split; reflexivity.
      * rewrite Ha. cbn [negb ret].
        eexists _, _. split; [reflexivity|].
        change (pending _) with slots. fold st1.
        split; [reflexivity|]. split; [apply u16_next_packet_id|].
        rewrite Ha. cbn [negb]. repeat split; reflexivity.
    + intros ? ? ? ?; reflexivity.
    + intros ? ? ? ?; reflexivity.
    + intros ? ? ? ?; reflexivity.
    + split; [exact Hprops|]. now apply (validate_unsub_entries_topics cs).
Qed.

Lemma mqtt_unsubscribe_sends_witness :
  mqtt_unsubscribe false [sub_ab] (mqtt_create_client net_ok)
  = Done ERROR_NOT_CONNECTED (mqtt_create_client net_ok)
  /\ exists st',
       mqtt_unsubscribe false [sub_ab] (connected_session false) = Done OK st'
       /\ get_expected_packet_answer st' 1 = UNSUBACK
       /\ wire st'
          = wire (connected_session false)
            ++ [Build_pbuf [0xA2; 0x08; 0x00; 0x01; 0x00; 0x00; 0x03; 0x61; 0x2F; 0x62] 10].
Proof.
  split.
  - apply (proj1 (proj2 (mqtt_unsubscribe_sends false (mqtt_create_client net_ok) [sub_ab])));
      [discriminate|reflexivity].
  - destruct (proj2 (proj2 (mqtt_unsubscribe_sends false (connected_session false) [sub_ab])))
      as (result & st' & H & Hres & _ & Hsend).
    + discriminate.
    + vm_compute; reflexivity.
    + vm_compute. lia.
    + apply Forall_nil.
    + vm_compute; reflexivity.
    + vm_compute; reflexivity.
    + set (v := reserve_slot (pending (connected_session false))
                  (next_packet_id (connected_session false)) UNSUBACK) in Hres.
      vm_compute in v. subst v. injection Hres as Hres.
      cbv zeta in Hsend. rewrite <- Hres in Hsend.
      match type of Hsend with
      | if FAILED ?a then _ else _ =>
          assert (Ha : FAILED a = false) by (vm_compute; reflexivity); rewrite Ha in Hsend
      end.
      destruct Hsend as (Hr & Hw & _).
      assert (Hok : result = OK) by (rewrite Hr; vm_compute; reflexivity).
      rewrite Hok in H. exists st'. split; [exact H|].
      split; [unfold get_expected_packet_answer; rewrite <- Hres; vm_compute; reflexivity|].
      rewrite Hw. vm_compute. reflexivity.
Defined.

(** An UNSUBACK completes an unsubscription.  While UNSUBACK is
    expected, an UNSUBACK with an empty property list whose identifier
    awaits UNSUBACK in the pending table returns OK, stores the
    identifier and the reason codes (their copy allocated), frees the
    slot, sends nothing, notifies nothing, and clears UNSUBACK from the
    mask unless another slot still awaits one.  For an identifier that
    awaits something else, or nothing, the result is
    ERROR_UNEXPECTED_PACKET_TYPE and table, mask and transport stay as
    they are. *)
Theorem unsuback_completes_unsubscribe (cs : bool) (st : mqtt_client) (id : Z)
    (codes : list Z) :
  0 <= id <= 65535 -> Z.of_nat (length codes) <= 124 ->
  TST (expected_ptypes st) (BIT (ptype_code UNSUBACK)) = true ->
  (get_expected_packet_answer st id = UNSUBACK ->
   exists st',
     mqtt_process_packet cs (unsuback_packet id codes) st = Done OK st'
     /\ unsuback st' = Build_unsuback_info id codes None []
     /\ free_slot (pending st) id = Some (pending st')
     /\ expected_ptypes st' = mask_after_release UNSUBACK (pending st') (expected_ptypes st)
     /\ events st' = events st
     /\ wire st' = wire st)
  /\ (get_expected_packet_answer st id <> UNSUBACK ->
      exists st',
        mqtt_process_packet cs (unsuback_packet id codes) st
        = Done ERROR_UNEXPECTED_PACKET_TYPE st'
        /\ pending st' = pending st
        /\ expected_ptypes st' = expected_ptypes st
        /\ events st' = events st
        /\ wire st' = wire st).
Proof.
  intros Hid Hcodes Hmask.
  set (pkt := unsuback_packet id codes).
  set (S := fun (u : mqtt_unsuback_info) (n : nat) =>
              set_unsuback u (set_pin n (receive pkt st))).
  assert (Hpkt : pkt = ([0xB0; Z.of_nat (length (word_bytes id ++ [0] ++ codes))]
                        ++ word_bytes id ++ [0]) ++ codes ++ []).
  { unfold pkt, unsuback_packet. rewrite app_nil_r, <- !app_assoc. reflexivity. }
  assert (Hlen : Z.of_nat (length pkt) = 5 + Z.of_nat (length codes)).
  { rewrite Hpkt, !length_app. cbn [length word_bytes]. lia. }
  assert (Hdispatch : mqtt_process_packet cs pkt st = process_unsuback (set_pin 2%nat (receive pkt st))).
  { unfold pkt, unsuback_packet. rewrite mqtt_process_packet_short.
    - cbv zeta. rewrite Z.eqb_refl.
      change (Z.shiftr 0xB0 4) with (ptype_code UNSUBACK). rewrite Hmask. reflexivity.
    - rewrite !length_app. cbn [length word_bytes]. lia. }
  rewrite Hdispatch. unfold process_unsuback, get_expected_packet_answer.
  rewrite (bind_done _ _ _ (S unsuback_zero 2%nat) tt) by reflexivity.
  rewrite (bind_done _ _ _ (S unsuback_zero 4%nat) id).
  2:{ rewrite (unpack_word_at (S unsuback_zero 2%nat)
                 [0xB0; Z.of_nat (length (word_bytes id ++ [0] ++ codes))]
                 ([0] ++ codes) id Hid); reflexivity. }
  rewrite (bind_done _ _ _ (S (Build_unsuback_info id [] None []) 4%nat) tt) by reflexivity.
  rewrite (bind_done _ _ _ (S (Build_unsuback_info id [] None []) 4%nat)
             (S (Build_unsuback_info id [] None []) 4%nat)) by reflexivity.
  change (pending (S (Build_unsuback_info id [] None []) 4%nat)) with (pending st). split.
  - intros Hexp. rewrite Hexp. cbn [ptype_eqb ptype_code Z.eqb Pos.eqb negb].
    rewrite (bind_done _ _ _ (S (Build_unsuback_info id [] None []) 5%nat) 0).
    2:{ rewrite (unpack_variable_size_one_byte _ 0); reflexivity. }
    cbn [Z.ltb Z.compare].
    rewrite (bind_done _ _ _ (S (Build_unsuback_info id [] None []) 5%nat) OK)
      by reflexivity.
    cbn [FAILED SUCCESSFUL OK negb].
    rewrite (bind_done _ _ _ (S (Build_unsuback_info id [] None []) 5%nat)
               (S (Build_unsuback_info id [] None []) 5%nat)) by reflexivity.
    change (pbuf_len (inp (S (Build_unsuback_info id [] None []) 5%nat)))
      with (Z.of_nat (length pkt)).
    change (bytes_consumed (S (Build_unsuback_info id [] None []) 5%nat)) with 5.
    rewrite Hlen.
    replace (u32 (5 + Z.of_nat (length codes) - 5)) with (Z.of_nat (length codes))
      by (unfold u32; rewrite Z.mod_small; lia).
    rewrite Nat2Z.id.
    rewrite (bind_done _ _ _ (S (Build_unsuback_info id codes None [])
                                (5 + length codes)%nat) tt).
    2:{ destruct codes as [|c rest]; [reflexivity|].
        destruct (Z.ltb_spec 0 (Z.of_nat (length (c :: rest)))) as [_|Hz];
          [|cbn [length] in Hz; lia].
        unfold when.
        rewrite (bind_done _ _ _ (S (Build_unsuback_info id [] None [])
                                    (5 + length (c :: rest))%nat) (c :: rest)).
        - reflexivity.
        - rewrite (unpack_bytes_at (c :: rest) (S (Build_unsuback_info id [] None []) 5%nat)
                     ([0xB0; Z.of_nat (length (word_bytes id ++ [0] ++ c :: rest))]
                      ++ word_bytes id ++ [0]) []); [reflexivity|exact Hpkt|reflexivity]. }
    destruct (free_slot_present (pending st) id) as [slots Hfree].
    { apply expected_answer_present. rewrite Hexp. discriminate. }
    rewrite (bind_done _ _ _
               (set_pending slots
                  (S (Build_unsuback_info id codes None []) (5 + length codes)%nat)) OK).
    2:{ unfold free_packet_slot.
        change (pending (S _ _)) with (pending st). rewrite Hfree. reflexivity. }
    cbn [bind get]. unfold await_for_packet, mask_after_release.
    cbn [pending set_pending].
    destruct (existsb (fun p => ptype_eqb (await_packet_type p) UNSUBACK) slots) eqn:Haw;
      cbn [negb when ret bind]; unfold unexpect; cbn [modify bind ret];
      (eexists; split; [reflexivity|]);
      cbn [pending set_pending set_expected_ptypes expected_ptypes];
      rewrite ?Haw, ?Hfree; repeat split; reflexivity.
  - intros Hexp. rewrite (ptype_eqb_neq _ _ Hexp). cbn [negb ret].
    eexists. split; [reflexivity|]. repeat split; reflexivity.
Qed.

Lemma unsuback_completes_unsubscribe_witness :
  exists st1 st2,
    mqtt_process_packet false [0xB0; 0x04; 0x00; 0x01; 0x00; 0x11]
      (exec (mqtt_unsubscribe false [sub_ab]) (connected_session false))
    = Done OK st1
    /\ unsuback st1 = Build_unsuback_info 1 [0x11] None []
    /\ get_expected_packet_answer st1 1 = UNKNOWN
    /\ mqtt_process_packet false [0xB0; 0x04; 0x00; 0x02; 0x00; 0x11]
         (exec (mqtt_unsubscribe false [sub_ab]) (connected_session false))
       = Done ERROR_UNEXPECTED_PACKET_TYPE st2.
Proof.
  destruct (unsuback_completes_unsubscribe false
              (exec (mqtt_unsubscribe false [sub_ab]) (connected_session false))
              1 [0x11]) as [H _];
    [lia|cbn; lia|vm_compute; reflexivity|].
  destruct H as (st1 & H1 & Hu & Hfree & _); [vm_compute; reflexivity|].
  destruct (unsuback_completes_unsubscribe false
              (exec (mqtt_unsubscribe false [sub_ab]) (connected_session false))
              2 [0x11]) as [_ H];
    [lia|cbn; lia|vm_compute; reflexivity|].
  destruct H as (st2 & H2 & _); [vm_compute; discriminate|].
  exists st1, st2. split; [exact H1|]. split; [exact Hu|]. split; [|exact H2].
  set (v := free_slot (pending (exec (mqtt_unsubscribe false [sub_ab])
                                  (connected_session false))) 1) in Hfree.
  vm_compute in v. subst v. injection Hfree as Hfree.
  unfold get_expected_packet_answer. rewrite <- Hfree. vm_compute. reflexivity.
Defined.

(** ** Before and after the session *)

Lemma do_call_not_connected (cs : bool) (st : mqtt_client) (c : send_call) :
  connected st = false -> do_call cs c st = Done (refusal c) st.
Proof.
  intros Hc. destruct c as [|msg|entries|entries|id|id|id|id]; cbn [do_call refusal].
  - unfold mqtt_ping. cbn [bind get]. rewrite Hc. reflexivity.
  - unfold mqtt_publish. cbn [bind get]. rewrite Hc. reflexivity.
  - unfold mqtt_subscribe. cbn [bind get].
    destruct entries; [reflexivity|]. cbn [length Nat.eqb]. rewrite Hc. reflexivity.
  - unfold mqtt_unsubscribe. cbn [bind get].
    destruct entries; [reflexivity|]. cbn [length Nat.eqb]. rewrite Hc. reflexivity.
  - unfold mqtt_puback. cbn [bind get]. rewrite Hc. reflexivity.
  - unfold mqtt_pubrec. cbn [bind get]. rewrite Hc. reflexivity.
  - unfold mqtt_pubrel. cbn [bind get]. rewrite Hc. reflexivity.
  - unfold mqtt_pubcomp. cbn [bind get]. rewrite Hc. reflexivity.
Qed.

(** No sending before the session is open.  On a client that is not
    connected, any sequence of [mqtt_ping], [mqtt_publish],
    [mqtt_subscribe], [mqtt_unsubscribe], [mqtt_puback], [mqtt_pubrec],
    [mqtt_pubrel] and [mqtt_pubcomp] calls returns ERROR_NOT_CONNECTED
    for each call (ERROR_NULL_REFERENCE for a subscription call without
    entries) and leaves the client exactly as it was: nothing reaches the
    transport, no slot is taken, no identifier is minted. *)
Theorem no_send_when_not_connected (cs : bool) (st : mqtt_client)
    (calls : list send_call) :
  connected st = false ->
  do_calls cs calls st = Done (map refusal calls) st.
Proof.
  intros Hc. induction calls as [|c rest IH]; [reflexivity|].
  cbn [do_calls map].
  rewrite (bind_done _ _ _ st (refusal c)) by (now apply do_call_not_connected).
  rewrite (bind_done _ _ _ st (map refusal rest)) by exact IH.
  reflexivity.
Qed.

Lemma no_send_when_not_connected_witness :
  do_calls false [call_ping; call_publish (msg_hi 1); call_subscribe [sub_ab];
                  call_unsubscribe []; call_puback 7]
    (mqtt_create_client net_ok)
  = Done [ERROR_NOT_CONNECTED; ERROR_NOT_CONNECTED; ERROR_NOT_CONNECTED;
          ERROR_NULL_REFERENCE; ERROR_NOT_CONNECTED]
         (mqtt_create_client net_ok).
Proof.
  apply (no_send_when_not_connected false (mqtt_create_client net_ok)
           [call_ping; call_publish (msg_hi 1); call_subscribe [sub_ab];
            call_unsubscribe []; call_puback 7]).
  reflexivity.
Defined.

(** ** PUBLISH packets the parser refuses *)

(** An expected PUBLISH whose topic is empty returns
    ERROR_MALFORMED_PACKET, and one whose topic [is_valid_utf8] refuses
    returns ERROR_INVALID_ENCODING, whatever follows the topic.  In both
    cases [received_publish] is cleared and nothing else happens: no
    message becomes available, no notification is made, nothing is sent
    and the pending table stays as it is. *)
Theorem inbound_publish_refused (cs : bool) (st : mqtt_client) (h : Z)
    (topic tail : list Z) :
  Z.shiftr h 4 = ptype_code PUBLISH ->
  Z.of_nat (length (word_bytes (Z.of_nat (length topic)) ++ topic ++ tail)) <= 127 ->
  TST (expected_ptypes st) (BIT (ptype_code PUBLISH)) = true ->
  topic = [] \/ is_valid_utf8 cs topic (strlen topic) = false ->
  exists st',
    mqtt_process_packet cs
      (h :: Z.of_nat (length (word_bytes (Z.of_nat (length topic)) ++ topic ++ tail))
         :: word_bytes (Z.of_nat (length topic)) ++ topic ++ tail) st
    = Done (if (length topic =? 0)%nat then ERROR_MALFORMED_PACKET
            else ERROR_INVALID_ENCODING) st'
    /\ received_publish st' = received_publish_zero
    /\ message_available st' = message_available st
    /\ events st' = events st
    /\ wire st' = wire st
    /\ pending st' = pending st
    /\ expected_ptypes st' = expected_ptypes st.
Proof.
  intros Htype Hlen Hmask Hbad.
  set (body := word_bytes (Z.of_nat (length topic)) ++ topic ++ tail) in *.
  set (pkt := h :: Z.of_nat (length body) :: body).
  set (S := fun n : nat => set_received_publish received_publish_zero
                             (set_pin n (receive pkt st))).
  assert (Hdispatch : mqtt_process_packet cs pkt st
                      = process_publish cs (Z.land h 0x0f) (set_pin 2%nat (receive pkt st))).
  { unfold pkt. rewrite mqtt_process_packet_short by lia. cbv zeta.
    rewrite Z.eqb_refl, Htype, Hmask. reflexivity. }
  rewrite Hdispatch. unfold process_publish.
  rewrite (bind_done _ _ _ (S 2%nat) tt) by reflexivity.
  destruct topic as [|b topic'].
  - rewrite (bind_done _ _ _ (S 4%nat) (@None (list Z))) by reflexivity.
    cbn [length Nat.eqb]. eexists. split; [reflexivity|]. repeat split; reflexivity.
  - destruct Hbad as [E|Hbad]; [discriminate|].
    assert (Htl : 0 < Z.of_nat (length (b :: topic')) <= 65535).
    { unfold body in Hlen. rewrite !length_app in Hlen. cbn [length] in *. lia. }
    rewrite (bind_done _ _ _ (S (4 + length (b :: topic'))%nat) (Some (b :: topic'))).
    2:{ rewrite (unpack_string_at (S 2%nat) [h; Z.of_nat (length body)] (b :: topic') tail);
          [reflexivity|exact Htl|reflexivity|reflexivity]. }
    rewrite Hbad. cbn [negb length Nat.eqb ret].
    eexists. split; [reflexivity|]. repeat split; reflexivity.
Qed.

Lemma inbound_publish_refused_witness :
  exists st1 st2,
    mqtt_process_packet false [0x30; 0x03; 0x00; 0x00; 0x00] (connected_session false)
    = Done ERROR_MALFORMED_PACKET st1
    /\ events st1 = events (connected_session false)
    /\ mqtt_process_packet false [0x30; 0x06; 0x00; 0x03; 0xED; 0xA0; 0x80; 0x00]
         (connected_session false)
       = Done ERROR_INVALID_ENCODING st2
    /\ message_available st2 = message_available (connected_session false).
Proof.
  destruct (inbound_publish_refused false (connected_session false) 0x30 [] [0x00])
    as (st1 & H1 & _ & _ & He & _).
  - reflexivity.
  - cbn. lia.
  - vm_compute. reflexivity.
  - left. reflexivity.
  - destruct (inbound_publish_refused false (connected_session false) 0x30
                [0xED; 0xA0; 0x80] [0x00]) as (st2 & H2 & _ & Hm & _).
    + reflexivity.
    + cbn. lia.
    + vm_compute. reflexivity.
    + right. vm_compute. reflexivity.
    + exists st1, st2. split; [exact H1|]. split; [exact He|]. split; [exact H2|exact Hm].
Defined.

(** ** Opening the session: [mqtt_connect] *)

(** [mqtt_connect] for a CONNECT without will, user name, password,
    user properties and authentication data.  The call stores its
    arguments, never marks the client connected and leaves the pending
    table alone.  It returns the transport's first failure: of the
    allocation (nothing sent), of opening the connection (nothing sent),
    of the send, or of freeing the buffer; the expected packet types are
    then as before.  Otherwise the CONNECT has been handed to the
    transport, CONNACK joins the expected packet types, and the result
    is that of freeing the buffer, or STATUS_PENDING when the send
    reported it. *)
Theorem mqtt_connect_sends (cs : bool) (st : mqtt_client) (client_id : cstring)
    (keep_alive session_expiry : Z) (clean_start : bool) :
  SUCCESSFUL (validate_connect_utf8_strings cs st) = true ->
  connect_plain (connect_requested client_id keep_alive session_expiry clean_start st) ->
  exists result st',
    mqtt_connect cs client_id keep_alive session_expiry clean_start st = Done result st'
    /\ connected st' = connected st
    /\ pending st' = pending st
    /\ connect_keep_alive (connect st') = keep_alive
    /\ (let buf := connect_buf
                     (connect_requested client_id keep_alive session_expiry clean_start st) in
        if FAILED (alloc_send_buf (net st) (pbuf_len buf))
        then result = alloc_send_buf (net st) (pbuf_len buf)
             /\ wire st' = wire st /\ expected_ptypes st' = expected_ptypes st
        else if FAILED (open_conn (net st))
        then result = open_conn (net st)
             /\ wire st' = wire st /\ expected_ptypes st' = expected_ptypes st
        else wire st' = wire st ++ [buf]
             /\ if FAILED (send (net st) buf)
                then result = send (net st) buf
                     /\ expected_ptypes st' = expected_ptypes st
                else if status_eqb (send (net st) buf) STATUS_PENDING
                then result = STATUS_PENDING
                     /\ expected_ptypes st'
                        = Z.lor (expected_ptypes st) (BIT (ptype_code CONNACK))
                else result = free_send_buf (net st)
                     /\ expected_ptypes st'
                        = if FAILED (free_send_buf (net st)) then expected_ptypes st
                          else Z.lor (expected_ptypes st) (BIT (ptype_code CONNACK))).
Proof.
  intros Hvalid Hplain.
  set (st1 := connect_requested client_id keep_alive session_expiry clean_start st) in *.
  destruct make_connect_builder as [Hfirst Hsecond].
  assert (Hset : is_set client_id = true) by apply Hplain.
  unfold mqtt_connect. cbn [bind get]. rewrite Hvalid. cbn [bind modify].
  rewrite Hset. cbn [negb bind modify].
  change (set_pout None (set_connect _ st)) with (set_pout None st1).
  rewrite Hfirst. unfold net_alloc_send_buf at 1.
  cbn [net packet_size set_packet_size set_pout].
  change (net st1) with (net st).
  unfold connect_buf. cbn [pbuf_len].
  destruct (FAILED (alloc_send_buf (net st) (packet_size_of (connect_rsize st1)))) eqn:Ha.
  - cbn [ret]. eexists _, _. split; [reflexivity|]. repeat split; reflexivity.
  - cbn [bind modify].
    assert (Hok : session_only connect_plain) by (intros ? ? ? ?; reflexivity).
    assert (Hsize : session_only (fun s => packet_size_of (connect_rsize s)))
      by (intros ? ? ? ?; reflexivity).
    assert (Hbytes : session_only connect_bytes) by (intros ? ? ? ?; reflexivity).
    rewrite Hsecond by (rewrite Hok; exact Hplain).
    rewrite Hsize, Hbytes. cbn [app].
    fold (connect_buf st1).
    unfold net_open_conn at 1. cbn [net set_packet_size set_pout set_outp].
    change (net st1) with (net st).
    destruct (FAILED (open_conn (net st))) eqn:Ho.
    + cbn [bind ret]. unfold net_free_send_buf at 1. cbn [bind ret].
      eexists _, _. split; [reflexivity|]. repeat split; reflexivity.
    + cbn [bind get when]. unfold net_send at 1.
      cbn [net set_packet_size set_pout set_outp pout outp pbuf_len wire set_connect
           when modify negb bind ret].
      change (net st1) with (net st).
      destruct (net_connected (net st));
        cbn [net set_packet_size set_pout set_outp pout outp pbuf_len wire set_connect
             set_wire when modify negb bind ret];
        change (net st1) with (net st); change (wire st1) with (wire st);
        fold (connect_buf st1);
        (destruct (FAILED (send (net st) (connect_buf st1))) eqn:Hs;
         [cbn [bind ret]; unfold net_free_send_buf, net_close_conn; cbn [bind ret];
          eexists _, _; split; [reflexivity|]; repeat split; reflexivity|]);
        (destruct (status_eqb (send (net st) (connect_buf st1)) STATUS_PENDING) eqn:Hp;
         [cbn [bind ret];
          assert (Hpend : send (net st) (connect_buf st1) = STATUS_PENDING)
            by (destruct (send (net st) (connect_buf st1)); try discriminate Hp; reflexivity);
          rewrite Hpend; cbn [FAILED SUCCESSFUL negb bind ret]; unfold expect;
          cbn [bind modify ret];
          eexists _, _; split; [reflexivity|]; repeat split; reflexivity|]);
        cbn [bind ret]; unfold net_free_send_buf at 1;
        cbn [bind ret net set_packet_size set_pout set_outp set_wire set_connect];
        change (net st1) with (net st);
        (destruct (FAILED (free_send_buf (net st))) eqn:Hf;
         [unfold net_close_conn; cbn [bind ret]
         |unfold expect; cbn [bind modify ret]]);
        eexists _, _; (split; [reflexivity|]); repeat split; reflexivity.
Qed.

Lemma mqtt_connect_sends_witness :
  exists st',
    mqtt_connect false (Some [77; 81]) 60 0 true (mqtt_create_client net_ok) = Done OK st'
    /\ connected st' = false
    /\ wire st'
       = [Build_pbuf [0x10; 0x12; 0x00; 0x04; 0x4D; 0x51; 0x54; 0x54; 0x05; 0x02;
                      0x00; 0x3C; 0x03; 0x21; 0x00; 0x20; 0x00; 0x02; 0x4D; 0x51] 20]
    /\ TST (expected_ptypes st') (BIT (ptype_code CONNACK)) = true.
Proof.
  destruct (mqtt_connect_sends false (mqtt_create_client net_ok) (Some [77; 81]) 60 0 true)
    as (result & st' & H & Hc & _ & _ & Hcases).
  - vm_compute. reflexivity.
  - vm_compute. repeat split; try reflexivity; try discriminate.
  - cbv zeta in Hcases.
    match type of Hcases with
    | if FAILED ?a then _ else _ =>
        assert (Ha : FAILED a = false) by (vm_compute; reflexivity); rewrite Ha in Hcases
    end.
    match type of Hcases with
    | if FAILED ?a then _ else _ =>
        assert (Ho : FAILED a = false) by (vm_compute; reflexivity); rewrite Ho in Hcases
    end.
    destruct Hcases as [Hw Hcases].
    match type of Hcases with
    | if FAILED ?a then _ else _ =>
        assert (Hs : FAILED a = false) by (vm_compute; reflexivity); rewrite Hs in Hcases
    end.
    match type of Hcases with
    | if status_eqb ?a ?b then _ else _ =>
        assert (Hp : status_eqb a b = false) by (vm_compute; reflexivity);
        rewrite Hp in Hcases
    end.
    destruct Hcases as [Hr Hm].
    assert (Hok : result = OK) by (rewrite Hr; vm_compute; reflexivity).
    rewrite Hok in H. exists st'. split; [exact H|].
    split; [rewrite Hc; reflexivity|].
    split; [rewrite Hw; vm_compute; reflexivity|].
    rewrite Hm. vm_compute. reflexivity.
Defined.

(** ** Packets that end too early *)

(** The parsers read the property length without looking at the bytes
    left.  An expected CONNACK that ends after a reason code below 0x80,
    an expected SUBACK or UNSUBACK that ends after an awaited packet
    identifier, and an expected PUBLISH at QoS 0 that ends after a valid
    topic each make [unpack_variable_size] read the byte behind the end
    of the packet received: the call has no defined result. *)
Theorem truncated_packet_read_past_end (cs : bool) (st : mqtt_client) :
  (forall flags reason,
     TST (expected_ptypes st) (BIT (ptype_code CONNACK)) = true ->
     Z.land reason 0x80 = 0 ->
     mqtt_process_packet cs [0x20; 0x02; flags; reason] st = Undefined)
  /\ (forall id,
        0 <= id <= 65535 ->
        TST (expected_ptypes st) (BIT (ptype_code SUBACK)) = true ->
        get_expected_packet_answer st id = SUBACK ->
        mqtt_process_packet cs (0x90 :: 0x02 :: word_bytes id) st = Undefined)
  /\ (forall id,
        0 <= id <= 65535 ->
        TST (expected_ptypes st) (BIT (ptype_code UNSUBACK)) = true ->
        get_expected_packet_answer st id = UNSUBACK ->
        mqtt_process_packet cs (0xB0 :: 0x02 :: word_bytes id) st = Undefined)
  /\ (forall topic,
        0 < Z.of_nat (length topic) <= 125 ->
        TST (expected_ptypes st) (BIT (ptype_code PUBLISH)) = true ->
        is_valid_utf8 cs topic (strlen topic) = true ->
        mqtt_process_packet cs
          (0x30 :: Z.of_nat (length (word_bytes (Z.of_nat (length topic)) ++ topic))
                :: word_bytes (Z.of_nat (length topic)) ++ topic) st
        = Undefined).
Proof.
  split; [|split; [|split]].
  - intros flags reason Hmask Hok.
    rewrite mqtt_process_packet_short by lia. cbv zeta.
    cbn [length Z.of_nat Pos.of_succ_nat Pos.succ Z.eqb Pos.eqb].
    change (Z.shiftr 0x20 4) with (ptype_code CONNACK). rewrite Hmask.
    change (ptype_of_code (ptype_code CONNACK)) with CONNACK. cbn [process_packet].
    unfold process_connack.
    set (S := fun (k : mqtt_connack_info) (n : nat) =>
                set_connack k (set_pin n (receive [0x20; 0x02; flags; reason] st))).
    rewrite (bind_done _ _ _ (set_pin 3%nat (receive [0x20; 0x02; flags; reason] st)) flags)
      by reflexivity.
    rewrite (bind_done _ _ _ (S (set_connack_ack_flag (Z.odd flags) (connack st)) 3%nat) tt)
      by reflexivity.
    rewrite (bind_done _ _ _ (S (set_connack_ack_flag (Z.odd flags) (connack st)) 4%nat)
               reason) by reflexivity.
    rewrite (bind_done _ _ _
               (S (set_connack_reason reason
                     (set_connack_ack_flag (Z.odd flags) (connack st))) 4%nat) tt)
      by reflexivity.
    unfold nonzero. rewrite Hok. cbn [Z.eqb negb].
    reflexivity.
  - intros id Hid Hmask Hexp. unfold word_bytes.
    rewrite mqtt_process_packet_short by lia. cbv zeta.
    cbn [length Z.of_nat Pos.of_succ_nat Pos.succ Z.eqb Pos.eqb].
    change (Z.shiftr 0x90 4) with (ptype_code SUBACK). rewrite Hmask.
    change (ptype_of_code (ptype_code SUBACK)) with SUBACK. cbn [process_packet].
    unfold process_suback.
    rewrite (bind_done _ _ _
               (set_pin 4%nat (receive [0x90; 0x02; u8 (Z.shiftr id 8); u8 id] st)) id).
    2:{ rewrite (unpack_word_at _ [0x90; 0x02] [] id Hid); reflexivity. }
    rewrite (bind_done _ _ _
               (set_pin 4%nat (receive [0x90; 0x02; u8 (Z.shiftr id 8); u8 id] st))
               (set_pin 4%nat (receive [0x90; 0x02; u8 (Z.shiftr id 8); u8 id] st)))
      by reflexivity.
    change (get_expected_packet_answer (set_pin 4%nat _) id)
      with (get_expected_packet_answer st id).
    rewrite Hexp. cbn [ptype_eqb ptype_code Z.eqb Pos.eqb negb]. reflexivity.
  - intros id Hid Hmask Hexp. unfold word_bytes.
    rewrite mqtt_process_packet_short by lia. cbv zeta.
    cbn [length Z.of_nat Pos.of_succ_nat Pos.succ Z.eqb Pos.eqb].
    change (Z.shiftr 0xB0 4) with (ptype_code UNSUBACK). rewrite Hmask.
    change (ptype_of_code (ptype_code UNSUBACK)) with UNSUBACK. cbn [process_packet].
    unfold process_unsuback.
    set (S := fun (u : mqtt_unsuback_info) (n : nat) =>
                set_unsuback u
                  (set_pin n (receive [0xB0; 0x02; u8 (Z.shiftr id 8); u8 id] st))).
    rewrite (bind_done _ _ _ (S unsuback_zero 2%nat) tt) by reflexivity.
    rewrite (bind_done _ _ _ (S unsuback_zero 4%nat) id).
    2:{ rewrite (unpack_word_at (S unsuback_zero 2%nat) [0xB0; 0x02] [] id Hid);
          reflexivity. }
    rewrite (bind_done _ _ _ (S (Build_unsuback_info id [] None []) 4%nat) tt)
      by reflexivity.
    rewrite (bind_done _ _ _ (S (Build_unsuback_info id [] None []) 4%nat)
               (S (Build_unsuback_info id [] None []) 4%nat)) by reflexivity.
    change (get_expected_packet_answer (S _ _) id) with (get_expected_packet_answer st id).
    rewrite Hexp. cbn [ptype_eqb ptype_code Z.eqb Pos.eqb negb]. reflexivity.
  - intros topic Hlen Hmask Hvalid.
    set (body := word_bytes (Z.of_nat (length topic)) ++ topic).
    set (pkt := 0x30 :: Z.of_nat (length body) :: body).
    assert (Hbody : length body = (2 + length topic)%nat).
    { unfold body. rewrite length_app. reflexivity. }
    unfold pkt at 1. rewrite mqtt_process_packet_short by lia. cbv zeta.
    rewrite Z.eqb_refl.
    change (Z.shiftr 0x30 4) with (ptype_code PUBLISH). rewrite Hmask.
    change (ptype_of_code (ptype_code PUBLISH)) with PUBLISH. cbn [process_packet].
    fold pkt. unfold process_publish.
    set (S := fun (R : received_publish_info) (n : nat) =>
                set_received_publish R (set_pin n (receive pkt st))).
    rewrite (bind_done _ _ _ (S received_publish_zero 2%nat) tt) by reflexivity.
    rewrite (bind_done _ _ _ (S received_publish_zero (4 + length topic)%nat) (Some topic)).
    2:{ rewrite (unpack_string_at (S received_publish_zero 2%nat)
                   [0x30; Z.of_nat (length body)] topic []);
          [reflexivity|lia|unfold pkt, body; rewrite app_nil_r; reflexivity|reflexivity]. }
    rewrite Hvalid. cbn [negb Z.land Z.shiftr Z.shiftl Z.ltb Z.compare].
    rewrite (bind_done _ _ _ (S (Build_received_publish (Some topic) None None blob_zero
                                   blob_zero 0 0 0 0 0 0 false false)
                                (4 + length topic)%nat) tt) by reflexivity.
    rewrite (bind_done _ _ _ (S (Build_received_publish (Some topic) None None blob_zero
                                   blob_zero 0 0 0 0 0 0 false false)
                                (4 + length topic)%nat) tt) by reflexivity.
    rewrite (bind_done _ _ _ (S (Build_received_publish (Some topic) None None blob_zero
                                   blob_zero 0 0 0 0 0 0 false false)
                                (4 + length topic)%nat) tt) by reflexivity.
    rewrite (bind_done _ _ _ (S (Build_received_publish (Some topic) None None blob_zero
                                   blob_zero 0 0 0 0 0 0 false false)
                                (4 + length topic)%nat) tt) by reflexivity.
    rewrite (bind_done _ _ _ (S (Build_received_publish (Some topic) None None blob_zero
                                   blob_zero 0 0 0 0 0 0 false false)
                                (4 + length topic)%nat) tt) by reflexivity.
    unfold bind at 1, unpack_variable_size. cbn [unpack_variable_size_loop].
    unfold bind at 1, unpack_byte.
    change (pbuf_payload (inp (S _ _))) with pkt.
    change (pin (S _ (4 + length topic)%nat)) with (4 + length topic)%nat.
    assert (Hnone : nth_error pkt (4 + length topic) = None).
    { apply nth_error_None. unfold pkt. cbn [length]. rewrite Hbody. lia. }
    rewrite Hnone. reflexivity.
Qed.

Lemma truncated_packet_read_past_end_witness :
  mqtt_process_packet false [0x20; 0x02; 0x00; 0x00]
    (exec (mqtt_connect false (Some [77; 81]) 60 0 true) (mqtt_create_client net_ok))
  = Undefined
  /\ mqtt_process_packet false [0x90; 0x02; 0x00; 0x01]
       (exec (mqtt_subscribe false [sub_ab]) (connected_session false))
     = Undefined
  /\ mqtt_process_packet false [0xB0; 0x02; 0x00; 0x01]
       (exec (mqtt_unsubscribe false [sub_ab]) (connected_session false))
     = Undefined
  /\ mqtt_process_packet false [0x30; 0x05; 0x00; 0x03; 0x61; 0x2F; 0x62]
       (connected_session false)
     = Undefined.
Proof.
  split; [|split; [|split]].
  - apply (proj1 (truncated_packet_read_past_end false
                    (exec (mqtt_connect false (Some [77; 81]) 60 0 true)
                          (mqtt_create_client net_ok))) 0 0);
      vm_compute; reflexivity.
  - apply (proj1 (proj2 (truncated_packet_read_past_end false
                           (exec (mqtt_subscribe false [sub_ab])
                                 (connected_session false)))) 1);
      [lia|vm_compute; reflexivity|vm_compute; reflexivity].
  - apply (proj1 (proj2 (proj2 (truncated_packet_read_past_end false
                                  (exec (mqtt_unsubscribe false [sub_ab])
                                        (connected_session false))))) 1);
      [lia|vm_compute; reflexivity|vm_compute; reflexivity].
  - apply (proj2 (proj2 (proj2 (truncated_packet_read_past_end false
                                  (connected_session false)))) [0x61; 0x2F; 0x62]);
      [cbn; lia|vm_compute; reflexivity|vm_compute; reflexivity].
Defined.

(** ** CONNACK properties *)

Lemma connack_property_unknown (prop_id len : Z) (st : mqtt_client) :
  ~ In prop_id connack_property_ids ->
  connack_property prop_id len st = Done None st.
Proof.
  intros Hunknown. unfold connack_property.
  repeat match goal with
         | |- context [prop_id =? ?c] =>
             destruct (Z.eqb_spec prop_id c) as [E|_];
             [exfalso; apply Hunknown; rewrite E; unfold connack_property_ids;
              cbn [In]; tauto|]
         end.
  reflexivity.
Qed.

(** The limits a server states in its CONNACK.  A CONNACK with a reason
    code below 0x80 whose properties are Maximum QoS, Retain Available,
    Receive Maximum and Server Keep Alive returns OK, marks the client
    connected and stores these four values in place of the defaults;
    the availability of wildcard, shared and identified subscriptions
    stays at its default.  A CONNACK whose first property has an
    identifier the parser does not know returns
    ERROR_UNKNOWN_IDENTIFIER and does not mark the client connected. *)
Theorem connack_server_limits (cs : bool) (st : mqtt_client)
    (flags reason max_qos retain recv_max keep_alive : Z) :
  TST (expected_ptypes st) (BIT (ptype_code CONNACK)) = true ->
  Z.land reason 0x80 = 0 ->
  (0 <= recv_max <= 65535 -> 0 <= keep_alive <= 65535 ->
   exists st',
     mqtt_process_packet cs
       (connack_limits_packet flags reason max_qos retain recv_max keep_alive) st
     = Done OK st'
     /\ connected st' = true
     /\ connack_max_qos (connack st') = max_qos
     /\ connack_retain_avail (connack st') = Z.odd retain
     /\ connack_recv_max (connack st') = recv_max
     /\ connack_server_keep_alive (connack st') = keep_alive
     /\ connack_wildcard_sub_avail (connack st') = true
     /\ connack_sub_id_avail (connack st') = true
     /\ connack_shared_sub_avail (connack st') = true)
  /\ (forall prop_id value,
        ~ In prop_id connack_property_ids ->
        exists st',
          mqtt_process_packet cs [0x20; 5; flags; reason; 2; prop_id; value] st
          = Done ERROR_UNKNOWN_IDENTIFIER st'
          /\ connected st' = connected st
          /\ expected_ptypes st' = expected_ptypes st
          /\ events st' = events st).
Proof.
  intros Hmask Hok. split.
  - intros Hrm Hka. unfold connack_limits_packet, word_bytes. cbn [app].
    rewrite mqtt_process_packet_short by lia. cbv zeta.
    cbn [length Z.of_nat Pos.of_succ_nat Pos.succ Z.eqb Pos.eqb].
    change (Z.shiftr 0x20 4) with (ptype_code CONNACK). rewrite Hmask.
    change (ptype_of_code (ptype_code CONNACK)) with CONNACK. cbn [process_packet].
    unfold process_connack.
    set (pkt := [0x20; 13; flags; reason; 10; MQTT_CON_MAXIMUM_QOS_ID; max_qos;
                 MQTT_CON_RETAIN_AVAILABLE_ID; retain; MQTT_CON_RECEIVE_MAXIMUM_ID;
                 u8 (Z.shiftr recv_max 8); u8 recv_max; MQTT_ACK_SEVER_KEEP_ALIVE_ID;
                 u8 (Z.shiftr keep_alive 8); u8 keep_alive]).
    set (S := fun (k : mqtt_connack_info) (n : nat) =>
                set_connack k (set_pin n (receive pkt st))).
    set (k0 := set_connack_reason reason (set_connack_ack_flag (Z.odd flags) (connack st))).
    set (k1 := set_connack_max_packet_size (connect_max_packet_size (connect st))
                 (set_connack_server_keep_alive (connect_keep_alive (connect st))
                    (set_connack_shared_sub_avail true
                       (set_connack_sub_id_avail true
                          (set_connack_wildcard_sub_avail true
                             (set_connack_retain_avail true
                                (set_connack_max_qos 2 k0))))))).
    rewrite (bind_done _ _ _ (set_pin 3%nat (receive pkt st)) flags) by reflexivity.
    rewrite (bind_done _ _ _ (S (set_connack_ack_flag (Z.odd flags) (connack st)) 3%nat) tt)
      by reflexivity.
    rewrite (bind_done _ _ _ (S (set_connack_ack_flag (Z.odd flags) (connack st)) 4%nat)
               reason) by reflexivity.
    rewrite (bind_done _ _ _ (S k0 4%nat) tt) by reflexivity.
    unfold nonzero. rewrite Hok. cbn [Z.eqb negb].
    rewrite (bind_done _ _ _ (S k0 5%nat) 10).
    2:{ rewrite (unpack_variable_size_one_byte _ 10); reflexivity. }
    rewrite (bind_done _ _ _ (S k1 5%nat) tt) by reflexivity.
    cbn [Z.ltb Z.compare Pos.compare Pos.compare_cont].
    rewrite (bind_done _ _ _
               (S (set_connack_server_keep_alive
                     (Z.lor (u16 (Z.shiftl (u8 (Z.shiftr keep_alive 8)) 8)) (u8 keep_alive))
                     (set_connack_recv_max
                        (Z.lor (u16 (Z.shiftl (u8 (Z.shiftr recv_max 8)) 8)) (u8 recv_max))
                        (set_connack_retain_avail (Z.odd retain)
                           (set_connack_max_qos max_qos k1)))) 15%nat) OK)
      by reflexivity.
    cbn [SUCCESSFUL OK when bind modify]. unfold expect, mqtt_connected.
    cbn [bind modify notify ret].
    eexists. split; [reflexivity|].
    cbn [connack set_events set_expected_ptypes set_connected].
    rewrite !word_roundtrip by assumption.
    repeat split; reflexivity.
  - intros prop_id value Hunknown.
    rewrite mqtt_process_packet_short by lia. cbv zeta.
    cbn [length Z.of_nat Pos.of_succ_nat Pos.succ Z.eqb Pos.eqb].
    change (Z.shiftr 0x20 4) with (ptype_code CONNACK). rewrite Hmask.
    change (ptype_of_code (ptype_code CONNACK)) with CONNACK. cbn [process_packet].
    unfold process_connack.
    set (pkt := [0x20; 5; flags; reason; 2; prop_id; value]).
    set (S := fun (k : mqtt_connack_info) (n : nat) =>
                set_connack k (set_pin n (receive pkt st))).
    set (k0 := set_connack_reason reason (set_connack_ack_flag (Z.odd flags) (connack st))).
    set (k1 := set_connack_max_packet_size (connect_max_packet_size (connect st))
                 (set_connack_server_keep_alive (connect_keep_alive (connect st))
                    (set_connack_shared_sub_avail true
                       (set_connack_sub_id_avail true
                          (set_connack_wildcard_sub_avail true
                             (set_connack_retain_avail true
                                (set_connack_max_qos 2 k0))))))).
    rewrite (bind_done _ _ _ (set_pin 3%nat (receive pkt st)) flags) by reflexivity.
    rewrite (bind_done _ _ _ (S (set_connack_ack_flag (Z.odd flags) (connack st)) 3%nat) tt)
      by reflexivity.
    rewrite (bind_done _ _ _ (S (set_connack_ack_flag (Z.odd flags) (connack st)) 4%nat)
               reason) by reflexivity.
    rewrite (bind_done _ _ _ (S k0 4%nat) tt) by reflexivity.
    unfold nonzero. rewrite Hok. cbn [Z.eqb negb].
    rewrite (bind_done _ _ _ (S k0 5%nat) 2).
    2:{ rewrite (unpack_variable_size_one_byte _ 2); reflexivity. }
    rewrite (bind_done _ _ _ (S k1 5%nat) tt) by reflexivity.
    cbn [Z.ltb Z.compare Pos.compare Pos.compare_cont].
    rewrite (bind_done _ _ _ (S k1 6%nat) ERROR_UNKNOWN_IDENTIFIER).
    2:{ unfold process_connack_poperties.
        rewrite (bind_done _ _ _ (S k1 5%nat) (S k1 5%nat)) by reflexivity.
        change (bytes_left (S k1 5%nat)) with 2%nat.
        cbn [process_connack_poperties_loop Z.ltb Z.compare].
        rewrite (bind_done _ _ _ (S k1 6%nat) prop_id) by reflexivity.
        rewrite (bind_done _ _ _ (S k1 6%nat) None)
          by (now apply connack_property_unknown).
        reflexivity. }
    cbn [SUCCESSFUL when bind ret].
    eexists. split; [reflexivity|]. repeat split; reflexivity.
Qed.

Lemma connack_server_limits_witness :
  exists st1 st2,
    mqtt_process_packet false
      [0x20; 0x0D; 0x00; 0x00; 0x0A; 0x24; 0x01; 0x25; 0x00; 0x21; 0x00; 0x0A;
       0x13; 0x00; 0x1E]
      (exec (mqtt_connect false (Some [77; 81]) 60 0 true) (mqtt_create_client net_ok))
    = Done OK st1
    /\ connack_max_qos (connack st1) = 1
    /\ connack_retain_avail (connack st1) = false
    /\ connack_recv_max (connack st1) = 10
    /\ connack_server_keep_alive (connack st1) = 30
    /\ mqtt_process_packet false [0x20; 0x05; 0x00; 0x00; 0x02; 0x7F; 0x00]
         (exec (mqtt_connect false (Some [77; 81]) 60 0 true) (mqtt_create_client net_ok))
       = Done ERROR_UNKNOWN_IDENTIFIER st2
    /\ connected st2 = false.
Proof.
  destruct (connack_server_limits false
              (exec (mqtt_connect false (Some [77; 81]) 60 0 true)
                    (mqtt_create_client net_ok)) 0 0 1 0 10 30) as [H1 H2];
    [vm_compute; reflexivity|reflexivity|].
  destruct H1 as (st1 & H1 & _ & Hq & Hr & Hm & Hk & _); [lia|lia|].
  destruct (H2 0x7F 0) as (st2 & H2' & Hc & _).
  { unfold connack_property_ids. cbn [In]. intros Hin.
    repeat (destruct Hin as [Hin|Hin]; [discriminate Hin|]). exact Hin. }
  exists st1, st2. split; [exact H1|]. split; [exact Hq|]. split; [exact Hr|].
  split; [exact Hm|]. split; [exact Hk|]. split; [exact H2'|].
  rewrite Hc. vm_compute. reflexivity.
Defined.

(** ** Acknowledgement properties *)

Lemma c_str_text (s : list Z) : ~ In 0 s -> c_str s = s.
Proof.
  induction s as [|b s IH]; intros Hnul; [reflexivity|].
  cbn [c_str]. cbn [In] in Hnul.
  destruct (Z.eqb_spec b 0) as [E|_]; [exfalso; apply Hnul; left; now rewrite E|].
  rewrite IH by tauto. reflexivity.
Qed.

Lemma bind_bind {A B C : Type} (m : M A) (f : A -> M B) (g : B -> M C)
    (st : mqtt_client) :
  bind (bind m f) g st = bind m (fun x => bind (f x) g) st.
Proof. unfold bind. destruct (m st); reflexivity. Qed.

Lemma property_loop_done (property : Z -> Z -> M (option Z)) (rounds : nat)
    (st : mqtt_client) :
  property_loop property rounds 0 st = Done OK st.
Proof. destruct rounds; reflexivity. Qed.

Lemma process_puback_properties_run (st : mqtt_client) (a : mqtt_ack_info)
    (pkt pre reason key value : list Z) :
  pkt = pre ++ puback_props reason key value ->
  text reason -> text key -> text value ->
  Z.of_nat (length (puback_props reason key value)) <= 123 ->
  process_ack_properties PUBACK puback set_puback
    (Z.of_nat (length (puback_props reason key value)))
    (set_puback a (set_pin (length pre) (receive pkt st)))
  = Done OK
      (set_events (events st ++ [ev_user_property PUBACK (Some key) (Some value)])
         (set_puback (set_ack_reason_string (Some reason) a)
            (set_pin (length pkt) (receive pkt st)))).
Proof.
  intros Hpkt [Hr0 Hr] [Hk0 Hk] [Hv0 Hv] Hprops.
  set (props := puback_props reason key value) in *.
  assert (Hplen : length props
                  = (8 + length reason + length key + length value)%nat).
  { unfold props, puback_props. rewrite !length_app. cbn [length word_bytes]. lia. }
  assert (Hlr : 0 < Z.of_nat (length reason) <= 65535)
    by (destruct reason; [contradiction|cbn [length] in *; lia]).
  assert (Hlk : 0 < Z.of_nat (length key) <= 65535)
    by (destruct key; [contradiction|cbn [length] in *; lia]).
  assert (Hlv : 0 < Z.of_nat (length value) <= 65535)
    by (destruct value; [contradiction|cbn [length] in *; lia]).
  assert (Hsr : strlen reason = Z.of_nat (length reason))
    by (unfold strlen; now rewrite c_str_text).
  assert (Hsk : strlen key = Z.of_nat (length key))
    by (unfold strlen; now rewrite c_str_text).
  assert (Hsv : strlen value = Z.of_nat (length value))
    by (unfold strlen; now rewrite c_str_text).
  set (S := fun (b : mqtt_ack_info) (n : nat) => set_puback b (set_pin n (receive pkt st))).
  set (a1 := set_ack_reason_string (Some reason) a).
  set (p1 := pre ++ [MQTT_REASON_STRING_ID]).
  set (p2 := p1 ++ word_bytes (Z.of_nat (length reason)) ++ reason).
  set (p3 := p2 ++ [MQTT_USER_PROPERTY_ID]).
  set (p4 := p3 ++ word_bytes (Z.of_nat (length key)) ++ key).
  assert (Hbuf0 : pkt = pre ++ MQTT_REASON_STRING_ID
                          :: (word_bytes (Z.of_nat (length reason)) ++ reason
                              ++ [MQTT_USER_PROPERTY_ID]
                              ++ word_bytes (Z.of_nat (length key)) ++ key
                              ++ word_bytes (Z.of_nat (length value)) ++ value)).
  { rewrite Hpkt. reflexivity. }
  assert (Hbuf1 : pkt = p1 ++ word_bytes (Z.of_nat (length reason)) ++ reason
                          ++ ([MQTT_USER_PROPERTY_ID]
                              ++ word_bytes (Z.of_nat (length key)) ++ key
                              ++ word_bytes (Z.of_nat (length value)) ++ value)).
  { rewrite Hbuf0. unfold p1. rewrite <- !app_assoc. reflexivity. }
  assert (Hbuf2 : pkt = p2 ++ MQTT_USER_PROPERTY_ID
                          :: (word_bytes (Z.of_nat (length key)) ++ key
                              ++ word_bytes (Z.of_nat (length value)) ++ value)).
  { rewrite Hbuf1. unfold p2. rewrite <- !app_assoc. reflexivity. }
  assert (Hbuf3 : pkt = p3 ++ word_bytes (Z.of_nat (length key)) ++ key
                          ++ (word_bytes (Z.of_nat (length value)) ++ value)).
  { rewrite Hbuf2. unfold p3. rewrite <- !app_assoc. reflexivity. }
  assert (Hbuf4 : pkt = p4 ++ word_bytes (Z.of_nat (length value)) ++ value ++ []).
  { rewrite Hbuf3. unfold p4. rewrite app_nil_r, <- !app_assoc. reflexivity. }
  assert (Hl1 : length p1 = (length pre + 1)%nat)
    by (unfold p1; rewrite length_app; reflexivity).
  assert (Hl2 : length p2 = (length pre + 3 + length reason)%nat)
    by (unfold p2; rewrite !length_app, Hl1; cbn [length word_bytes]; lia).
  assert (Hl3 : length p3 = (length pre + 4 + length reason)%nat)
    by (unfold p3; rewrite length_app, Hl2; cbn [length]; lia).
  assert (Hl4 : length p4 = (length pre + 6 + length reason + length key)%nat)
    by (unfold p4; rewrite !length_app, Hl3; cbn [length word_bytes]; lia).
  assert (Hlp : length pkt = (length pre + length props)%nat)
    by (rewrite Hpkt, length_app; reflexivity).
  unfold process_ack_properties, process_properties.
  rewrite (bind_done _ _ _ (S a (length pre)) (S a (length pre))) by reflexivity.
  assert (Hleft : bytes_left (S a (length pre))
                  = Datatypes.S (Datatypes.S (6 + length reason + length key
                                              + length value))).
  { unfold bytes_left. change (pbuf_payload (inp (S a (length pre)))) with pkt.
    change (pin (S a (length pre))) with (length pre). rewrite Hlp, Hplen. lia. }
  rewrite Hleft. cbn [property_loop].
  destruct (Z.ltb_spec 0 (Z.of_nat (length props))) as [_|Hz]; [|lia].
  rewrite (bind_done _ _ _ (S a (Datatypes.S (length pre))) MQTT_REASON_STRING_ID)
    by (apply (unpack_byte_at (S a (length pre)) pre _ _ Hbuf0); reflexivity).
  cbv zeta. unfold ack_property at 1. cbn [Z.eqb Pos.eqb MQTT_REASON_STRING_ID].
  unfold string_case. rewrite bind_bind.
  rewrite (bind_done _ _ _ (S a (length p1 + 2 + length reason)%nat) (Some reason)).
  2:{ rewrite (unpack_string_at (S a (Datatypes.S (length pre))) p1 reason _ Hlr Hbuf1);
        [reflexivity|]. cbn [pin S set_puback set_pin]. rewrite Hl1. lia. }
  rewrite bind_bind.
  rewrite (bind_done _ _ _ (S a1 (length p1 + 2 + length reason)%nat) tt) by reflexivity.
  rewrite (bind_done _ _ _ (S a1 (length p1 + 2 + length reason)%nat)
             (Some (5 + Z.of_nat (length key) + Z.of_nat (length value)))).
  2:{ cbn [ret]. rewrite Hsr. do 2 f_equal.
      rewrite (u32_small (Z.of_nat (length props) - 1)) by lia.
      rewrite u32_small by lia. rewrite Hplen. lia. }
  destruct (Z.ltb_spec 0 (5 + Z.of_nat (length key) + Z.of_nat (length value)))
    as [_|Hz]; [|lia].
  rewrite (bind_done _ _ _ (S a1 (Datatypes.S (length p2))) MQTT_USER_PROPERTY_ID).
  2:{ rewrite (unpack_byte_at (S a1 (length p1 + 2 + length reason)%nat) p2 _ _ Hbuf2);
        [reflexivity|]. cbn [pin S set_puback set_pin]. rewrite Hl1, Hl2. lia. }
  cbv zeta. unfold ack_property at 1.
  cbn [Z.eqb Pos.eqb MQTT_REASON_STRING_ID MQTT_USER_PROPERTY_ID].
  unfold user_property_case. rewrite bind_bind.
  rewrite (bind_done _ _ _ (S a1 (length p3 + 2 + length key)%nat) (Some key)).
  2:{ rewrite (unpack_string_at (S a1 (Datatypes.S (length p2))) p3 key _ Hlk Hbuf3);
        [reflexivity|]. cbn [pin S set_puback set_pin]. rewrite Hl3, Hl2. lia. }
  rewrite bind_bind.
  rewrite (bind_done _ _ _ (S a1 (length p4 + 2 + length value)%nat) (Some value)).
  2:{ rewrite (unpack_string_at (S a1 (length p3 + 2 + length key)%nat) p4 value [] Hlv
                 Hbuf4); [reflexivity|]. cbn [pin S set_puback set_pin].
      rewrite Hl4, Hl3. lia. }
  rewrite bind_bind.
  rewrite (bind_done _ _ _
             (set_events (events st ++ [ev_user_property PUBACK (Some key) (Some value)])
                (S a1 (length p4 + 2 + length value)%nat)) tt) by reflexivity.
  rewrite (bind_done _ _ _
             (set_events (events st ++ [ev_user_property PUBACK (Some key) (Some value)])
                (S a1 (length p4 + 2 + length value)%nat)) (Some 0)).
  2:{ cbn [ret]. rewrite Hsk, Hsv. do 2 f_equal.
      rewrite (u32_small (5 + Z.of_nat (length key) + Z.of_nat (length value) - 1)) by lia.
      rewrite u32_small by lia. lia. }
  rewrite property_loop_done.
  replace (length p4 + 2 + length value)%nat with (length pkt)
    by (rewrite Hlp, Hl4, Hplen; lia).
  reflexivity.
Qed.

Lemma process_ack_head_puback_props (st : mqtt_client) (id rc : Z)
    (reason key value : list Z) :
  0 <= id <= 65535 ->
  text reason -> text key -> text value ->
  Z.of_nat (length (puback_props reason key value)) <= 123 ->
  expected_answer (pending st) id = PUBACK ->
  process_ack_head PUBACK puback set_puback
    (set_pin 2%nat (receive (puback_packet id rc reason key value) st))
  = Done (inl id)
      (set_events (events st ++ [ev_user_property PUBACK (Some key) (Some value)])
         (set_puback (Build_ack_info id rc (Some reason) [])
            (set_pin (length (puback_packet id rc reason key value))
               (receive (puback_packet id rc reason key value) st)))).
Proof.
  intros Hid [Hr0 Hr] [Hk0 Hk] [Hv0 Hv] Hprops Hexp.
  set (props := puback_props reason key value) in *.
  set (pkt := puback_packet id rc reason key value).
  set (pre6 := [0x40; 4 + Z.of_nat (length props); u8 (Z.shiftr id 8); u8 id; rc;
                Z.of_nat (length props)]).
  assert (Hpkt : pkt = pre6 ++ props) by reflexivity.
  assert (Hplen : length props
                  = (8 + length reason + length key + length value)%nat).
  { unfold props, puback_props. rewrite !length_app. cbn [length word_bytes]. lia. }
  assert (Hlr : 0 < Z.of_nat (length reason) <= 65535)
    by (destruct reason; [contradiction|cbn [length] in *; lia]).
  assert (Hlk : 0 < Z.of_nat (length key) <= 65535)
    by (destruct key; [contradiction|cbn [length] in *; lia]).
  assert (Hlv : 0 < Z.of_nat (length value) <= 65535)
    by (destruct value; [contradiction|cbn [length] in *; lia]).
  set (S := fun (a : mqtt_ack_info) (n : nat) => set_puback a (set_pin n (receive pkt st))).
  unfold process_ack_head.
  rewrite (bind_done _ _ _ (S ack_zero 2%nat) tt) by reflexivity.
  rewrite (bind_done _ _ _ (S ack_zero 4%nat) id).
  2:{ rewrite (unpack_word_at (S ack_zero 2%nat) [0x40; 4 + Z.of_nat (length props)]
                 ([rc; Z.of_nat (length props)] ++ props) id Hid); reflexivity. }
  rewrite (bind_done _ _ _ (S (Build_ack_info id 0 None []) 4%nat) tt) by reflexivity.
  rewrite (bind_done _ _ _ (S (Build_ack_info id 0 None []) 4%nat)
             (S (Build_ack_info id 0 None []) 4%nat)) by reflexivity.
  change (get_expected_packet_answer (S (Build_ack_info id 0 None []) 4%nat) id)
    with (expected_answer (pending st) id).
  rewrite Hexp. cbn [ptype_eqb ptype_code Z.eqb Pos.eqb negb].
  assert (Htotal : Z.of_nat (length pkt) = 6 + Z.of_nat (length props)).
  { rewrite Hpkt, length_app. cbn [length pre6]. lia. }
  rewrite (bind_done _ _ _
             (set_events (events st ++ [ev_user_property PUBACK (Some key) (Some value)])
                (S (Build_ack_info id rc (Some reason) []) (length pkt))) OK).
  2:{ change (bytes_consumed (S (Build_ack_info id 0 None []) 4%nat)) with 4.
      change (pbuf_len (inp (S (Build_ack_info id 0 None []) 4%nat)))
        with (Z.of_nat (length pkt)).
      destruct (Z.ltb_spec 4 (Z.of_nat (length pkt))) as [_|Hz]; [|lia].
      rewrite (bind_done _ _ _ (S (Build_ack_info id 0 None []) 5%nat) rc) by reflexivity.
      rewrite (bind_done _ _ _ (S (Build_ack_info id rc None []) 5%nat) tt) by reflexivity.
      rewrite (bind_done _ _ _ (S (Build_ack_info id rc None []) 5%nat)
                 (S (Build_ack_info id rc None []) 5%nat)) by reflexivity.
      change (bytes_consumed (S (Build_ack_info id rc None []) 5%nat)) with 5.
      change (pbuf_len (inp (S (Build_ack_info id rc None []) 5%nat)))
        with (Z.of_nat (length pkt)).
      destruct (Z.ltb_spec 5 (Z.of_nat (length pkt))) as [_|Hz]; [|lia].
      rewrite (bind_done _ _ _ (S (Build_ack_info id rc None []) 6%nat)
                 (Z.of_nat (length props))).
      2:{ rewrite (unpack_variable_size_one_byte _ (Z.of_nat (length props)))
            by reflexivity.
          rewrite land_127_small by lia. rewrite u32_small by lia. reflexivity. }
      destruct (Z.ltb_spec 0 (Z.of_nat (length props))) as [_|Hz]; [|lia].
      apply (process_puback_properties_run st (Build_ack_info id rc None []) pkt pre6
               reason key value Hpkt); try (split; assumption). exact Hprops. }
  cbn [FAILED SUCCESSFUL OK negb ret]. reflexivity.
Qed.

Lemma process_puback_tail_keeps (st0 st1 : mqtt_client) (id : Z) (result : status) :
  (free_packet_slot id ;;
   s <- get ;;
   when (negb (await_for_packet s PUBACK)) (unexpect PUBACK) ;;
   mqtt_publish_acknowledged id (ack_reason_code (puback s)) ;;
   ret OK) st0 = Done result st1 ->
  puback st1 = puback st0.
Proof.
  cbn [bind get]. unfold free_packet_slot at 1.
  destruct (free_slot (pending st0) id) as [slots|];
    cbn [bind get]; unfold await_for_packet; cbn [pending set_pending];
    match goal with
    | |- context [existsb ?f ?l] => destruct (existsb f l)
    end;
    cbn [negb when ret bind]; unfold unexpect, mqtt_publish_acknowledged;
    cbn [modify bind notify ret]; intros H; injection H as _ <-; reflexivity.
Qed.

(** A PUBACK with properties.  While PUBACK is expected, a PUBACK for
    an awaited identifier that carries a reason code, a reason string
    and one user property (strings not empty and without NUL) returns
    OK, stores identifier, reason code and reason string in [puback],
    notifies [mqtt_user_property] with key and value and then
    [mqtt_publish_acknowledged], frees the slot and sends nothing. *)
Theorem puback_with_properties (cs : bool) (st : mqtt_client) (id rc : Z)
    (reason key value : list Z) :
  0 <= id <= 65535 ->
  text reason -> text key -> text value ->
  Z.of_nat (length (puback_props reason key value)) <= 123 ->
  TST (expected_ptypes st) (BIT (ptype_code PUBACK)) = true ->
  get_expected_packet_answer st id = PUBACK ->
  exists st',
    mqtt_process_packet cs (puback_packet id rc reason key value) st = Done OK st'
    /\ puback st' = Build_ack_info id rc (Some reason) []
    /\ free_slot (pending st) id = Some (pending st')
    /\ expected_ptypes st' = mask_after_release PUBACK (pending st') (expected_ptypes st)
    /\ events st'
       = events st ++ [ev_user_property PUBACK (Some key) (Some value);
                       ev_publish_acknowledged id rc]
    /\ wire st' = wire st.
Proof.
  intros Hid Hr Hk Hv Hprops Hmask Hexp.
  assert (Hdispatch :
            mqtt_process_packet cs (puback_packet id rc reason key value) st
            = process_puback
                (set_pin 2%nat (receive (puback_packet id rc reason key value) st))).
  { unfold puback_packet at 1. cbn [app].
    rewrite mqtt_process_packet_short by lia. cbv zeta.
    replace (4 + Z.of_nat (length (puback_props reason key value))
             =? Z.of_nat (length (u8 (Z.shiftr id 8) :: u8 id :: rc
                                  :: Z.of_nat (length (puback_props reason key value))
                                  :: puback_props reason key value)))
      with true by (symmetry; apply Z.eqb_eq; cbn [length]; lia).
    change (Z.shiftr 0x40 4) with (ptype_code PUBACK). rewrite Hmask. reflexivity. }
  rewrite Hdispatch. unfold process_puback.
  rewrite (bind_done _ _ _ _ _
             (process_ack_head_puback_props st id rc reason key value
                Hid Hr Hk Hv Hprops Hexp)).
  destruct (process_puback_tail
              (set_events (events st ++ [ev_user_property PUBACK (Some key) (Some value)])
                 (set_puback (Build_ack_info id rc (Some reason) [])
                    (set_pin (length (puback_packet id rc reason key value))
                       (receive (puback_packet id rc reason key value) st))))
              (set_events (events st ++ [ev_user_property PUBACK (Some key) (Some value)])
                 (set_puback (Build_ack_info id rc (Some reason) [])
                    (set_pin (length (puback_packet id rc reason key value))
                       (receive (puback_packet id rc reason key value) st))))
              id rc) as (st1 & H1 & Hfree & Hm & Hw & He);
    try reflexivity; [exact Hexp|].
  exists st1. split; [exact H1|].
  split; [apply (process_puback_tail_keeps _ _ _ _ H1)|].
  split; [exact Hfree|]. split; [exact Hm|]. split; [|exact Hw].
  rewrite He. cbn [events set_events]. rewrite <- app_assoc. reflexivity.
Qed.

Lemma puback_with_properties_witness :
  exists st',
    mqtt_process_packet false
      [0x40; 0x10; 0x00; 0x01; 0x10; 0x0C; 0x1F; 0x00; 0x02; 0x6F; 0x6B;
       0x26; 0x00; 0x01; 0x6B; 0x00; 0x01; 0x76]
      (qos1_session false) = Done OK st'
    /\ puback st' = Build_ack_info 1 0x10 (Some [0x6F; 0x6B]) []
    /\ events st'
       = events (qos1_session false)
         ++ [ev_user_property PUBACK str_k str_v; ev_publish_acknowledged 1 0x10].
Proof.
  destruct (puback_with_properties false (qos1_session false) 1 0x10
              [0x6F; 0x6B] [0x6B] [0x76]) as (st' & H & Hp & _ & _ & He & _).
  - lia.
  - split; [discriminate|]. cbn [In]. intros Hin.
    repeat (destruct Hin as [Hin|Hin]; [discriminate Hin|]). exact Hin.
  - split; [discriminate|]. cbn [In]. intros Hin.
    repeat (destruct Hin as [Hin|Hin]; [discriminate Hin|]). exact Hin.
  - split; [discriminate|]. cbn [In]. intros Hin.
    repeat (destruct Hin as [Hin|Hin]; [discriminate Hin|]). exact Hin.
  - cbn. lia.
  - vm_compute. reflexivity.
  - vm_compute. reflexivity.
  - exists st'. split; [exact H|]. split; [exact Hp|exact He].
Defined.

(** ** The Payload Format Indicator *)

Lemma process_publish_format (cs : bool) (st : mqtt_client)
    (topic payload : list Z) (indicator : Z) :
  0 < Z.of_nat (length topic) ->
  Z.of_nat (length (publish_format_body topic indicator payload)) <= 127 ->
  is_valid_utf8 cs topic (strlen topic) = true ->
  process_publish cs 0
    (set_pin 2%nat (receive (publish_format_packet topic indicator payload) st))
  = (if payload_refused cs indicator payload
     then publish_cleanup ERROR_INVALID_ENCODING
     else modify (set_message_available true) ;;
          mqtt_received_publish ;;
          publish_cleanup OK)
      (set_received_publish
         (set_rp_payload_format_indicator indicator
            (publish_received 0 false false topic 0 payload))
         (set_pin (7 + length topic)%nat
            (receive (publish_format_packet topic indicator payload) st))).
Proof.
  intros Htopic Hbody Hvalid.
  set (pkt := publish_format_packet topic indicator payload).
  set (S := fun (R : received_publish_info) (n : nat) =>
              set_received_publish R (set_pin n (receive pkt st))).
  set (R0 := Build_received_publish (Some topic) None None blob_zero blob_zero
               0 0 0 0 0 0 false false).
  set (R1 := set_rp_payload_format_indicator indicator R0).
  assert (Hpkt : pkt = [0x30; Z.of_nat (length (publish_format_body topic indicator payload))]
                       ++ word_bytes (Z.of_nat (length topic)) ++ topic
                       ++ [2; MQTT_PUB_PAYLOAD_FORMAT_INDICATOR_ID; indicator] ++ payload)
    by reflexivity.
  assert (Hlt : Z.of_nat (length topic) <= 65535).
  { unfold publish_format_body in Hbody. rewrite !length_app in Hbody. lia. }
  set (pre := [0x30; Z.of_nat (length (publish_format_body topic indicator payload))]
              ++ word_bytes (Z.of_nat (length topic)) ++ topic).
  assert (Hpre : length pre = (4 + length topic)%nat).
  { unfold pre. rewrite !length_app. cbn [length word_bytes]. lia. }
  assert (Hsplit : pkt = pre ++ 2 :: MQTT_PUB_PAYLOAD_FORMAT_INDICATOR_ID
                                 :: indicator :: payload).
  { rewrite Hpkt. unfold pre. rewrite <- !app_assoc. reflexivity. }
  assert (Hlen : length pkt = (7 + length topic + length payload)%nat).
  { rewrite Hsplit, length_app, Hpre. cbn [length]. lia. }
  unfold process_publish.
  change (Z.land (Z.shiftr 0 1) 3) with 0. change (Z.land 0 8) with 0.
  change (Z.land 0 1) with 0. change (nonzero 0) with false.
  rewrite (bind_done _ _ _ (S received_publish_zero 2%nat) tt) by reflexivity.
  rewrite (bind_done _ _ _ (S received_publish_zero (4 + length topic)%nat) (Some topic)).
  2:{ rewrite (unpack_string_at (S received_publish_zero 2%nat)
                 [0x30; Z.of_nat (length (publish_format_body topic indicator payload))]
                 topic
                 ([2; MQTT_PUB_PAYLOAD_FORMAT_INDICATOR_ID; indicator] ++ payload));
        [reflexivity|lia|exact Hpkt|reflexivity]. }
  rewrite Hvalid. cbn [negb].
  rewrite (bind_done _ _ _ (S R0 (4 + length topic)%nat) tt) by reflexivity.
  rewrite (bind_done _ _ _ (S R0 (4 + length topic)%nat) tt) by reflexivity.
  rewrite (bind_done _ _ _ (S R0 (4 + length topic)%nat) tt) by reflexivity.
  rewrite (bind_done _ _ _ (S R0 (4 + length topic)%nat) tt) by reflexivity.
  rewrite (bind_done _ _ _ (S R0 (4 + length topic)%nat) tt) by reflexivity.
  rewrite (bind_done _ _ _ (S R0 (5 + length topic)%nat) 2).
  2:{ rewrite (unpack_variable_size_one_byte _ 2).
      - reflexivity.
      - subst S. cbv beta.
        cbn [inp pin set_received_publish set_pin receive set_inp pbuf_payload].
        rewrite Hsplit, <- Hpre, nth_error_app2 by lia. rewrite Nat.sub_diag.
        reflexivity. }
  change (0 <? 2) with true. cbv iota.
  rewrite (bind_done _ _ _ (S R1 (7 + length topic)%nat) OK).
  2:{ unfold process_publish_properties, process_properties.
      rewrite (bind_done _ _ _ (S R0 (5 + length topic)%nat) (S R0 (5 + length topic)%nat))
        by reflexivity.
      assert (Hleft : bytes_left (S R0 (5 + length topic)%nat)
                      = Datatypes.S (Datatypes.S (length payload))).
      { unfold bytes_left. subst S. cbv beta.
        cbn [inp pin set_received_publish set_pin receive set_inp pbuf_payload].
        rewrite Hlen. lia. }
      rewrite Hleft. cbn [property_loop]. change (0 <? 2) with true. cbv iota.
      rewrite (bind_done _ _ _ (S R0 (6 + length topic)%nat)
                 MQTT_PUB_PAYLOAD_FORMAT_INDICATOR_ID).
      2:{ rewrite (unpack_byte_at _ (pre ++ [2])
                     (indicator :: payload) MQTT_PUB_PAYLOAD_FORMAT_INDICATOR_ID).
          - rewrite length_app, Hpre. cbn [length].
            replace (Datatypes.S (4 + length topic + 1)) with (6 + length topic)%nat by lia.
            reflexivity.
          - subst S. cbv beta.
            cbn [inp pin set_received_publish set_pin receive set_inp pbuf_payload].
            rewrite Hsplit, <- app_assoc. reflexivity.
          - subst S. cbv beta. cbn [pin set_received_publish set_pin].
            rewrite length_app, Hpre. cbn [length]. lia. }
      cbv zeta. change (u32 (2 - 1)) with 1.
      unfold publish_property. rewrite Z.eqb_refl.
      rewrite bind_bind.
      rewrite (bind_done _ _ _ (S R0 (7 + length topic)%nat) indicator).
      2:{ rewrite (unpack_byte_at _ (pre ++ [2; MQTT_PUB_PAYLOAD_FORMAT_INDICATOR_ID])
                     payload indicator).
          - rewrite length_app, Hpre. cbn [length].
            replace (Datatypes.S (4 + length topic + 2)) with (7 + length topic)%nat by lia.
            reflexivity.
          - subst S. cbv beta.
            cbn [inp pin set_received_publish set_pin receive set_inp pbuf_payload].
            rewrite Hsplit, <- app_assoc. reflexivity.
          - subst S. cbv beta. cbn [pin set_received_publish set_pin].
            rewrite length_app, Hpre. cbn [length]. lia. }
      rewrite bind_bind.
      rewrite (bind_done _ _ _ (S R1 (7 + length topic)%nat) tt) by reflexivity.
      rewrite (bind_done _ _ _ (S R1 (7 + length topic)%nat) (Some 0)) by reflexivity.
      reflexivity. }
  cbn [FAILED SUCCESSFUL OK negb].
  set (n := (7 + length topic)%nat) in *.
  rewrite (bind_done _ _ _ (S R1 n) (S R1 n)) by reflexivity.
  set (R2 := set_rp_payload_format_indicator indicator
               (publish_received 0 false false topic 0 payload)).
  assert (Hskip : skipn n pkt = payload).
  { rewrite Hsplit.
    change (pre ++ 2 :: MQTT_PUB_PAYLOAD_FORMAT_INDICATOR_ID :: indicator :: payload)
      with (pre ++ [2; MQTT_PUB_PAYLOAD_FORMAT_INDICATOR_ID; indicator] ++ payload).
    rewrite app_assoc.
    replace n with (length (pre ++ [2; MQTT_PUB_PAYLOAD_FORMAT_INDICATOR_ID; indicator])).
    - rewrite skipn_app, Nat.sub_diag, skipn_all. reflexivity.
    - rewrite length_app, Hpre. cbn [length]. lia. }
  assert (Hplen : Z.of_nat (length payload) <= 127).
  { unfold publish_format_body in Hbody. rewrite !length_app in Hbody. lia. }
  rewrite (bind_done _ _ _ (S R2 n) tt).
  2:{ change (bytes_consumed (S R1 n)) with (Z.of_nat n).
      change (pbuf_len (inp (S R1 n))) with (Z.of_nat (length pkt)).
      change (pin (S R1 n)) with n.
      change (pbuf_payload (inp (S R1 n))) with pkt.
      rewrite Hskip, Hlen. subst R2. destruct payload as [|b p'].
      - cbn [length]. rewrite Nat.add_0_r, Z.ltb_irrefl. reflexivity.
      - destruct (Z.ltb_spec (Z.of_nat n) (Z.of_nat (n + length (b :: p'))))
          as [_|Hge]; [|cbn [length] in Hge; lia].
        replace (u16 (Z.of_nat (n + length (b :: p')) - Z.of_nat n))
          with (Z.of_nat (length (b :: p'))); [reflexivity|].
        unfold u16. rewrite Z.mod_small; lia. }
  rewrite (bind_done _ _ _ (S R2 n) (S R2 n)) by reflexivity.
  change (rp_payload_format_indicator (received_publish (S R2 n))) with indicator.
  change (rp_packet_id (received_publish (S R2 n))) with 0.
  change (rp_payload (received_publish (S R2 n)))
    with (match payload with
          | [] => blob_zero
          | _ => Build_blob (Some payload) (Z.of_nat (length payload)) 0
          end).
  replace ((indicator =? 1)
           && is_set (blob_data match payload with
                                | [] => blob_zero
                                | _ => Build_blob (Some payload) (Z.of_nat (length payload)) 0
                                end)
           && (0 <? blob_len match payload with
                             | [] => blob_zero
                             | _ => Build_blob (Some payload) (Z.of_nat (length payload)) 0
                             end)
           && negb (is_valid_utf8 cs
                      match blob_data match payload with
                                      | [] => blob_zero
                                      | _ => Build_blob (Some payload)
                                               (Z.of_nat (length payload)) 0
                                      end with
                      | Some d => d
                      | None => []
                      end
                      (blob_len match payload with
                                | [] => blob_zero
                                | _ => Build_blob (Some payload) (Z.of_nat (length payload)) 0
                                end)))
    with (payload_refused cs indicator payload).
  2:{ unfold payload_refused. destruct payload as [|b p'].
      - cbn [length Z.of_nat blob_zero blob_len blob_data is_set Z.ltb Z.compare andb].
        rewrite !andb_false_r. reflexivity.
      - cbn [blob_len blob_data is_set].
        destruct (Z.ltb_spec 0 (Z.of_nat (length (b :: p')))) as [_|Hge];
          [|cbn [length] in Hge; lia].
        rewrite !andb_true_r. reflexivity. }
  destruct (payload_refused cs indicator payload); [reflexivity|].
  cbn [Z.eqb]. reflexivity.
Qed.

(** An inbound PUBLISH with the Payload Format Indicator.  A PUBLISH at
    QoS 0 whose only property is the indicator is accepted as a message
    with that indicator unless the indicator is 1, the payload is not
    empty and [is_valid_utf8] refuses the payload: then the result is
    ERROR_INVALID_ENCODING, the topic is dropped from
    [received_publish], no message becomes available and nothing is
    notified.  An indicator other than 1 lets any payload pass.  In
    both cases nothing is sent and pending table and mask are as
    before. *)
Theorem inbound_publish_payload_format (cs : bool) (st : mqtt_client)
    (topic payload : list Z) (indicator : Z) :
  0 < Z.of_nat (length topic) ->
  Z.of_nat (length (publish_format_body topic indicator payload)) <= 127 ->
  is_valid_utf8 cs topic (strlen topic) = true ->
  TST (expected_ptypes st) (BIT (ptype_code PUBLISH)) = true ->
  exists st',
    mqtt_process_packet cs (publish_format_packet topic indicator payload) st
    = Done (if payload_refused cs indicator payload then ERROR_INVALID_ENCODING else OK) st'
    /\ wire st' = wire st
    /\ pending st' = pending st
    /\ expected_ptypes st' = expected_ptypes st
    /\ if payload_refused cs indicator payload
       then received_publish st'
            = set_rp_topic None
                (set_rp_payload_format_indicator indicator
                   (publish_received 0 false false topic 0 payload))
            /\ message_available st' = message_available st
            /\ events st' = events st
       else received_publish st'
            = set_rp_payload_format_indicator indicator
                (publish_received 0 false false topic 0 payload)
            /\ message_available st' = true
            /\ events st' = events st ++ [ev_received_publish].
Proof.
  intros Htopic Hbody Hvalid Hmask.
  unfold publish_format_packet at 1.
  rewrite mqtt_process_packet_short by lia. cbv zeta.
  rewrite Z.eqb_refl. change (Z.shiftr 0x30 4) with (ptype_code PUBLISH). rewrite Hmask.
  change (ptype_of_code (ptype_code PUBLISH)) with PUBLISH. cbn [process_packet].
  change (Z.land 0x30 0x0f) with 0.
  fold (publish_format_packet topic indicator payload).
  rewrite process_publish_format by assumption.
  destruct (payload_refused cs indicator payload).
  - eexists. split; [reflexivity|]. repeat split; reflexivity.
  - eexists. split; [reflexivity|]. repeat split; reflexivity.
Qed.

Lemma inbound_publish_payload_format_witness :
  exists st1 st2,
    mqtt_process_packet false
      [0x30; 0x0A; 0x00; 0x03; 0x61; 0x2F; 0x62; 0x02; 0x01; 0x01; 0x68; 0x69]
      (connected_session false)
    = Done OK st1
    /\ events st1 = events (connected_session false) ++ [ev_received_publish]
    /\ mqtt_process_packet false
         [0x30; 0x0A; 0x00; 0x03; 0x61; 0x2F; 0x62; 0x02; 0x01; 0x01; 0xC3; 0x28]
         (connected_session false)
       = Done ERROR_INVALID_ENCODING st2
    /\ rp_topic (received_publish st2) = None
    /\ events st2 = events (connected_session false).
Proof.
  assert (Hgood : payload_refused false 1 [0x68; 0x69] = false) by (vm_compute; reflexivity).
  assert (Hbad : payload_refused false 1 [0xC3; 0x28] = true) by (vm_compute; reflexivity).
  destruct (inbound_publish_payload_format false (connected_session false)
              [0x61; 0x2F; 0x62] [0x68; 0x69] 1) as (st1 & H1 & _ & _ & _ & T1).
  - cbn. lia.
  - cbn. lia.
  - vm_compute. reflexivity.
  - vm_compute. reflexivity.
  - destruct (inbound_publish_payload_format false (connected_session false)
                [0x61; 0x2F; 0x62] [0xC3; 0x28] 1) as (st2 & H2 & _ & _ & _ & T2).
    + cbn. lia.
    + cbn. lia.
    + vm_compute. reflexivity.
    + vm_compute. reflexivity.
    + rewrite Hgood in H1, T1. rewrite Hbad in H2, T2.
      destruct T1 as (_ & _ & E1). destruct T2 as (R2 & _ & E2).
      exists st1, st2. split; [exact H1|]. split; [exact E1|]. split; [exact H2|].
      split; [rewrite R2; reflexivity|exact E2].
Defined.
